(** * clade: branch reconciliation, state bookkeeping and name validation

    A shallow embedding of the decision logic of the clade CLI (Go):
    package [git] (branch classification and worktree creation), package
    [config] (the persisted state document and experiment keys) and package
    [cmd] (name validation, the exp/feat handlers, repository registration);
    then the rest of these packages and what they call: the status, log and
    listing queries of [git], package [agent] (agents and editors), package
    [files] (ignored files and their copying), and of [cmd] the scratch
    handler, the dashboard sorts and the cleanup.

    Go strings are byte strings ([string]); Go [int] is a 64-bit integer,
    kept in [Z]; a Go [error] is [option error_value] with [None] for [nil].
    Calls that leave the process (subprocesses, files, prompts, the clock)
    are events of a small free monad, answered by a handler over a world. *)

From Stdlib Require Import ZArith String Ascii List Lia Bool.
From stdpp Require Import base strings gmap list pretty.

Import ListNotations.
Local Open Scope string_scope.
Local Open Scope Z_scope.
Local Open Scope list_scope.

(** ** Errors *)

(** The only distinction the program draws between error values is
    [os.IsNotExist]; every error carries its message. *)
Inductive error_value : Type :=
| ErrNotExist (msg : string)
| ErrOther (msg : string).

Definition error : Type := option error_value.

Definition Error (e : error_value) : string :=
  match e with
  | ErrNotExist m => m
  | ErrOther m => m
  end.

(** [os.IsNotExist(err)]. *)
Definition os_IsNotExist (e : error) : bool :=
  match e with
  | Some (ErrNotExist _) => true
  | _ => false
  end.

(** [fmt.Errorf(msg)] and [fmt.Errorf(prefix + "%w", err)]: the result is a
    fresh error value, which [os.IsNotExist] does not look through. *)
Definition fmt_Errorf (msg : string) : error_value := ErrOther msg.

Definition fmt_Errorf_w (prefix : string) (e : error_value) : error_value :=
  ErrOther (prefix +:+ Error e).

Definition is_nil {A} (e : option A) : bool :=
  match e with
  | None => true
  | Some _ => false
  end.

(** ** Bytes *)

Definition byte_of (c : ascii) : N := N_of_ascii c.

Definition bytes (s : string) : list N := map byte_of (list_ascii_of_string s).

Definition string_of_bytes (l : list N) : string :=
  string_of_list_ascii (map ascii_of_N l).

Definition isSlash (c : ascii) : bool := Ascii.eqb c "/".

(** ** Package strings *)

(** Width in bytes of the white-space rune ([unicode.IsSpace]) that starts
    the byte sequence, [0] when it does not start with one.  ASCII: tab, LF,
    VT, FF, CR, space.  Beyond ASCII, as UTF-8: U+0085, U+00A0, U+1680,
    U+2000..U+200A, U+2028, U+2029, U+202F, U+205F, U+3000. *)
Definition spaceWidth (l : list N) : nat :=
  match l with
  | 9%N :: _ | 10%N :: _ | 11%N :: _ | 12%N :: _ | 13%N :: _ | 32%N :: _ => 1%nat
  | 194%N :: 133%N :: _ | 194%N :: 160%N :: _ => 2%nat
  | 225%N :: 154%N :: 128%N :: _ => 3%nat
  | 226%N :: 128%N :: b :: _ =>
      if ((128 <=? b)%N && (b <=? 138)%N) || (b =? 168)%N || (b =? 169)%N
         || (b =? 175)%N
      then 3%nat else 0%nat
  | 226%N :: 129%N :: 159%N :: _ => 3%nat
  | 227%N :: 128%N :: 128%N :: _ => 3%nat
  | _ => 0%nat
  end.

(** The same test on the reversed sequence: does it end with a white-space
    rune, and how wide is it. *)
Definition spaceWidthRev (r : list N) : nat :=
  match r with
  | 9%N :: _ | 10%N :: _ | 11%N :: _ | 12%N :: _ | 13%N :: _ | 32%N :: _ => 1%nat
  | 133%N :: 194%N :: _ | 160%N :: 194%N :: _ => 2%nat
  | 128%N :: 154%N :: 225%N :: _ => 3%nat
  | b :: 128%N :: 226%N :: _ =>
      if ((128 <=? b)%N && (b <=? 138)%N) || (b =? 168)%N || (b =? 169)%N
         || (b =? 175)%N
      then 3%nat else 0%nat
  | 159%N :: 129%N :: 226%N :: _ => 3%nat
  | 128%N :: 128%N :: 227%N :: _ => 3%nat
  | _ => 0%nat
  end.

Fixpoint dropSpaces (width : list N -> nat) (fuel : nat) (l : list N) : list N :=
  match fuel with
  | O => l
  | S fuel' =>
      match width l with
      | O => l
      | S n => dropSpaces width fuel' (skipn (S n) l)
      end
  end.

(** [strings.TrimSpace]. *)
Definition TrimSpace (s : string) : string :=
  let l := bytes s in
  let l1 := dropSpaces spaceWidth (List.length l) l in
  let r := rev l1 in
  string_of_bytes (rev (dropSpaces spaceWidthRev (List.length r) r)).

(** [strings.Fields]: the maximal runs of non-white-space bytes. [cur] is the
    field being read, reversed. *)
Fixpoint fieldsFrom (fuel : nat) (l : list N) (cur : list N) : list string :=
  let flush := match cur with
               | [] => []
               | _ => [string_of_bytes (rev cur)]
               end in
  match fuel with
  | O => flush
  | S fuel' =>
      match l with
      | [] => flush
      | b :: l' =>
          match spaceWidth l with
          | O => fieldsFrom fuel' l' (b :: cur)
          | S n => flush ++ fieldsFrom fuel' (skipn (S n) l) []
          end
      end
  end.

Definition Fields (s : string) : list string :=
  let l := bytes s in fieldsFrom (S (List.length l)) l [].

(** ** Package strconv *)

Definition isDigit (b : N) : bool := ((48 <=? b) && (b <=? 57))%N.

Definition maxUint64 : Z := 2 ^ 64 - 1.
Definition maxInt64 : Z := 2 ^ 63 - 1.
Definition minInt64 : Z := - 2 ^ 63.

(** [strconv.ParseUint(s, 10, 64)] after the empty-string test: [None] is a
    syntax error, [Some (n, true)] a range error with [n = maxUint64].  As in
    the library, the scan stops at the first overflow, before looking at the
    bytes that follow. *)
Fixpoint parseUintFrom (l : list N) (n : Z) : option (Z * bool) :=
  match l with
  | [] => Some (n, false)
  | b :: l' =>
      if isDigit b then
        let n1 := n * 10 + (Z.of_N b - 48) in
        if maxUint64 <? n1 then Some (maxUint64, true)
        else parseUintFrom l' n1
      else None
  end.

Definition ParseUint (l : list N) : option (Z * bool) :=
  match l with
  | [] => None
  | _ => parseUintFrom l 0
  end.

(** [strconv.Atoi]: the value and whether an error was reported.  A syntax
    error gives [0]; a range error gives the nearest 64-bit value. *)
Definition Atoi (s : string) : Z * bool :=
  match bytes s with
  | [] => (0, true)
  | b :: l' =>
      let neg := (b =? 45)%N in
      let digits := if ((b =? 43) || (b =? 45))%N then l' else b :: l' in
      match ParseUint digits with
      | None => (0, true)
      | Some (un, range) =>
          if negb neg && (2 ^ 63 <=? un) then (maxInt64, true)
          else if neg && (2 ^ 63 <? un) then (minInt64, true)
          else (if neg then - un else un, range)
      end
  end.

(** ** Package path/filepath (Unix) *)

(** The path without its trailing slashes. *)
Fixpoint stripTrailingSlashes (s : string) : string :=
  match s with
  | EmptyString => EmptyString
  | String c s' =>
      match stripTrailingSlashes s' with
      | EmptyString => if isSlash c then EmptyString else String c EmptyString
      | r => String c r
      end
  end.

(** What follows the last slash; [cur] is what was read since the last one. *)
Fixpoint lastElementFrom (s : string) (cur : string) : string :=
  match s with
  | EmptyString => cur
  | String c s' =>
      if isSlash c then lastElementFrom s' EmptyString
      else lastElementFrom s' (cur +:+ String c EmptyString)
  end.

(** [filepath.Base]. *)
Definition Base (path : string) : string :=
  match path with
  | EmptyString => "."
  | _ =>
      match lastElementFrom (stripTrailingSlashes path) EmptyString with
      | EmptyString => "/"
      | e => e
      end
  end.

(** [strings.Split(s, sep)] for a one-byte separator; [cur] is the piece
    being read. *)
Fixpoint splitFrom (sep : ascii) (s : string) (cur : string) : list string :=
  match s with
  | EmptyString => [cur]
  | String c s' =>
      if Ascii.eqb c sep then cur :: splitFrom sep s' EmptyString
      else splitFrom sep s' (cur +:+ String c EmptyString)
  end.

Definition Split (s : string) (sep : ascii) : list string :=
  splitFrom sep s EmptyString.

(** ** Package config: the data model *)

(** [time.Time], as an abstract instant. *)
Definition Time : Type := Z.

Record RepoSettings : Type := { CopyFiles : option (list string) }.

(** [config.Config].  [Repos] and [RepoSettings] are the maps that
    [config.Load] leaves initialised. *)
Record Config : Type := {
  BaseDir : string;
  Agent : string;
  AgentFlags : list string;
  Editor : string;
  AutoInit : bool;
  Repos : gmap string string;
  RepoSettingsMap : gmap string RepoSettings;
  LastRepo : string;
  TmuxSplitDirection : string
}.

Record Experiment : Type := {
  Exp_Name : string;
  Exp_Repo : string;
  Exp_Path : string;
  Exp_Branch : string;
  Exp_Ticket : string;
  Exp_Created : Time;
  Exp_LastUsed : Time
}.

Record ProjectRepo : Type := { PR_Name : string; PR_Source : string }.

Record Project : Type := {
  Proj_Name : string;
  Proj_Path : string;
  Proj_Branch : string;
  Proj_Repos : list ProjectRepo;
  Proj_Created : Time;
  Proj_LastUsed : Time
}.

Record Scratch : Type := {
  Scr_Name : string;
  Scr_Path : string;
  Scr_Ticket : string;
  Scr_Created : Time;
  Scr_LastUsed : Time
}.

(** [config.State].  A Go map field is [None] when it is the nil map; the
    maps hold pointers, [None] being the nil pointer. *)
Record State : Type := {
  Version : Z;
  Experiments : option (gmap string (option Experiment));
  Projects : option (gmap string (option Project));
  Scratches : option (gmap string (option Scratch))
}.

(** ** Effects *)

Inductive ExecMode : Type := Run | Output | CombinedOutput.

(** What a finished subprocess hands back: the captured output and the
    error of [cmd.Run], [cmd.Output] or [cmd.CombinedOutput]. *)
Record CmdResult : Type := { cmd_out : string; cmd_err : error }.

Record DirEntry : Type := { Entry_Name : string; Entry_IsDir : bool }.

Record Prompt : Type := {
  Label : string;
  IsConfirm : bool;
  Default : string
}.

(** The calls that leave the process.  The last group are procedures of the
    program whose bodies play no part in the properties studied here; each
    is one event.  [config.Load] and [Config.Save] are opened further down,
    as [config_Load_body] and [Config_Save_body], for the property that
    depends on what they write. *)
Inductive Event : Type -> Type :=
| Exec (mode : ExecMode) (dir : string) (name : string) (args : list string)
    : Event CmdResult
| ReadFile (path : string) : Event (string * error)
| WriteFile (path : string) (data : string) : Event error
| MkdirAll (path : string) : Event error
| Stat (path : string) : Event error
| ReadDir (dir : string) : Event (list DirEntry * error)
| PromptRun (p : Prompt) : Event (string * error)
| TimeNow : Event Time
| config_Load : Event (Config * error)
| Config_Save (cfg : Config) : Event error
| resolveRepo (cfg : Config) (repoFlag : string) : Event (string * error)
| resolveRepoWithPick (cfg : Config) (repoFlag : string) (forcePick : bool)
    : Event (string * error)
| launchAgent (cfg : Config) (workdir : string) (agentOverride : string)
    : Event error
| launchSession (cfg : Config) (workdir : string) (editorOverride : string)
    (noAgent noEditor : bool) : Event error
| copyDir (src dst : string) : Event error
| InitRepo (path : string) : Event error
| copyGitignoredFiles (cfg : Config) (srcRepo dstPath : string) : Event error
| writeJSON (path : string) (data : list (string * string)) : Event error.

(** Terminal output of package [ui]: written, never read back. *)
Inductive ui_kind : Type :=
| ui_Header | ui_KeyValue | ui_Info | ui_Warn | ui_Error | ui_Detail
| ui_Success.

Record Output_line : Type := { ui_fn : ui_kind; ui_text : string }.

Inductive prog (R : Type) : Type :=
| Ret (r : R)
| Panic (msg : string)
| Print (o : Output_line) (k : prog R)
| Vis {X : Type} (e : Event X) (k : X -> prog R).

Arguments Ret {R} r.
Arguments Panic {R} msg.
Arguments Print {R} o k.
Arguments Vis {R X} e k.

Fixpoint bind {A B : Type} (p : prog A) (f : A -> prog B) : prog B :=
  match p with
  | Ret a => f a
  | Panic m => Panic m
  | Print o k => Print o (bind k f)
  | Vis e k => Vis e (fun x => bind (k x) f)
  end.

Notation "x <- p ;; q" := (bind p (fun x => q))
  (at level 100, p at next level, right associativity).
Notation "p ;;; q" := (bind p (fun _ => q))
  (at level 100, right associativity).

Definition call {X : Type} (e : Event X) : prog X := Vis e Ret.

Definition ui (k : ui_kind) (msg : string) : prog unit :=
  Print {| ui_fn := k; ui_text := msg |} (Ret tt).

(** What a run leaves behind, in order: the lines printed and the events
    performed, each with the answer it got. *)
Inductive TraceItem : Type :=
| Printed (o : Output_line)
| Did {X : Type} (e : Event X) (x : X).

Inductive Outcome (R : Type) : Type :=
| Returned (r : R)
| Panicked (msg : string).

Arguments Returned {R} r.
Arguments Panicked {R} msg.

(** The environment: every event is answered from the current world, which
    it may change. *)
Definition Handler (W : Type) : Type := forall X : Type, Event X -> W -> X * W.

Fixpoint run {W R : Type} (h : Handler W) (p : prog R) (w : W)
  : Outcome R * W * list TraceItem :=
  match p with
  | Ret r => (Returned r, w, [])
  | Panic m => (Panicked m, w, [])
  | Print o k =>
      let '(r, w', t) := run h k w in (r, w', Printed o :: t)
  | Vis e k =>
      let '(x, w1) := h _ e w in
      let '(r, w2, t) := run h (k x) w1 in
      (r, w2, Did e x :: t)
  end.

(** ** Package git *)

Inductive BranchStatus : Type :=
| BranchNotFound
| BranchLocalOnly
| BranchRemoteOnly
| BranchBoth.

Record BranchInfo : Type := {
  Status : BranchStatus;
  LocalAhead : Z;
  RemoteBehind : Z;
  Diverged : bool
}.

Definition git (mode : ExecMode) (dir : string) (args : list string)
  : prog CmdResult :=
  call (Exec mode dir "git" args).

Definition branchExistsLocal (repoPath branch : string) : prog bool :=
  r <- git Run repoPath
         ["show-ref"; "--verify"; "--quiet"; "refs/heads/" +:+ branch] ;;
  Ret (is_nil (cmd_err r)).

Definition branchExistsRemote (repoPath branch : string) : prog bool :=
  r <- git Output repoPath ["ls-remote"; "--heads"; "origin"; branch] ;;
  match cmd_err r with
  | Some _ => Ret false
  | None => Ret (0 <? String.length (TrimSpace (cmd_out r)))%nat
  end.

Definition getBranchDivergence (repoPath branch : string)
  : prog (Z * Z * bool) :=
  r <- git Output repoPath
         ["rev-list"; "--left-right"; "--count";
          branch +:+ "...origin/" +:+ branch] ;;
  match cmd_err r with
  | Some _ => Ret (0, 0, false)
  | None =>
      let parts := Fields (TrimSpace (cmd_out r)) in
      if (List.length parts =? 2)%nat then
        let localAhead := fst (Atoi (nth 0 parts "")) in
        let remoteAhead := fst (Atoi (nth 1 parts "")) in
        Ret (localAhead, remoteAhead, (0 <? localAhead) && (0 <? remoteAhead))
      else Ret (0, 0, false)
  end.

Definition CheckBranch (repoPath branch : string) : prog BranchInfo :=
  let info := {| Status := BranchNotFound; LocalAhead := 0;
                 RemoteBehind := 0; Diverged := false |} in
  localExists <- branchExistsLocal repoPath branch ;;
  remoteExists <- branchExistsRemote repoPath branch ;;
  if localExists && remoteExists then
    d <- getBranchDivergence repoPath branch ;;
    let '(localAhead, remoteAhead, diverged) := d in
    Ret {| Status := BranchBoth; LocalAhead := localAhead;
           RemoteBehind := remoteAhead; Diverged := diverged |}
  else if localExists then
    Ret {| Status := BranchLocalOnly; LocalAhead := LocalAhead info;
           RemoteBehind := RemoteBehind info; Diverged := Diverged info |}
  else if remoteExists then
    Ret {| Status := BranchRemoteOnly; LocalAhead := LocalAhead info;
           RemoteBehind := RemoteBehind info; Diverged := Diverged info |}
  else Ret info.

Definition Fetch (repoPath : string) : prog error :=
  r <- git Run repoPath ["fetch"; "origin"] ;;
  Ret (cmd_err r).

Definition hasOriginRemote (repoPath : string) : prog bool :=
  r <- git Run repoPath ["remote"; "get-url"; "origin"] ;;
  Ret (is_nil (cmd_err r)).

Definition GetDefaultBranch (repoPath : string) : prog string :=
  r <- git Output repoPath ["symbolic-ref"; "refs/remotes/origin/HEAD"] ;;
  let fallback :=
    r2 <- git Run repoPath ["rev-parse"; "--verify"; "origin/main"] ;;
    if is_nil (cmd_err r2) then Ret "main" else Ret "master" in
  match cmd_err r with
  | None =>
      let ref := TrimSpace (cmd_out r) in
      let parts := Split ref "/" in
      if (0 <? List.length parts)%nat then Ret (List.last parts "")
      else fallback
  | Some _ => fallback
  end.

(** The error of a failed [git worktree add]. *)
Definition worktreeError (r : CmdResult) : error :=
  match cmd_err r with
  | Some e =>
      Some (fmt_Errorf_w ("failed to create worktree: " +:+ cmd_out r +:+ ": ") e)
  | None => None
  end.

Definition CreateWorktreeNew (repoPath worktreePath branch : string)
  : prog error :=
  Fetch repoPath ;;;
  info <- CheckBranch repoPath branch ;;
  match Status info with
  | BranchNotFound =>
      hasRemote <- hasOriginRemote repoPath ;;
      r <- (if hasRemote then
              defaultBranch <- GetDefaultBranch repoPath ;;
              git CombinedOutput repoPath
                ["worktree"; "add"; "-b"; branch; worktreePath;
                 "origin/" +:+ defaultBranch]
            else
              git CombinedOutput repoPath
                ["worktree"; "add"; "-b"; branch; worktreePath; "HEAD"]) ;;
      Ret (worktreeError r)
  | _ => Ret (Some (fmt_Errorf ("branch '" +:+ branch +:+ "' already exists")))
  end.

Definition CreateWorktreeFromBranch (repoPath worktreePath branch : string)
  : prog error :=
  r <- git CombinedOutput repoPath ["worktree"; "add"; worktreePath; branch] ;;
  Ret (worktreeError r).

Definition CreateWorktreeTrackRemote (repoPath worktreePath branch : string)
  : prog error :=
  r <- git CombinedOutput repoPath
         ["worktree"; "add"; "--track"; "-b"; branch; worktreePath;
          "origin/" +:+ branch] ;;
  Ret (worktreeError r).

(** [PreflightCheck]: the loop over [repos], [results] being the map built
    so far. *)
Fixpoint PreflightCheckFrom (repos : list string) (branch : string)
    (results : gmap string BranchInfo) : prog (gmap string BranchInfo) :=
  match repos with
  | [] => Ret results
  | repo :: repos' =>
      Fetch repo ;;;
      info <- CheckBranch repo branch ;;
      PreflightCheckFrom repos' branch (<[repo := info]> results)
  end.

Definition PreflightCheck (repos : list string) (branch : string)
  : prog (gmap string BranchInfo) :=
  PreflightCheckFrom repos branch ∅.

(** ** Library functions outside the program *)

(** One member of the top-level JSON object of a state document, as
    [json.Unmarshal] meets it; a [null] value is [None]. *)
Inductive StateMember : Type :=
| member_version (v : option Z)
| member_experiments (v : option (list (string * option Experiment)))
| member_projects (v : option (list (string * option Project)))
| member_scratches (v : option (list (string * option Scratch))).

(** The standard-library functions the program calls and this development
    does not open: path cleaning, the home directory of the process, the
    JSON reader and writer, time formatting, Unicode upper-casing.  [json_decode_State] gives the
    members a document assigns, in order (unknown keys left out), and the
    error [json.Unmarshal] reports for it, if any. *)
Class GoLib : Type := {
  filepath_Join : list string -> string;
  filepath_Dir : string -> string;
  os_UserHomeDir : string * error;
  json_decode_State : string -> list StateMember * error;
  json_MarshalIndent_State : State -> string * error;
  Format_RFC3339 : Time -> string;
  ToUpper : string -> string
}.

Section Program.

Context {lib : GoLib}.

(** ** Package config: functions *)

Definition ExpandPath (path : string) : string :=
  match path with
  | String "~" rest => filepath_Join [fst os_UserHomeDir; rest]
  | _ => path
  end.

Definition GetBaseDir (c : Config) : string := ExpandPath (BaseDir c).

Definition ExperimentsDir (c : Config) : string :=
  filepath_Join [GetBaseDir c; "experiments"].

Definition StatePath (cfg : Config) : string :=
  filepath_Join [GetBaseDir cfg; "state.json"].

(** Storing the pairs of a JSON object into a Go map, in order. *)
Definition storePairs {V : Type} (kvs : list (string * V))
    (m : gmap string V) : gmap string V :=
  fold_left (fun acc kv => <[fst kv := snd kv]> acc) kvs m.

(** A JSON value decoded into a map field: [null] sets the nil map; an
    object is stored into the map already there, or into a new one. *)
Definition decodeMap {V : Type} (v : option (list (string * V)))
    (field : option (gmap string V)) : option (gmap string V) :=
  match v with
  | None => None
  | Some kvs => Some (storePairs kvs (default ∅ field))
  end.

Definition decodeMember (s : State) (m : StateMember) : State :=
  match m with
  | member_version v =>
      {| Version := default (Version s) v; Experiments := Experiments s;
         Projects := Projects s; Scratches := Scratches s |}
  | member_experiments v =>
      {| Version := Version s; Experiments := decodeMap v (Experiments s);
         Projects := Projects s; Scratches := Scratches s |}
  | member_projects v =>
      {| Version := Version s; Experiments := Experiments s;
         Projects := decodeMap v (Projects s); Scratches := Scratches s |}
  | member_scratches v =>
      {| Version := Version s; Experiments := Experiments s;
         Projects := Projects s; Scratches := decodeMap v (Scratches s) |}
  end.

(** [json.Unmarshal(data, state)]. *)
Definition json_Unmarshal_State (data : string) (state : State)
  : State * error :=
  let '(members, err) := json_decode_State data in
  (fold_left decodeMember members state, err).

(** A nil map field replaced by a fresh empty map. *)
Definition ensureMap {V : Type} (field : option (gmap string V))
  : option (gmap string V) :=
  match field with
  | None => Some ∅
  | Some m => Some m
  end.

(** [LoadState]: the state read, or [None] with the error. *)
Definition LoadState (cfg : Config) : prog (option State * error) :=
  let statePath := StatePath cfg in
  let state := {| Version := 1; Experiments := Some ∅; Projects := Some ∅;
                  Scratches := Some ∅ |} in
  rd <- call (ReadFile statePath) ;;
  let '(data, err) := rd in
  match err with
  | Some e =>
      if os_IsNotExist err then Ret (Some state, None)
      else Ret (None, Some e)
  | None =>
      let '(state, err) := json_Unmarshal_State data state in
      match err with
      | Some e => Ret (None, Some e)
      | None =>
          let state := {| Version := Version state;
                          Experiments := ensureMap (Experiments state);
                          Projects := Projects state;
                          Scratches := Scratches state |} in
          let state := {| Version := Version state;
                          Experiments := Experiments state;
                          Projects := ensureMap (Projects state);
                          Scratches := Scratches state |} in
          let state := {| Version := Version state;
                          Experiments := Experiments state;
                          Projects := Projects state;
                          Scratches := ensureMap (Scratches state) |} in
          Ret (Some state, None)
      end
  end.

(** [State.Save]. *)
Definition State_Save (s : State) (cfg : Config) : prog error :=
  let statePath := StatePath cfg in
  e <- call (MkdirAll (filepath_Dir statePath)) ;;
  match e with
  | Some _ => Ret e
  | None =>
      let '(data, err) := json_MarshalIndent_State s in
      match err with
      | Some _ => Ret err
      | None => call (WriteFile statePath data)
      end
  end.

(** [ExperimentKey]. *)
Definition ExperimentKey (repo name : string) : string :=
  let repoName := Base repo in
  repoName +:+ "-" +:+ name.

(** [State.AddExperiment]: the state after the call, [None] when the
    assignment panics because the map is nil. *)
Definition AddExperiment (s : State) (exp : Experiment) : option State :=
  let key := ExperimentKey (Exp_Repo exp) (Exp_Name exp) in
  match Experiments s with
  | None => None
  | Some m =>
      Some {| Version := Version s; Experiments := Some (<[key := Some exp]> m);
              Projects := Projects s; Scratches := Scratches s |}
  end.

(** [State.GetExperiment]: [None] is the nil pointer. *)
Definition GetExperiment (s : State) (key : string) : option Experiment :=
  match Experiments s with
  | None => None
  | Some m => default None (m !! key)
  end.

(** [State.RemoveExperiment]. *)
Definition RemoveExperiment (s : State) (key : string) : State :=
  {| Version := Version s;
     Experiments := match Experiments s with
                    | None => None
                    | Some m => Some (delete key m)
                    end;
     Projects := Projects s; Scratches := Scratches s |}.

(** ** Package git, continued *)

Definition GetRepoRoot (path : string) : prog (string * error) :=
  r <- git Output path ["rev-parse"; "--show-toplevel"] ;;
  match cmd_err r with
  | Some e => Ret ("", Some (fmt_Errorf_w "not a git repository: " e))
  | None => Ret (TrimSpace (cmd_out r), None)
  end.

Definition IsGitRepo (path : string) : prog bool :=
  r <- GetRepoRoot path ;;
  Ret (is_nil (snd r)).

Definition GetRepoName (repoPath : string) : string := Base repoPath.

(** ** Package regexp, as far as the program uses it *)

(** Regular expressions over bytes.  A class is a list of inclusive byte
    ranges. *)
Inductive regex : Type :=
| re_none
| re_eps
| re_class (ranges : list (N * N))
| re_cat (r1 r2 : regex)
| re_alt (r1 r2 : regex)
| re_star (r : regex).

Definition inClass (ranges : list (N * N)) (b : N) : bool :=
  existsb (fun lohi => (fst lohi <=? b)%N && (b <=? snd lohi)%N) ranges.

Fixpoint nullable (r : regex) : bool :=
  match r with
  | re_none => false
  | re_eps => true
  | re_class _ => false
  | re_cat r1 r2 => nullable r1 && nullable r2
  | re_alt r1 r2 => nullable r1 || nullable r2
  | re_star _ => true
  end.

Fixpoint deriv (r : regex) (b : N) : regex :=
  match r with
  | re_none => re_none
  | re_eps => re_none
  | re_class rs => if inClass rs b then re_eps else re_none
  | re_cat r1 r2 =>
      if nullable r1 then re_alt (re_cat (deriv r1 b) r2) (deriv r2 b)
      else re_cat (deriv r1 b) r2
  | re_alt r1 r2 => re_alt (deriv r1 b) (deriv r2 b)
  | re_star r1 => re_cat (deriv r1 b) (re_star r1)
  end.

Fixpoint matches (r : regex) (l : list N) : bool :=
  match l with
  | [] => nullable r
  | b :: l' => matches (deriv r b) l'
  end.

(** [regexp.MatchString] for a pattern of the form [^body$]: without the
    multi-line flag the two anchors tie the match to the whole text.  A
    byte above 127 belongs to a rune outside ASCII and so to none of the
    ASCII classes used here. *)
Definition MatchString_anchored (body : regex) (s : string) : bool :=
  matches body (bytes s).

(** [[a-zA-Z0-9]] and [[a-zA-Z0-9_-]]. *)
Definition class_alnum : list (N * N) :=
  [(97, 122); (65, 90); (48, 57)]%N.

Definition class_name : list (N * N) :=
  [(97, 122); (65, 90); (48, 57); (95, 95); (45, 45)]%N.

(** The body of [^[a-zA-Z0-9][a-zA-Z0-9_-]*$]. *)
Definition namePattern : regex :=
  re_cat (re_class class_alnum) (re_star (re_class class_name)).

(** ** Package cmd *)

Definition isValidExpName (name : string) : bool :=
  if String.eqb name "" then false
  else MatchString_anchored namePattern name.

Definition isValidScratchName (name : string) : bool :=
  if String.eqb name "" then false
  else MatchString_anchored namePattern name.

Fixpoint takeWhile {A : Type} (f : A -> bool) (l : list A) : list A :=
  match l with
  | [] => []
  | a :: l' => if f a then a :: takeWhile f l' else []
  end.

Definition isUpper (b : N) : bool := ((65 <=? b) && (b <=? 90))%N.

(** [extractTicket]: the first group of [^([A-Z]+-\d+)] on the upper-cased
    name.  No letter is a hyphen and no hyphen a digit, so the greedy runs
    are the only way to match. *)
Definition extractTicket (name : string) : string :=
  let l := bytes (ToUpper name) in
  let letters := takeWhile isUpper l in
  match letters, skipn (List.length letters) l with
  | _ :: _, 45%N :: rest =>
      match takeWhile isDigit rest with
      | [] => ""
      | digits => string_of_bytes (letters ++ 45%N :: digits)
      end
  | _, _ => ""
  end.

(** The package-level flag variables of the [exp] command. *)
Record ExpFlags : Type := { expRepoFlag : string; expAgentFlag : string }.

(** [runExp] from the branch check on (exp.go, lines 128-192): what the
    handler does once [git.CheckBranch] has returned [branchInfo]. *)
Definition runExp_checked (flags : ExpFlags) (cfg : Config) (state : State)
    (expName repoPath repoName expPath branch : string)
    (branchInfo : BranchInfo) : prog error :=
  match Status branchInfo with
  | BranchNotFound =>
      ui ui_Info "Creating worktree..." ;;;
      e <- CreateWorktreeNew repoPath expPath branch ;;
      match e with
      | Some err => Ret (Some (fmt_Errorf_w "failed to create worktree: " err))
      | None =>
          let sourceClaudeDir := filepath_Join [repoPath; ".claude"] in
          st <- call (Stat sourceClaudeDir) ;;
          (match st with
           | None =>
               ui ui_Info "Copying .claude/ configuration..." ;;;
               ce <- call (copyDir sourceClaudeDir
                             (filepath_Join [expPath; ".claude"])) ;;
               match ce with
               | Some err =>
                   ui ui_Warn ("Failed to copy .claude/ directory: " +:+ Error err)
               | None => Ret tt
               end
           | Some _ =>
               if AutoInit cfg then
                 ui ui_Info "Initializing .claude/ configuration..." ;;;
                 ie <- call (InitRepo expPath) ;;
                 match ie with
                 | Some err =>
                     ui ui_Warn ("Failed to initialize .claude/: " +:+ Error err)
                 | None => Ret tt
                 end
               else Ret tt
           end) ;;;
          ge <- call (copyGitignoredFiles cfg repoPath expPath) ;;
          (match ge with
           | Some err => ui ui_Warn ("Failed to copy some files: " +:+ Error err)
           | None => Ret tt
           end) ;;;
          let ticket := extractTicket expName in
          now0 <- call TimeNow ;;
          let cladeMetadata :=
            [("type", "experiment"); ("name", expName); ("ticket", ticket);
             ("repo", repoName); ("created", Format_RFC3339 now0)] in
          we <- call (writeJSON (filepath_Join [expPath; ".clade.json"])
                        cladeMetadata) ;;
          (match we with
           | Some err => ui ui_Warn ("Failed to write .clade.json: " +:+ Error err)
           | None => Ret tt
           end) ;;;
          now1 <- call TimeNow ;;
          now2 <- call TimeNow ;;
          let exp := {| Exp_Name := expName; Exp_Repo := repoPath;
                        Exp_Path := expPath; Exp_Branch := branch;
                        Exp_Ticket := ticket; Exp_Created := now1;
                        Exp_LastUsed := now2 |} in
          match AddExperiment state exp with
          | None => Panic "assignment to entry in nil map"
          | Some state =>
              se <- State_Save state cfg ;;
              (match se with
               | Some err => ui ui_Warn ("Failed to save state: " +:+ Error err)
               | None => Ret tt
               end) ;;;
              ui ui_Success "Experiment created!" ;;;
              call (launchAgent cfg expPath (expAgentFlag flags))
          end
      end
  | _ =>
      ui ui_Error ("Branch '" +:+ branch +:+ "' already exists") ;;;
      ui ui_Detail ("Use: clade resume " +:+ expName) ;;;
      ui ui_Detail "Or pick a different name" ;;;
      Ret (Some (fmt_Errorf "branch already exists"))
  end.

Definition setLastRepo (cfg : Config) (repoPath : string) : Config :=
  {| BaseDir := BaseDir cfg; Agent := Agent cfg; AgentFlags := AgentFlags cfg;
     Editor := Editor cfg; AutoInit := AutoInit cfg; Repos := Repos cfg;
     RepoSettingsMap := RepoSettingsMap cfg; LastRepo := repoPath;
     TmuxSplitDirection := TmuxSplitDirection cfg |}.

(** [runExp] (exp.go, lines 50-193). *)
Definition runExp (flags : ExpFlags) (args : list string) : prog error :=
  ld <- call config_Load ;;
  let '(cfg, err) := ld in
  match err with
  | Some e => Ret (Some (fmt_Errorf_w "failed to load config: " e))
  | None =>
  nm <- (match args with
         | a :: _ => Ret (a, None)
         | [] => call (PromptRun {| Label := "Experiment name";
                                    IsConfirm := false; Default := "" |})
         end) ;;
  let '(expName, err) := nm in
  match err with
  | Some e => Ret (Some e)
  | None =>
  if negb (isValidExpName expName) then
    Ret (Some (fmt_Errorf
      "invalid experiment name: use alphanumeric, hyphens, underscores only"))
  else
  rr <- call (resolveRepo cfg (expRepoFlag flags)) ;;
  let '(repoPath, err) := rr in
  match err with
  | Some e => Ret (Some e)
  | None =>
  let cfg := setLastRepo cfg repoPath in
  se <- call (Config_Save cfg) ;;
  (match se with
   | Some e => ui ui_Warn ("Failed to save config: " +:+ Error e)
   | None => Ret tt
   end) ;;;
  let repoName := GetRepoName repoPath in
  let expKey := ExperimentKey repoPath expName in
  let expPath := filepath_Join [ExperimentsDir cfg; expKey] in
  let branch := "exp/" +:+ expName in
  ls <- LoadState cfg ;;
  match ls with
  | (_, Some e) => Ret (Some (fmt_Errorf_w "failed to load state: " e))
  | (None, None) => Panic "nil pointer dereference"
  | (Some state, None) =>
  match GetExperiment state expKey with
  | Some existing =>
      ui ui_Warn ("Experiment '" +:+ expName +:+ "' already exists") ;;;
      ui ui_KeyValue ("Path: " +:+ Exp_Path existing) ;;;
      pr <- call (PromptRun {| Label := "Resume existing experiment";
                               IsConfirm := true; Default := "" |}) ;;
      if is_nil (snd pr) then
        call (launchAgent cfg (Exp_Path existing) (expAgentFlag flags))
      else Ret None
  | None =>
      ui ui_Header ("Creating experiment: " +:+ expName) ;;;
      ui ui_KeyValue ("Repo: " +:+ repoName) ;;;
      ui ui_KeyValue ("Path: " +:+ expPath) ;;;
      ui ui_KeyValue ("Branch: " +:+ branch) ;;;
      me <- call (MkdirAll (ExperimentsDir cfg)) ;;
      match me with
      | Some e =>
          Ret (Some (fmt_Errorf_w "failed to create experiments directory: " e))
      | None =>
          ui ui_Info "Checking branch availability..." ;;;
          branchInfo <- CheckBranch repoPath branch ;;
          runExp_checked flags cfg state expName repoPath repoName expPath
            branch branchInfo
      end
  end
  end
  end
  end
  end.

(** The package-level flag variables of the [feat] command. *)
Record FeatFlags : Type := {
  featRepoFlag : string;
  featPickFlag : bool;
  featBranchFlag : string;
  featEditorFlag : string;
  featNoAgentFlag : bool;
  featNoEditorFlag : bool
}.

(** [runFeat] from the branch check on: what the handler does once
    [git.CheckBranch] has returned [branchInfo]. *)
Definition runFeat_checked (flags : FeatFlags) (cfg : Config) (state : State)
    (featName repoPath repoName featPath branch : string)
    (branchInfo : BranchInfo) : prog error :=
  match Status branchInfo with
  | BranchNotFound =>
      ui ui_Info "Creating worktree..." ;;;
      e <- CreateWorktreeNew repoPath featPath branch ;;
      match e with
      | Some err => Ret (Some (fmt_Errorf_w "failed to create worktree: " err))
      | None =>
          let sourceClaudeDir := filepath_Join [repoPath; ".claude"] in
          st <- call (Stat sourceClaudeDir) ;;
          (match st with
           | None =>
               ui ui_Info "Copying .claude/ configuration..." ;;;
               ce <- call (copyDir sourceClaudeDir
                             (filepath_Join [featPath; ".claude"])) ;;
               match ce with
               | Some err =>
                   ui ui_Warn ("Failed to copy .claude/ directory: " +:+ Error err)
               | None => Ret tt
               end
           | Some _ =>
               if AutoInit cfg then
                 ui ui_Info "Initializing .claude/ configuration..." ;;;
                 ie <- call (InitRepo featPath) ;;
                 match ie with
                 | Some err =>
                     ui ui_Warn ("Failed to initialize .claude/: " +:+ Error err)
                 | None => Ret tt
                 end
               else Ret tt
           end) ;;;
          ge <- call (copyGitignoredFiles cfg repoPath featPath) ;;
          (match ge with
           | Some err => ui ui_Warn ("Failed to copy some files: " +:+ Error err)
           | None => Ret tt
           end) ;;;
          let ticket := extractTicket featName in
          now0 <- call TimeNow ;;
          let cladeMetadata :=
            [("type", "feature"); ("name", featName); ("ticket", ticket);
             ("repo", repoName); ("created", Format_RFC3339 now0)] in
          we <- call (writeJSON (filepath_Join [featPath; ".clade.json"])
                        cladeMetadata) ;;
          (match we with
           | Some err => ui ui_Warn ("Failed to write .clade.json: " +:+ Error err)
           | None => Ret tt
           end) ;;;
          now1 <- call TimeNow ;;
          now2 <- call TimeNow ;;
          let exp := {| Exp_Name := featName; Exp_Repo := repoPath;
                        Exp_Path := featPath; Exp_Branch := branch;
                        Exp_Ticket := ticket; Exp_Created := now1;
                        Exp_LastUsed := now2 |} in
          match AddExperiment state exp with
          | None => Panic "assignment to entry in nil map"
          | Some state =>
              se <- State_Save state cfg ;;
              (match se with
               | Some err => ui ui_Warn ("Failed to save state: " +:+ Error err)
               | None => Ret tt
               end) ;;;
              ui ui_Success "Feature created!" ;;;
              call (launchSession cfg featPath (featEditorFlag flags)
                      (featNoAgentFlag flags) (featNoEditorFlag flags))
          end
      end
  | _ =>
      ui ui_Error ("Branch '" +:+ branch +:+ "' already exists") ;;;
      ui ui_Detail ("Use: clade resume " +:+ featName) ;;;
      ui ui_Detail "Or pick a different name" ;;;
      Ret (Some (fmt_Errorf "branch already exists"))
  end.

(** [runFeat]. *)
Definition runFeat (flags : FeatFlags) (args : list string) : prog error :=
  ld <- call config_Load ;;
  let '(cfg, err) := ld in
  match err with
  | Some e => Ret (Some (fmt_Errorf_w "failed to load config: " e))
  | None =>
  nm <- (match args with
         | a :: _ => Ret (a, None)
         | [] => call (PromptRun {| Label := "Feature name";
                                    IsConfirm := false; Default := "" |})
         end) ;;
  let '(featName, err) := nm in
  match err with
  | Some e => Ret (Some e)
  | None =>
  if negb (isValidExpName featName) then
    Ret (Some (fmt_Errorf
      "invalid feature name: use alphanumeric, hyphens, underscores only"))
  else
  rr <- call (resolveRepoWithPick cfg (featRepoFlag flags) (featPickFlag flags)) ;;
  let '(repoPath, err) := rr in
  match err with
  | Some e => Ret (Some e)
  | None =>
  let cfg := setLastRepo cfg repoPath in
  se <- call (Config_Save cfg) ;;
  (match se with
   | Some e => ui ui_Warn ("Failed to save config: " +:+ Error e)
   | None => Ret tt
   end) ;;;
  let repoName := GetRepoName repoPath in
  let expKey := ExperimentKey repoPath featName in
  let featPath := filepath_Join [ExperimentsDir cfg; expKey] in
  br <- (if negb (String.eqb (featBranchFlag flags) "") then
           Ret (featBranchFlag flags, None)
         else
           let defaultBranch := "feat/" +:+ featName in
           pr <- call (PromptRun {| Label := "Branch name"; IsConfirm := false;
                                    Default := defaultBranch |}) ;;
           match snd pr with
           | Some e => Ret (fst pr, Some e)
           | None =>
               if String.eqb (fst pr) "" then Ret (defaultBranch, None)
               else Ret (fst pr, None)
           end) ;;
  let '(branch, err) := br in
  match err with
  | Some e => Ret (Some e)
  | None =>
  ls <- LoadState cfg ;;
  match ls with
  | (_, Some e) => Ret (Some (fmt_Errorf_w "failed to load state: " e))
  | (None, None) => Panic "nil pointer dereference"
  | (Some state, None) =>
  match GetExperiment state expKey with
  | Some existing =>
      ui ui_Warn ("Feature '" +:+ featName +:+ "' already exists") ;;;
      ui ui_KeyValue ("Path: " +:+ Exp_Path existing) ;;;
      pr <- call (PromptRun {| Label := "Resume existing feature";
                               IsConfirm := true; Default := "" |}) ;;
      if is_nil (snd pr) then
        call (launchSession cfg (Exp_Path existing) (featEditorFlag flags)
                (featNoAgentFlag flags) (featNoEditorFlag flags))
      else Ret None
  | None =>
      ui ui_Header ("Creating feature: " +:+ featName) ;;;
      ui ui_KeyValue ("Repo: " +:+ repoName) ;;;
      ui ui_KeyValue ("Path: " +:+ featPath) ;;;
      ui ui_KeyValue ("Branch: " +:+ branch) ;;;
      me <- call (MkdirAll (ExperimentsDir cfg)) ;;
      match me with
      | Some e =>
          Ret (Some (fmt_Errorf_w "failed to create experiments directory: " e))
      | None =>
          ui ui_Info "Checking branch availability..." ;;;
          branchInfo <- CheckBranch repoPath branch ;;
          runFeat_checked flags cfg state featName repoPath repoName featPath
            branch branchInfo
      end
  end
  end
  end
  end
  end
  end.

(** The switch of [runProject] that creates the worktree of one repository
    from the status the preflight check reported for it (project.go, lines
    252-259). *)
Definition runProject_createWorktree (status : BranchStatus)
    (sourcePath worktreePath branchName : string) : prog error :=
  match status with
  | BranchNotFound => CreateWorktreeNew sourcePath worktreePath branchName
  | BranchLocalOnly | BranchBoth =>
      CreateWorktreeFromBranch sourcePath worktreePath branchName
  | BranchRemoteOnly =>
      CreateWorktreeTrackRemote sourcePath worktreePath branchName
  end.

(** The switch of [adoptOrphanedBranch] (resume.go, lines 281-303); the
    error is the one its [return err] hands back. *)
Definition adoptOrphanedBranch_createWorktree (branchInfo : BranchInfo)
    (repoPath expPath branch : string) : prog error :=
  match Status branchInfo with
  | BranchLocalOnly =>
      ui ui_Info ("Adopting local branch '" +:+ branch +:+ "'") ;;;
      CreateWorktreeFromBranch repoPath expPath branch
  | BranchRemoteOnly =>
      ui ui_Info ("Tracking remote branch 'origin/" +:+ branch +:+ "'") ;;;
      CreateWorktreeTrackRemote repoPath expPath branch
  | BranchBoth =>
      ui ui_Info ("Adopting branch '" +:+ branch +:+ "'") ;;;
      e <- CreateWorktreeFromBranch repoPath expPath branch ;;
      match e with
      | Some _ => Ret e
      | None =>
          if Diverged branchInfo then
            ui ui_Warn ("Branch diverged from origin ("
                        +:+ pretty (LocalAhead branchInfo) +:+ " local, "
                        +:+ pretty (RemoteBehind branchInfo)
                        +:+ " remote commits)") ;;;
            ui ui_Detail "Resolve in worktree: git pull --rebase OR git merge" ;;;
            Ret None
          else Ret None
      end
  | BranchNotFound => Ret None
  end.

(** The package-level flag variables of the [resume] command. *)
Record ResumeFlags : Type := {
  resumeRepoFlag : string;
  resumeAgentFlag : string
}.

(** [adoptOrphanedBranch] once [git.CheckBranch] has returned [branchInfo]
    (resume.go, lines 266-327). *)
Definition adoptOrphanedBranch_checked (flags : ResumeFlags) (cfg : Config)
    (state : State) (name repoPath branch : string) (branchInfo : BranchInfo)
  : prog error :=
  match Status branchInfo with
  | BranchNotFound =>
      ui ui_Error ("Branch '" +:+ branch +:+ "' not found locally or on remote") ;;;
      ui ui_Detail ("Create new experiment: clade exp " +:+ name) ;;;
      Ret (Some (fmt_Errorf "branch not found"))
  | _ =>
      let expKey := ExperimentKey repoPath name in
      let expPath := filepath_Join [ExperimentsDir cfg; expKey] in
      me <- call (MkdirAll (ExperimentsDir cfg)) ;;
      match me with
      | Some _ => Ret me
      | None =>
          we <- adoptOrphanedBranch_createWorktree branchInfo repoPath expPath
                  branch ;;
          match we with
          | Some _ => Ret we
          | None =>
              (if AutoInit cfg then call (InitRepo expPath) ;;; Ret tt
               else Ret tt) ;;;
              let ticket := extractTicket name in
              now1 <- call TimeNow ;;
              now2 <- call TimeNow ;;
              let exp := {| Exp_Name := name; Exp_Repo := repoPath;
                            Exp_Path := expPath; Exp_Branch := branch;
                            Exp_Ticket := ticket; Exp_Created := now1;
                            Exp_LastUsed := now2 |} in
              match AddExperiment state exp with
              | None => Panic "assignment to entry in nil map"
              | Some state =>
                  State_Save state cfg ;;;
                  ui ui_Success ("Adopted experiment '" +:+ name +:+ "'") ;;;
                  ui ui_KeyValue ("Path: " +:+ expPath) ;;;
                  call (launchAgent cfg expPath (resumeAgentFlag flags))
              end
          end
      end
  end.

(** [adoptOrphanedBranch]. *)
Definition adoptOrphanedBranch (flags : ResumeFlags) (cfg : Config)
    (state : State) (name : string) : prog error :=
  rr <- call (resolveRepo cfg (resumeRepoFlag flags)) ;;
  let '(repoPath, err) := rr in
  match err with
  | Some _ =>
      ui ui_Error "Cannot adopt branch without knowing which repo" ;;;
      ui ui_Detail ("Specify repo: clade resume " +:+ name +:+ " -r <repo>") ;;;
      Ret err
  | None =>
      let branch := "exp/" +:+ name in
      let repoName := GetRepoName repoPath in
      ui ui_Info ("Checking for branch '" +:+ branch +:+ "' in " +:+ repoName
                  +:+ "...") ;;;
      Fetch repoPath ;;;
      branchInfo <- CheckBranch repoPath branch ;;
      adoptOrphanedBranch_checked flags cfg state name repoPath branch
        branchInfo
  end.

Definition setRepos (cfg : Config) (repos : gmap string string) : Config :=
  {| BaseDir := BaseDir cfg; Agent := Agent cfg; AgentFlags := AgentFlags cfg;
     Editor := Editor cfg; AutoInit := AutoInit cfg; Repos := repos;
     RepoSettingsMap := RepoSettingsMap cfg; LastRepo := LastRepo cfg;
     TmuxSplitDirection := TmuxSplitDirection cfg |}.

(** [addSingleRepo]: the configuration as the call leaves it, and the error
    returned. *)
Definition addSingleRepo (cfg : Config) (absPath customName : string)
  : prog (Config * error) :=
  rr <- GetRepoRoot absPath ;;
  let '(repoRoot, err) := rr in
  match err with
  | Some _ => Ret (cfg, err)
  | None =>
      let name := if String.eqb customName "" then Base repoRoot
                  else customName in
      match Repos cfg !! name with
      | Some existing =>
          if String.eqb (ExpandPath existing) repoRoot then
            ui ui_Info ("Repository '" +:+ name +:+ "' is already registered") ;;;
            Ret (cfg, None)
          else
            Ret (cfg, Some (fmt_Errorf ("name '" +:+ name
                                        +:+ "' already registered for "
                                        +:+ existing)))
      | None =>
          let cfg := setRepos cfg (<[name := repoRoot]> (Repos cfg)) in
          se <- call (Config_Save cfg) ;;
          match se with
          | Some e => Ret (cfg, Some (fmt_Errorf_w "failed to save config: " e))
          | None =>
              ui ui_Success ("Registered repository '" +:+ name +:+ "'") ;;;
              ui ui_KeyValue ("Path: " +:+ repoRoot) ;;;
              Ret (cfg, None)
          end
      end
  end.

(** The counters of [scanAndAddRepos]. *)
Record ScanCounts : Type := {
  added : Z;
  skipped : Z;
  alreadyRegistered : Z
}.

(** The loop of [scanAndAddRepos] over the directory entries. *)
Fixpoint scanEntries (dir : string) (entries : list DirEntry) (cfg : Config)
    (n : ScanCounts) : prog (Config * ScanCounts) :=
  match entries with
  | [] => Ret (cfg, n)
  | entry :: rest =>
      if negb (Entry_IsDir entry) then scanEntries dir rest cfg n
      else
        let subdir := filepath_Join [dir; Entry_Name entry] in
        isRepo <- IsGitRepo subdir ;;
        if negb isRepo then scanEntries dir rest cfg n
        else
          rr <- GetRepoRoot subdir ;;
          let '(repoRoot, err) := rr in
          match err with
          | Some _ =>
              scanEntries dir rest cfg
                {| added := added n; skipped := skipped n + 1;
                   alreadyRegistered := alreadyRegistered n |}
          | None =>
              let name := Base repoRoot in
              match Repos cfg !! name with
              | Some existing =>
                  if String.eqb (ExpandPath existing) repoRoot then
                    scanEntries dir rest cfg
                      {| added := added n; skipped := skipped n;
                         alreadyRegistered := alreadyRegistered n + 1 |}
                  else
                    ui ui_Warn ("Skipped '" +:+ name
                                +:+ "' - name already used for " +:+ existing) ;;;
                    scanEntries dir rest cfg
                      {| added := added n; skipped := skipped n + 1;
                         alreadyRegistered := alreadyRegistered n |}
              | None =>
                  scanEntries dir rest
                    (setRepos cfg (<[name := repoRoot]> (Repos cfg)))
                    {| added := added n + 1; skipped := skipped n;
                       alreadyRegistered := alreadyRegistered n |}
              end
          end
  end.

(** [scanAndAddRepos]. *)
Definition scanAndAddRepos (cfg : Config) (dir : string)
  : prog (Config * error) :=
  rd <- call (ReadDir dir) ;;
  let '(entries, err) := rd in
  match err with
  | Some e => Ret (cfg, Some (fmt_Errorf_w "failed to read directory: " e))
  | None =>
      res <- scanEntries dir entries cfg
               {| added := 0; skipped := 0; alreadyRegistered := 0 |} ;;
      let '(cfg, n) := res in
      if (added n =? 0) && (alreadyRegistered n =? 0) && (skipped n =? 0) then
        Ret (cfg, Some (fmt_Errorf ("no git repositories found in " +:+ dir)))
      else
        se <- (if 0 <? added n then
                 e <- call (Config_Save cfg) ;;
                 match e with
                 | Some err =>
                     Ret (Some (fmt_Errorf_w "failed to save config: " err))
                 | None =>
                     ui ui_Success ("Registered " +:+ pretty (added n)
                                    +:+ " repositories") ;;;
                     Ret None
                 end
               else Ret None) ;;
        match se with
        | Some _ => Ret (cfg, se)
        | None =>
            (if 0 <? alreadyRegistered n then
               ui ui_Info (pretty (alreadyRegistered n) +:+ " already registered")
             else Ret tt) ;;;
            (if 0 <? skipped n then
               ui ui_Warn (pretty (skipped n)
                           +:+ " skipped (conflicts or errors)")
             else Ret tt) ;;;
            Ret (cfg, None)
        end
  end.

(** ** Package config: scratches and copy preferences *)

(** [State.AddScratch]: [None] when the assignment panics on the nil map. *)
Definition AddScratch (s : State) (scratch : Scratch) : option State :=
  match Scratches s with
  | None => None
  | Some m =>
      Some {| Version := Version s; Experiments := Experiments s;
              Projects := Projects s;
              Scratches := Some (<[Scr_Name scratch := Some scratch]> m) |}
  end.

(** [State.GetScratch]. *)
Definition GetScratch (s : State) (name : string) : option Scratch :=
  match Scratches s with
  | None => None
  | Some m => default None (m !! name)
  end.

(** [State.RemoveScratch]. *)
Definition RemoveScratch (s : State) (name : string) : State :=
  {| Version := Version s; Experiments := Experiments s;
     Projects := Projects s;
     Scratches := match Scratches s with
                  | None => None
                  | Some m => Some (delete name m)
                  end |}.

(** [Config.GetRepoCopyFiles]: [None] is the nil slice. *)
Definition GetRepoCopyFiles (c : Config) (repoPath : string)
  : option (list string) :=
  match RepoSettingsMap c !! repoPath with
  | Some settings => CopyFiles settings
  | None => None
  end.

(** [Config.SetRepoCopyFiles]; the map of [Config] is never nil here, so
    the guard of the source does nothing. *)
Definition SetRepoCopyFiles (c : Config) (repoPath : string)
    (files : option (list string)) : Config :=
  {| BaseDir := BaseDir c; Agent := Agent c; AgentFlags := AgentFlags c;
     Editor := Editor c; AutoInit := AutoInit c; Repos := Repos c;
     RepoSettingsMap := <[repoPath := {| CopyFiles := files |}]> (RepoSettingsMap c);
     LastRepo := LastRepo c; TmuxSplitDirection := TmuxSplitDirection c |}.

(** ** Package git: status, log and worktree listing *)

(** [git.Status]. *)
Record GitStatus : Type := {
  Clean : bool;
  ModifiedFiles : list string;
  UntrackedFiles : list string;
  StagedFiles : list string;
  UncommittedCount : Z
}.

(** The body of the loop of [GetStatus] for one line. *)
Definition statusLine (status : GitStatus) (line : string) : GitStatus :=
  if String.eqb line "" then status
  else
    let counted :=
      {| Clean := false; ModifiedFiles := ModifiedFiles status;
         UntrackedFiles := UntrackedFiles status;
         StagedFiles := StagedFiles status;
         UncommittedCount := UncommittedCount status + 1 |} in
    match line with
    | String indexStatus (String workTreeStatus (String _ rest)) =>
        let file := TrimSpace rest in
        {| Clean := false;
           ModifiedFiles :=
             if Ascii.eqb workTreeStatus "M"
             then ModifiedFiles counted ++ [file] else ModifiedFiles counted;
           UntrackedFiles :=
             if Ascii.eqb indexStatus "?"
             then UntrackedFiles counted ++ [file] else UntrackedFiles counted;
           StagedFiles :=
             if negb (Ascii.eqb indexStatus " ")
                && negb (Ascii.eqb indexStatus "?")
             then StagedFiles counted ++ [file] else StagedFiles counted;
           UncommittedCount := UncommittedCount counted |}
    | _ => counted
    end.

Definition newline : ascii := ascii_of_N 10.

(** [GetStatus]: the status, or [None] with the error. *)
Definition GetStatus (repoPath : string) : prog (option GitStatus * error) :=
  r <- git Output repoPath ["status"; "--porcelain"] ;;
  match cmd_err r with
  | Some _ => Ret (None, cmd_err r)
  | None =>
      let status := {| Clean := true; ModifiedFiles := [];
                       UntrackedFiles := []; StagedFiles := [];
                       UncommittedCount := 0 |} in
      let lines := Split (TrimSpace (cmd_out r)) newline in
      Ret (Some (fold_left statusLine lines status), None)
  end.

Definition HasUncommittedChanges (repoPath : string) : prog (bool * error) :=
  r <- GetStatus repoPath ;;
  match r with
  | (Some status, None) => Ret (negb (Clean status), None)
  | (_, err) => Ret (false, err)
  end.

(** [string(rune(x))] for an [int] [x]: the conversion to [rune] keeps the
    low 32 bits, and a value that is no Unicode scalar gives U+FFFD. *)
Definition rune_of_int (x : Z) : Z := (x + 2 ^ 31) mod 2 ^ 32 - 2 ^ 31.

Definition string_of_rune (r : Z) : string :=
  let b (z : Z) : N := Z.to_N z in
  string_of_bytes
    (if (r <? 0) || (1114111 <? r) || ((55296 <=? r) && (r <=? 57343))
     then [239; 191; 189]%N
     else if r <? 128 then [b r]
     else if r <? 2048 then [b (192 + r / 64); b (128 + r mod 64)]
     else if r <? 65536 then
       [b (224 + r / 4096); b (128 + (r / 64) mod 64); b (128 + r mod 64)]
     else
       [b (240 + r / 262144); b (128 + (r / 4096) mod 64);
        b (128 + (r / 64) mod 64); b (128 + r mod 64)]).

(** [GetRecentCommits]: the commits, [None] being the nil slice. *)
Definition GetRecentCommits (repoPath : string) (count : Z)
  : prog (option (list string) * error) :=
  let n := if 9 <? count then "10"
           else string_of_rune (rune_of_int (48 + count)) in
  r <- git Output repoPath ["log"; "--oneline"; "-n"; n] ;;
  match cmd_err r with
  | Some _ => Ret (None, cmd_err r)
  | None =>
      let lines := Split (TrimSpace (cmd_out r)) newline in
      let commits := List.filter (fun line => negb (String.eqb line "")) lines in
      Ret (match commits with [] => None | _ => Some commits end, None)
  end.

(** [strings.HasPrefix] and [strings.TrimPrefix] in one: what follows the
    prefix, if the string starts with it. *)
Fixpoint afterPrefix (p s : string) : option string :=
  match p, s with
  | EmptyString, _ => Some s
  | String a p', String b s' => if Ascii.eqb a b then afterPrefix p' s' else None
  | String _ _, EmptyString => None
  end.

(** [ListWorktrees]. *)
Definition ListWorktrees (repoPath : string)
  : prog (option (list string) * error) :=
  r <- git Output repoPath ["worktree"; "list"; "--porcelain"] ;;
  match cmd_err r with
  | Some e => Ret (None, Some (fmt_Errorf_w "failed to list worktrees: " e))
  | None =>
      let worktrees :=
        omap (afterPrefix "worktree ") (Split (cmd_out r) newline) in
      Ret (match worktrees with [] => None | _ => Some worktrees end, None)
  end.

(** [CreateWorktree] (status.go): the older way, which checks out a branch
    that exists and creates one that does not. *)
Definition CreateWorktree (repoPath worktreePath branch : string)
  : prog error :=
  git Run repoPath ["fetch"; "origin"] ;;;
  v <- git Run repoPath ["rev-parse"; "--verify"; branch] ;;
  let branchExists := is_nil (cmd_err v) in
  args <- (if branchExists then Ret ["worktree"; "add"; worktreePath; branch]
           else
             defaultBranch <- GetDefaultBranch repoPath ;;
             Ret ["worktree"; "add"; "-b"; branch; worktreePath;
                  "origin/" +:+ defaultBranch]) ;;
  r <- git CombinedOutput repoPath args ;;
  Ret (worktreeError r).

(** ** Package cmd: the lists of the dashboard (root.go) *)

(** The slice that [for _, v := range m] appends the values of [m] to,
    when the range visits the keys in the order [order]; Go leaves that
    order open.  A nil map ranges over nothing. *)
Definition rangeValues {V : Type} (m : option (gmap string V))
    (order : list string) : list V :=
  omap (fun k => default ∅ m !! k) order.

(** One round of the inner loop: the test
    [result[j].LastUsed.After(result[i].LastUsed)] and the exchange.  [None]
    is the panic of a nil pointer dereferenced (or of an index out of
    range, which the loops never produce). *)
Definition exchangeStep {A : Type} (LastUsed : A -> Time) (i j : nat)
    (result : list (option A)) : option (list (option A)) :=
  match result !! j, result !! i with
  | Some (Some rj), Some (Some ri) =>
      if LastUsed ri <? LastUsed rj
      then Some (<[j := Some ri]> (<[i := Some rj]> result))
      else Some result
  | _, _ => None
  end.

(** [for j := ...; j < len(result); j++], by the number of rounds left. *)
Fixpoint innerLoop {A : Type} (LastUsed : A -> Time) (rounds i j : nat)
    (result : list (option A)) : option (list (option A)) :=
  match rounds with
  | O => Some result
  | S rounds' =>
      match exchangeStep LastUsed i j result with
      | Some result' => innerLoop LastUsed rounds' i (S j) result'
      | None => None
      end
  end.

(** [for i := ...; i < len(result)-1; i++], by the number of rounds left;
    the inner loop starts at [j := i + 1]. *)
Fixpoint outerLoop {A : Type} (LastUsed : A -> Time) (rounds i : nat)
    (result : list (option A)) : option (list (option A)) :=
  match rounds with
  | O => Some result
  | S rounds' =>
      match innerLoop LastUsed (List.length result - S i) i (S i) result with
      | Some result' => outerLoop LastUsed rounds' (S i) result'
      | None => None
      end
  end.

(** The two loops, which [sortExperimentsByLastUsed] and
    [sortScratchesByLastUsed] have word for word in common. *)
Definition sortByLastUsed {A : Type} (LastUsed : A -> Time)
    (result : list (option A)) : option (list (option A)) :=
  outerLoop LastUsed (List.length result - 1) 0 result.

(** [sortExperimentsByLastUsed]: the sorted slice, [None] for a panic. *)
Definition sortExperimentsByLastUsed
    (exps : option (gmap string (option Experiment))) (order : list string)
  : option (list (option Experiment)) :=
  sortByLastUsed Exp_LastUsed (rangeValues exps order).

(** [sortScratchesByLastUsed]. *)
Definition sortScratchesByLastUsed
    (scratches : option (gmap string (option Scratch))) (order : list string)
  : option (list (option Scratch)) :=
  sortByLastUsed Scr_LastUsed (rangeValues scratches order).

(** ** Package agent *)

Record LaunchOptions : Type := {
  AddDirs : list string;
  Flags : list string
}.

(** The two implementations of the interface [Agent]. *)
Inductive agent_Agent : Type :=
| ClaudeAgent
| GenericAgent (Command : string).

Definition Agent_Name (ag : agent_Agent) : string :=
  match ag with
  | ClaudeAgent => "claude"
  | GenericAgent command => command
  end.

(** [ClaudeAgent.Launch]. *)
Definition ClaudeAgent_Launch (workdir : string) (opts : LaunchOptions)
  : prog error :=
  let args := flat_map (fun dir => ["--add-dir"; dir]) (AddDirs opts) in
  let args := args ++ Flags opts in
  r <- call (Exec Run workdir "claude" args) ;;
  Ret (cmd_err r).

(** [GenericAgent.Launch]. *)
Definition GenericAgent_Launch (command workdir : string)
    (opts : LaunchOptions) : prog error :=
  let parts := Fields command in
  let parts := match parts with [] => ["claude"] | _ => parts end in
  let args := List.tl parts in
  let args := map (fun arg => if String.eqb arg "." then workdir else arg)
                  args in
  r <- call (Exec Run workdir (List.hd "" parts) args) ;;
  Ret (cmd_err r).

Definition Agent_Launch (ag : agent_Agent) (workdir : string)
    (opts : LaunchOptions) : prog error :=
  match ag with
  | ClaudeAgent => ClaudeAgent_Launch workdir opts
  | GenericAgent command => GenericAgent_Launch command workdir opts
  end.

(** [NewAgent]. *)
Definition NewAgent (agentCmd : string) : agent_Agent :=
  if String.eqb agentCmd "claude" || String.eqb agentCmd "" then ClaudeAgent
  else GenericAgent agentCmd.

(** ** Package cmd: unregistering a repository and scratch folders *)

(** [runRepoRemove].  Whether a path of the map expands to the last
    repository does not depend on the order of the range. *)
Definition runRepoRemove (args : list string) : prog error :=
  ld <- call config_Load ;;
  let '(cfg, err) := ld in
  match err with
  | Some e => Ret (Some (fmt_Errorf_w "failed to load config: " e))
  | None =>
  match args with
  | [] => Panic "index out of range [0] with length 0"
  | name :: _ =>
  match Repos cfg !! name with
  | None => Ret (Some (fmt_Errorf ("repository '" +:+ name +:+ "' not found")))
  | Some _ =>
      let cfg := setRepos cfg (delete name (Repos cfg)) in
      let cfg :=
        if negb (String.eqb (LastRepo cfg) "") then
          let found :=
            existsb (fun kv => String.eqb (ExpandPath (snd kv)) (LastRepo cfg))
                    (map_to_list (Repos cfg)) in
          if negb found then setLastRepo cfg "" else cfg
        else cfg in
      se <- call (Config_Save cfg) ;;
      match se with
      | Some e => Ret (Some (fmt_Errorf_w "failed to save config: " e))
      | None =>
          ui ui_Success ("Removed repository '" +:+ name +:+ "'") ;;;
          Ret None
      end
  end
  end
  end.

(** [Config.ScratchDir]. *)
Definition ScratchDir (c : Config) : string :=
  filepath_Join [GetBaseDir c; "scratch"].

(** [extractTicketFromName], which has the body of [extractTicket]. *)
Definition extractTicketFromName (name : string) : string :=
  let l := bytes (ToUpper name) in
  let letters := takeWhile isUpper l in
  match letters, skipn (List.length letters) l with
  | _ :: _, 45%N :: rest =>
      match takeWhile isDigit rest with
      | [] => ""
      | digits => string_of_bytes (letters ++ 45%N :: digits)
      end
  | _, _ => ""
  end.

(** The package-level flag variable of the [scratch] command. *)
Record ScratchFlags : Type := { scratchAgentFlag : string }.

(** [runScratch].  [writeScratchJSON] has the body of [writeJSON] and is
    the same event. *)
Definition runScratch (flags : ScratchFlags) (args : list string)
  : prog error :=
  ld <- call config_Load ;;
  let '(cfg, err) := ld in
  match err with
  | Some e => Ret (Some (fmt_Errorf_w "failed to load config: " e))
  | None =>
  nm <- (match args with
         | a :: _ => Ret (a, None)
         | [] => call (PromptRun {| Label := "Scratch folder name";
                                    IsConfirm := false; Default := "" |})
         end) ;;
  let '(scratchName, err) := nm in
  match err with
  | Some e => Ret (Some e)
  | None =>
  if negb (isValidScratchName scratchName) then
    Ret (Some (fmt_Errorf
      "invalid scratch name: use alphanumeric, hyphens, underscores only"))
  else
  let scratchPath := filepath_Join [ScratchDir cfg; scratchName] in
  ls <- LoadState cfg ;;
  match ls with
  | (_, Some e) => Ret (Some (fmt_Errorf_w "failed to load state: " e))
  | (None, None) => Panic "nil pointer dereference"
  | (Some state, None) =>
  match GetScratch state scratchName with
  | Some existing =>
      ui ui_Warn ("Scratch '" +:+ scratchName +:+ "' already exists") ;;;
      ui ui_KeyValue ("Path: " +:+ Scr_Path existing) ;;;
      pr <- call (PromptRun {| Label := "Resume existing scratch";
                               IsConfirm := true; Default := "" |}) ;;
      if is_nil (snd pr) then
        call (launchAgent cfg (Scr_Path existing) (scratchAgentFlag flags))
      else Ret None
  | None =>
      ui ui_Header ("Creating scratch: " +:+ scratchName) ;;;
      ui ui_KeyValue ("Path: " +:+ scratchPath) ;;;
      me <- call (MkdirAll scratchPath) ;;
      match me with
      | Some e =>
          Ret (Some (fmt_Errorf_w "failed to create scratch directory: " e))
      | None =>
          ui ui_Info "Initializing .claude/ configuration..." ;;;
          ie <- call (InitRepo scratchPath) ;;
          (match ie with
           | Some err =>
               ui ui_Warn ("Failed to initialize .claude/: " +:+ Error err)
           | None => Ret tt
           end) ;;;
          let ticket := extractTicketFromName scratchName in
          now0 <- call TimeNow ;;
          let cladeMetadata :=
            [("type", "scratch"); ("name", scratchName); ("ticket", ticket);
             ("created", Format_RFC3339 now0)] in
          we <- call (writeJSON (filepath_Join [scratchPath; ".clade.json"])
                        cladeMetadata) ;;
          (match we with
           | Some err => ui ui_Warn ("Failed to write .clade.json: " +:+ Error err)
           | None => Ret tt
           end) ;;;
          now1 <- call TimeNow ;;
          now2 <- call TimeNow ;;
          let scratch := {| Scr_Name := scratchName; Scr_Path := scratchPath;
                            Scr_Ticket := ticket; Scr_Created := now1;
                            Scr_LastUsed := now2 |} in
          match AddScratch state scratch with
          | None => Panic "assignment to entry in nil map"
          | Some state =>
              se <- State_Save state cfg ;;
              (match se with
               | Some err => ui ui_Warn ("Failed to save state: " +:+ Error err)
               | None => Ret tt
               end) ;;;
              ui ui_Success "Scratch folder created!" ;;;
              call (launchAgent cfg scratchPath (scratchAgentFlag flags))
          end
      end
  end
  end
  end
  end.

(** ** More effects *)

(** The calls of the commands that copy files, open an editor, clean up
    and prepare a repository, beside those above: [os.RemoveAll],
    [os.Getenv], [cmd.Start], [fmt.Println()], a file opened and read by a
    [bufio.Scanner] (the lines it yields, or the error of [os.Open]),
    [copyFile] of package [files], a file opened by [os.OpenFile] to be
    written at its end and created if missing, the error of
    [f.WriteString], and [f.Close()]. *)
Inductive XEvent : Type -> Type :=
| Core {X : Type} (e : Event X) : XEvent X
| RemoveAll (path : string) : XEvent error
| Getenv (key : string) : XEvent string
| Start (dir name : string) (args : list string) : XEvent error
| Println : XEvent unit
| ScanFile (path : string) : XEvent (list string * error)
| copyFile (src dst : string) : XEvent error
| OpenAppend (path : string) : XEvent error
| WriteString (path s : string) : XEvent error
| CloseFile (path : string) : XEvent error.

Inductive xprog (R : Type) : Type :=
| XRet (r : R)
| XPanic (msg : string)
| XPrint (o : Output_line) (k : xprog R)
| XVis {X : Type} (e : XEvent X) (k : X -> xprog R).

Arguments XRet {R} r.
Arguments XPanic {R} msg.
Arguments XPrint {R} o k.
Arguments XVis {R X} e k.

Fixpoint xbind {A B : Type} (p : xprog A) (f : A -> xprog B) : xprog B :=
  match p with
  | XRet a => f a
  | XPanic m => XPanic m
  | XPrint o k => XPrint o (xbind k f)
  | XVis e k => XVis e (fun x => xbind (k x) f)
  end.

(** A program over the first events, as one over these. *)
Fixpoint lift {R : Type} (p : prog R) : xprog R :=
  match p with
  | Ret r => XRet r
  | Panic m => XPanic m
  | Print o k => XPrint o (lift k)
  | Vis e k => XVis (Core e) (fun x => lift (k x))
  end.

Definition xcall {X : Type} (e : XEvent X) : xprog X := XVis e XRet.

Definition xui (k : ui_kind) (msg : string) : xprog unit :=
  XPrint {| ui_fn := k; ui_text := msg |} (XRet tt).

Inductive XItem : Type :=
| XPrinted (o : Output_line)
| XDid {X : Type} (e : XEvent X) (x : X).

Definition XHandler (W : Type) : Type :=
  forall X : Type, XEvent X -> W -> X * W.

Fixpoint xrun {W R : Type} (h : XHandler W) (p : xprog R) (w : W)
  : Outcome R * W * list XItem :=
  match p with
  | XRet r => (Returned r, w, [])
  | XPanic m => (Panicked m, w, [])
  | XPrint o k =>
      let '(r, w', t) := xrun h k w in (r, w', XPrinted o :: t)
  | XVis e k =>
      let '(x, w1) := h _ e w in
      let '(r, w2, t) := xrun h (k x) w1 in
      (r, w2, XDid e x :: t)
  end.

Declare Scope xprog_scope.
Notation "x <- p ;; q" := (xbind p (fun x => q))
  (at level 100, p at next level, right associativity) : xprog_scope.
Notation "p ;;; q" := (xbind p (fun _ => q))
  (at level 100, right associativity) : xprog_scope.
Local Open Scope xprog_scope.

(** ** Package strings, continued *)

(** [strings.HasPrefix]. *)
Definition HasPrefix (s prefix : string) : bool := String.prefix prefix s.

(** [strings.HasSuffix]. *)
Definition HasSuffix (s suffix : string) : bool :=
  (String.length suffix <=? String.length s)%nat
  && String.eqb (substring (String.length s - String.length suffix)
                           (String.length suffix) s) suffix.

(** [strings.TrimSuffix]. *)
Definition TrimSuffix (s suffix : string) : string :=
  if HasSuffix s suffix
  then substring 0 (String.length s - String.length suffix) s
  else s.

(** [strings.Contains]. *)
Fixpoint Contains (s substr : string) : bool :=
  String.prefix substr s
  || match s with
     | EmptyString => false
     | String _ s' => Contains s' substr
     end.

(** Functions of the library that the program is not made to depend on
    here: [strings.ToLower]. *)
Class GoStrings : Type := { ToLower : string -> string }.

Context {strs : GoStrings}.

(** ** Package files *)

Definition CommonIgnoredFiles : list string :=
  [".env"; ".env.local"; ".envrc"; ".npmrc"; ".yarnrc"; "config/local.json";
   "config/local.yaml"; "config/local.yml"; ".vscode/settings.json"].

(** [contains]. *)
Definition contains (slice : list string) (s : string) : bool :=
  existsb (fun item => String.eqb item s) slice.

(** [line[1:]]. *)
Definition fromSecondByte (line : string) : string :=
  match line with
  | EmptyString => EmptyString
  | String _ rest => rest
  end.

(** The body of the loop of [isGitignored] for one line of the scanner:
    whether it returns [true]. *)
Definition ignoreLine (text relPath : string) : bool :=
  let line := TrimSpace text in
  if String.eqb line "" || HasPrefix line "#" then false
  else if String.eqb line relPath then true
  else if HasPrefix line "*." && HasSuffix relPath (fromSecondByte line)
  then true
  else if HasSuffix line "/" && HasPrefix relPath line then true
  else if HasSuffix line "*" then
    let prefix := TrimSuffix line "*" in
    HasPrefix relPath prefix
  else false.

(** The loop of [isGitignored] over the lines. *)
Fixpoint scanIgnore (lines : list string) (relPath : string) : bool :=
  match lines with
  | [] => false
  | text :: rest =>
      if ignoreLine text relPath then true else scanIgnore rest relPath
  end.

(** [isGitignored]. *)
Definition isGitignored (repoPath relPath : string) : xprog bool :=
  let gitignorePath := filepath_Join [repoPath; ".gitignore"] in
  sc <- xcall (ScanFile gitignorePath) ;;
  match snd sc with
  | Some _ => XRet false
  | None => XRet (scanIgnore (fst sc) relPath)
  end.

(** The first loop of [FindGitignored], over the common patterns. *)
Fixpoint findCommon (repoPath : string) (patterns found : list string)
  : xprog (list string) :=
  match patterns with
  | [] => XRet found
  | pattern :: rest =>
      let fullPath := filepath_Join [repoPath; pattern] in
      st <- xcall (Core (Stat fullPath)) ;;
      match st with
      | None =>
          ig <- isGitignored repoPath pattern ;;
          if ig then findCommon repoPath rest (found ++ [pattern])
          else findCommon repoPath rest found
      | Some _ => findCommon repoPath rest found
      end
  end.

(** The second loop, over the entries of the repository. *)
Fixpoint findEnv (repoPath : string) (entries : list DirEntry)
    (found : list string) : xprog (list string) :=
  match entries with
  | [] => XRet found
  | entry :: rest =>
      let name := Entry_Name entry in
      if HasPrefix name ".env" && negb (Entry_IsDir entry) then
        ig <- isGitignored repoPath name ;;
        if ig then
          if negb (contains found name)
          then findEnv repoPath rest (found ++ [name])
          else findEnv repoPath rest found
        else findEnv repoPath rest found
      else findEnv repoPath rest found
  end.

(** The third loop, over the entries of its [config] directory. *)
Fixpoint findConfig (repoPath : string) (entries : list DirEntry)
    (found : list string) : xprog (list string) :=
  match entries with
  | [] => XRet found
  | entry :: rest =>
      if Entry_IsDir entry then findConfig repoPath rest found
      else
        let name := Entry_Name entry in
        let relPath := filepath_Join ["config"; name] in
        if Contains (ToLower name) "local" || Contains (ToLower name) "secret"
           || Contains (ToLower name) "dev"
        then
          ig <- isGitignored repoPath relPath ;;
          if ig then
            if negb (contains found relPath)
            then findConfig repoPath rest (found ++ [relPath])
            else findConfig repoPath rest found
          else findConfig repoPath rest found
        else findConfig repoPath rest found
  end.

(** [FindGitignored]. *)
Definition FindGitignored (repoPath : string) : xprog (list string) :=
  found <- findCommon repoPath CommonIgnoredFiles [] ;;
  rd <- xcall (Core (ReadDir repoPath)) ;;
  found <- (if is_nil (snd rd) then findEnv repoPath (fst rd) found
            else XRet found) ;;
  let configDir := filepath_Join [repoPath; "config"] in
  rd <- xcall (Core (ReadDir configDir)) ;;
  if is_nil (snd rd) then findConfig repoPath (fst rd) found
  else XRet found.

(** [CopyFiles] of package [files]. *)
Fixpoint files_CopyFiles (srcDir dstDir : string) (files : list string)
  : xprog error :=
  match files with
  | [] => XRet None
  | relPath :: rest =>
      let srcPath := filepath_Join [srcDir; relPath] in
      let dstPath := filepath_Join [dstDir; relPath] in
      e <- xcall (Core (MkdirAll (filepath_Dir dstPath))) ;;
      match e with
      | Some _ => XRet e
      | None =>
          e <- xcall (copyFile srcPath dstPath) ;;
          match e with
          | Some _ => XRet e
          | None => files_CopyFiles srcDir dstDir rest
          end
      end
  end.

(** ** Package cmd: copying the ignored files *)

(** The loop of [selectFilesToCopy]; [None] is the nil slice. *)
Fixpoint selectLoop (detected : list string) (selected : option (list string))
  : xprog (option (list string)) :=
  match detected with
  | [] => XRet selected
  | file :: rest =>
      pr <- xcall (Core (PromptRun {| Label := "Copy " +:+ file;
                                      IsConfirm := true; Default := "y" |})) ;;
      if is_nil (snd pr)
      then selectLoop rest (Some (default [] selected ++ [file]))
      else selectLoop rest selected
  end.

(** [selectFilesToCopy]. *)
Definition selectFilesToCopy (detected : list string)
  : xprog (option (list string) * error) :=
  selected <- selectLoop detected None ;;
  (if (0 <? List.length detected)%nat then
     xcall Println ;;;
     xui ui_Detail
       "These preferences will be saved for future experiments from this repo."
   else XRet tt) ;;;
  XRet (selected, None).

(** [for _, f := range files { ui.Detail(format, f) }]. *)
Fixpoint detailEach (prefix : string) (files : list string) : xprog unit :=
  match files with
  | [] => XRet tt
  | f :: rest => xui ui_Detail (prefix +:+ f) ;;; detailEach prefix rest
  end.

(** The body of [copyGitignoredFiles]: the configuration as the call leaves
    it, and the error returned. *)
Definition copyGitignoredFiles_body (cfg : Config) (srcRepo dstPath : string)
  : xprog (Config * error) :=
  let savedFiles := GetRepoCopyFiles cfg srcRepo in
  match savedFiles with
  | Some savedFiles =>
      if (0 <? List.length savedFiles)%nat then
        xui ui_Info "Copying saved file preferences..." ;;;
        e <- files_CopyFiles srcRepo dstPath savedFiles ;;
        match e with
        | Some _ => XRet (cfg, e)
        | None => detailEach "  Copied " savedFiles ;;; XRet (cfg, None)
        end
      else XRet (cfg, None)
  | None =>
      detected <- FindGitignored srcRepo ;;
      if (List.length detected =? 0)%nat then XRet (cfg, None)
      else
        xcall Println ;;;
        xui ui_Info "Found gitignored files in source repo:" ;;;
        detailEach "  " detected ;;;
        xcall Println ;;;
        sel <- selectFilesToCopy detected ;;
        let '(selected, err) := sel in
        match err with
        | Some _ => XRet (cfg, None)
        | None =>
            let cfg := SetRepoCopyFiles cfg srcRepo selected in
            se <- xcall (Core (Config_Save cfg)) ;;
            (match se with
             | Some err =>
                 xui ui_Warn ("Failed to save file preferences: " +:+ Error err)
             | None => XRet tt
             end) ;;;
            if (0 <? List.length (default [] selected))%nat then
              xui ui_Info "Copying selected files..." ;;;
              e <- files_CopyFiles srcRepo dstPath (default [] selected) ;;
              match e with
              | Some _ => XRet (cfg, e)
              | None =>
                  detailEach "  Copied " (default [] selected) ;;;
                  XRet (cfg, None)
              end
            else XRet (cfg, None)
        end
  end.

Local Close Scope xprog_scope.

(** ** Package agent: the editor *)

Local Open Scope xprog_scope.

Record EditorOptions : Type := { Editor_TmuxSplitDirection : string }.

(** [inTmux]. *)
Definition inTmux : xprog bool :=
  v <- xcall (Getenv "TMUX") ;;
  XRet (negb (String.eqb v "")).

(** [openCursor]. *)
Definition openCursor (workdir : string) : xprog error :=
  xcall (Start workdir "cursor" [workdir]).

(** [openVSCode]. *)
Definition openVSCode (workdir : string) : xprog error :=
  xcall (Start workdir "code" [workdir]).

(** [openNvim]. *)
Definition openNvim (workdir : string) (opts : EditorOptions) : xprog error :=
  tmux <- inTmux ;;
  if negb tmux then
    XRet (Some (fmt_Errorf
                  "nvim requires tmux (run inside tmux for split panes)"))
  else
    let splitFlag :=
      if String.eqb (Editor_TmuxSplitDirection opts) "vertical" then "-v"
      else "-h" in
    xcall (Start workdir "tmux"
             ["split-window"; splitFlag; "-c"; workdir; "nvim"; "."]).

(** [openGeneric]. *)
Definition openGeneric (workdir editor : string) : xprog error :=
  xcall (Start workdir editor [workdir]).

(** [OpenEditor]. *)
Definition OpenEditor (workdir editor : string) (opts : EditorOptions)
  : xprog error :=
  if String.eqb editor "cursor" then openCursor workdir
  else if String.eqb editor "code" then openVSCode workdir
  else if String.eqb editor "nvim" || String.eqb editor "neovim"
          || String.eqb editor "vim"
  then openNvim workdir opts
  else if String.eqb editor "" then XRet None
  else openGeneric workdir editor.

(** ** Package cmd: launching *)

(** The body of [launchAgent]. *)
Definition launchAgent_body (cfg : Config) (workdir agentOverride : string)
  : xprog error :=
  let agentCmd := if negb (String.eqb agentOverride "") then agentOverride
                  else Agent cfg in
  xui ui_Info ("Launching " +:+ agentCmd +:+ "...") ;;;
  xcall Println ;;;
  let ag := NewAgent agentCmd in
  let opts := {| AddDirs := []; Flags := AgentFlags cfg |} in
  lift (Agent_Launch ag workdir opts).

(** The body of [launchSession]. *)
Definition launchSession_body (cfg : Config) (workdir editorOverride : string)
    (noAgent noEditor : bool) : xprog error :=
  let editor := if negb (String.eqb editorOverride "") then editorOverride
                else Editor cfg in
  (if negb noEditor && negb (String.eqb editor "") then
     let opts := {| Editor_TmuxSplitDirection := TmuxSplitDirection cfg |} in
     e <- OpenEditor workdir editor opts ;;
     match e with
     | Some err => xui ui_Warn ("Could not open editor: " +:+ Error err)
     | None => xui ui_Info ("Opened " +:+ editor)
     end
   else XRet tt) ;;;
  if negb noAgent && negb (String.eqb (Agent cfg) "") then
    xui ui_Info ("Launching " +:+ Agent cfg +:+ "...") ;;;
    xcall Println ;;;
    let ag := NewAgent (Agent cfg) in
    let opts := {| AddDirs := []; Flags := AgentFlags cfg |} in
    lift (Agent_Launch ag workdir opts)
  else XRet None.

Local Close Scope xprog_scope.

(** ** Package git: removing *)

(** [RemoveWorktree]. *)
Definition RemoveWorktree (repoPath worktreePath : string) : prog error :=
  r <- git CombinedOutput repoPath
         ["worktree"; "remove"; worktreePath; "--force"] ;;
  match cmd_err r with
  | Some e =>
      Ret (Some (fmt_Errorf_w
                   ("failed to remove worktree: " +:+ cmd_out r +:+ ": ") e))
  | None => Ret None
  end.

(** [DeleteBranch]. *)
Definition DeleteBranch (repoPath branch : string) : prog error :=
  r <- git CombinedOutput repoPath ["branch"; "-D"; branch] ;;
  match cmd_err r with
  | Some e =>
      Ret (Some (fmt_Errorf_w
                   ("failed to delete branch: " +:+ cmd_out r +:+ ": ") e))
  | None => Ret None
  end.

(** ** Package cmd: cleaning up *)

Local Open Scope xprog_scope.

(** [state.Save(cfg)] with its warning, as the cleanup functions end. *)
Definition saveOrWarn (state : State) (cfg : Config) : xprog unit :=
  se <- lift (State_Save state cfg) ;;
  match se with
  | Some err => xui ui_Warn ("Failed to save state: " +:+ Error err)
  | None => XRet tt
  end.

(** The removal of the worktree in [cleanupExperiment] (part_007, lines
    137-142): by git, and when that fails by removing the directory; the
    error is that of the second removal. *)
Definition removeWorktreeOrTree (exp : Experiment) : xprog error :=
  re <- lift (RemoveWorktree (Exp_Repo exp) (Exp_Path exp)) ;;
  match re with
  | Some _ => xcall (RemoveAll (Exp_Path exp))
  | None => XRet None
  end.

(** Whether the branch is to be deleted (lines 146-154). *)
Definition askDeleteBranch (cleanupForceFlag : bool) (branch : string)
  : xprog bool :=
  if negb cleanupForceFlag then
    pr <- xcall (Core (PromptRun {| Label := "Delete branch " +:+ branch;
                                    IsConfirm := true; Default := "" |})) ;;
    XRet (is_nil (snd pr))
  else XRet cleanupForceFlag.

(** The deletion of the branch (lines 157-162). *)
Definition deleteBranchOrWarn (exp : Experiment) : xprog unit :=
  xui ui_Info "Deleting branch..." ;;;
  de <- lift (DeleteBranch (Exp_Repo exp) (Exp_Branch exp)) ;;
  match de with
  | Some err => xui ui_Warn ("Failed to delete branch: " +:+ Error err)
  | None => xui ui_Success "Branch deleted"
  end.

(** [cleanupExperiment] from the removal of the worktree on (lines
    135-172). *)
Definition cleanupExperiment_remove (cleanupForceFlag : bool) (cfg : Config)
    (state : State) (key : string) (exp : Experiment)
  : xprog (State * error) :=
  xui ui_Info "Removing worktree..." ;;;
  rm <- removeWorktreeOrTree exp ;;
  match rm with
  | Some err =>
      XRet (state, Some (fmt_Errorf_w "failed to remove worktree: " err))
  | None =>
      xui ui_Success "Worktree removed" ;;;
      deleteBranch <- askDeleteBranch cleanupForceFlag (Exp_Branch exp) ;;
      (if deleteBranch then deleteBranchOrWarn exp else XRet tt) ;;;
      let state := RemoveExperiment state key in
      saveOrWarn state cfg ;;;
      xui ui_Success ("Cleaned up experiment '" +:+ Exp_Name exp +:+ "'") ;;;
      XRet (state, None)
  end.

(** [cleanupExperiment]: the state as the call leaves it, and the error
    returned. *)
Definition cleanupExperiment (cleanupForceFlag : bool) (cfg : Config)
    (state : State) (key : string) (exp : Experiment)
  : xprog (State * error) :=
  xui ui_Header ("Experiment: " +:+ Exp_Name exp) ;;;
  xui ui_KeyValue ("Path: " +:+ Exp_Path exp) ;;;
  xui ui_KeyValue ("Branch: " +:+ Exp_Branch exp) ;;;
  xcall Println ;;;
  hc <- lift (HasUncommittedChanges (Exp_Path exp)) ;;
  if fst hc then
    xui ui_Warn "Uncommitted changes detected" ;;;
    if negb cleanupForceFlag then
      pr <- xcall (Core (PromptRun {| Label := "Discard changes and continue";
                                      IsConfirm := true; Default := "" |})) ;;
      match snd pr with
      | Some _ =>
          xui ui_Info "Cleanup cancelled" ;;;
          XRet (state, None)
      | None => cleanupExperiment_remove cleanupForceFlag cfg state key exp
      end
    else cleanupExperiment_remove cleanupForceFlag cfg state key exp
  else cleanupExperiment_remove cleanupForceFlag cfg state key exp.

(** The count of the entries of a scratch folder that are not hidden. *)
Definition countVisible (entries : list DirEntry) : Z :=
  fold_left (fun fileCount e =>
               if negb (HasPrefix (Entry_Name e) ".") then fileCount + 1
               else fileCount)
            entries 0.

(** [cleanupScratch] from the removal of the folder on. *)
Definition cleanupScratch_remove (cfg : Config) (state : State)
    (name : string) (scratch : Scratch) : xprog (State * error) :=
  xui ui_Info "Removing scratch folder..." ;;;
  rm <- xcall (RemoveAll (Scr_Path scratch)) ;;
  match rm with
  | Some err =>
      XRet (state, Some (fmt_Errorf_w "failed to remove scratch folder: " err))
  | None =>
      xui ui_Success "Folder removed" ;;;
      let state := RemoveScratch state name in
      saveOrWarn state cfg ;;;
      xui ui_Success ("Cleaned up scratch '" +:+ Scr_Name scratch +:+ "'") ;;;
      XRet (state, None)
  end.

(** [cleanupScratch]. *)
Definition cleanupScratch (cleanupForceFlag : bool) (cfg : Config)
    (state : State) (name : string) (scratch : Scratch)
  : xprog (State * error) :=
  xui ui_Header ("Scratch: " +:+ Scr_Name scratch) ;;;
  xui ui_KeyValue ("Path: " +:+ Scr_Path scratch) ;;;
  xcall Println ;;;
  rd <- xcall (Core (ReadDir (Scr_Path scratch))) ;;
  let '(entries, err) := rd in
  if is_nil err && (0 <? List.length entries)%nat then
    let fileCount := countVisible entries in
    if (0 <? fileCount) && negb cleanupForceFlag then
      xui ui_Warn ("Scratch folder contains " +:+ pretty fileCount
                   +:+ " file(s)") ;;;
      pr <- xcall (Core (PromptRun
                           {| Label := "Delete all contents and continue";
                              IsConfirm := true; Default := "" |})) ;;
      match snd pr with
      | Some _ =>
          xui ui_Info "Cleanup cancelled" ;;;
          XRet (state, None)
      | None => cleanupScratch_remove cfg state name scratch
      end
    else cleanupScratch_remove cfg state name scratch
  else cleanupScratch_remove cfg state name scratch.

Local Close Scope xprog_scope.

(** ** Package cmd: cleaning up a project *)

Local Open Scope xprog_scope.

(** [delete(state.Projects, name)]. *)
Definition deleteProject (state : State) (name : string) : State :=
  {| Version := Version state; Experiments := Experiments state;
     Projects := match Projects state with
                 | None => None
                 | Some m => Some (delete name m)
                 end;
     Scratches := Scratches state |}.

(** The loop of [cleanupProject] that looks for uncommitted changes. *)
Fixpoint warnChanges (projPath : string) (repos : list ProjectRepo)
    (hasAnyChanges : bool) : xprog bool :=
  match repos with
  | [] => XRet hasAnyChanges
  | repo :: rest =>
      let repoPath := filepath_Join [projPath; PR_Name repo] in
      hc <- lift (HasUncommittedChanges repoPath) ;;
      if fst hc then
        xui ui_Warn ("Uncommitted changes in " +:+ PR_Name repo) ;;;
        warnChanges projPath rest true
      else warnChanges projPath rest hasAnyChanges
  end.

(** The loop that removes the worktrees; the error of [os.RemoveAll] is
    dropped. *)
Fixpoint removeWorktrees (projPath : string) (repos : list ProjectRepo)
  : xprog unit :=
  match repos with
  | [] => XRet tt
  | repo :: rest =>
      let repoPath := filepath_Join [projPath; PR_Name repo] in
      re <- lift (RemoveWorktree (PR_Source repo) repoPath) ;;
      (match re with
       | Some _ => xcall (RemoveAll repoPath) ;;; XRet tt
       | None => XRet tt
       end) ;;;
      xui ui_Success ("Removed " +:+ PR_Name repo) ;;;
      removeWorktrees projPath rest
  end.

(** The loop that deletes the branch in every repository. *)
Fixpoint deleteBranches (branch : string) (repos : list ProjectRepo)
  : xprog unit :=
  match repos with
  | [] => XRet tt
  | repo :: rest =>
      de <- lift (DeleteBranch (PR_Source repo) branch) ;;
      (match de with
       | Some err =>
           xui ui_Warn ("Failed to delete branch in " +:+ PR_Name repo +:+ ": "
                        +:+ Error err)
       | None => xui ui_Success ("Deleted branch in " +:+ PR_Name repo)
       end) ;;;
      deleteBranches branch rest
  end.

(** [cleanupProject] from the removal of the worktrees on (part_007, lines
    209-252). *)
Definition cleanupProject_remove (cleanupForceFlag : bool) (cfg : Config)
    (state : State) (name : string) (proj : Project)
  : xprog (State * error) :=
  xui ui_Info "Removing worktrees..." ;;;
  removeWorktrees (Proj_Path proj) (Proj_Repos proj) ;;;
  xcall (RemoveAll (Proj_Path proj)) ;;;
  deleteBranch <- (if negb cleanupForceFlag then
                     pr <- xcall (Core (PromptRun
                             {| Label := "Delete branch " +:+ Proj_Branch proj
                                         +:+ " from all repos";
                                IsConfirm := true; Default := "" |})) ;;
                     XRet (is_nil (snd pr))
                   else XRet cleanupForceFlag) ;;
  (if deleteBranch then
     xui ui_Info "Deleting branches..." ;;;
     deleteBranches (Proj_Branch proj) (Proj_Repos proj)
   else XRet tt) ;;;
  let state := deleteProject state name in
  saveOrWarn state cfg ;;;
  xui ui_Success ("Cleaned up project '" +:+ Proj_Name proj +:+ "'") ;;;
  XRet (state, None).

(** [cleanupProject]. *)
Definition cleanupProject (cleanupForceFlag : bool) (cfg : Config)
    (state : State) (name : string) (proj : Project)
  : xprog (State * error) :=
  xui ui_Header ("Project: " +:+ Proj_Name proj) ;;;
  xui ui_KeyValue ("Path: " +:+ Proj_Path proj) ;;;
  xui ui_KeyValue ("Branch: " +:+ Proj_Branch proj) ;;;
  let repoNames := map PR_Name (Proj_Repos proj) in
  xui ui_KeyValue ("Repos: [" +:+ String.concat " " repoNames +:+ "]") ;;;
  xcall Println ;;;
  hasAnyChanges <- warnChanges (Proj_Path proj) (Proj_Repos proj) false ;;
  if hasAnyChanges && negb cleanupForceFlag then
    pr <- xcall (Core (PromptRun {| Label := "Discard all changes and continue";
                                    IsConfirm := true; Default := "" |})) ;;
    match snd pr with
    | Some _ =>
        xui ui_Info "Cleanup cancelled" ;;;
        XRet (state, None)
    | None => cleanupProject_remove cleanupForceFlag cfg state name proj
    end
  else cleanupProject_remove cleanupForceFlag cfg state name proj.

Local Close Scope xprog_scope.

(** ** Package cmd: preparing a repository for the agent *)

Local Open Scope xprog_scope.

Definition LF : string := String newline "".

(** A string between two double quotes. *)
Definition quoted (s : string) : string :=
  String (ascii_of_N 34) s +:+ String (ascii_of_N 34) "".

(** The content [writeSettingsJSON] writes. *)
Definition settingsJSON : string :=
  String.concat LF
    ["{";
     "  " +:+ quoted "hooks" +:+ ": {";
     "    " +:+ quoted "SessionStart" +:+ ": [";
     "      {";
     "        " +:+ quoted "matcher" +:+ ": " +:+ quoted "*" +:+ ",";
     "        " +:+ quoted "hooks" +:+ ": [";
     "          {";
     "            " +:+ quoted "type" +:+ ": " +:+ quoted "command" +:+ ",";
     "            " +:+ quoted "command" +:+ ": "
       +:+ quoted "clade inject-context";
     "          }";
     "        ]";
     "      }";
     "    ]";
     "  }";
     "}";
     ""].

(** The content [writeDropCommand] writes. *)
Definition dropCommand : string :=
  String.concat LF
    ["Write a DROPBAG.md file in the repo root with the following sections:";
     "";
     "## Summary";
     "What we accomplished this session. Be specific about changes made.";
     "";
     "## Current State";
     "What's working, what's broken, what's partially implemented.";
     "";
     "## Next Steps";
     "Exact actions to continue (be specific - file names, function names, etc.).";
     "";
     "## Key Files";
     "Files to look at first when resuming. Include line numbers if relevant.";
     "";
     "## Open Questions";
     "Anything unresolved or decisions that need to be made.";
     "";
     "---";
     "";
     "Save the file to DROPBAG.md in the repository root, then confirm it's written.";
     ""].

(** [writeSettingsJSON] and [writeDropCommand]. *)
Definition writeSettingsJSON (path : string) : xprog error :=
  xcall (Core (WriteFile path settingsJSON)).

Definition writeDropCommand (path : string) : xprog error :=
  xcall (Core (WriteFile path dropCommand)).

Definition linesToAdd : list string := ["DROPBAG.md"; ".clade.json"].

(** The last loop of [updateGitignore]; it returns at the first error. *)
Fixpoint writeLines (path : string) (toAdd : list string) : xprog error :=
  match toAdd with
  | [] => XRet None
  | line :: rest =>
      we <- xcall (WriteString path (line +:+ LF)) ;;
      match we with
      | Some e => XRet (Some e)
      | None => writeLines path rest
      end
  end.

(** [updateGitignore].  The content stays empty when the file cannot be
    read; the deferred [f.Close()] runs on every return after the file was
    opened, its error dropped. *)
Definition updateGitignore (path : string) : xprog error :=
  rd <- xcall (Core (ReadFile path)) ;;
  let existingContent := if is_nil (snd rd) then fst rd else "" in
  let toAdd :=
    List.filter (fun line => negb (Contains existingContent line))
      linesToAdd in
  if (List.length toAdd =? 0)%nat then XRet None
  else
    oe <- xcall (OpenAppend path) ;;
    match oe with
    | Some e => XRet (Some e)
    | None =>
        res <- (e1 <- (if (0 <? String.length existingContent)%nat
                          && negb (HasSuffix existingContent LF)
                       then xcall (WriteString path LF)
                       else XRet None) ;;
                match e1 with
                | Some e => XRet (Some e)
                | None =>
                    e2 <- (if negb (Contains existingContent "# Clade")
                           then xcall (WriteString path
                                         (LF +:+ "# Clade" +:+ LF))
                           else XRet None) ;;
                    match e2 with
                    | Some e => XRet (Some e)
                    | None => writeLines path toAdd
                    end
                end) ;;
        xcall (CloseFile path) ;;;
        XRet res
    end.

(** The functions of the standard library that [config.Load] and
    [Config.Save] call beyond those above: the configuration directory of
    the user, and the JSON reader and writer for a configuration.  The
    reader is given the configuration to fill, as [json.Unmarshal] is. *)
Class GoConfig : Type := {
  os_UserConfigDir : string * error;
  json_Unmarshal_Config : string -> Config -> Config * error;
  json_MarshalIndent_Config : Config -> string * error
}.

Context {cfgio : GoConfig}.

(** [DefaultConfig]; the error of [os.UserHomeDir] is dropped. *)
Definition DefaultConfig : Config :=
  let homeDir := fst os_UserHomeDir in
  {| BaseDir := filepath_Join [homeDir; "clade"]; Agent := "claude";
     AgentFlags := []; Editor := ""; AutoInit := true; Repos := ∅;
     RepoSettingsMap := ∅; LastRepo := "";
     TmuxSplitDirection := "horizontal" |}.

(** [ConfigPath]. *)
Definition ConfigPath : string * error :=
  let '(configDir, err) := os_UserConfigDir in
  match err with
  | Some e => ("", Some e)
  | None => (filepath_Join [configDir; "clade"; "config.json"], None)
  end.

(** [Config.Save]. *)
Definition Config_Save_body (c : Config) : xprog error :=
  let '(configPath, err) := ConfigPath in
  match err with
  | Some e => XRet (Some e)
  | None =>
      me <- xcall (Core (MkdirAll (filepath_Dir configPath))) ;;
      match me with
      | Some e => XRet (Some e)
      | None =>
          let '(data, err) := json_MarshalIndent_Config c in
          match err with
          | Some e => XRet (Some e)
          | None => xcall (Core (WriteFile configPath data))
          end
      end
  end.

(** [config.Load]: the configuration, or [None] with the error.  A
    configuration of this development has no nil map, so the two steps that
    replace a nil map by an empty one (config.go, lines 78-83) leave it as
    it is. *)
Definition config_Load_body : xprog (option Config * error) :=
  let '(configPath, err) := ConfigPath in
  match err with
  | Some e => XRet (None, Some e)
  | None =>
      let cfg := DefaultConfig in
      rd <- xcall (Core (ReadFile configPath)) ;;
      let '(data, err) := rd in
      match err with
      | Some e =>
          if os_IsNotExist err then
            se <- Config_Save_body cfg ;;
            match se with
            | Some e' => XRet (None, Some e')
            | None => XRet (Some cfg, None)
            end
          else XRet (None, Some e)
      | None =>
          let '(cfg, err) := json_Unmarshal_Config data cfg in
          match err with
          | Some e => XRet (None, Some e)
          | None => XRet (Some cfg, None)
          end
      end
  end.

(** [InitRepo]. *)
Definition InitRepo_body (repoPath : string) : xprog error :=
  let claudeDir := filepath_Join [repoPath; ".claude"] in
  let settingsPath := filepath_Join [claudeDir; "settings.json"] in
  st <- xcall (Core (Stat settingsPath)) ;;
  if is_nil st then XRet None
  else
    ld <- config_Load_body ;;
    match ld with
    | (_, Some e) => XRet (Some e)
    | (None, None) => XPanic "nil pointer dereference"
    | (Some cfg, None) =>
        if negb (AutoInit cfg) then XRet None
        else
          let commandsDir := filepath_Join [claudeDir; "commands"] in
          me <- xcall (Core (MkdirAll commandsDir)) ;;
          match me with
          | Some e => XRet (Some e)
          | None =>
              se <- writeSettingsJSON settingsPath ;;
              match se with
              | Some e => XRet (Some e)
              | None =>
                  let dropPath := filepath_Join [commandsDir; "drop.md"] in
                  de <- writeDropCommand dropPath ;;
                  match de with
                  | Some e => XRet (Some e)
                  | None =>
                      let gitignorePath :=
                        filepath_Join [repoPath; ".gitignore"] in
                      updateGitignore gitignorePath
                  end
              end
          end
    end.

Local Close Scope xprog_scope.

(** ** What the properties are stated with *)

(** The name format in the words of the specification: not empty, a first
    byte that is a letter or a digit, then letters, digits, hyphens and
    underscores only. *)
Definition isAlnumByte (b : N) : bool :=
  ((97 <=? b) && (b <=? 122) || (65 <=? b) && (b <=? 90)
   || (48 <=? b) && (b <=? 57))%N.

Definition isNameByte (b : N) : bool :=
  isAlnumByte b || (b =? 45)%N || (b =? 95)%N.

Definition wellFormedName (s : string) : Prop :=
  match bytes s with
  | [] => False
  | first :: others =>
      isAlnumByte first = true /\ Forall (fun b => isNameByte b = true) others
  end.

(** The events of a trace, the printed lines left out. *)
Definition isEvent (i : TraceItem) : bool :=
  match i with
  | Printed _ => false
  | Did _ _ => true
  end.

Definition events (t : list TraceItem) : list TraceItem :=
  List.filter isEvent t.

(** The arguments of the subprocess an item started, if it started one. *)
Definition execArgs (i : TraceItem) : option (list string) :=
  match i with
  | Did (Exec _ _ _ args) _ => Some args
  | _ => None
  end.

(** An item that brings a worktree, a file or a directory tree into being:
    [git worktree add], a written file, a copied tree, an initialised
    repository. *)
Definition creates (i : TraceItem) : bool :=
  match i with
  | Did (Exec _ _ _ ("worktree" :: "add" :: _)) _ => true
  | Did (WriteFile _ _) _ => true
  | Did (writeJSON _ _) _ => true
  | Did (copyDir _ _) _ => true
  | Did (InitRepo _) _ => true
  | Did (copyGitignoredFiles _ _ _) _ => true
  | _ => false
  end.

(** [p] does what [q] does, terminal output aside: under every handler and
    from every world, the same outcome, the same final world and the same
    events with the same answers. *)
Definition behaves_as {R : Type} (p q : prog R) : Prop :=
  forall (W : Type) (h : Handler W) (w : W),
    fst (fst (run h p w)) = fst (fst (run h q w)) /\
    snd (fst (run h p w)) = snd (fst (run h q w)) /\
    events (snd (run h p w)) = events (snd (run h q w)).

(** What [branchExistsRemote] makes of the answer to [git ls-remote]. *)
Definition remoteAnswer (r : CmdResult) : bool :=
  match cmd_err r with
  | Some _ => false
  | None => (0 <? String.length (TrimSpace (cmd_out r)))%nat
  end.

(** What [getBranchDivergence] makes of the answer to [git rev-list]. *)
Definition divergenceAnswer (r : CmdResult) : Z * Z * bool :=
  match cmd_err r with
  | Some _ => (0, 0, false)
  | None =>
      let parts := Fields (TrimSpace (cmd_out r)) in
      if (List.length parts =? 2)%nat then
        let localAhead := fst (Atoi (nth 0 parts "")) in
        let remoteAhead := fst (Atoi (nth 1 parts "")) in
        (localAhead, remoteAhead, (0 <? localAhead) && (0 <? remoteAhead))
      else (0, 0, false)
  end.

(** The branch information [CheckBranch] builds from the two existence
    answers and, when both hold, the divergence answer. *)
Definition classify (localExists remoteExists : bool) (d : Z * Z * bool)
  : BranchInfo :=
  if localExists && remoteExists then
    {| Status := BranchBoth; LocalAhead := fst (fst d);
       RemoteBehind := snd (fst d); Diverged := snd d |}
  else if localExists then
    {| Status := BranchLocalOnly; LocalAhead := 0; RemoteBehind := 0;
       Diverged := false |}
  else if remoteExists then
    {| Status := BranchRemoteOnly; LocalAhead := 0; RemoteBehind := 0;
       Diverged := false |}
  else
    {| Status := BranchNotFound; LocalAhead := 0; RemoteBehind := 0;
       Diverged := false |}.

(** A path component: not empty and without a slash. *)
Fixpoint noSlash (s : string) : bool :=
  match s with
  | EmptyString => true
  | String c s' => negb (isSlash c) && noSlash s'
  end.

Definition isComponent (s : string) : Prop := s <> "" /\ noSlash s = true.

(** A run of [n] slashes. *)
Fixpoint slashes (n : nat) : string :=
  match n with
  | O => ""
  | S n' => "/" +:+ slashes n'
  end.

(** The final component of a path, trailing slashes set aside: the
    component the path ends with, standing alone or after a slash; a dot for
    the empty path and a slash for a path of slashes only. *)
Inductive finalComponent : string -> string -> Prop :=
| final_empty : finalComponent "" "."
| final_root (n : nat) : finalComponent (slashes (S n)) "/"
| final_bare (comp : string) (n : nat) :
    isComponent comp -> finalComponent (comp +:+ slashes n) comp
| final_after (dir comp : string) (n : nat) :
    isComponent comp ->
    finalComponent (dir +:+ "/" +:+ comp +:+ slashes n) comp.

(** A member that stores a JSON object into the experiments, projects or
    scratches map; a document none of whose members does so for a map
    omits that map or gives it as [null]. *)
Definition setsExperiments (m : StateMember) : bool :=
  match m with
  | member_experiments (Some _) => true
  | _ => false
  end.

Definition setsProjects (m : StateMember) : bool :=
  match m with
  | member_projects (Some _) => true
  | _ => false
  end.

Definition setsScratches (m : StateMember) : bool :=
  match m with
  | member_scratches (Some _) => true
  | _ => false
  end.

(** The state [LoadState] starts from, and returns when there is no file. *)
Definition emptyState : State :=
  {| Version := 1; Experiments := Some ∅; Projects := Some ∅;
     Scratches := Some ∅ |}.

(** Every name bound in [m] is bound to the same path in [m']. *)
Definition keepsBindings (m m' : gmap string string) : Prop :=
  forall (name path : string), m !! name = Some path -> m' !! name = Some path.

(** What [GetRepoRoot] makes of the answer to [git rev-parse]. *)
Definition rootAnswer (r : CmdResult) : string * error :=
  match cmd_err r with
  | Some e => ("", Some (fmt_Errorf_w "not a git repository: " e))
  | None => (TrimSpace (cmd_out r), None)
  end.

(** No item of the trace creates anything. *)
Definition quietTrace (t : list TraceItem) : Prop := existsb creates t = false.




(** The lines of a porcelain output that count: those that are not empty,
    once the output is trimmed. *)
Definition nonEmptyLines (out : string) : list string :=
  List.filter (fun line => negb (String.eqb line ""))
              (Split (TrimSpace out) newline).

(** A branch information that hangs together: diverged exactly when both
    counts are positive, and no counts unless the branch is on both sides. *)
Definition consistentInfo (info : BranchInfo) : Prop :=
  (Diverged info = true <-> 0 < LocalAhead info /\ 0 < RemoteBehind info) /\
  (Status info <> BranchBoth -> LocalAhead info = 0 /\ RemoteBehind info = 0).

(** The keys of [m], each once, in some order: what a range over [m]
    may visit. *)
Definition rangeOrder {V : Type} (m : gmap string V) (order : list string)
  : Prop :=
  order ≡ₚ (map_to_list m).*1.

(** The time of last use at place [k], for the places that hold a pointer
    that is not nil. *)
Definition keyAt {A : Type} (LastUsed : A -> Time) (l : list (option A))
    (k : nat) : Z :=
  match l !! k with
  | Some (Some a) => LastUsed a
  | _ => 0
  end.

(** Each of the first [i] places holds a time no earlier than that of
    every later place. *)
Definition ordered {A : Type} (LastUsed : A -> Time) (i : nat)
    (l : list (option A)) : Prop :=
  forall a b : nat, (a < i)%nat -> (a < b < List.length l)%nat ->
    keyAt LastUsed l b <= keyAt LastUsed l a.

(** Most recently used first. *)
Definition descending {A : Type} (LastUsed : A -> Time) (l : list A) : Prop :=
  forall (a b : nat) (x y : A),
    (a < b)%nat -> l !! a = Some x -> l !! b = Some y ->
    LastUsed y <= LastUsed x.

(** What a sort by last use makes of the pointers of a map: with no nil
    pointer, the same pointers most recently used first; a panic when a nil
    pointer is one of two or more; the slice as it is when it holds at most
    one pointer. *)
Definition sortedByLastUsed {A : Type} (LastUsed : A -> Time)
    (pointers : list (option A)) (result : option (list (option A))) : Prop :=
  (~ In None pointers ->
   exists sorted : list A,
     result = Some (map Some sorted) /\
     map Some sorted ≡ₚ pointers /\ descending LastUsed sorted) /\
  (In None pointers -> (2 <= List.length pointers)%nat -> result = None) /\
  ((List.length pointers <= 1)%nat -> result = Some pointers).

(** The argument of a generic agent command as it is passed on. *)
Definition dotToWorkdir (workdir arg : string) : string :=
  if String.eqb arg "." then workdir else arg.

(** The handler of the first events inside one of all the events, and an
    item of the first kind as one of the second. *)
Definition coreHandler {W : Type} (h : XHandler W) : Handler W :=
  fun X e => h X (Core e).

Definition liftItem (i : TraceItem) : XItem :=
  match i with
  | Printed o => XPrinted o
  | Did e x => XDid (Core e) x
  end.

(** What one line of a .gitignore ignores, as [isGitignored] reads it. *)
Definition lineIgnores (text relPath : string) : Prop :=
  let line := TrimSpace text in
  line <> "" /\
  ~ (exists rest : string, line = "#" +:+ rest) /\
  (line = relPath \/
   (exists ext front : string,
       line = "*." +:+ ext /\ relPath = front +:+ "." +:+ ext) \/
   (exists dir rest : string,
       line = dir +:+ "/" /\ relPath = line +:+ rest) \/
   (exists stem rest : string,
       line = stem +:+ "*" /\ relPath = stem +:+ rest)).

(** An item that only looks: a [Stat], a directory listed, a file
    scanned. *)
Definition xreads (i : XItem) : bool :=
  match i with
  | XDid (Core (Stat _)) _ => true
  | XDid (Core (ReadDir _)) _ => true
  | XDid (ScanFile _) _ => true
  | _ => false
  end.

(** The events of a trace, the printed lines and the empty lines of
    [fmt.Println()] left out. *)
Definition isXEvent (i : XItem) : bool :=
  match i with
  | XPrinted _ => false
  | XDid Println _ => false
  | XDid _ _ => true
  end.

Definition xevents (t : list XItem) : list XItem := List.filter isXEvent t.

(** The copies a trace attempted, in order: source, destination, and
    whether the copy succeeded. *)
Definition copyAttempt (i : XItem) : option (string * string * bool) :=
  match i with
  | XDid e x =>
      match e in XEvent X return X -> option (string * string * bool) with
      | copyFile src dst => fun err => Some (src, dst, is_nil err)
      | _ => fun _ => None
      end x
  | XPrinted _ => None
  end.

Definition copyAttempts (t : list XItem) : list (string * string * bool) :=
  omap copyAttempt t.

(** The questions a trace asked, in order: the label of the prompt and
    whether the answer came without an error. *)
Definition confirmation (i : XItem) : option (string * bool) :=
  match i with
  | XDid e x =>
      match e in XEvent X return X -> option (string * bool) with
      | Core e' =>
          match e' in Event X return X -> option (string * bool) with
          | PromptRun p => fun answer => Some (Label p, is_nil (snd answer))
          | _ => fun _ => None
          end
      | _ => fun _ => None
      end x
  | XPrinted _ => None
  end.

Definition confirmations (t : list XItem) : list (string * bool) :=
  omap confirmation t.

(** The labels of the questions answered without an error. *)
Definition accepted (t : list XItem) : list string :=
  map fst (List.filter snd (confirmations t)).

(** The configurations a trace saved, in order. *)
Definition savedConfig (i : XItem) : option Config :=
  match i with
  | XDid (Core (Config_Save cfg)) _ => Some cfg
  | _ => None
  end.

Definition savedConfigs (t : list XItem) : list Config := omap savedConfig t.

(** A copy attempted for a file of [srcDir], into [dstDir]. *)
Definition attemptOf (srcDir dstDir : string) (succeeded : bool)
    (relPath : string) : string * string * bool :=
  (filepath_Join [srcDir; relPath], filepath_Join [dstDir; relPath], succeeded).

(** The two items of a file that [CopyFiles] copied: its directory made
    and the file copied, both without an error. *)
Definition copiedFile (srcDir dstDir relPath : string) : list XItem :=
  [XDid (Core (MkdirAll (filepath_Dir (filepath_Join [dstDir; relPath])))) None;
   XDid (copyFile (filepath_Join [srcDir; relPath])
                  (filepath_Join [dstDir; relPath])) None].

(** The processes a trace started without waiting for them, in order:
    directory, program and arguments. *)
Definition startOf (i : XItem) : option (string * string * list string) :=
  match i with
  | XDid (Start dir name args) _ => Some (dir, name, args)
  | _ => None
  end.

Definition starts (t : list XItem) : list (string * string * list string) :=
  omap startOf t.

(** The processes a trace ran and waited for, in order. *)
Definition executionOf (i : XItem) : option (string * string * list string) :=
  match i with
  | XDid (Core (Exec _ dir name args)) _ => Some (dir, name, args)
  | _ => None
  end.

Definition executions (t : list XItem)
  : list (string * string * list string) :=
  omap executionOf t.

(** The editors opened in a split pane of tmux. *)
Definition isVimFamily (editor : string) : bool :=
  String.eqb editor "nvim" || String.eqb editor "neovim"
  || String.eqb editor "vim".

(** The program and the arguments of the process that launching the agent
    of a command runs. *)
Definition agentCommand (agentCmd workdir : string) (opts : LaunchOptions)
  : string * list string :=
  if String.eqb agentCmd "claude" || String.eqb agentCmd "" then
    ("claude",
     flat_map (fun dir => ["--add-dir"; dir]) (AddDirs opts) ++ Flags opts)
  else
    (List.hd "claude" (Fields agentCmd),
     map (dotToWorkdir workdir) (List.tl (Fields agentCmd))).

(** An item that prints and does nothing else. *)
Definition onlyPrints (i : XItem) : bool :=
  match i with
  | XPrinted _ => true
  | XDid Println _ => true
  | _ => false
  end.

(** Whether an answer of [git status --porcelain] shows changes: it came
    without an error and its output, once trimmed, is not empty. *)
Definition showsChanges (r : CmdResult) : bool :=
  is_nil (cmd_err r) && negb (String.eqb (TrimSpace (cmd_out r)) "").

(** What a trace did that matters to a cleanup, in order, each with what it
    was done to and how it ended: a question and whether it was answered
    without an error; [git status --porcelain] in a directory and whether it
    showed changes; [git worktree remove] in a repository, with the
    worktree; a directory tree removed by [os.RemoveAll]; [git branch -D]
    in a repository, with the branch; a directory made; a file written. *)
Inductive Deed : Type :=
| Asked (label : string) (accepted : bool)
| StatusChecked (path : string) (changes : bool)
| GitWorktreeRemove (repo path : string) (err : error)
| RemoveTree (path : string) (err : error)
| GitBranchDelete (repo branch : string) (err : error)
| DirMade (path : string) (err : error)
| FileWrite (path : string) (err : error).

Definition gitDeed (dir : string) (args : list string) (r : CmdResult)
  : option Deed :=
  match args with
  | [a; b] =>
      if String.eqb a "status" && String.eqb b "--porcelain"
      then Some (StatusChecked dir (showsChanges r))
      else None
  | a :: b :: target :: _ =>
      if String.eqb a "worktree" && String.eqb b "remove"
      then Some (GitWorktreeRemove dir target (cmd_err r))
      else if String.eqb a "branch" && String.eqb b "-D"
      then Some (GitBranchDelete dir target (cmd_err r))
      else None
  | _ => None
  end.

Definition deed (i : XItem) : option Deed :=
  match i with
  | XDid e x =>
      match e in XEvent X return X -> option Deed with
      | Core e' =>
          match e' in Event X return X -> option Deed with
          | PromptRun p => fun answer => Some (Asked (Label p) (is_nil (snd answer)))
          | Exec _ dir _ args => fun r => gitDeed dir args r
          | MkdirAll path => fun err => Some (DirMade path err)
          | WriteFile path _ => fun err => Some (FileWrite path err)
          | _ => fun _ => None
          end
      | RemoveAll path => fun err => Some (RemoveTree path err)
      | _ => fun _ => None
      end x
  | XPrinted _ => None
  end.

Definition deeds (t : list XItem) : list Deed := omap deed t.

(** The deeds of one kind, in order: the questions with their answers, the
    status checks with what they showed, the worktrees git was asked to
    remove, the trees removed, the branches git was asked to delete, and the
    directories made and files written. *)
Definition questions (d : list Deed) : list (string * bool) :=
  omap (fun x => match x with Asked l a => Some (l, a) | _ => None end) d.

Definition statusChecks (d : list Deed) : list (string * bool) :=
  omap (fun x => match x with StatusChecked p c => Some (p, c) | _ => None end)
       d.

Definition worktreeRemovals (d : list Deed) : list (string * string * error) :=
  omap (fun x => match x with
                 | GitWorktreeRemove r p e => Some (r, p, e)
                 | _ => None
                 end) d.

Definition treeRemovals (d : list Deed) : list (string * error) :=
  omap (fun x => match x with RemoveTree p e => Some (p, e) | _ => None end) d.

Definition branchDeletions (d : list Deed) : list (string * string * error) :=
  omap (fun x => match x with
                 | GitBranchDelete r b e => Some (r, b, e)
                 | _ => None
                 end) d.

Definition isStateWrite (x : Deed) : bool :=
  match x with
  | DirMade _ _ => true
  | FileWrite _ _ => true
  | _ => false
  end.

Definition stateWrites (d : list Deed) : list Deed :=
  List.filter isStateWrite d.

(** What [State.Save] does: the directory of the state file is made, and
    the file is written unless making the directory or the encoding
    failed. *)
Definition stateSaved (cfg : Config) (save : list Deed) : Prop :=
  (exists e : error_value,
      save = [DirMade (filepath_Dir (StatePath cfg)) (Some e)]) \/
  save = [DirMade (filepath_Dir (StatePath cfg)) None] \/
  exists err : error,
    save = [DirMade (filepath_Dir (StatePath cfg)) None;
            FileWrite (StatePath cfg) err].

Definition discardQuestion : string := "Discard changes and continue".

Definition deleteBranchQuestion (branch : string) : string :=
  "Delete branch " +:+ branch.

(** The deeds of [cleanupExperiment] from the removal of the worktree on,
    with the state and the error it returns.  Either git and [os.RemoveAll]
    both failed: the state is as it was and the error is that of
    [os.RemoveAll], wrapped.  Or the worktree went, by git or, git having
    failed, by [os.RemoveAll]; the branch is deleted with the force flag or
    when the question about it is answered without an error; the experiment
    is out of the state, which is saved. *)
Definition experimentRemoved (force : bool) (cfg : Config) (state : State)
    (key : string) (exp : Experiment) (st : State) (e : error)
    (d : list Deed) : Prop :=
  (exists gerr rerr : error_value,
      d = [GitWorktreeRemove (Exp_Repo exp) (Exp_Path exp) (Some gerr);
           RemoveTree (Exp_Path exp) (Some rerr)] /\
      st = state /\
      e = Some (fmt_Errorf_w "failed to remove worktree: " rerr)) \/
  (exists rm del save : list Deed,
      d = rm ++ del ++ save /\
      st = RemoveExperiment state key /\ e = None /\
      (rm = [GitWorktreeRemove (Exp_Repo exp) (Exp_Path exp) None] \/
       exists gerr : error_value,
         rm = [GitWorktreeRemove (Exp_Repo exp) (Exp_Path exp) (Some gerr);
               RemoveTree (Exp_Path exp) None]) /\
      (force = true /\
       (exists derr : error,
           del = [GitBranchDelete (Exp_Repo exp) (Exp_Branch exp) derr]) \/
       force = false /\
       del = [Asked (deleteBranchQuestion (Exp_Branch exp)) false] \/
       force = false /\
       exists derr : error,
         del = [Asked (deleteBranchQuestion (Exp_Branch exp)) true;
                GitBranchDelete (Exp_Repo exp) (Exp_Branch exp) derr]) /\
      stateSaved cfg save).

(** The deeds of a whole run of [cleanupExperiment], [changes] being what
    the status check showed: the check; then, when it showed changes and the
    force flag is off, the question whether to discard them, which ends the
    run when answered with an error; then the removal. *)
Definition cleanupExperimentShape (force : bool) (cfg : Config)
    (state : State) (key : string) (exp : Experiment) (changes : bool)
    (st : State) (e : error) (d : list Deed) : Prop :=
  if changes && negb force then
    (d = [StatusChecked (Exp_Path exp) changes; Asked discardQuestion false] /\
     st = state /\ e = None) \/
    (exists rest : list Deed,
        d = StatusChecked (Exp_Path exp) changes
            :: Asked discardQuestion true :: rest /\
        experimentRemoved force cfg state key exp st e rest)
  else
    exists rest : list Deed,
      d = StatusChecked (Exp_Path exp) changes :: rest /\
      experimentRemoved force cfg state key exp st e rest.

Definition deleteContentsQuestion : string :=
  "Delete all contents and continue".

(** The deeds of [cleanupScratch] from the removal of the folder on, with
    the state and the error it returns: [os.RemoveAll] failed, the state is
    as it was and the error is that one, wrapped; or it worked, the scratch
    is out of the state, which is saved. *)
Definition scratchRemoved (cfg : Config) (state : State) (name : string)
    (scratch : Scratch) (st : State) (e : error) (d : list Deed) : Prop :=
  (exists rerr : error_value,
      d = [RemoveTree (Scr_Path scratch) (Some rerr)] /\ st = state /\
      e = Some (fmt_Errorf_w "failed to remove scratch folder: " rerr)) \/
  (exists save : list Deed,
      d = RemoveTree (Scr_Path scratch) None :: save /\
      st = RemoveScratch state name /\ e = None /\ stateSaved cfg save).

(** The deeds of a whole run of [cleanupScratch], [asks] being whether the
    question is due. *)
Definition cleanupScratchShape (cfg : Config) (state : State) (name : string)
    (scratch : Scratch) (asks : bool) (st : State) (e : error)
    (d : list Deed) : Prop :=
  if asks then
    (d = [Asked deleteContentsQuestion false] /\ st = state /\ e = None) \/
    (exists rest : list Deed,
        d = Asked deleteContentsQuestion true :: rest /\
        scratchRemoved cfg state name scratch st e rest)
  else scratchRemoved cfg state name scratch st e d.

Definition discardAllQuestion : string := "Discard all changes and continue".

Definition deleteBranchesQuestion (branch : string) : string :=
  "Delete branch " +:+ branch +:+ " from all repos".

(** The worktree of a repository of a project, in the project directory. *)
Definition repoWorktree (proj : Project) (repo : ProjectRepo) : string :=
  filepath_Join [Proj_Path proj; PR_Name repo].

(** The deeds of [cleanupProject] for one repository: its status checked;
    its worktree removed by git, and by [os.RemoveAll] when git failed; its
    branch deleted. *)
Definition repoChecked (proj : Project) (repo : ProjectRepo) (x : Deed)
  : Prop :=
  exists changes : bool, x = StatusChecked (repoWorktree proj repo) changes.

Definition repoRemoved (proj : Project) (repo : ProjectRepo)
    (ds : list Deed) : Prop :=
  ds = [GitWorktreeRemove (PR_Source repo) (repoWorktree proj repo) None] \/
  exists (gerr : error_value) (rerr : error),
    ds = [GitWorktreeRemove (PR_Source repo) (repoWorktree proj repo)
            (Some gerr);
          RemoveTree (repoWorktree proj repo) rerr].

Definition repoBranchDeleted (proj : Project) (repo : ProjectRepo) (x : Deed)
  : Prop :=
  exists derr : error,
    x = GitBranchDelete (PR_Source repo) (Proj_Branch proj) derr.

(** The deeds of [cleanupProject] from the removal of the worktrees on:
    the worktree of every repository removed, in order; the project
    directory removed; the branch deleted in every repository, in order,
    with the force flag or when the question about it is answered without an
    error; the state saved. *)
Definition projectRemoved (force : bool) (cfg : Config) (proj : Project)
    (d : list Deed) : Prop :=
  exists (rms : list (list Deed)) (bds del save : list Deed) (perr : error),
    d = concat rms ++ [RemoveTree (Proj_Path proj) perr] ++ del ++ save /\
    Forall2 (repoRemoved proj) (Proj_Repos proj) rms /\
    Forall2 (repoBranchDeleted proj) (Proj_Repos proj) bds /\
    (force = true /\ del = bds \/
     force = false /\
     del = [Asked (deleteBranchesQuestion (Proj_Branch proj)) false] \/
     force = false /\
     del = Asked (deleteBranchesQuestion (Proj_Branch proj)) true :: bds) /\
    stateSaved cfg save.

(** The deeds of a whole run of [cleanupProject], with the state it
    leaves: the status of every repository checked, in order; then, when a
    check showed changes and the force flag is off, the question whether to
    discard them, which ends the run when answered with an error; then the
    removal, after which the project is out of the state. *)
Definition cleanupProjectShape (force : bool) (cfg : Config) (state : State)
    (name : string) (proj : Project) (st : State) (d : list Deed) : Prop :=
  exists checks rest : list Deed,
    d = checks ++ rest /\
    Forall2 (repoChecked proj) (Proj_Repos proj) checks /\
    if existsb snd (statusChecks checks) && negb force then
      (rest = [Asked discardAllQuestion false] /\ st = state) \/
      (exists rest' : list Deed,
          rest = Asked discardAllQuestion true :: rest' /\
          st = deleteProject state name /\
          projectRemoved force cfg proj rest')
    else st = deleteProject state name /\ projectRemoved force cfg proj rest.

(** An item that creates or writes something on disk. *)
Definition writes (i : TraceItem) : bool :=
  match i with
  | Did (MkdirAll _) _ => true
  | Did (WriteFile _ _) _ => true
  | Did (writeJSON _ _) _ => true
  | Did (InitRepo _) _ => true
  | Did (copyDir _ _) _ => true
  | Did (Config_Save _) _ => true
  | _ => false
  end.

Definition resumeQuestion : Prompt :=
  {| Label := "Resume existing scratch"; IsConfirm := true; Default := "" |}.

(** What a trace appended to files: the strings of the [WriteString]s that
    were answered without an error, one after the other. *)
Definition appendedBy (i : XItem) : string :=
  match i with
  | XDid e x =>
      match e in XEvent X return X -> string with
      | WriteString _ s => fun err => if is_nil err then s else ""
      | _ => fun _ => ""
      end x
  | XPrinted _ => ""
  end.

Definition appended (t : list XItem) : string :=
  fold_right String.append "" (map appendedBy t).

(** An item that writes to the open file of the given path. *)
Definition writesTo (path : string) (i : XItem) : bool :=
  match i with
  | XDid (WriteString p _) _ => String.eqb p path
  | _ => false
  end.

(** The path an item makes a directory at, writes a file at, opens to
    write or writes to, and the paths of a trace, in order. *)
Definition writeTarget (i : XItem) : option string :=
  match i with
  | XDid (Core (MkdirAll path)) _ => Some path
  | XDid (Core (WriteFile path _)) _ => Some path
  | XDid (OpenAppend path) _ => Some path
  | XDid (WriteString path _) _ => Some path
  | _ => None
  end.

Definition writeTargets (t : list XItem) : list string := omap writeTarget t.

(** The same with the outcome: the path, and whether the step ended without
    an error. *)
Definition writeStep (i : XItem) : option (string * bool) :=
  match i with
  | XDid e x =>
      match e in XEvent X return X -> option (string * bool) with
      | Core e' =>
          match e' in Event X return X -> option (string * bool) with
          | MkdirAll path => fun err => Some (path, is_nil err)
          | WriteFile path _ => fun err => Some (path, is_nil err)
          | _ => fun _ => None
          end
      | OpenAppend path => fun err => Some (path, is_nil err)
      | WriteString path _ => fun err => Some (path, is_nil err)
      | _ => fun _ => None
      end x
  | XPrinted _ => None
  end.

Definition writeSteps (t : list XItem) : list (string * bool) :=
  omap writeStep t.

(** Steps each of which was taken only after the one before had ended
    without an error: all of them but the last did. *)
Definition eachAfterSuccess (steps : list (string * bool)) : Prop :=
  Forall (fun step => snd step = true) (removelast steps).

(** What one run of [config.Load] leaves: a configuration exactly when
    there is no error; nothing at all when the path of the configuration
    file is not known; otherwise the file read, and after that the directory
    of the file made and the default configuration written, each only after
    the step before worked, and only when the file was read with an error
    that says it does not exist. *)
Definition configLoaded (ld : option Config * error) (t : list XItem) : Prop :=
  (fst ld = None <-> snd ld <> None) /\
  (snd ConfigPath <> None -> t = []) /\
  (snd ConfigPath = None ->
   exists (rd : string * error) (u : list XItem) (k : nat),
     t = XDid (Core (ReadFile (fst ConfigPath))) rd :: u /\
     writeTargets u
     = firstn k [filepath_Dir (fst ConfigPath); fst ConfigPath] /\
     (k <> 0%nat -> os_IsNotExist (snd rd) = true)) /\
  eachAfterSuccess (writeSteps t) /\
  (snd ld = None -> Forall (fun step => snd step = true) (writeSteps t)).


(** The lines of [linesToAdd] a content does not hold. *)
Definition missingLines (existing : string) : list string :=
  List.filter (fun line => negb (Contains existing line)) linesToAdd.

(** What one run of [updateGitignore] leaves, given the content read, the
    outcome and the items after the read: nothing when both lines are
    there; after a run without error both lines are in the content with
    what was appended, and if anything was appended so is the header, and
    what was appended starts on a line of its own; and the file, once
    opened, is written to and then closed. *)
Definition gitignoreUpdated (path existing : string) (res : error)
    (t : list XItem) : Prop :=
  (Forall (fun line => Contains existing line = true) linesToAdd ->
   res = None /\ t = []) /\
  (res = None ->
   Forall (fun line => Contains (existing +:+ appended t) line = true)
     linesToAdd) /\
  (res = None -> t <> [] ->
   Contains (existing +:+ appended t) "# Clade" = true /\
   (existing = "" \/ HasSuffix existing LF = true \/
    HasPrefix (appended t) LF = true)) /\
  (t = [] \/
   (exists e : error_value,
       t = [XDid (OpenAppend path) (Some e)] /\ res = Some e) \/
   (exists (body : list XItem) (c : error),
       t = XDid (OpenAppend path) None :: body ++ [XDid (CloseFile path) c] /\
       forallb (writesTo path) body = true)).

(** ** A small concrete environment, to run the definitions on *)

Record ToyWorld : Type := {
  toy_local : list string;
  toy_remote : list string;
  toy_revlist : CmdResult;
  toy_files : gmap string string;
  toy_entries : list DirEntry
}.

Definition mem (x : string) (l : list string) : bool :=
  existsb (String.eqb x) l.

Definition ok (out : string) : CmdResult := {| cmd_out := out; cmd_err := None |}.

Definition failed (msg : string) : CmdResult :=
  {| cmd_out := ""; cmd_err := Some (ErrOther msg) |}.

Definition toyGit (args : list string) (dir : string) (w : ToyWorld)
  : CmdResult :=
  match args with
  | ["show-ref"; "--verify"; "--quiet"; ref] =>
      if mem ref (map (String.append "refs/heads/") (toy_local w)) then ok ""
      else failed "exit status 1"
  | ["ls-remote"; "--heads"; "origin"; branch] =>
      if mem branch (toy_remote w) then ok ("0a1b2c	refs/heads/" +:+ branch)
      else ok ""
  | "rev-list" :: _ => toy_revlist w
  | ["rev-parse"; "--show-toplevel"] => ok dir
  | _ => ok ""
  end.

Definition toyConfig : Config :=
  {| BaseDir := "/home/u/clade"; Agent := "claude"; AgentFlags := [];
     Editor := ""; AutoInit := true;
     Repos := {[ "api" := "/src/api" ]};
     RepoSettingsMap := ∅; LastRepo := ""; TmuxSplitDirection := "horizontal" |}.

Definition toyHandler : Handler ToyWorld :=
  fun X e =>
    match e in Event X return ToyWorld -> X * ToyWorld with
    | Exec _ dir _ args => fun w => (toyGit args dir w, w)
    | ReadFile path => fun w =>
        match toy_files w !! path with
        | Some data => ((data, None), w)
        | None => (("", Some (ErrNotExist "no such file or directory")), w)
        end
    | WriteFile path data => fun w =>
        (None, {| toy_local := toy_local w; toy_remote := toy_remote w;
                  toy_revlist := toy_revlist w;
                  toy_files := <[path := data]> (toy_files w);
                  toy_entries := toy_entries w |})
    | MkdirAll _ => fun w => (None, w)
    | Stat _ => fun w => (None, w)
    | ReadDir _ => fun w => ((toy_entries w, None), w)
    | PromptRun p => fun w => ((Default p, None), w)
    | TimeNow => fun w => (0, w)
    | config_Load => fun w => ((toyConfig, None), w)
    | Config_Save _ => fun w => (None, w)
    | resolveRepo _ _ => fun w => (("/src/api", None), w)
    | resolveRepoWithPick _ _ _ => fun w => (("/src/api", None), w)
    | launchAgent _ _ _ => fun w => (None, w)
    | launchSession _ _ _ _ _ => fun w => (None, w)
    | copyDir _ _ => fun w => (None, w)
    | InitRepo _ => fun w => (None, w)
    | copyGitignoredFiles _ _ _ => fun w => (None, w)
    | writeJSON _ _ => fun w => (None, w)
    end.

Definition toyWorld (localBranches remoteBranches : list string)
    (revlist : CmdResult) : ToyWorld :=
  {| toy_local := localBranches; toy_remote := remoteBranches;
     toy_revlist := revlist; toy_files := ∅; toy_entries := [] |}.

(** A world whose scanned directory holds the given entries and whose
    state file, if any, has the given content. *)
Definition toyDisk (entries : list DirEntry) (files : gmap string string)
  : ToyWorld :=
  {| toy_local := []; toy_remote := []; toy_revlist := ok "";
     toy_files := files; toy_entries := entries |}.

(** A library instance for the runs: paths joined with a slash, and a
    reader that knows three documents: the empty object, an object whose
    only member is a null experiments map, and one whose experiments map
    holds a single key with a null pointer. *)
Definition toyDecode (data : string) : list StateMember * error :=
  if String.eqb data "{}" then ([], None)
  else if String.eqb data "{experiments:null}" then
    ([member_experiments None], None)
  else if String.eqb data "{experiments:{k:null}}" then
    ([member_experiments (Some [("k", None)])], None)
  else ([], Some (ErrOther "unexpected end of JSON input")).

Definition toyLib : GoLib :=
  {| filepath_Join := fun elems => String.concat "/" elems;
     filepath_Dir := fun _ => "/home/u/clade";
     os_UserHomeDir := ("/home/u", None);
     json_decode_State := toyDecode;
     json_MarshalIndent_State := fun _ => ("{}", None);
     Format_RFC3339 := fun _ => "2024-01-01T00:00:00Z";
     ToUpper := fun s => s |}.

(** An experiment [x] of the repository at [repo], and the state that holds
    it alone. *)
Definition toyExperiment (repo : string) : Experiment :=
  {| Exp_Name := "x"; Exp_Repo := repo;
     Exp_Path := "/home/u/clade/experiments/proj-x"; Exp_Branch := "exp/x";
     Exp_Ticket := ""; Exp_Created := 0; Exp_LastUsed := 0 |}.

Definition stateWith (e : Experiment) : State :=
  {| Version := 1; Experiments := Some {[ "proj-x" := Some e ]};
     Projects := Some ∅; Scratches := Some ∅ |}.



Definition notFoundInfo : BranchInfo :=
  {| Status := BranchNotFound; LocalAhead := 0; RemoteBehind := 0;
     Diverged := false |}.

(** The small environment with a log of two commits, its last line ended
    by a line feed as git ends it. *)
Definition toyLog : string :=
  "a1b2c3d fix login" +:+ String newline "e4f5a6b add tests"
  +:+ String newline "".

Definition logHandler : Handler ToyWorld :=
  fun X e =>
    match e in Event X return ToyWorld -> X * ToyWorld with
    | Exec _ _ _ ("log" :: _) => fun w => (ok toyLog, w)
    | e' => toyHandler _ e'
    end.

(** The trace of [CreateWorktreeNew] for the branch [exp/y], which is
    nowhere, and the path [/e]. *)
Definition freshCreated : list TraceItem :=
  [Did (Exec Run "/src/api" "git" ["fetch"; "origin"]) (ok "");
   Did (Exec Run "/src/api" "git"
          ["show-ref"; "--verify"; "--quiet"; "refs/heads/exp/y"])
       (failed "exit status 1");
   Did (Exec Output "/src/api" "git"
          ["ls-remote"; "--heads"; "origin"; "exp/y"]) (ok "");
   Did (Exec Run "/src/api" "git" ["remote"; "get-url"; "origin"]) (ok "");
   Did (Exec Output "/src/api" "git"
          ["symbolic-ref"; "refs/remotes/origin/HEAD"]) (ok "");
   Did (Exec CombinedOutput "/src/api" "git"
          ["worktree"; "add"; "-b"; "exp/y"; "/e"; "origin/"]) (ok "")].

(** An experiment and a scratch last used at a given time, a state map of
    two experiments, and a map of scratches one of whose pointers is nil. *)
Definition usedAt (name : string) (lastUsed : Time) : Experiment :=
  {| Exp_Name := name; Exp_Repo := "/src/api";
     Exp_Path := "/home/u/clade/experiments/api-" +:+ name;
     Exp_Branch := "exp/" +:+ name; Exp_Ticket := ""; Exp_Created := 0;
     Exp_LastUsed := lastUsed |}.

Definition twoExperiments : option (gmap string (option Experiment)) :=
  Some {[ "api-old" := Some (usedAt "old" 10);
          "api-new" := Some (usedAt "new" 20) ]}.

Definition toyScratch : Scratch :=
  {| Scr_Name := "notes"; Scr_Path := "/home/u/clade/scratch/notes";
     Scr_Ticket := ""; Scr_Created := 0; Scr_LastUsed := 5 |}.

Definition scratchesWithNil : option (gmap string (option Scratch)) :=
  Some {[ "notes" := Some toyScratch; "gone" := None ]}.

(** A handler of all the events over the small environment: the first
    events as before; the .gitignore of every repository holds the lines
    given, or is not there; removing, starting and copying succeed, and no
    variable of the environment is set. *)
Definition toyXHandler (gitignore : option (list string)) : XHandler ToyWorld :=
  fun X e =>
    match e in XEvent X return ToyWorld -> X * ToyWorld with
    | Core e' => toyHandler _ e'
    | RemoveAll _ => fun w => (None, w)
    | Getenv _ => fun w => ("", w)
    | Start _ _ _ => fun w => (None, w)
    | Println => fun w => (tt, w)
    | ScanFile _ => fun w =>
        (match gitignore with
         | Some lines => (lines, None)
         | None => ([], Some (ErrNotExist "no such file or directory"))
         end, w)
    | copyFile _ _ => fun w => (None, w)
    | OpenAppend _ => fun w => (None, w)
    | WriteString _ _ => fun w => (None, w)
    | CloseFile _ => fun w => (None, w)
    end.

Definition toyStrings : GoStrings := {| ToLower := fun s => s |}.

(** A library whose reader yields a state with the one scratch [notes],
    and a disk with a state file. *)
Definition scratchLib : GoLib :=
  {| filepath_Join := fun elems => String.concat "/" elems;
     filepath_Dir := fun _ => "/home/u/clade";
     os_UserHomeDir := ("/home/u", None);
     json_decode_State := fun _ =>
       ([member_scratches (Some [("notes", Some toyScratch)])], None);
     json_MarshalIndent_State := fun _ => ("{}", None);
     Format_RFC3339 := fun _ => "2024-01-01T00:00:00Z";
     ToUpper := fun s => s |}.

Definition scratchDisk : ToyWorld :=
  toyDisk [] {[ "/home/u/clade/state.json" := "{scratches:{notes:{}}}" ]}.

Definition notesState : State :=
  {| Version := 1; Experiments := Some ∅; Projects := Some ∅;
     Scratches := Some {[ "notes" := Some toyScratch ]} |}.

(** A handler over the small environment that keeps what is written to the
    end of a file. *)
Definition diskXHandler : XHandler ToyWorld :=
  fun X e =>
    match e in XEvent X return ToyWorld -> X * ToyWorld with
    | WriteString path s => fun w =>
        (None, {| toy_local := toy_local w; toy_remote := toy_remote w;
                  toy_revlist := toy_revlist w;
                  toy_files := <[path := default "" (toy_files w !! path) +:+ s]>
                                 (toy_files w);
                  toy_entries := toy_entries w |})
    | e' => toyXHandler None _ e'
    end.

(** A library for the configuration file: the directory of every path is
    the directory of that file. *)
Definition configLib : GoLib :=
  {| filepath_Join := fun elems => String.concat "/" elems;
     filepath_Dir := fun _ => "/home/u/.config/clade";
     os_UserHomeDir := ("/home/u", None);
     json_decode_State := fun _ => ([], None);
     json_MarshalIndent_State := fun _ => ("{}", None);
     Format_RFC3339 := fun _ => "2024-01-01T00:00:00Z";
     ToUpper := fun s => s |}.

(** The configuration directory of the user [u]; every file decodes to the
    configuration it is read into, and every configuration is written as
    an empty object. *)
Definition toyConfigIO : GoConfig :=
  {| os_UserConfigDir := ("/home/u/.config", None);
     json_Unmarshal_Config := fun _ cfg => (cfg, None);
     json_MarshalIndent_Config := fun _ => ("{}", None) |}.

(** A handler over the small environment in which no path exists yet for
    [os.Stat], and which keeps what is written to the end of a file. *)
Definition freshXHandler : XHandler ToyWorld :=
  fun X e =>
    match e in XEvent X return ToyWorld -> X * ToyWorld with
    | Core e' =>
        match e' in Event T return ToyWorld -> T * ToyWorld with
        | Stat _ => fun w =>
            (Some (ErrNotExist "no such file or directory"), w)
        | e'' => toyHandler _ e''
        end
    | e' => diskXHandler _ e'
    end.

(** A handler that always answers with success and nothing to say. *)
Definition quietHandler : Handler unit :=
  fun X e =>
    match e in Event X return unit -> X * unit with
    | Exec _ _ _ _ => fun w => (ok "", w)
    | ReadFile _ => fun w => (("", None), w)
    | WriteFile _ _ => fun w => (None, w)
    | MkdirAll _ => fun w => (None, w)
    | Stat _ => fun w => (None, w)
    | ReadDir _ => fun w => (([], None), w)
    | PromptRun p => fun w => ((Default p, None), w)
    | TimeNow => fun w => (0, w)
    | config_Load => fun w => ((toyConfig, None), w)
    | Config_Save _ => fun w => (None, w)
    | resolveRepo _ _ => fun w => (("/src/api", None), w)
    | resolveRepoWithPick _ _ _ => fun w => (("/src/api", None), w)
    | launchAgent _ _ _ => fun w => (None, w)
    | launchSession _ _ _ _ _ => fun w => (None, w)
    | copyDir _ _ => fun w => (None, w)
    | InitRepo _ => fun w => (None, w)
    | copyGitignoredFiles _ _ _ => fun w => (None, w)
    | writeJSON _ _ => fun w => (None, w)
    end.

(** * Properties *)

(** ** Running programs *)

Lemma run_bind {W A B : Type} (h : Handler W) (p : prog A) (f : A -> prog B)
    (w : W) :
  run h (bind p f) w =
  match run h p w with
  | (Returned a, w1, t1) =>
      let '(r, w2, t2) := run h (f a) w1 in (r, w2, t1 ++ t2)
  | (Panicked m, w1, t1) => (Panicked m, w1, t1)
  end.
Proof.
  revert w. induction p as [a | m | o k IH | X e k IH]; intros w; cbn.
  - destruct (run h (f a) w) as [[r w2] t2]. reflexivity.
  - reflexivity.
  - rewrite IH. destruct (run h k w) as [[[a | m] w1] t1]; cbn.
    + destruct (run h (f a) w1) as [[r w2] t2]. reflexivity.
    + reflexivity.
  - destruct (h X e w) as [x w1]. rewrite IH.
    destruct (run h (k x) w1) as [[[a | m] w2] t1]; cbn.
    + destruct (run h (f a) w2) as [[r w3] t2]. reflexivity.
    + reflexivity.
Qed.


(** ** Branch classification *)

Lemma branchExistsLocal_run {W : Type} (h : Handler W) (w : W)
    (repoPath branch : string) :
  let e := Exec Run repoPath "git"
             ["show-ref"; "--verify"; "--quiet"; "refs/heads/" +:+ branch] in
  run h (branchExistsLocal repoPath branch) w =
  (Returned (is_nil (cmd_err (fst (h _ e w)))), snd (h _ e w),
   [Did e (fst (h _ e w))]).
Proof.
  unfold branchExistsLocal, git, call. cbn [run bind fst snd].
  destruct (h CmdResult _ w) as [r w1]. reflexivity.
Qed.

Lemma branchExistsRemote_run {W : Type} (h : Handler W) (w : W)
    (repoPath branch : string) :
  let e := Exec Output repoPath "git"
             ["ls-remote"; "--heads"; "origin"; branch] in
  run h (branchExistsRemote repoPath branch) w =
  (Returned (remoteAnswer (fst (h _ e w))), snd (h _ e w),
   [Did e (fst (h _ e w))]).
Proof.
  unfold branchExistsRemote, git, call. cbn [run bind fst snd].
  destruct (h CmdResult _ w) as [r w1]. unfold remoteAnswer.
  cbn [run bind fst snd]. destruct (cmd_err r); reflexivity.
Qed.

Lemma getBranchDivergence_run {W : Type} (h : Handler W) (w : W)
    (repoPath branch : string) :
  let e := Exec Output repoPath "git"
             ["rev-list"; "--left-right"; "--count";
              branch +:+ "...origin/" +:+ branch] in
  run h (getBranchDivergence repoPath branch) w =
  (Returned (divergenceAnswer (fst (h _ e w))), snd (h _ e w),
   [Did e (fst (h _ e w))]).
Proof.
  unfold getBranchDivergence, git, call. cbn [run bind fst snd].
  destruct (h CmdResult _ w) as [r w1]. unfold divergenceAnswer.
  cbn [run bind fst snd]. destruct (cmd_err r); [reflexivity |].
  destruct (List.length (Fields (TrimSpace (cmd_out r))) =? 2)%nat; reflexivity.
Qed.

Lemma divergenceAnswer_flag (r : CmdResult) :
  snd (divergenceAnswer r) = true <->
  0 < fst (fst (divergenceAnswer r)) /\ 0 < snd (fst (divergenceAnswer r)).
Proof.
  unfold divergenceAnswer.
  destruct (cmd_err r); cbn [fst snd]; [split; [discriminate | lia] |].
  destruct (List.length (Fields (TrimSpace (cmd_out r))) =? 2)%nat;
    cbn [fst snd]; [| split; [discriminate | lia]].
  rewrite andb_true_iff, !Z.ltb_lt. reflexivity.
Qed.

Lemma CheckBranch_run {W : Type} (h : Handler W) (w : W)
    (repoPath branch : string) :
  exists (l r : bool) (d : Z * Z * bool) (w1 w2 w3 : W)
         (t1 t2 t3 : list TraceItem),
    run h (branchExistsLocal repoPath branch) w = (Returned l, w1, t1) /\
    run h (branchExistsRemote repoPath branch) w1 = (Returned r, w2, t2) /\
    (l && r = true ->
     run h (getBranchDivergence repoPath branch) w2 = (Returned d, w3, t3)) /\
    (l && r = false -> w3 = w2 /\ t3 = []) /\
    (snd d = true <-> 0 < fst (fst d) /\ 0 < snd (fst d)) /\
    run h (CheckBranch repoPath branch) w
    = (Returned (classify l r d), w3, t1 ++ t2 ++ t3).
Proof.
  pose proof (branchExistsLocal_run h w repoPath branch) as Hl. cbn zeta in Hl.
  set (w1 := snd (h _ (Exec Run repoPath "git"
      ["show-ref"; "--verify"; "--quiet"; "refs/heads/" +:+ branch]) w)) in *.
  pose proof (branchExistsRemote_run h w1 repoPath branch) as Hr.
  cbn zeta in Hr.
  set (w2 := snd (h _ (Exec Output repoPath "git"
      ["ls-remote"; "--heads"; "origin"; branch]) w1)) in *.
  pose proof (getBranchDivergence_run h w2 repoPath branch) as Hd.
  cbn zeta in Hd.
  match type of Hl with _ = (Returned ?l, _, ?t1) =>
    match type of Hr with _ = (Returned ?r, _, ?t2) =>
      match type of Hd with _ = (Returned ?d, ?w3, ?t3) =>
        exists l, r, d, w1, w2, (if l && r then w3 else w2),
               t1, t2, (if l && r then t3 else []);
        set (lv := l) in *; set (rv := r) in *; set (dv := d) in *
      end
    end
  end.
  split; [exact Hl |]. split; [exact Hr |].
  split; [intros E; rewrite E; exact Hd |].
  split; [intros E; rewrite E; split; reflexivity |].
  split; [apply divergenceAnswer_flag |].
  unfold CheckBranch. rewrite run_bind, Hl, run_bind, Hr.
  destruct lv, rv; cbn [andb].
  - rewrite run_bind, Hd. destruct dv as [[la ra] dg]. reflexivity.
  - reflexivity.
  - reflexivity.
  - reflexivity.
Qed.

(** C1. For every repository path and branch name, and whatever the
    environment answers, [CheckBranch] returns a branch information whose
    status is a function of the two booleans computed by [branchExistsLocal]
    and [branchExistsRemote]: both, local only, remote only or not found. *)
Theorem CheckBranch_classification {W : Type} (h : Handler W) (w : W)
    (repoPath branch : string) :
  exists (localExists remoteExists : bool) (info : BranchInfo)
         (w1 w2 w3 : W) (t1 t2 t3 : list TraceItem),
    run h (branchExistsLocal repoPath branch) w
    = (Returned localExists, w1, t1) /\
    run h (branchExistsRemote repoPath branch) w1
    = (Returned remoteExists, w2, t2) /\
    run h (CheckBranch repoPath branch) w
    = (Returned info, w3, t1 ++ t2 ++ t3) /\
    Status info = match localExists, remoteExists with
                  | true, true => BranchBoth
                  | true, false => BranchLocalOnly
                  | false, true => BranchRemoteOnly
                  | false, false => BranchNotFound
                  end.
Proof.
  destruct (CheckBranch_run h w repoPath branch)
    as (l & r & d & w1 & w2 & w3 & t1 & t2 & t3 & Hl & Hr & _ & _ & _ & Hc).
  exists l, r, (classify l r d), w1, w2, w3, t1, t2, t3.
  repeat split; try assumption.
  destruct l, r; reflexivity.
Qed.

(** C2. In the branch information [CheckBranch] returns, [Diverged] holds
    exactly when both counts are positive, and it is false whenever the
    status is not [BranchBoth]; [getBranchDivergence] reports no divergence
    when the rev-list query fails or when its output does not split into
    exactly two fields. *)
Theorem Diverged_iff_both_counts_positive {W : Type} (h : Handler W) (w : W)
    (repoPath branch : string) :
  (exists (info : BranchInfo) (w' : W) (t : list TraceItem),
      run h (CheckBranch repoPath branch) w = (Returned info, w', t) /\
      (Diverged info = true <-> 0 < LocalAhead info /\ 0 < RemoteBehind info) /\
      (LocalAhead info = 0 \/ RemoteBehind info = 0 -> Diverged info = false) /\
      (Status info <> BranchBoth -> Diverged info = false)) /\
  (exists (r : CmdResult) (w' : W) (localAhead remoteAhead : Z)
          (diverged : bool),
      h _ (Exec Output repoPath "git"
             ["rev-list"; "--left-right"; "--count";
              branch +:+ "...origin/" +:+ branch]) w = (r, w') /\
      run h (getBranchDivergence repoPath branch) w
      = (Returned (localAhead, remoteAhead, diverged), w',
         [Did (Exec Output repoPath "git"
                 ["rev-list"; "--left-right"; "--count";
                  branch +:+ "...origin/" +:+ branch]) r]) /\
      (diverged = true <-> 0 < localAhead /\ 0 < remoteAhead) /\
      (cmd_err r <> None -> diverged = false) /\
      (List.length (Fields (TrimSpace (cmd_out r))) <> 2%nat ->
       diverged = false)).
Proof.
  split.
  - destruct (CheckBranch_run h w repoPath branch)
      as (l & r & d & w1 & w2 & w3 & t1 & t2 & t3 & _ & _ & _ & _ & Hd & Hc).
    exists (classify l r d), w3, (t1 ++ t2 ++ t3).
    split; [exact Hc |].
    assert (Hiff : Diverged (classify l r d) = true <->
                   0 < LocalAhead (classify l r d) /\
                   0 < RemoteBehind (classify l r d)).
    { unfold classify. destruct l, r; cbn; try exact Hd;
        (split; [discriminate | lia]). }
    split; [exact Hiff |]. split.
    + intros H0. destruct (Diverged (classify l r d)); [| reflexivity].
      destruct Hiff as [Hpos _]. specialize (Hpos eq_refl). lia.
    + unfold classify. destruct l, r; cbn; congruence.
  - pose proof (getBranchDivergence_run h w repoPath branch) as Hrun.
    cbn zeta in Hrun.
    destruct (h CmdResult (Exec Output repoPath "git"
                ["rev-list"; "--left-right"; "--count";
                 branch +:+ "...origin/" +:+ branch]) w) as [r w'] eqn:E.
    cbn [fst snd] in Hrun.
    pose proof (divergenceAnswer_flag r) as Hflag.
    destruct (divergenceAnswer r) as [[la ra] dg] eqn:Ed.
    exists r, w', la, ra, dg.
    split; [reflexivity |]. split; [exact Hrun |]. split; [exact Hflag |].
    unfold divergenceAnswer in Ed. split.
    + intros Herr. destruct (cmd_err r); [| congruence].
      inversion Ed. reflexivity.
    + intros Hlen. destruct (cmd_err r); [inversion Ed; reflexivity |].
      destruct (List.length (Fields (TrimSpace (cmd_out r))) =? 2)%nat eqn:El.
      * apply Nat.eqb_eq in El. congruence.
      * inversion Ed. reflexivity.
Qed.

(** C4. [CheckBranch] has no error to report: under every environment it
    returns a branch information.  A failed local query counts as no local
    branch and a failed remote query as no remote branch, so two failures
    give [BranchNotFound] and one failure leaves the classification to the
    other side alone. *)
Theorem CheckBranch_failed_query_means_absent {W : Type} (h : Handler W)
    (w : W) (repoPath branch : string) :
  exists (r1 r2 : CmdResult) (w1 w2 w3 : W) (info : BranchInfo)
         (t : list TraceItem),
    h _ (Exec Run repoPath "git"
           ["show-ref"; "--verify"; "--quiet"; "refs/heads/" +:+ branch]) w
    = (r1, w1) /\
    h _ (Exec Output repoPath "git"
           ["ls-remote"; "--heads"; "origin"; branch]) w1 = (r2, w2) /\
    run h (CheckBranch repoPath branch) w = (Returned info, w3, t) /\
    (cmd_err r1 <> None -> cmd_err r2 <> None ->
     Status info = BranchNotFound) /\
    (cmd_err r1 <> None ->
     Status info = if remoteAnswer r2 then BranchRemoteOnly
                   else BranchNotFound) /\
    (cmd_err r2 <> None ->
     Status info = if is_nil (cmd_err r1) then BranchLocalOnly
                   else BranchNotFound).
Proof.
  destruct (CheckBranch_run h w repoPath branch)
    as (l & r & d & w1 & w2 & w3 & t1 & t2 & t3 & Hl & Hr & _ & _ & _ & Hc).
  rewrite branchExistsLocal_run in Hl. cbn zeta in Hl.
  destruct (h CmdResult (Exec Run repoPath "git"
      ["show-ref"; "--verify"; "--quiet"; "refs/heads/" +:+ branch]) w)
    as [r1 w1'] eqn:E1.
  cbn [fst snd] in Hl. inversion Hl; subst l w1' t1. clear Hl.
  rewrite branchExistsRemote_run in Hr. cbn zeta in Hr.
  destruct (h CmdResult (Exec Output repoPath "git"
      ["ls-remote"; "--heads"; "origin"; branch]) w1) as [r2 w2'] eqn:E2.
  cbn [fst snd] in Hr. inversion Hr; subst r w2' t2. clear Hr.
  exists r1, r2, w1, w2, w3,
    (classify (is_nil (cmd_err r1)) (remoteAnswer r2) d).
  eexists.
  split; [reflexivity |]. split; [exact E2 |]. split; [exact Hc |].
  unfold classify, remoteAnswer.
  set (nonblank := (0 <? String.length (TrimSpace (cmd_out r2)))%nat).
  destruct (cmd_err r1) as [e1 |], (cmd_err r2) as [e2 |];
    cbn [is_nil andb Status]; repeat split; intros; try congruence;
    destruct nonblank; reflexivity.
Qed.

(** ** Name validation *)

Lemma matches_none (l : list N) : matches re_none l = false.
Proof. induction l as [| b l IH]; [reflexivity | exact IH]. Qed.

Lemma matches_alt (r1 r2 : regex) (l : list N) :
  matches (re_alt r1 r2) l = matches r1 l || matches r2 l.
Proof.
  revert r1 r2. induction l as [| b l IH]; intros r1 r2; cbn.
  - reflexivity.
  - apply IH.
Qed.

Lemma matches_cat_none (r : regex) (l : list N) :
  matches (re_cat re_none r) l = false.
Proof. induction l as [| b l IH]; [reflexivity | exact IH]. Qed.

Lemma matches_cat_eps (r : regex) (l : list N) :
  matches (re_cat re_eps r) l = matches r l.
Proof.
  destruct l as [| b l]; cbn.
  - reflexivity.
  - rewrite matches_alt, matches_cat_none. reflexivity.
Qed.

Lemma matches_star_class (rs : list (N * N)) (l : list N) :
  matches (re_star (re_class rs)) l = forallb (inClass rs) l.
Proof.
  induction l as [| b l IH]; [reflexivity |].
  cbn [matches deriv forallb]. destruct (inClass rs b); cbn [andb].
  - rewrite matches_cat_eps. exact IH.
  - apply matches_cat_none.
Qed.

Ltac byte_cases :=
  repeat match goal with
         | |- context [(?a <=? ?b)%N] => destruct (N.leb_spec a b)
         | |- context [(?a =? ?b)%N] => destruct (N.eqb_spec a b)
         end;
  cbn; try reflexivity; try lia.

Lemma inClass_alnum (b : N) : inClass class_alnum b = isAlnumByte b.
Proof. unfold inClass, class_alnum, isAlnumByte; cbn. byte_cases. Qed.

Lemma inClass_name (b : N) : inClass class_name b = isNameByte b.
Proof.
  unfold inClass, class_name, isNameByte, isAlnumByte; cbn. byte_cases.
Qed.

Lemma matches_namePattern (l : list N) :
  matches namePattern l = true <->
  match l with
  | [] => False
  | first :: others =>
      isAlnumByte first = true /\ Forall (fun b => isNameByte b = true) others
  end.
Proof.
  destruct l as [| c rest]; [cbn; split; [discriminate | tauto] |].
  unfold namePattern. cbn [matches deriv nullable].
  rewrite inClass_alnum. destruct (isAlnumByte c).
  - rewrite matches_cat_eps, matches_star_class, forallb_forall, Forall_forall.
    split.
    + intros H. split; [reflexivity |]. intros b Hb.
      rewrite <- inClass_name. apply H, list_elem_of_In, Hb.
    + intros [_ H] b Hb. rewrite inClass_name.
      apply H, list_elem_of_In, Hb.
  - rewrite matches_cat_none. split; [discriminate | intros [H _]; discriminate].
Qed.

Lemma bytes_nil (s : string) : bytes s = [] <-> s = "".
Proof.
  destruct s; cbn; split; intros H; try reflexivity; discriminate.
Qed.

Lemma validName_iff (s : string) :
  (if String.eqb s "" then false else MatchString_anchored namePattern s)
  = true <-> wellFormedName s.
Proof.
  unfold wellFormedName, MatchString_anchored.
  destruct (String.eqb_spec s "") as [-> | Hne].
  - cbn. split; [discriminate | tauto].
  - apply matches_namePattern.
Qed.

(** C6. The name validation of exp, feat and project creation
    ([isValidExpName]) and that of scratch ([isValidScratchName]) accept a
    string exactly when it is not empty, starts with a letter or a digit and
    goes on with letters, digits, hyphens and underscores only; they reject
    the empty string and every string that holds another byte. *)
Theorem name_validation_accepts_exactly_wellformed (s : string) :
  (isValidExpName s = true <-> wellFormedName s) /\
  (isValidScratchName s = true <-> wellFormedName s) /\
  isValidExpName "" = false /\
  isValidScratchName "" = false /\
  (forall b : N, In b (bytes s) -> isNameByte b = false ->
                 isValidExpName s = false /\ isValidScratchName s = false).
Proof.
  split; [apply validName_iff |]. split; [apply validName_iff |].
  split; [reflexivity |]. split; [reflexivity |].
  intros b Hin Hb.
  assert (Hnot : ~ wellFormedName s).
  { unfold wellFormedName. destruct (bytes s) as [| c rest]; [tauto |].
    intros [Hc Hrest]. destruct Hin as [-> | Hin].
    - unfold isNameByte in Hb. rewrite Hc in Hb. discriminate.
    - rewrite Forall_forall in Hrest.
      rewrite (Hrest b) in Hb; [discriminate | apply list_elem_of_In, Hin]. }
  split.
  - destruct (isValidExpName s) eqn:E; [| reflexivity].
    exfalso. apply Hnot, validName_iff, E.
  - destruct (isValidScratchName s) eqn:E; [| reflexivity].
    exfalso. apply Hnot, validName_iff, E.
Qed.

(** ** Experiment keys *)

Lemma append_assoc (a b c : string) : (a +:+ b) +:+ c = a +:+ (b +:+ c).
Proof.
  induction a as [| x a IH]; [reflexivity |].
  change (String x ((a +:+ b) +:+ c) = String x (a +:+ (b +:+ c))).
  rewrite IH. reflexivity.
Qed.

Lemma append_nil_r (a : string) : a +:+ "" = a.
Proof.
  induction a as [| x a IH]; [reflexivity |].
  change (String x (a +:+ "") = String x a). rewrite IH. reflexivity.
Qed.

Lemma lastElementFrom_noSlash (s cur : string) :
  noSlash s = true -> lastElementFrom s cur = cur +:+ s.
Proof.
  revert cur. induction s as [| c s IH]; intros cur H.
  - simpl. symmetry. apply append_nil_r.
  - simpl in H. apply andb_true_iff in H as [Hc Hs].
    apply negb_true_iff in Hc. simpl. rewrite Hc, (IH _ Hs), append_assoc.
    reflexivity.
Qed.

Lemma lastElementFrom_after_slash (dir comp cur : string) :
  noSlash comp = true ->
  lastElementFrom (dir +:+ "/" +:+ comp) cur = comp.
Proof.
  intros Hc. revert cur. induction dir as [| a dir IH]; intros cur; simpl.
  - apply (lastElementFrom_noSlash comp "" Hc).
  - destruct (isSlash a); apply IH.
Qed.

Lemma stripTrailingSlashes_component (comp : string) :
  isComponent comp -> stripTrailingSlashes comp = comp.
Proof.
  intros [Hne Hns]. induction comp as [| c comp IH]; [congruence |].
  simpl in Hns. apply andb_true_iff in Hns as [Hc Hs].
  apply negb_true_iff in Hc. destruct comp as [| d comp].
  - simpl. rewrite Hc. reflexivity.
  - change (match stripTrailingSlashes (String d comp) with
            | EmptyString =>
                if isSlash c then EmptyString else String c EmptyString
            | r => String c r
            end = String c (String d comp)).
    rewrite IH; [reflexivity | discriminate | exact Hs].
Qed.

Lemma stripTrailingSlashes_before_component (p comp : string) :
  isComponent comp -> stripTrailingSlashes (p +:+ comp) = p +:+ comp.
Proof.
  intros Hc. induction p as [| a p IH].
  - apply stripTrailingSlashes_component, Hc.
  - change (match stripTrailingSlashes (p +:+ comp) with
            | EmptyString =>
                if isSlash a then EmptyString else String a EmptyString
            | r => String a r
            end = String a (p +:+ comp)).
    rewrite IH. destruct (p +:+ comp) eqn:E; [| reflexivity].
    destruct Hc as [Hne _]. destruct p, comp; try discriminate E; congruence.
Qed.

Lemma Base_last_component (dir comp : string) :
  isComponent comp -> Base (dir +:+ "/" +:+ comp) = comp.
Proof.
  intros Hc. unfold Base.
  destruct (dir +:+ "/" +:+ comp) eqn:E.
  { destruct dir; discriminate E. }
  rewrite <- E, <- append_assoc, stripTrailingSlashes_before_component by exact Hc.
  rewrite append_assoc, lastElementFrom_after_slash by apply Hc.
  destruct comp; [destruct Hc; congruence | reflexivity].
Qed.

Lemma stripTrailingSlashes_slash (s : string) :
  stripTrailingSlashes (s +:+ "/") = stripTrailingSlashes s.
Proof.
  induction s as [| c s IH]; [reflexivity |].
  change (match stripTrailingSlashes (s +:+ "/") with
          | EmptyString =>
              if isSlash c then EmptyString else String c EmptyString
          | r => String c r
          end = stripTrailingSlashes (String c s)).
  rewrite IH. reflexivity.
Qed.

Lemma stripTrailingSlashes_slashes (n : nat) :
  forall s : string,
    stripTrailingSlashes (s +:+ slashes n) = stripTrailingSlashes s.
Proof.
  induction n as [| n IH]; intros s.
  - rewrite append_nil_r. reflexivity.
  - change (slashes (S n)) with ("/" +:+ slashes n).
    rewrite <- append_assoc, IH. apply stripTrailingSlashes_slash.
Qed.

Lemma Base_finalComponent (path comp : string) :
  finalComponent path comp -> Base path = comp.
Proof.
  intros [| n | c n Hc | dir c n Hc].
  - reflexivity.
  - unfold Base. change (slashes (S n)) with (String "/" (slashes n)).
    change (String "/" (slashes n)) with ("" +:+ slashes (S n)).
    rewrite stripTrailingSlashes_slashes. reflexivity.
  - unfold Base. destruct (c +:+ slashes n) eqn:E.
    { destruct Hc as [Hne _]. destruct c; [congruence | discriminate E]. }
    rewrite <- E, stripTrailingSlashes_slashes.
    rewrite stripTrailingSlashes_component by exact Hc.
    rewrite lastElementFrom_noSlash by apply Hc.
    destruct c; [destruct Hc; congruence | reflexivity].
  - unfold Base. destruct (dir +:+ "/" +:+ c +:+ slashes n) eqn:E.
    { destruct dir; discriminate E. }
    rewrite <- E.
    replace (dir +:+ "/" +:+ c +:+ slashes n)
      with (((dir +:+ "/") +:+ c) +:+ slashes n)
      by (rewrite !append_assoc; reflexivity).
    rewrite stripTrailingSlashes_slashes.
    rewrite stripTrailingSlashes_before_component by exact Hc.
    rewrite append_assoc, lastElementFrom_after_slash by apply Hc.
    destruct c; [destruct Hc; congruence | reflexivity].
Qed.

Lemma finalComponent_total (path : string) :
  exists comp : string, finalComponent path comp.
Proof.
  induction path as [| c path [comp IH]].
  - exists ".". constructor.
  - destruct (isSlash c) eqn:Ec.
    + apply Ascii.eqb_eq in Ec. subst c.
      inversion IH as [| n | comp' n Hc | dir comp' n Hc]; subst.
      * exists "/". apply (final_root 0).
      * exists "/". apply (final_root (S n)).
      * exists comp. apply (final_after "" comp n Hc).
      * exists comp. apply (final_after (String "/" dir) comp n Hc).
    + inversion IH as [| n | comp' n Hc | dir comp' n Hc]; subst.
      * exists (String c ""). apply (final_bare (String c "") 0).
        split; [discriminate | cbn; rewrite Ec; reflexivity].
      * exists (String c ""). apply (final_bare (String c "") (S n)).
        split; [discriminate | cbn; rewrite Ec; reflexivity].
      * exists (String c comp). apply (final_bare (String c comp) n).
        destruct Hc as [_ Hs].
        split; [discriminate | cbn; rewrite Ec, Hs; reflexivity].
      * exists comp. apply (final_after (String c dir) comp n Hc).
Qed.

(** C7. [ExperimentKey] is a function of its two arguments, equal arguments
    giving equal keys, and the key is the base name of the repository path,
    a hyphen and the name.  The base name is the final component of the
    path, whatever the path: every path has a final component (the
    component it ends with once its trailing slashes are set aside,
    standing alone or after a slash; a dot for the empty path, a slash for
    a path of slashes only), and the key is that component, a hyphen and the
    name. *)
Theorem ExperimentKey_deterministic_basename (repo name repo' name' : string) :
  (repo = repo' -> name = name' ->
   ExperimentKey repo name = ExperimentKey repo' name') /\
  ExperimentKey repo name = Base repo +:+ "-" +:+ name /\
  (forall dir comp : string,
      isComponent comp ->
      ExperimentKey (dir +:+ "/" +:+ comp) name = comp +:+ "-" +:+ name) /\
  (exists comp : string, finalComponent repo comp) /\
  (forall comp : string,
      finalComponent repo comp ->
      ExperimentKey repo name = comp +:+ "-" +:+ name) /\
  (forall (dir comp : string) (n : nat),
      isComponent comp ->
      ExperimentKey (comp +:+ slashes n) name = comp +:+ "-" +:+ name /\
      ExperimentKey (dir +:+ "/" +:+ comp +:+ slashes n) name
      = comp +:+ "-" +:+ name).
Proof.
  split; [intros -> ->; reflexivity |]. split; [reflexivity |].
  split.
  { intros dir comp Hc. unfold ExperimentKey.
    rewrite Base_last_component by exact Hc. reflexivity. }
  split; [apply finalComponent_total |].
  split.
  { intros comp Hf. unfold ExperimentKey.
    rewrite (Base_finalComponent repo comp Hf). reflexivity. }
  intros dir comp n Hc. unfold ExperimentKey.
  rewrite (Base_finalComponent _ comp (final_bare comp n Hc)).
  rewrite (Base_finalComponent _ comp (final_after dir comp n Hc)).
  split; reflexivity.
Qed.

(** C10. [ExperimentKey] does not tell apart two repository paths with the
    same base name: with the same experiment name the keys are equal, and
    adding the second experiment replaces the record of the first, the
    state being the one the second alone would have left. *)
Theorem ExperimentKey_collision_overwrites (s s1 s2 : State)
    (e1 e2 : Experiment) :
  Exp_Repo e1 <> Exp_Repo e2 ->
  Base (Exp_Repo e1) = Base (Exp_Repo e2) ->
  Exp_Name e1 = Exp_Name e2 ->
  AddExperiment s e1 = Some s1 ->
  AddExperiment s1 e2 = Some s2 ->
  ExperimentKey (Exp_Repo e1) (Exp_Name e1)
  = ExperimentKey (Exp_Repo e2) (Exp_Name e2) /\
  GetExperiment s1 (ExperimentKey (Exp_Repo e1) (Exp_Name e1)) = Some e1 /\
  GetExperiment s2 (ExperimentKey (Exp_Repo e1) (Exp_Name e1)) = Some e2 /\
  AddExperiment s e2 = Some s2.
Proof.
  intros Hne Hbase Hname H1 H2.
  assert (Hkey : ExperimentKey (Exp_Repo e1) (Exp_Name e1)
                 = ExperimentKey (Exp_Repo e2) (Exp_Name e2)).
  { unfold ExperimentKey. rewrite Hbase, Hname. reflexivity. }
  split; [exact Hkey |].
  unfold AddExperiment in *. rewrite <- Hkey in *.
  destruct (Experiments s) as [m |] eqn:Em; [| discriminate].
  inversion H1; subst s1; clear H1. cbn in H2.
  inversion H2; subst s2; clear H2.
  unfold GetExperiment; cbn. rewrite !lookup_insert_eq, insert_insert_eq.
  repeat split; reflexivity.
Qed.

(** ** Loading the state *)

Lemma decode_untouched_map {V : Type} (sets : StateMember -> bool)
    (field : State -> option (gmap string V)) (members : list StateMember)
    (s : State) :
  (forall (s0 : State) (m : StateMember),
      sets m = false ->
      field (decodeMember s0 m) = field s0 \/ field (decodeMember s0 m) = None) ->
  forallb (fun m => negb (sets m)) members = true ->
  field s = Some ∅ \/ field s = None ->
  field (fold_left decodeMember members s) = Some ∅ \/
  field (fold_left decodeMember members s) = None.
Proof.
  intros Hstep. revert s.
  induction members as [| m members IH]; intros s Hall Hs; cbn.
  - exact Hs.
  - cbn in Hall. apply andb_true_iff in Hall as [Hm Hall].
    apply negb_true_iff in Hm. apply IH; [exact Hall |].
    destruct (Hstep s m Hm) as [E | E]; rewrite E; tauto.
Qed.

Lemma ensureMap_not_nil {V : Type} (field : option (gmap string V)) :
  ensureMap field <> None.
Proof. destruct field; discriminate. Qed.

Lemma ensureMap_empty {V : Type} (field : option (gmap string V)) :
  field = Some ∅ \/ field = None -> ensureMap field = Some ∅.
Proof. intros [-> | ->]; reflexivity. Qed.

(** C9. [LoadState] always returns, and a state it returns has its three
    maps initialised.  When the state file does not exist, the result is the
    empty state of version 1 and no error.  When the document is read
    without error, a map that the document omits or gives as null comes out
    as the empty map. *)
Theorem LoadState_maps_never_nil {W : Type} (h : Handler W) (w : W)
    (cfg : Config) :
  (exists (st : option State) (e : error) (w' : W) (t : list TraceItem),
      run h (LoadState cfg) w = (Returned (st, e), w', t) /\
      (st = None <-> e <> None) /\
      (forall s : State,
          st = Some s ->
          Experiments s <> None /\ Projects s <> None /\ Scratches s <> None)) /\
  (forall (data : string) (e : error_value) (w1 : W),
      h _ (ReadFile (StatePath cfg)) w = ((data, Some e), w1) ->
      os_IsNotExist (Some e) = true ->
      run h (LoadState cfg) w
      = (Returned (Some emptyState, None), w1,
         [Did (ReadFile (StatePath cfg)) (data, Some e)])) /\
  (forall (data : string) (w1 : W) (members : list StateMember),
      h _ (ReadFile (StatePath cfg)) w = ((data, None), w1) ->
      json_decode_State data = (members, None) ->
      exists s : State,
        run h (LoadState cfg) w
        = (Returned (Some s, None), w1,
           [Did (ReadFile (StatePath cfg)) (data, None)]) /\
        (forallb (fun m => negb (setsExperiments m)) members = true ->
         Experiments s = Some ∅) /\
        (forallb (fun m => negb (setsProjects m)) members = true ->
         Projects s = Some ∅) /\
        (forallb (fun m => negb (setsScratches m)) members = true ->
         Scratches s = Some ∅)).
Proof.
  unfold LoadState, call. cbn [run bind].
  destruct (h _ (ReadFile (StatePath cfg)) w) as [[data err] w1] eqn:Eh.
  split; [| split].
  - destruct err as [e |].
    + destruct (os_IsNotExist (Some e)); cbn [run].
      * eexists _, _, _, _. split; [reflexivity |].
        split; [split; [discriminate | congruence] |].
        intros s [= <-]. cbn. repeat split; discriminate.
      * eexists _, _, _, _. split; [reflexivity |].
        split; [split; [discriminate | reflexivity] |]. discriminate.
    + unfold json_Unmarshal_State.
      destruct (json_decode_State data) as [members [e |]]; cbn [run].
      * eexists _, _, _, _. split; [reflexivity |].
        split; [split; [discriminate | reflexivity] |]. discriminate.
      * eexists _, _, _, _. split; [reflexivity |].
        split; [split; [discriminate | congruence] |].
        intros s [= <-]. cbn. repeat split; apply ensureMap_not_nil.
  - intros data' e w1' [= -> -> ->] Hne. rewrite Hne. reflexivity.
  - intros data' w1' members [= -> -> ->] Hdec.
    unfold json_Unmarshal_State. rewrite Hdec. cbn [run].
    eexists. split; [reflexivity |]. cbn [Experiments Projects Scratches].
    split; [| split]; intros Hall; apply ensureMap_empty.
    + apply (decode_untouched_map setsExperiments Experiments);
        [| exact Hall | left; reflexivity].
      intros s0 [v | [kvs |] | v | v] Hm; cbn in *;
        try discriminate; tauto.
    + apply (decode_untouched_map setsProjects Projects);
        [| exact Hall | left; reflexivity].
      intros s0 [v | v | [kvs |] | v] Hm; cbn in *;
        try discriminate; tauto.
    + apply (decode_untouched_map setsScratches Scratches);
        [| exact Hall | left; reflexivity].
      intros s0 [v | v | v | [kvs |]] Hm; cbn in *;
        try discriminate; tauto.
Qed.

(** ** Repository registration *)

Lemma GetRepoRoot_run {W : Type} (h : Handler W) (w : W) (path : string) :
  let e := Exec Output path "git" ["rev-parse"; "--show-toplevel"] in
  run h (GetRepoRoot path) w =
  (Returned (rootAnswer (fst (h _ e w))), snd (h _ e w),
   [Did e (fst (h _ e w))]).
Proof.
  unfold GetRepoRoot, git, call. cbn [run bind fst snd].
  destruct (h CmdResult _ w) as [r w1]. unfold rootAnswer.
  cbn [run bind fst snd]. destruct (cmd_err r); reflexivity.
Qed.

Lemma IsGitRepo_run {W : Type} (h : Handler W) (w : W) (path : string) :
  let e := Exec Output path "git" ["rev-parse"; "--show-toplevel"] in
  run h (IsGitRepo path) w =
  (Returned (is_nil (snd (rootAnswer (fst (h _ e w))))), snd (h _ e w),
   [Did e (fst (h _ e w))]).
Proof.
  unfold IsGitRepo. cbn zeta. rewrite run_bind, GetRepoRoot_run.
  cbn [run]. reflexivity.
Qed.

Lemma keepsBindings_refl (m : gmap string string) : keepsBindings m m.
Proof. intros name path H. exact H. Qed.

Lemma keepsBindings_trans (m1 m2 m3 : gmap string string) :
  keepsBindings m1 m2 -> keepsBindings m2 m3 -> keepsBindings m1 m3.
Proof. intros H12 H23 name path H. apply H23, H12, H. Qed.

Lemma keepsBindings_insert_fresh (m : gmap string string) (name path : string) :
  m !! name = None -> keepsBindings m (<[name := path]> m).
Proof.
  intros Hfresh n p H. rewrite lookup_insert_ne; [exact H |].
  intros <-. congruence.
Qed.

Lemma addSingleRepo_keeps {W : Type} (h : Handler W) (w : W) (cfg : Config)
    (absPath customName : string) :
  exists (cfg' : Config) (e : error) (w' : W) (t : list TraceItem),
    run h (addSingleRepo cfg absPath customName) w = (Returned (cfg', e), w', t) /\
    keepsBindings (Repos cfg) (Repos cfg').
Proof.
  unfold addSingleRepo. rewrite run_bind, GetRepoRoot_run. cbn zeta.
  destruct (h CmdResult _ w) as [r w1]. cbn [fst snd].
  destruct (rootAnswer r) as [repoRoot [e |]]; cbn [run].
  - eexists _, _, _, _. split; [reflexivity | apply keepsBindings_refl].
  - set (name := if String.eqb customName "" then Base repoRoot else customName).
    destruct (Repos cfg !! name) as [existing |] eqn:El.
    + destruct (String.eqb (ExpandPath existing) repoRoot); cbn [run bind ui].
      * eexists _, _, _, _. split; [reflexivity | apply keepsBindings_refl].
      * eexists _, _, _, _. split; [reflexivity | apply keepsBindings_refl].
    + unfold call. cbn [run bind].
      destruct (h _ (Config_Save _) w1) as [[e |] w2]; cbn [run bind ui];
        eexists _, _, _, _; (split; [reflexivity |]);
        apply keepsBindings_insert_fresh, El.
Qed.

Lemma scanEntries_keeps {W : Type} (h : Handler W) (dir : string)
    (entries : list DirEntry) :
  forall (cfg : Config) (n : ScanCounts) (w : W),
  exists (cfg' : Config) (n' : ScanCounts) (w' : W) (t : list TraceItem),
    run h (scanEntries dir entries cfg n) w = (Returned (cfg', n'), w', t) /\
    keepsBindings (Repos cfg) (Repos cfg').
Proof.
  induction entries as [| entry rest IH]; intros cfg n w.
  - eexists _, _, _, _. split; [reflexivity | apply keepsBindings_refl].
  - cbn [scanEntries]. destruct (negb (Entry_IsDir entry)); [apply IH |].
    rewrite run_bind, IsGitRepo_run. cbn zeta.
    destruct (h CmdResult _ w) as [r w1]. cbn [fst snd].
    destruct (negb (is_nil (snd (rootAnswer r)))).
    { destruct (IH cfg n w1) as (cfg' & n' & w' & t & Hrun & Hk).
      rewrite Hrun. eexists _, _, _, _. split; [reflexivity | exact Hk]. }
    rewrite run_bind, GetRepoRoot_run. cbn zeta.
    destruct (h CmdResult _ w1) as [r2 w2]. cbn [fst snd].
    destruct (rootAnswer r2) as [repoRoot [e |]].
    { match goal with
      | |- context [run h (scanEntries dir rest cfg ?n1) w2] =>
          destruct (IH cfg n1 w2) as (cfg' & n' & w' & t & Hrun & Hk)
      end.
      rewrite Hrun. eexists _, _, _, _. split; [reflexivity | exact Hk]. }
    destruct (Repos cfg !! Base repoRoot) as [existing |] eqn:El.
    + destruct (String.eqb (ExpandPath existing) repoRoot).
      * match goal with
        | |- context [run h (scanEntries dir rest cfg ?n1) w2] =>
            destruct (IH cfg n1 w2) as (cfg' & n' & w' & t & Hrun & Hk)
        end.
        rewrite Hrun. eexists _, _, _, _. split; [reflexivity | exact Hk].
      * cbn [ui bind run].
        match goal with
        | |- context [run h (scanEntries dir rest cfg ?n1) w2] =>
            destruct (IH cfg n1 w2) as (cfg' & n' & w' & t & Hrun & Hk)
        end.
        rewrite Hrun. eexists _, _, _, _. split; [reflexivity | exact Hk].
    + match goal with
      | |- context [run h (scanEntries dir rest ?c1 ?n1) w2] =>
          destruct (IH c1 n1 w2) as (cfg' & n' & w' & t & Hrun & Hk)
      end.
      rewrite Hrun. eexists _, _, _, _. split; [reflexivity |].
      eapply keepsBindings_trans; [| exact Hk].
      apply keepsBindings_insert_fresh, El.
Qed.

Lemma scanAndAddRepos_keeps {W : Type} (h : Handler W) (w : W) (cfg : Config)
    (dir : string) :
  exists (cfg' : Config) (e : error) (w' : W) (t : list TraceItem),
    run h (scanAndAddRepos cfg dir) w = (Returned (cfg', e), w', t) /\
    keepsBindings (Repos cfg) (Repos cfg').
Proof.
  unfold scanAndAddRepos, call. cbn [run bind].
  destruct (h _ (ReadDir dir) w) as [[entries [e |]] w1]; cbn [run].
  - eexists _, _, _, _. split; [reflexivity | apply keepsBindings_refl].
  - rewrite run_bind.
    match goal with
    | |- context [run h (scanEntries dir entries cfg ?n1) w1] =>
        destruct (scanEntries_keeps h dir entries cfg n1 w1)
          as (cfg' & n' & w' & t & Hrun & Hk)
    end.
    rewrite Hrun.
    destruct ((added n' =? 0) && (alreadyRegistered n' =? 0) && (skipped n' =? 0));
      cbn [run].
    + eexists _, _, _, _. split; [reflexivity | exact Hk].
    + rewrite run_bind. destruct (0 <? added n').
      * cbn [run bind]. destruct (h _ (Config_Save cfg') w') as [[e |] w2];
          cbn [run bind ui].
        -- eexists _, _, _, _. split; [reflexivity | exact Hk].
        -- destruct (0 <? alreadyRegistered n'), (0 <? skipped n');
             cbn [run bind ui]; eexists _, _, _, _;
             (split; [reflexivity | exact Hk]).
      * destruct (0 <? alreadyRegistered n'), (0 <? skipped n');
          cbn [run bind ui]; eexists _, _, _, _;
          (split; [reflexivity | exact Hk]).
Qed.

(** C8, amended. Through [addSingleRepo], registering a repository under a
    name that the configuration already maps to another root returns an
    error and leaves the mapping as it was; registering the root a name
    already stands for succeeds and changes nothing.  Through
    [scanAndAddRepos], a repository whose name is taken by another root is
    skipped with a warning and counted, no error being returned for it.
    Both always return, and every name bound before is bound to the same
    path afterwards, a name having one path at most. *)
Theorem registration_keeps_names_unique {W : Type} (h : Handler W) (w : W)
    (cfg : Config) (absPath customName dir : string) :
  (forall (r : CmdResult) (w1 : W) (existing : string),
      h _ (Exec Output absPath "git" ["rev-parse"; "--show-toplevel"]) w
      = (r, w1) ->
      cmd_err r = None ->
      let repoRoot := TrimSpace (cmd_out r) in
      let name := if String.eqb customName "" then Base repoRoot
                  else customName in
      Repos cfg !! name = Some existing ->
      (ExpandPath existing <> repoRoot ->
       run h (addSingleRepo cfg absPath customName) w
       = (Returned (cfg, Some (ErrOther ("name '" +:+ name
                                         +:+ "' already registered for "
                                         +:+ existing))),
          w1,
          [Did (Exec Output absPath "git" ["rev-parse"; "--show-toplevel"]) r])) /\
      (ExpandPath existing = repoRoot ->
       run h (addSingleRepo cfg absPath customName) w
       = (Returned (cfg, None), w1,
          [Did (Exec Output absPath "git" ["rev-parse"; "--show-toplevel"]) r;
           Printed {| ui_fn := ui_Info;
                      ui_text := "Repository '" +:+ name
                                 +:+ "' is already registered" |}]))) /\
  (exists (cfg' : Config) (e : error) (w' : W) (t : list TraceItem),
      run h (addSingleRepo cfg absPath customName) w
      = (Returned (cfg', e), w', t) /\
      keepsBindings (Repos cfg) (Repos cfg') /\
      (forall name p1 p2 : string,
          Repos cfg' !! name = Some p1 -> Repos cfg' !! name = Some p2 ->
          p1 = p2)) /\
  (exists (cfg' : Config) (e : error) (w' : W) (t : list TraceItem),
      run h (scanAndAddRepos cfg dir) w = (Returned (cfg', e), w', t) /\
      keepsBindings (Repos cfg) (Repos cfg') /\
      (forall name p1 p2 : string,
          Repos cfg' !! name = Some p1 -> Repos cfg' !! name = Some p2 ->
          p1 = p2)) /\
  (forall (entry : DirEntry) (rest : list DirEntry) (n : ScanCounts)
          (r1 r2 : CmdResult) (w1 w2 : W) (existing : string),
      Entry_IsDir entry = true ->
      let subdir := filepath_Join [dir; Entry_Name entry] in
      let query := Exec Output subdir "git" ["rev-parse"; "--show-toplevel"] in
      h _ query w = (r1, w1) -> cmd_err r1 = None ->
      h _ query w1 = (r2, w2) -> cmd_err r2 = None ->
      let repoRoot := TrimSpace (cmd_out r2) in
      Repos cfg !! Base repoRoot = Some existing ->
      ExpandPath existing <> repoRoot ->
      run h (scanEntries dir (entry :: rest) cfg n) w
      = (let '(res, w', t) :=
           run h (scanEntries dir rest cfg
                    {| added := added n; skipped := skipped n + 1;
                       alreadyRegistered := alreadyRegistered n |}) w2 in
         (res, w',
          Did query r1 :: Did query r2
          :: Printed {| ui_fn := ui_Warn;
                        ui_text := "Skipped '" +:+ Base repoRoot
                                   +:+ "' - name already used for "
                                   +:+ existing |} :: t))).
Proof.
  split; [| split; [| split]]; cycle 3.
  { intros entry rest n r1 r2 w1 w2 existing Hdir subdir query E1 Herr1 E2
      Herr2 repoRoot Hl Hne.
    cbn [scanEntries]. rewrite Hdir. cbn [negb].
    fold subdir. rewrite run_bind, IsGitRepo_run. cbn zeta. fold query.
    rewrite E1. cbn [fst snd]. unfold rootAnswer at 1. rewrite Herr1.
    cbn [snd is_nil negb].
    rewrite run_bind, GetRepoRoot_run. cbn zeta. fold query.
    rewrite E2. cbn [fst snd]. unfold rootAnswer. rewrite Herr2.
    fold repoRoot. rewrite Hl.
    destruct (String.eqb_spec (ExpandPath existing) repoRoot) as [E | _];
      [congruence |].
    cbn [ui bind run].
    destruct (run h (scanEntries dir rest cfg _) w2) as [[res w'] t].
    reflexivity. }
  - intros r w1 existing Eh Herr repoRoot name Hl.
    unfold addSingleRepo. rewrite run_bind, GetRepoRoot_run. cbn zeta.
    rewrite Eh. cbn [fst snd]. unfold rootAnswer. rewrite Herr.
    fold repoRoot. fold name. rewrite Hl.
    destruct (String.eqb_spec (ExpandPath existing) repoRoot) as [E | E];
      split; intros E'; try congruence; reflexivity.
  - destruct (addSingleRepo_keeps h w cfg absPath customName)
      as (cfg' & e & w' & t & Hrun & Hk).
    exists cfg', e, w', t. split; [exact Hrun |]. split; [exact Hk |].
    intros name p1 p2 H1 H2. congruence.
  - destruct (scanAndAddRepos_keeps h w cfg dir)
      as (cfg' & e & w' & t & Hrun & Hk).
    exists cfg', e, w', t. split; [exact Hrun |]. split; [exact Hk |].
    intros name p1 p2 H1 H2. congruence.
Qed.

(** ** Aborting when the branch exists *)

Lemma Fetch_run {W : Type} (h : Handler W) (w : W) (repoPath : string) :
  let e := Exec Run repoPath "git" ["fetch"; "origin"] in
  run h (Fetch repoPath) w =
  (Returned (cmd_err (fst (h _ e w))), snd (h _ e w), [Did e (fst (h _ e w))]).
Proof.
  unfold Fetch, git, call. cbn [run bind fst snd].
  destruct (h CmdResult _ w) as [r w1]. reflexivity.
Qed.

Lemma quietTrace_app (t1 t2 : list TraceItem) :
  quietTrace t1 -> quietTrace t2 -> quietTrace (t1 ++ t2).
Proof.
  unfold quietTrace. intros H1 H2. rewrite existsb_app, H1, H2. reflexivity.
Qed.

Lemma CheckBranch_quietTrace {W : Type} (h : Handler W) (w w' : W)
    (repoPath branch : string) (info : Outcome BranchInfo)
    (t : list TraceItem) :
  run h (CheckBranch repoPath branch) w = (info, w', t) -> quietTrace t.
Proof.
  destruct (CheckBranch_run h w repoPath branch)
    as (l & r & d & w1 & w2 & w3 & t1 & t2 & t3 & Hl & Hr & Hd & Hn & _ & Hc).
  rewrite Hc. intros [= <- <- <-].
  rewrite branchExistsLocal_run in Hl. injection Hl as _ _ <-.
  rewrite branchExistsRemote_run in Hr. injection Hr as _ _ <-.
  apply quietTrace_app; [reflexivity |].
  apply quietTrace_app; [reflexivity |].
  destruct (l && r) eqn:E.
  - specialize (Hd eq_refl). rewrite getBranchDivergence_run in Hd.
    injection Hd as _ _ <-. reflexivity.
  - destruct (Hn eq_refl) as [_ ->]. reflexivity.
Qed.



















(** ** The strategy chosen from the status *)

Lemma behaves_as_refl {R : Type} (p : prog R) : behaves_as p p.
Proof. intros W h w. repeat split. Qed.

Lemma behaves_as_sym {R : Type} (p q : prog R) :
  behaves_as p q -> behaves_as q p.
Proof.
  intros H W h w. destruct (H W h w) as (H1 & H2 & H3).
  repeat split; symmetry; assumption.
Qed.

Lemma behaves_as_trans {R : Type} (p q r : prog R) :
  behaves_as p q -> behaves_as q r -> behaves_as p r.
Proof.
  intros Hpq Hqr W h w.
  destruct (Hpq W h w) as (H1 & H2 & H3), (Hqr W h w) as (H4 & H5 & H6).
  repeat split; etransitivity; eassumption.
Qed.

Lemma behaves_as_Print {R : Type} (o : Output_line) (p : prog R) :
  behaves_as (Print o p) p.
Proof.
  intros W h w. cbn [run]. destruct (run h p w) as [[r w'] t].
  repeat split.
Qed.

Lemma New_not_FromBranch (repoPath worktreePath branch : string) :
  ~ behaves_as (CreateWorktreeNew repoPath worktreePath branch)
               (CreateWorktreeFromBranch repoPath worktreePath branch).
Proof.
  intros H. destruct (H unit quietHandler tt) as (_ & _ & He).
  apply (f_equal (@List.length TraceItem)) in He. vm_compute in He.
  discriminate He.
Qed.

Lemma New_not_TrackRemote (repoPath worktreePath branch : string) :
  ~ behaves_as (CreateWorktreeNew repoPath worktreePath branch)
               (CreateWorktreeTrackRemote repoPath worktreePath branch).
Proof.
  intros H. destruct (H unit quietHandler tt) as (_ & _ & He).
  apply (f_equal (@List.length TraceItem)) in He. vm_compute in He.
  discriminate He.
Qed.

Lemma FromBranch_not_TrackRemote (repoPath worktreePath branch : string) :
  ~ behaves_as (CreateWorktreeFromBranch repoPath worktreePath branch)
               (CreateWorktreeTrackRemote repoPath worktreePath branch).
Proof.
  intros H. destruct (H unit quietHandler tt) as (_ & _ & He).
  apply (f_equal (map (fun i => option_map (@List.length string) (execArgs i))))
    in He.
  vm_compute in He. discriminate He.
Qed.

Lemma nothing_not_New (repoPath worktreePath branch : string) :
  ~ behaves_as (Ret None) (CreateWorktreeNew repoPath worktreePath branch).
Proof.
  intros H. destruct (H unit quietHandler tt) as (_ & _ & He).
  apply (f_equal (@List.length TraceItem)) in He. vm_compute in He.
  discriminate He.
Qed.

Lemma nothing_not_FromBranch (repoPath worktreePath branch : string) :
  ~ behaves_as (Ret None)
               (CreateWorktreeFromBranch repoPath worktreePath branch).
Proof.
  intros H. destruct (H unit quietHandler tt) as (_ & _ & He).
  apply (f_equal (@List.length TraceItem)) in He. vm_compute in He.
  discriminate He.
Qed.

Lemma nothing_not_TrackRemote (repoPath worktreePath branch : string) :
  ~ behaves_as (Ret None)
               (CreateWorktreeTrackRemote repoPath worktreePath branch).
Proof.
  intros H. destruct (H unit quietHandler tt) as (_ & _ & He).
  apply (f_equal (@List.length TraceItem)) in He. vm_compute in He.
  discriminate He.
Qed.

(** The strategy [runProject] picks, status by status. *)
Lemma project_strategy (st : BranchStatus)
    (repoPath worktreePath branch : string) :
  (behaves_as (runProject_createWorktree st repoPath worktreePath branch)
              (CreateWorktreeNew repoPath worktreePath branch)
   <-> st = BranchNotFound) /\
  (behaves_as (runProject_createWorktree st repoPath worktreePath branch)
              (CreateWorktreeFromBranch repoPath worktreePath branch)
   <-> st = BranchLocalOnly \/ st = BranchBoth) /\
  (behaves_as (runProject_createWorktree st repoPath worktreePath branch)
              (CreateWorktreeTrackRemote repoPath worktreePath branch)
   <-> st = BranchRemoteOnly).
Proof.
  pose proof (New_not_FromBranch repoPath worktreePath branch) as NF.
  pose proof (New_not_TrackRemote repoPath worktreePath branch) as NT.
  pose proof (FromBranch_not_TrackRemote repoPath worktreePath branch) as FT.
  destruct st; cbn [runProject_createWorktree];
    (split; [| split]); split; intros H;
    try apply behaves_as_refl;
    try (left; reflexivity); try (right; reflexivity); try reflexivity;
    try discriminate;
    try (destruct H; discriminate);
    try (exfalso; first [ apply NF, H | apply NT, H | apply FT, H
                        | apply NF, behaves_as_sym, H
                        | apply NT, behaves_as_sym, H
                        | apply FT, behaves_as_sym, H ]).
Qed.

Lemma adopt_Both_behaves_as_FromBranch (info : BranchInfo)
    (repoPath expPath branch : string) :
  Status info = BranchBoth ->
  behaves_as (adoptOrphanedBranch_createWorktree info repoPath expPath branch)
             (CreateWorktreeFromBranch repoPath expPath branch).
Proof.
  intros Hst W h w. unfold adoptOrphanedBranch_createWorktree.
  rewrite Hst. unfold CreateWorktreeFromBranch, git, call, ui.
  cbn [run bind].
  destruct (h CmdResult _ w) as [r w1]. unfold worktreeError.
  destruct (cmd_err r) as [e |]; cbn [run bind].
  - repeat split.
  - destruct (Diverged info); cbn [run bind]; repeat split.
Qed.

(** The strategy [adoptOrphanedBranch] picks, status by status. *)
Lemma adopt_strategy (info : BranchInfo) (repoPath expPath branch : string) :
  ~ behaves_as (adoptOrphanedBranch_createWorktree info repoPath expPath branch)
               (CreateWorktreeNew repoPath expPath branch) /\
  (behaves_as (adoptOrphanedBranch_createWorktree info repoPath expPath branch)
              (CreateWorktreeFromBranch repoPath expPath branch)
   <-> Status info = BranchLocalOnly \/ Status info = BranchBoth) /\
  (behaves_as (adoptOrphanedBranch_createWorktree info repoPath expPath branch)
              (CreateWorktreeTrackRemote repoPath expPath branch)
   <-> Status info = BranchRemoteOnly).
Proof.
  pose proof (New_not_FromBranch repoPath expPath branch) as NF.
  pose proof (New_not_TrackRemote repoPath expPath branch) as NT.
  pose proof (FromBranch_not_TrackRemote repoPath expPath branch) as FT.
  pose proof (nothing_not_New repoPath expPath branch) as ZN.
  pose proof (nothing_not_FromBranch repoPath expPath branch) as ZF.
  pose proof (nothing_not_TrackRemote repoPath expPath branch) as ZT.
  assert (HL : Status info = BranchLocalOnly ->
               behaves_as (adoptOrphanedBranch_createWorktree info repoPath
                             expPath branch)
                          (CreateWorktreeFromBranch repoPath expPath branch)).
  { intros E. unfold adoptOrphanedBranch_createWorktree. rewrite E.
    apply behaves_as_Print. }
  assert (HR : Status info = BranchRemoteOnly ->
               behaves_as (adoptOrphanedBranch_createWorktree info repoPath
                             expPath branch)
                          (CreateWorktreeTrackRemote repoPath expPath branch)).
  { intros E. unfold adoptOrphanedBranch_createWorktree. rewrite E.
    apply behaves_as_Print. }
  pose proof (adopt_Both_behaves_as_FromBranch info repoPath expPath branch)
    as HB.
  assert (HZ : Status info = BranchNotFound ->
               adoptOrphanedBranch_createWorktree info repoPath expPath branch
               = Ret None).
  { intros E. unfold adoptOrphanedBranch_createWorktree. rewrite E.
    reflexivity. }
  destruct (Status info) eqn:Est.
  - rewrite (HZ eq_refl). split; [exact ZN |].
    split; split; intros H; try (exfalso; auto; fail);
      try (destruct H; discriminate); discriminate.
  - specialize (HL eq_refl). split.
    + intros H. apply NF, behaves_as_sym.
      eapply behaves_as_trans; [apply behaves_as_sym, HL | exact H].
    + split; split; intros H; auto; try discriminate.
      exfalso. apply FT.
      eapply behaves_as_trans; [apply behaves_as_sym, HL | exact H].
  - specialize (HR eq_refl). split.
    + intros H. apply NT, behaves_as_sym.
      eapply behaves_as_trans; [apply behaves_as_sym, HR | exact H].
    + split; split; intros H; auto; try (destruct H; discriminate).
      exfalso. apply FT, behaves_as_sym.
      eapply behaves_as_trans; [apply behaves_as_sym, HR | exact H].
  - specialize (HB eq_refl). split.
    + intros H. apply NF, behaves_as_sym.
      eapply behaves_as_trans; [apply behaves_as_sym, HB | exact H].
    + split; split; intros H; auto; try discriminate.
      exfalso. apply FT.
      eapply behaves_as_trans; [apply behaves_as_sym, HB | exact H].
Qed.

(** C3, amended. In project creation the status picks the strategy:
    [CreateWorktreeNew] exactly for [BranchNotFound],
    [CreateWorktreeFromBranch] exactly for [BranchLocalOnly] and
    [BranchBoth], [CreateWorktreeTrackRemote] exactly for
    [BranchRemoteOnly].  In adopting an orphaned branch the last two hold as
    well, but [BranchNotFound] picks no strategy: the handler prints two
    lines and returns the error that the branch was not found, and it never
    does what [CreateWorktreeNew] does. *)
Theorem worktree_strategy_by_status (st : BranchStatus) (info : BranchInfo)
    (repoPath worktreePath branch name : string) (flags : ResumeFlags)
    (cfg : Config) (state : State) :
  ((behaves_as (runProject_createWorktree st repoPath worktreePath branch)
               (CreateWorktreeNew repoPath worktreePath branch)
    <-> st = BranchNotFound) /\
   (behaves_as (runProject_createWorktree st repoPath worktreePath branch)
               (CreateWorktreeFromBranch repoPath worktreePath branch)
    <-> st = BranchLocalOnly \/ st = BranchBoth) /\
   (behaves_as (runProject_createWorktree st repoPath worktreePath branch)
               (CreateWorktreeTrackRemote repoPath worktreePath branch)
    <-> st = BranchRemoteOnly)) /\
  (~ behaves_as (adoptOrphanedBranch_createWorktree info repoPath worktreePath
                   branch)
                (CreateWorktreeNew repoPath worktreePath branch) /\
   (behaves_as (adoptOrphanedBranch_createWorktree info repoPath worktreePath
                  branch)
               (CreateWorktreeFromBranch repoPath worktreePath branch)
    <-> Status info = BranchLocalOnly \/ Status info = BranchBoth) /\
   (behaves_as (adoptOrphanedBranch_createWorktree info repoPath worktreePath
                  branch)
               (CreateWorktreeTrackRemote repoPath worktreePath branch)
    <-> Status info = BranchRemoteOnly)) /\
  (Status info = BranchNotFound ->
   forall (W : Type) (h : Handler W) (w : W),
     run h (adoptOrphanedBranch_checked flags cfg state name repoPath branch
              info) w
     = (Returned (Some (ErrOther "branch not found")), w,
        [Printed {| ui_fn := ui_Error;
                    ui_text := "Branch '" +:+ branch
                               +:+ "' not found locally or on remote" |};
         Printed {| ui_fn := ui_Detail;
                    ui_text := "Create new experiment: clade exp " +:+ name |}])).
Proof.
  split; [apply project_strategy |]. split; [apply adopt_strategy |].
  intros Hst W h w. unfold adoptOrphanedBranch_checked. rewrite Hst.
  reflexivity.
Qed.

(** ** The stores of the state and of the configuration *)

Lemma bytes_app (a b : string) : bytes (a +:+ b) = bytes a ++ bytes b.
Proof.
  unfold bytes. induction a as [| c a IH]; [reflexivity |].
  change (byte_of c :: map byte_of (list_ascii_of_string (a +:+ b))
          = byte_of c :: (map byte_of (list_ascii_of_string a)
                          ++ map byte_of (list_ascii_of_string b))).
  rewrite IH. reflexivity.
Qed.

(** X1. Adding an experiment panics exactly on a nil map; otherwise the
    experiment is found under the key of its own repository and name, every
    other key reads as before, projects and scratches are untouched, and
    removing the key makes the lookup nil again.  Looking up or removing in
    a nil map is harmless. *)
Theorem experiment_store_round_trip (s : State) (exp : Experiment)
    (other : string) :
  let key := ExperimentKey (Exp_Repo exp) (Exp_Name exp) in
  (Experiments s = None ->
   AddExperiment s exp = None /\ GetExperiment s other = None /\
   Experiments (RemoveExperiment s other) = None) /\
  (Experiments s <> None ->
   exists s' : State,
     AddExperiment s exp = Some s' /\
     GetExperiment s' key = Some exp /\
     (other <> key -> GetExperiment s' other = GetExperiment s other) /\
     Projects s' = Projects s /\ Scratches s' = Scratches s /\
     Version s' = Version s /\
     GetExperiment (RemoveExperiment s' key) key = None /\
     (other <> key ->
      GetExperiment (RemoveExperiment s' key) other = GetExperiment s other)).
Proof.
  intros key. unfold AddExperiment, GetExperiment, RemoveExperiment.
  fold key. destruct (Experiments s) as [m |]; cbn; split; try congruence.
  - intros _. eexists. split; [reflexivity |]. cbn.
    rewrite lookup_insert_eq, lookup_delete_eq. cbn.
    repeat split; try reflexivity.
    + intros Hne. rewrite lookup_insert_ne by congruence. reflexivity.
    + intros Hne. rewrite lookup_delete_ne, lookup_insert_ne by congruence.
      reflexivity.
  - intros _. repeat split.
Qed.

(** X2. The same for scratches, kept under their own name. *)
Theorem scratch_store_round_trip (s : State) (scratch : Scratch)
    (other : string) :
  (Scratches s = None ->
   AddScratch s scratch = None /\ GetScratch s other = None /\
   Scratches (RemoveScratch s other) = None) /\
  (Scratches s <> None ->
   exists s' : State,
     AddScratch s scratch = Some s' /\
     GetScratch s' (Scr_Name scratch) = Some scratch /\
     (other <> Scr_Name scratch -> GetScratch s' other = GetScratch s other) /\
     Experiments s' = Experiments s /\ Projects s' = Projects s /\
     GetScratch (RemoveScratch s' (Scr_Name scratch)) (Scr_Name scratch) = None /\
     (other <> Scr_Name scratch ->
      GetScratch (RemoveScratch s' (Scr_Name scratch)) other
      = GetScratch s other)).
Proof.
  unfold AddScratch, GetScratch, RemoveScratch.
  destruct (Scratches s) as [m |]; cbn; split; try congruence.
  - intros _. eexists. split; [reflexivity |]. cbn.
    rewrite lookup_insert_eq, lookup_delete_eq. cbn.
    repeat split; try reflexivity.
    + intros Hne. rewrite lookup_insert_ne by congruence. reflexivity.
    + intros Hne. rewrite lookup_delete_ne, lookup_insert_ne by congruence.
      reflexivity.
  - intros _. repeat split.
Qed.

(** X3. The copy preferences of a repository read back as they were set,
    those of every other repository are unchanged and so are the registered
    repositories; a repository without settings has the nil list, and so
    has one whose preference was set to the nil list. *)
Theorem copy_preferences_round_trip (c : Config) (repoPath other : string)
    (files : option (list string)) :
  GetRepoCopyFiles (SetRepoCopyFiles c repoPath files) repoPath = files /\
  (other <> repoPath ->
   GetRepoCopyFiles (SetRepoCopyFiles c repoPath files) other
   = GetRepoCopyFiles c other) /\
  Repos (SetRepoCopyFiles c repoPath files) = Repos c /\
  (RepoSettingsMap c !! repoPath = None -> GetRepoCopyFiles c repoPath = None) /\
  GetRepoCopyFiles (SetRepoCopyFiles c repoPath None) repoPath = None.
Proof.
  unfold GetRepoCopyFiles, SetRepoCopyFiles; cbn.
  rewrite !lookup_insert_eq. repeat split.
  - intros Hne. rewrite lookup_insert_ne by congruence. reflexivity.
  - intros ->. reflexivity.
Qed.

(** ** More on experiment keys and tickets *)

Lemma noSlash_app (a b : string) :
  noSlash (a +:+ b) = noSlash a && noSlash b.
Proof.
  induction a as [| c a IH]; [reflexivity |].
  change (negb (isSlash c) && noSlash (a +:+ b)
          = negb (isSlash c) && noSlash a && noSlash b).
  rewrite IH, andb_assoc. reflexivity.
Qed.

Lemma isComponent_hyphen (a b : string) :
  isComponent a -> isComponent b -> isComponent (a +:+ "-" +:+ b).
Proof.
  intros [Ha Hsa] [Hb Hsb]. split.
  - destruct a; [congruence | discriminate].
  - rewrite !noSlash_app, Hsa, Hsb. reflexivity.
Qed.

Lemma wellFormedName_hyphen (b n : string) :
  wellFormedName b -> wellFormedName n -> wellFormedName (b +:+ "-" +:+ n).
Proof.
  unfold wellFormedName. rewrite !bytes_app.
  destruct (bytes b) as [| c rest]; [tauto |].
  destruct (bytes n) as [| d others]; [tauto |].
  intros [Hc Hrest] [Hd Hothers]. split; [exact Hc |].
  apply Forall_app; split; [exact Hrest |].
  change (bytes "-") with [45%N]. cbn [app].
  constructor; [reflexivity |]. constructor; [| exact Hothers].
  unfold isNameByte. rewrite Hd. reflexivity.
Qed.

(** X4. For one repository, different names give different keys.  Across
    repositories the hyphen is ambiguous: the experiment [n] of a
    repository named [a-b] and the experiment [b-n] of a repository named
    [a] have the same key, and [b-n] passes the name validation whenever
    [b] and [n] do. *)
Theorem ExperimentKey_injective_in_name_not_in_pair
    (repo n1 n2 dir dir' a b n : string) :
  (ExperimentKey repo n1 = ExperimentKey repo n2 -> n1 = n2) /\
  (isComponent a -> isComponent b ->
   dir +:+ "/" +:+ a +:+ "-" +:+ b <> dir +:+ "/" +:+ a /\
   ExperimentKey (dir +:+ "/" +:+ a +:+ "-" +:+ b) n
   = ExperimentKey (dir' +:+ "/" +:+ a) (b +:+ "-" +:+ n) /\
   (isValidExpName b = true -> isValidExpName n = true ->
    isValidExpName (b +:+ "-" +:+ n) = true)).
Proof.
  split.
  - unfold ExperimentKey. intros H.
    apply (inj (String.app (Base repo))) in H.
    apply (inj (String.app "-")) in H. exact H.
  - intros Ha Hb. split; [| split].
    + intros H. apply (inj (String.app dir)) in H.
      apply (inj (String.app "/")) in H.
      rewrite <- (append_nil_r a) in H at 2.
      apply (inj (String.app a)) in H. discriminate H.
    + unfold ExperimentKey.
      rewrite (Base_last_component dir (a +:+ "-" +:+ b))
        by (apply isComponent_hyphen; assumption).
      rewrite (Base_last_component dir' a) by exact Ha.
      rewrite !append_assoc. reflexivity.
    + intros Hvb Hvn. apply validName_iff.
      apply wellFormedName_hyphen; apply validName_iff; assumption.
Qed.

Lemma takeWhile_forallb {A : Type} (f : A -> bool) (l : list A) :
  forallb f (takeWhile f l) = true.
Proof.
  induction l as [| a l IH]; [reflexivity |]. cbn.
  destruct (f a) eqn:E; [cbn; rewrite E, IH; reflexivity | reflexivity].
Qed.

Lemma takeWhile_skipn {A : Type} (f : A -> bool) (l : list A) :
  l = takeWhile f l ++ skipn (List.length (takeWhile f l)) l.
Proof.
  induction l as [| a l IH]; [reflexivity |]. cbn.
  destruct (f a); [cbn; f_equal; exact IH | reflexivity].
Qed.

Lemma takeWhile_stops {A : Type} (f : A -> bool) (l : list A) :
  match skipn (List.length (takeWhile f l)) l with
  | [] => True
  | a :: _ => f a = false
  end.
Proof.
  induction l as [| a l IH]; [exact I |]. cbn.
  destruct (f a) eqn:E; [exact IH | exact E].
Qed.

(** X5. A ticket is either empty or made of one or more capital letters, a
    hyphen and one or more digits; it is then the start of the upper-cased
    name, and the digit run is complete: no digit follows it. *)
Theorem extractTicket_shape (name : string) :
  extractTicket name = "" \/
  exists (letters digits rest : list N),
    letters <> [] /\ forallb isUpper letters = true /\
    digits <> [] /\ forallb isDigit digits = true /\
    extractTicket name = string_of_bytes (letters ++ 45%N :: digits) /\
    bytes (ToUpper name) = letters ++ 45%N :: digits ++ rest /\
    match rest with
    | [] => True
    | r :: _ => isDigit r = false
    end.
Proof.
  unfold extractTicket.
  set (l := bytes (ToUpper name)).
  pose proof (takeWhile_skipn isUpper l) as Hl.
  pose proof (takeWhile_forallb isUpper l) as Hu.
  destruct (takeWhile isUpper l) as [| u letters] eqn:El; [left; reflexivity |].
  destruct (skipn (List.length (u :: letters)) l) as [| x after] eqn:Es;
    [left; reflexivity |].
  assert (Hx : x = 45%N \/ x <> 45%N) by (destruct (N.eq_dec x 45%N); tauto).
  destruct Hx as [-> | Hx].
  - pose proof (takeWhile_skipn isDigit after) as Ha.
    pose proof (takeWhile_forallb isDigit after) as Hd.
    pose proof (takeWhile_stops isDigit after) as Hstop.
    destruct (takeWhile isDigit after) as [| d digits] eqn:Ed;
      [left; reflexivity |].
    right. exists (u :: letters), (d :: digits),
      (skipn (List.length (d :: digits)) after).
    split; [discriminate |]. split; [exact Hu |].
    split; [discriminate |]. split; [exact Hd |].
    split; [reflexivity |]. split; [| exact Hstop].
    etransitivity; [exact Hl |]. f_equal. f_equal. exact Ha.
  - left. destruct x as [| px]; [reflexivity |].
    do 6 (destruct px as [px | px |]; try reflexivity).
    congruence.
Qed.

(** ** Trimming and splitting *)

Lemma dropSpaces_skipn (width : list N -> nat) (fuel : nat) (l : list N) :
  exists k : nat, dropSpaces width fuel l = skipn k l.
Proof.
  revert l. induction fuel as [| fuel IH]; intros l; cbn.
  - exists 0%nat. reflexivity.
  - destruct (width l) as [| n]; [exists 0%nat; reflexivity |].
    destruct (IH (skipn (S n) l)) as [k Hk]. exists (S n + k)%nat.
    rewrite Hk, skipn_skipn. f_equal. lia.
Qed.

Lemma spaceWidth_nil : spaceWidth [] = 0%nat.
Proof. reflexivity. Qed.

Lemma dropSpaces_done (fuel : nat) (l : list N) :
  (List.length l <= fuel)%nat ->
  spaceWidth (dropSpaces spaceWidth fuel l) = 0%nat.
Proof.
  revert l. induction fuel as [| fuel IH]; intros l Hlen.
  - destruct l; [reflexivity | cbn in Hlen; lia].
  - cbn [dropSpaces]. destruct (spaceWidth l) as [| n] eqn:E; [exact E |].
    apply IH. destruct l as [| b l]; [discriminate E |].
    rewrite length_skipn. cbn [List.length] in *. lia.
Qed.

Lemma string_of_bytes_of_ascii (la : list ascii) :
  string_of_bytes (map byte_of la) = string_of_list_ascii la.
Proof.
  unfold string_of_bytes, byte_of. rewrite map_map. f_equal.
  induction la as [| a la IH]; [reflexivity |].
  cbn. rewrite ascii_N_embedding, IH. reflexivity.
Qed.

(** What [TrimSpace] returns does not start with a line feed. *)
Lemma TrimSpace_head (s : string) :
  TrimSpace s = "" \/
  exists (c : ascii) (rest : string),
    TrimSpace s = String c rest /\ c <> newline.
Proof.
  unfold TrimSpace. cbn zeta.
  set (l := bytes s).
  pose proof (dropSpaces_done (List.length l) l (le_n _)) as Hdone.
  destruct (dropSpaces_skipn spaceWidth (List.length l) l) as [k1 Hk1].
  rewrite Hk1 in *.
  destruct (dropSpaces_skipn spaceWidthRev
              (List.length (rev (skipn k1 l))) (rev (skipn k1 l))) as [k2 Hk2].
  rewrite Hk2. clear Hk1 Hk2.
  rewrite skipn_rev, rev_involutive.
  unfold l, bytes in *. rewrite skipn_map in *. rewrite firstn_map.
  set (la := skipn k1 (list_ascii_of_string s)) in *.
  rewrite string_of_bytes_of_ascii.
  destruct (firstn (List.length (map byte_of la) - k2) la) as [| c rest] eqn:Ef;
    [left; reflexivity |].
  right. exists c, (string_of_list_ascii rest). split; [reflexivity |].
  intros ->. destruct la as [| c' la']; [destruct (_ - _)%nat; discriminate Ef |].
  destruct (List.length (map byte_of (c' :: la')) - k2)%nat; [discriminate Ef |].
  cbn in Ef. injection Ef as -> _. discriminate Hdone.
Qed.

Lemma splitFrom_head (sep : ascii) (s cur : string) :
  exists (tail : string) (others : list string),
    splitFrom sep s cur = (cur +:+ tail) :: others.
Proof.
  revert cur. induction s as [| c s IH]; intros cur; cbn.
  - exists "", []. rewrite append_nil_r. reflexivity.
  - destruct (Ascii.eqb c sep).
    + exists "", (splitFrom sep s ""). rewrite append_nil_r. reflexivity.
    + destruct (IH (cur +:+ String c "")) as (tail & others & E).
      exists (String c tail), others. rewrite E, append_assoc. reflexivity.
Qed.

(** The trimmed output has a line that is not empty exactly when it is not
    empty itself. *)
Lemma nonEmptyLines_nil (out : string) :
  nonEmptyLines out = [] <-> TrimSpace out = "".
Proof.
  unfold nonEmptyLines. split.
  - destruct (TrimSpace_head out) as [E | (c & rest & E & Hc)]; [tauto |].
    rewrite E. unfold Split. cbn [splitFrom].
    destruct (Ascii.eqb_spec c newline) as [-> | _]; [congruence |].
    destruct (splitFrom_head newline rest ("" +:+ String c ""))
      as (tail & others & Es).
    rewrite Es. cbn. discriminate.
  - intros ->. reflexivity.
Qed.

(** ** The status of a working tree *)

Lemma statusLine_invariant (status : GitStatus) (line : string) (k : nat) :
  UncommittedCount status = Z.of_nat k ->
  (Clean status = true <-> k = 0%nat) ->
  (List.length (StagedFiles status) + List.length (UntrackedFiles status) <= k)%nat ->
  (List.length (ModifiedFiles status) <= k)%nat ->
  let k' := if String.eqb line "" then k else S k in
  UncommittedCount (statusLine status line) = Z.of_nat k' /\
  (Clean (statusLine status line) = true <-> k' = 0%nat) /\
  (List.length (StagedFiles (statusLine status line))
   + List.length (UntrackedFiles (statusLine status line)) <= k')%nat /\
  (List.length (ModifiedFiles (statusLine status line)) <= k')%nat.
Proof.
  intros Hc Hclean Hsu Hm. unfold statusLine.
  destruct (String.eqb line ""); cbn zeta; [tauto |].
  destruct line as [| i [| wt [| third rest]]]; cbn;
    [| | | destruct (Ascii.eqb wt "M"), (Ascii.eqb i "?"),
             (Ascii.eqb i " "); cbn; rewrite ?length_app; cbn];
    repeat split; intros; try lia; try discriminate.
Qed.

Lemma fold_statusLine_invariant (lines : list string) (status : GitStatus)
    (k : nat) :
  UncommittedCount status = Z.of_nat k ->
  (Clean status = true <-> k = 0%nat) ->
  (List.length (StagedFiles status) + List.length (UntrackedFiles status) <= k)%nat ->
  (List.length (ModifiedFiles status) <= k)%nat ->
  let st := fold_left statusLine lines status in
  let k' := (k + List.length
                   (List.filter (fun line => negb (String.eqb line "")) lines))%nat in
  UncommittedCount st = Z.of_nat k' /\
  (Clean st = true <-> k' = 0%nat) /\
  (List.length (StagedFiles st) + List.length (UntrackedFiles st) <= k')%nat /\
  (List.length (ModifiedFiles st) <= k')%nat.
Proof.
  revert status k. induction lines as [| line lines IH];
    intros status k Hc Hclean Hsu Hm; cbn zeta.
  - cbn. rewrite Nat.add_0_r. tauto.
  - destruct (statusLine_invariant status line k Hc Hclean Hsu Hm)
      as (H1 & H2 & H3 & H4).
    specialize (IH _ _ H1 H2 H3 H4). cbn zeta in IH. cbn [fold_left List.filter].
    destruct (String.eqb line ""); cbn [negb List.length] in *.
    + exact IH.
    + replace (k + S _)%nat with (S k + List.length
        (List.filter (fun line0 => negb (String.eqb line0 "")) lines))%nat
        by lia.
      exact IH.
Qed.

(** X6. When [git status] fails, [GetStatus] returns no status and that
    error.  Otherwise the count is the number of lines of the trimmed output
    that are not empty; the tree is clean exactly when the count is zero,
    which is exactly when the trimmed output is empty; staged and untracked
    files together, and modified files, are never more than the count; and
    [HasUncommittedChanges] reports changes exactly when the tree is not
    clean. *)
Theorem GetStatus_counts_lines {W : Type} (h : Handler W) (w : W)
    (repoPath : string) :
  exists (r : CmdResult) (w' : W),
    h _ (Exec Output repoPath "git" ["status"; "--porcelain"]) w = (r, w') /\
    (cmd_err r <> None ->
     fst (fst (run h (GetStatus repoPath) w)) = Returned (None, cmd_err r) /\
     fst (fst (run h (HasUncommittedChanges repoPath) w))
     = Returned (false, cmd_err r)) /\
    (cmd_err r = None ->
     exists st : GitStatus,
       fst (fst (run h (GetStatus repoPath) w)) = Returned (Some st, None) /\
       UncommittedCount st
       = Z.of_nat (List.length (nonEmptyLines (cmd_out r))) /\
       (Clean st = true <-> UncommittedCount st = 0) /\
       (Clean st = true <-> TrimSpace (cmd_out r) = "") /\
       (List.length (StagedFiles st) + List.length (UntrackedFiles st)
        <= List.length (nonEmptyLines (cmd_out r)))%nat /\
       (List.length (ModifiedFiles st)
        <= List.length (nonEmptyLines (cmd_out r)))%nat /\
       fst (fst (run h (HasUncommittedChanges repoPath) w))
       = Returned (negb (Clean st), None)).
Proof.
  unfold HasUncommittedChanges. rewrite run_bind.
  unfold GetStatus, git, call. cbn [run bind].
  destruct (h _ (Exec Output repoPath "git" ["status"; "--porcelain"]) w)
    as [r w'].
  exists r, w'. split; [reflexivity |].
  destruct (cmd_err r) as [e |]; cbn [run fst snd].
  - split; [intros _; split; reflexivity | congruence].
  - split; [congruence |]. intros _. eexists. split; [reflexivity |].
    match goal with
    | |- context [fold_left statusLine ?lines ?st0] =>
        pose proof (fold_statusLine_invariant lines st0 0 eq_refl
                      ltac:(cbn; tauto) ltac:(cbn; lia) ltac:(cbn; lia)) as H
    end.
    cbn zeta in H. rewrite Nat.add_0_l in H.
    destruct H as (H1 & H2 & H3 & H4). fold (nonEmptyLines (cmd_out r)) in *.
    split; [exact H1 |]. split; [rewrite H1, H2; lia |].
    split; [| split; [exact H3 | split; [exact H4 | reflexivity]]].
    rewrite H2, <- nonEmptyLines_nil.
    destruct (nonEmptyLines (cmd_out r)); cbn; split; congruence.
Qed.

(** ** Listing worktrees and commits *)

Lemma afterPrefix_Some (p s t : string) :
  afterPrefix p s = Some t <-> s = p +:+ t.
Proof.
  revert s. induction p as [| a p IH]; intros s.
  - cbn. split; [intros [= ->]; reflexivity | intros ->; reflexivity].
  - destruct s as [| b s]; cbn [afterPrefix].
    + split; [discriminate | intros H; discriminate H].
    + destruct (Ascii.eqb_spec a b) as [-> | Hne].
      * rewrite IH. split; [intros ->; reflexivity |].
        intros H. injection H as H. exact H.
      * split; [discriminate |]. intros H. injection H as H _. congruence.
Qed.

Lemma afterPrefix_prefix (p s : string) :
  String.prefix p s = negb (is_nil (afterPrefix p s)).
Proof.
  revert s. induction p as [| a p IH]; intros s.
  - destruct s; reflexivity.
  - destruct s as [| b s]; [reflexivity |]. cbn [String.prefix afterPrefix].
    destruct (ascii_dec a b) as [-> | Hne].
    + rewrite Ascii.eqb_refl. apply IH.
    + destruct (Ascii.eqb_spec a b); [congruence | reflexivity].
Qed.

Lemma omap_afterPrefix (p : string) (lines : list string) :
  map (String.append p) (omap (afterPrefix p) lines)
  = List.filter (String.prefix p) lines.
Proof.
  induction lines as [| line lines IH]; [reflexivity |].
  cbn [List.filter]. rewrite afterPrefix_prefix.
  change (omap (afterPrefix p) (line :: lines))
    with (match afterPrefix p line with
          | Some t => t :: omap (afterPrefix p) lines
          | None => omap (afterPrefix p) lines
          end).
  destruct (afterPrefix p line) as [t |] eqn:E; cbn [is_nil negb map].
  - apply afterPrefix_Some in E. rewrite IH, E. reflexivity.
  - exact IH.
Qed.

(** X7. When [git worktree list] fails, [ListWorktrees] returns the nil list
    and a wrapped error.  Otherwise the paths it returns, each with the
    prefix put back, are the lines of the output that start with the
    prefix, in the order of the output; the nil list when there is none. *)
Theorem ListWorktrees_prefixed_lines {W : Type} (h : Handler W) (w : W)
    (repoPath : string) :
  exists (r : CmdResult) (w' : W),
    h _ (Exec Output repoPath "git" ["worktree"; "list"; "--porcelain"]) w
    = (r, w') /\
    (forall e : error_value,
        cmd_err r = Some e ->
        fst (fst (run h (ListWorktrees repoPath) w))
        = Returned (None, Some (ErrOther ("failed to list worktrees: "
                                          +:+ Error e)))) /\
    (cmd_err r = None ->
     exists worktrees : option (list string),
       fst (fst (run h (ListWorktrees repoPath) w))
       = Returned (worktrees, None) /\
       worktrees <> Some [] /\
       map (String.append "worktree ") (default [] worktrees)
       = List.filter (String.prefix "worktree ") (Split (cmd_out r) newline)).
Proof.
  unfold ListWorktrees, git, call. cbn [run bind].
  destruct (h _ (Exec Output repoPath "git"
                   ["worktree"; "list"; "--porcelain"]) w) as [r w'].
  exists r, w'. split; [reflexivity |].
  destruct (cmd_err r) as [e |]; cbn [run fst snd].
  - split; [intros e' [= <-]; reflexivity | congruence].
  - split; [discriminate |]. intros _.
    pose proof (omap_afterPrefix "worktree " (Split (cmd_out r) newline)) as H.
    destruct (omap (afterPrefix "worktree ") (Split (cmd_out r) newline))
      as [| p ps]; eexists; (split; [reflexivity |]);
      (split; [discriminate | exact H]).
Qed.

Lemma filter_no_empty (lines : list string) :
  ~ In "" (List.filter (fun line => negb (String.eqb line "")) lines).
Proof.
  intros H. apply filter_In in H as [_ H]. discriminate H.
Qed.

(** X8. [GetRecentCommits] runs one [git log], asking for [count] commits
    when [count] is between 0 and 9 and for 10 when it is larger, never for
    more.  When git fails it returns the nil list and the error; otherwise
    the lines of the trimmed output that are not empty, so no commit is the
    empty string. *)
Theorem GetRecentCommits_caps_at_ten {W : Type} (h : Handler W) (w : W)
    (repoPath : string) (count : Z) :
  0 <= count ->
  let n := pretty (Z.min count 10) in
  exists (r : CmdResult) (w' : W) (commits : option (list string)) (e : error),
    h _ (Exec Output repoPath "git" ["log"; "--oneline"; "-n"; n]) w = (r, w') /\
    run h (GetRecentCommits repoPath count) w
    = (Returned (commits, e), w',
       [Did (Exec Output repoPath "git" ["log"; "--oneline"; "-n"; n]) r]) /\
    e = cmd_err r /\
    (cmd_err r <> None -> commits = None) /\
    (cmd_err r = None -> default [] commits = nonEmptyLines (cmd_out r)) /\
    ~ In "" (default [] commits).
Proof.
  intros Hpos n. unfold GetRecentCommits.
  assert (Hn : (if 9 <? count then "10"
                else string_of_rune (rune_of_int (48 + count))) = n).
  { unfold n. destruct (Z.ltb_spec 9 count) as [Hbig | Hsmall].
    - rewrite Z.min_r by lia. reflexivity.
    - rewrite Z.min_l by lia.
      assert (Hc : count = 0 \/ count = 1 \/ count = 2 \/ count = 3
                   \/ count = 4 \/ count = 5 \/ count = 6 \/ count = 7
                   \/ count = 8 \/ count = 9) by lia.
      repeat (destruct Hc as [-> | Hc]; [vm_compute; reflexivity |]).
      subst count. vm_compute. reflexivity. }
  rewrite Hn. unfold git, call. cbn [run bind].
  destruct (h _ (Exec Output repoPath "git" ["log"; "--oneline"; "-n"; n]) w)
    as [r w'].
  destruct (cmd_err r) as [e |] eqn:Ee; cbn [run].
  - exists r, w', None, (Some e). rewrite Ee.
    repeat split; try congruence. intros [].
  - fold (nonEmptyLines (cmd_out r)).
    pose proof (filter_no_empty (Split (TrimSpace (cmd_out r)) newline)) as Hf.
    fold (nonEmptyLines (cmd_out r)) in Hf.
    exists r, w'. destruct (nonEmptyLines (cmd_out r)) as [| c cs] eqn:El.
    + exists None, None. rewrite Ee. repeat split; try congruence. intros [].
    + exists (Some (c :: cs)), None. rewrite Ee.
      repeat split; try congruence. exact Hf.
Qed.

(** ** The default branch and new worktrees *)

Lemma splitFrom_last_noSlash (s cur : string) :
  noSlash cur = true -> noSlash (List.last (splitFrom "/" s cur) "") = true.
Proof.
  revert cur. induction s as [| c s IH]; intros cur Hcur.
  - exact Hcur.
  - cbn [splitFrom]. destruct (Ascii.eqb c "/") eqn:E.
    + specialize (IH "" eq_refl).
      destruct (splitFrom_head "/" s "") as (tail & others & Es).
      rewrite Es in *. exact IH.
    + apply IH. rewrite noSlash_app, Hcur. cbn. unfold isSlash. rewrite E.
      reflexivity.
Qed.

Lemma GetDefaultBranch_shape {W : Type} (h : Handler W) (w : W)
    (repoPath : string) :
  exists (name : string) (w' : W) (t : list TraceItem),
    run h (GetDefaultBranch repoPath) w = (Returned name, w', t) /\
    noSlash name = true /\
    (1 <= List.length t <= 2)%nat /\ quietTrace t /\
    (forall (r1 r2 : CmdResult) (w1 w2 : W),
        h _ (Exec Output repoPath "git"
               ["symbolic-ref"; "refs/remotes/origin/HEAD"]) w = (r1, w1) ->
        cmd_err r1 <> None ->
        h _ (Exec Run repoPath "git" ["rev-parse"; "--verify"; "origin/main"]) w1
        = (r2, w2) ->
        name = if is_nil (cmd_err r2) then "main" else "master").
Proof.
  unfold GetDefaultBranch, git, call. cbn [run bind].
  destruct (h _ (Exec Output repoPath "git"
                   ["symbolic-ref"; "refs/remotes/origin/HEAD"]) w)
    as [r1 w1].
  destruct (cmd_err r1) as [e1 |] eqn:E1.
  - cbn [run bind].
    destruct (h _ (Exec Run repoPath "git"
                     ["rev-parse"; "--verify"; "origin/main"]) w1)
      as [r2 w2] eqn:Eh2.
    destruct (is_nil (cmd_err r2)) eqn:E2; cbn [run];
      eexists _, _, _; (split; [reflexivity |]);
      (split; [reflexivity |]); (split; [cbn; lia |]);
      (split; [reflexivity |]);
      intros r1' r2' w1' w2' [= <- <-] _ H2; rewrite Eh2 in H2;
      injection H2 as <- <-; rewrite E2; reflexivity.
  - destruct (splitFrom_head "/" (TrimSpace (cmd_out r1)) "")
      as (tail & others & Es).
    unfold Split. rewrite Es. cbn [List.length Nat.ltb Nat.leb run].
    eexists _, _, _. split; [reflexivity |].
    split; [rewrite <- Es; apply splitFrom_last_noSlash; reflexivity |].
    split; [cbn; lia |]. split; [reflexivity |].
    intros r1' r2' w1' w2' [= <- <-] H. rewrite E1 in H. congruence.
Qed.

(** X9. [GetDefaultBranch] always returns, after one query or two and
    without creating anything, and the name it returns holds no slash.
    When the symbolic reference cannot be read, the name is [main] if
    [origin/main] can be verified and [master] otherwise. *)
Theorem GetDefaultBranch_is_one_component {W : Type} (h : Handler W) (w : W)
    (repoPath : string) :
  exists (name : string) (w' : W) (t : list TraceItem),
    run h (GetDefaultBranch repoPath) w = (Returned name, w', t) /\
    noSlash name = true /\
    (1 <= List.length t <= 2)%nat /\ quietTrace t /\
    (forall (r1 r2 : CmdResult) (w1 w2 : W),
        h _ (Exec Output repoPath "git"
               ["symbolic-ref"; "refs/remotes/origin/HEAD"]) w = (r1, w1) ->
        cmd_err r1 <> None ->
        h _ (Exec Run repoPath "git" ["rev-parse"; "--verify"; "origin/main"]) w1
        = (r2, w2) ->
        name = if is_nil (cmd_err r2) then "main" else "master").
Proof. apply GetDefaultBranch_shape. Qed.

(** X10. [CreateWorktreeNew] returns no error only when its last step was a
    [git worktree add -b] for the branch and the path that succeeded,
    started from [HEAD] or from [origin/] and a name without a slash; all
    that came before created nothing. *)
Theorem CreateWorktreeNew_success_means_created {W : Type} (h : Handler W)
    (w w' : W) (repoPath worktreePath branch : string) (t : list TraceItem) :
  run h (CreateWorktreeNew repoPath worktreePath branch) w
  = (Returned None, w', t) ->
  exists (pre : list TraceItem) (start : string) (r : CmdResult),
    t = pre ++ [Did (Exec CombinedOutput repoPath "git"
                       ["worktree"; "add"; "-b"; branch; worktreePath; start])
                    r] /\
    cmd_err r = None /\
    quietTrace pre /\
    (start = "HEAD" \/
     exists d : string, start = "origin/" +:+ d /\ noSlash d = true).
Proof.
  unfold CreateWorktreeNew. rewrite run_bind, Fetch_run. cbn zeta.
  destruct (h _ (Exec Run repoPath "git" ["fetch"; "origin"]) w) as [rf w1].
  cbn [fst snd]. rewrite run_bind.
  destruct (run h (CheckBranch repoPath branch) w1) as [[oinfo w2] tc] eqn:Ec.
  pose proof (CheckBranch_quietTrace h w1 w2 repoPath branch _ tc Ec) as Hqc.
  destruct oinfo as [info | m]; [| discriminate].
  destruct (Status info); cbn [run]; try discriminate.
  rewrite run_bind. unfold hasOriginRemote, git, call. cbn [run bind].
  destruct (h _ (Exec Run repoPath "git" ["remote"; "get-url"; "origin"]) w2)
    as [rr w3].
  destruct (is_nil (cmd_err rr)).
  - rewrite !run_bind.
    destruct (GetDefaultBranch_shape h w3 repoPath)
      as (d & w4 & td & Hd & Hns & _ & Hqd & _).
    rewrite Hd. cbn [run bind].
    destruct (h _ (Exec CombinedOutput repoPath "git" _) w4) as [r w5].
    cbv beta iota zeta. unfold worktreeError.
    destruct (cmd_err r) eqn:Er; [discriminate |].
    intros [= <- <-].
    exists ([Did (Exec Run repoPath "git" ["fetch"; "origin"]) rf] ++ tc
            ++ [Did (Exec Run repoPath "git" ["remote"; "get-url"; "origin"]) rr]
            ++ td), ("origin/" +:+ d), r.
    split; [rewrite ?app_nil_r, <- ?app_assoc; reflexivity |].
    split; [exact Er |]. split.
    + apply quietTrace_app; [reflexivity |].
      apply quietTrace_app; [exact Hqc |].
      apply quietTrace_app; [reflexivity | exact Hqd].
    + right. exists d. split; [reflexivity | exact Hns].
  - rewrite !run_bind. cbn [run bind].
    destruct (h _ (Exec CombinedOutput repoPath "git" _) w3) as [r w5].
    cbv beta iota zeta. unfold worktreeError.
    destruct (cmd_err r) eqn:Er; [discriminate |].
    intros [= <- <-].
    exists ([Did (Exec Run repoPath "git" ["fetch"; "origin"]) rf] ++ tc
            ++ [Did (Exec Run repoPath "git" ["remote"; "get-url"; "origin"]) rr]),
      "HEAD", r.
    split; [rewrite ?app_nil_r, <- ?app_assoc; reflexivity |].
    split; [exact Er |]. split.
    + apply quietTrace_app; [reflexivity |].
      apply quietTrace_app; [exact Hqc | reflexivity].
    + left. reflexivity.
Qed.

Lemma CheckBranch_consistent {W : Type} (h : Handler W) (w : W)
    (repoPath branch : string) :
  exists (info : BranchInfo) (w' : W) (t : list TraceItem),
    run h (CheckBranch repoPath branch) w = (Returned info, w', t) /\
    consistentInfo info /\ quietTrace t.
Proof.
  destruct (CheckBranch_run h w repoPath branch)
    as (l & r & d & w1 & w2 & w3 & t1 & t2 & t3 & _ & _ & _ & _ & Hd & Hc).
  exists (classify l r d), w3, (t1 ++ t2 ++ t3). split; [exact Hc |].
  split; [| exact (CheckBranch_quietTrace h w w3 repoPath branch _ _ Hc)].
  unfold consistentInfo, classify.
  destruct l, r; cbn; split; try exact Hd; try tauto;
    try (split; [discriminate | lia]); intros; split; reflexivity.
Qed.

Lemma PreflightCheckFrom_entries {W : Type} (h : Handler W) (branch : string)
    (repos : list string) :
  forall (results : gmap string BranchInfo) (w : W),
  exists (m : gmap string BranchInfo) (w' : W) (t : list TraceItem),
    run h (PreflightCheckFrom repos branch results) w = (Returned m, w', t) /\
    quietTrace t /\
    (forall repo : string,
        is_Some (m !! repo) <-> In repo repos \/ is_Some (results !! repo)) /\
    ((forall (repo : string) (info : BranchInfo),
         results !! repo = Some info -> consistentInfo info) ->
     forall (repo : string) (info : BranchInfo),
       m !! repo = Some info -> consistentInfo info).
Proof.
  induction repos as [| repo0 repos IH]; intros results w.
  - exists results, w, []. split; [reflexivity |]. split; [reflexivity |].
    split; [intros repo; cbn; tauto | intros Hres; exact Hres].
  - cbn [PreflightCheckFrom]. rewrite run_bind, Fetch_run. cbn zeta.
    destruct (h _ (Exec Run repo0 "git" ["fetch"; "origin"]) w) as [rf w1].
    cbn [fst snd]. rewrite run_bind.
    destruct (CheckBranch_consistent h w1 repo0 branch)
      as (info0 & w2 & tc & Hc & Hcons & Hq).
    rewrite Hc.
    destruct (IH (<[repo0 := info0]> results) w2)
      as (m & w3 & t & Hrun & Hqt & Hdom & Hall).
    rewrite Hrun. exists m, w3. eexists. split; [reflexivity |].
    split; [apply quietTrace_app; [reflexivity |];
            apply quietTrace_app; assumption |].
    split.
    + intros repo. rewrite Hdom. cbn [In].
      destruct (decide (repo0 = repo)) as [-> | Hne].
      * rewrite lookup_insert_eq. split; intros _; [tauto |].
        right. eexists. reflexivity.
      * rewrite lookup_insert_ne by exact Hne. tauto.
    + intros Hres. apply Hall. intros repo info.
      destruct (decide (repo0 = repo)) as [-> | Hne].
      * rewrite lookup_insert_eq. intros [= <-]. exact Hcons.
      * rewrite lookup_insert_ne by exact Hne. apply Hres.
Qed.

(** X11. [PreflightCheck] always returns a map with an entry for each of the
    repositories given and for no other path; every entry hangs together
    (diverged exactly when both counts are positive, no counts unless the
    branch is on both sides); and the check creates nothing. *)
Theorem PreflightCheck_covers_repos {W : Type} (h : Handler W) (w : W)
    (repos : list string) (branch : string) :
  exists (m : gmap string BranchInfo) (w' : W) (t : list TraceItem),
    run h (PreflightCheck repos branch) w = (Returned m, w', t) /\
    quietTrace t /\
    (forall repo : string, is_Some (m !! repo) <-> In repo repos) /\
    (forall (repo : string) (info : BranchInfo),
        m !! repo = Some info -> consistentInfo info).
Proof.
  destruct (PreflightCheckFrom_entries h branch repos ∅ w)
    as (m & w' & t & Hrun & Hq & Hdom & Hall).
  exists m, w', t. split; [exact Hrun |]. split; [exact Hq |]. split.
  - intros repo. rewrite Hdom, lookup_empty. split; [| tauto].
    intros [H | [x Hx]]; [exact H | discriminate Hx].
  - apply Hall. intros repo info. rewrite lookup_empty. discriminate.
Qed.

(** ** The lists of the dashboard *)

Section SortByLastUsed.
Context {A : Type} (LastUsed : A -> Time).

Lemma exchangeStep_length i j l l' :
  exchangeStep LastUsed i j l = Some l' -> List.length l' = List.length l.
Proof.
  unfold exchangeStep. destruct (l !! j) as [[rj |] |]; try discriminate.
  destruct (l !! i) as [[ri |] |]; try discriminate.
  destruct (LastUsed ri <? LastUsed rj); intros [= <-];
    rewrite ?length_insert; reflexivity.
Qed.

Lemma innerLoop_length rounds i j l l' :
  innerLoop LastUsed rounds i j l = Some l' -> List.length l' = List.length l.
Proof.
  revert j l. induction rounds as [| n IH]; intros j l; cbn.
  - intros [= <-]. reflexivity.
  - destruct (exchangeStep LastUsed i j l) as [l1 |] eqn:E; [| discriminate].
    intros H. rewrite (IH _ _ H). exact (exchangeStep_length _ _ _ _ E).
Qed.

Lemma insert_Permutation (l : list (option A)) (j : nat) x y :
  l !! j = Some y -> y :: <[j := x]> l ≡ₚ x :: l.
Proof.
  revert j. induction l as [| a l IH]; intros j Hj; [discriminate |].
  destruct j as [| j]; cbn in *.
  - injection Hj as ->. apply perm_swap.
  - rewrite perm_swap, (IH j Hj). apply perm_swap.
Qed.

Lemma swap_Permutation (i j : nat) (l : list (option A)) x y :
  l !! i = Some x -> l !! j = Some y ->
  <[j := x]> (<[i := y]> l) ≡ₚ l.
Proof.
  intros Hi Hj. destruct (decide (i = j)) as [-> | Hne].
  - rewrite Hi in Hj. injection Hj as <-.
    rewrite list_insert_insert_eq, list_insert_id by exact Hi. reflexivity.
  - revert i j Hne Hi Hj. induction l as [| a l IH]; intros i j Hne Hi Hj.
    { discriminate. }
    destruct i as [| i], j as [| j]; cbn in *.
    + congruence.
    + injection Hi as ->. apply insert_Permutation. exact Hj.
    + injection Hj as ->. apply insert_Permutation. exact Hi.
    + apply perm_skip. apply IH; [lia | exact Hi | exact Hj].
Qed.

Lemma exchangeStep_Permutation i j l l' :
  exchangeStep LastUsed i j l = Some l' -> l' ≡ₚ l.
Proof.
  unfold exchangeStep. destruct (l !! j) as [[rj |] |] eqn:Ej; try discriminate.
  destruct (l !! i) as [[ri |] |] eqn:Ei; try discriminate.
  destruct (LastUsed ri <? LastUsed rj); intros [= <-]; [| reflexivity].
  apply swap_Permutation; assumption.
Qed.

Lemma innerLoop_Permutation rounds i j l l' :
  innerLoop LastUsed rounds i j l = Some l' -> l' ≡ₚ l.
Proof.
  revert j l. induction rounds as [| n IH]; intros j l; cbn.
  - intros [= <-]. reflexivity.
  - destruct (exchangeStep LastUsed i j l) as [l1 |] eqn:E; [| discriminate].
    intros H. rewrite (IH _ _ H). exact (exchangeStep_Permutation _ _ _ _ E).
Qed.

Lemma outerLoop_Permutation rounds i l l' :
  outerLoop LastUsed rounds i l = Some l' -> l' ≡ₚ l.
Proof.
  revert i l. induction rounds as [| n IH]; intros i l; cbn.
  - intros [= <-]. reflexivity.
  - destruct (innerLoop LastUsed _ i (S i) l) as [l1 |] eqn:E; [| discriminate].
    intros H. rewrite (IH _ _ H). exact (innerLoop_Permutation _ _ _ _ _ E).
Qed.

(** Progress: with no nil pointer in range, a step succeeds. *)
Lemma exchangeStep_Some i j l :
  Forall is_Some l -> (i < List.length l)%nat -> (j < List.length l)%nat ->
  is_Some (exchangeStep LastUsed i j l).
Proof.
  intros Hall Hi Hj. unfold exchangeStep.
  destruct (lookup_lt_is_Some_2 l j Hj) as [xj Ej].
  destruct (lookup_lt_is_Some_2 l i Hi) as [xi Ei].
  rewrite Ej, Ei.
  pose proof (Forall_lookup_1 _ _ _ _ Hall Ej) as [rj ->].
  pose proof (Forall_lookup_1 _ _ _ _ Hall Ei) as [ri ->].
  destruct (LastUsed ri <? LastUsed rj); eexists; reflexivity.
Qed.

Lemma Forall_is_Some_Permutation (l l' : list (option A)) :
  l' ≡ₚ l -> Forall is_Some l -> Forall is_Some l'.
Proof. intros H. rewrite H. trivial. Qed.

Lemma innerLoop_Some rounds i j l :
  Forall is_Some l -> (i < List.length l)%nat ->
  (j + rounds <= List.length l)%nat ->
  is_Some (innerLoop LastUsed rounds i j l).
Proof.
  revert j l. induction rounds as [| n IH]; intros j l Hall Hi Hj; cbn.
  - eexists. reflexivity.
  - destruct (exchangeStep_Some i j l Hall Hi ltac:(lia)) as [l1 E].
    rewrite E. apply IH.
    + exact (Forall_is_Some_Permutation _ _ (exchangeStep_Permutation _ _ _ _ E) Hall).
    + rewrite (exchangeStep_length _ _ _ _ E). exact Hi.
    + rewrite (exchangeStep_length _ _ _ _ E). lia.
Qed.

Lemma outerLoop_Some rounds i l :
  Forall is_Some l -> (i + rounds < List.length l)%nat \/ rounds = 0%nat ->
  is_Some (outerLoop LastUsed rounds i l).
Proof.
  revert i l. induction rounds as [| n IH]; intros i l Hall Hi; cbn.
  - eexists. reflexivity.
  - destruct Hi as [Hi | Hi]; [| discriminate].
    destruct (innerLoop_Some (List.length l - S i) i (S i) l Hall ltac:(lia)
                ltac:(lia)) as [l1 E].
    rewrite E. apply IH.
    + exact (Forall_is_Some_Permutation _ _ (innerLoop_Permutation _ _ _ _ _ E) Hall).
    + rewrite (innerLoop_length _ _ _ _ _ E). left. lia.
Qed.

Lemma keyAt_exchange i j l l' k :
  exchangeStep LastUsed i j l = Some l' -> k <> i -> k <> j -> keyAt LastUsed l' k = keyAt LastUsed l k.
Proof.
  unfold exchangeStep. destruct (l !! j) as [[rj |] |] eqn:Ej; try discriminate.
  destruct (l !! i) as [[ri |] |] eqn:Ei; try discriminate.
  destruct (LastUsed ri <? LastUsed rj); intros [= <-] Hi Hj; [| reflexivity].
  unfold keyAt. rewrite !list_lookup_insert_ne by congruence. reflexivity.
Qed.

Lemma keyAt_exchange_i i j l l' :
  exchangeStep LastUsed i j l = Some l' -> i <> j ->
  keyAt LastUsed l' i = Z.max (keyAt LastUsed l i) (keyAt LastUsed l j) /\
  keyAt LastUsed l' j = Z.min (keyAt LastUsed l i) (keyAt LastUsed l j).
Proof.
  unfold exchangeStep. destruct (l !! j) as [[rj |] |] eqn:Ej; try discriminate.
  destruct (l !! i) as [[ri |] |] eqn:Ei; try discriminate.
  pose proof (lookup_lt_Some _ _ _ Ej) as Hj.
  pose proof (lookup_lt_Some _ _ _ Ei) as Hi.
  destruct (Z.ltb_spec (LastUsed ri) (LastUsed rj)); intros [= <-] Hne.
  - unfold keyAt. rewrite list_lookup_insert_ne by congruence.
    rewrite list_lookup_insert_eq by exact Hi.
    rewrite list_lookup_insert_eq by (rewrite length_insert; exact Hj).
    rewrite Ei, Ej. lia.
  - unfold keyAt. rewrite Ei, Ej. lia.
Qed.

Lemma innerLoop_ordered rounds i j l l' :
  innerLoop LastUsed rounds i j l = Some l' ->
  (i < j)%nat -> (j + rounds = List.length l)%nat ->
  ordered LastUsed i l ->
  (forall k : nat, (i < k < j)%nat -> keyAt LastUsed l k <= keyAt LastUsed l i) ->
  ordered LastUsed (S i) l'.
Proof.
  revert j l. induction rounds as [| n IH]; intros j l; cbn.
  - intros [= <-] Hij Hlen Hord Hmax a b Ha Hb.
    destruct (decide (a = i)) as [-> | Hne].
    + apply Hmax. lia.
    + apply Hord; lia.
  - destruct (exchangeStep LastUsed i j l) as [l1 |] eqn:E; [| discriminate].
    intros H Hij Hlen Hord Hmax.
    pose proof (exchangeStep_length _ _ _ _ E) as Hl1.
    destruct (keyAt_exchange_i _ _ _ _ E ltac:(lia)) as [Ki Kj].
    apply (IH (S j) l1 H); [lia | lia | |].
    + intros a b Ha Hb. rewrite Hl1 in Hb.
      rewrite (keyAt_exchange _ _ _ _ a E) by lia.
      pose proof (Hord a i Ha ltac:(lia)) as Hai.
      pose proof (Hord a j Ha ltac:(lia)) as Haj.
      destruct (decide (b = i)) as [-> | Hbi]; [rewrite Ki; lia |].
      destruct (decide (b = j)) as [-> | Hbj].
      * rewrite Kj. lia.
      * rewrite (keyAt_exchange _ _ _ _ b E) by lia. apply Hord; lia.
    + intros k Hk. rewrite Ki.
      destruct (decide (k = j)) as [-> | Hkj].
      * rewrite Kj. lia.
      * rewrite (keyAt_exchange _ _ _ _ k E) by lia.
        pose proof (Hmax k ltac:(lia)). lia.
Qed.

Lemma outerLoop_ordered rounds i l l' :
  outerLoop LastUsed rounds i l = Some l' ->
  (i + rounds = List.length l - 1)%nat ->
  ordered LastUsed i l -> ordered LastUsed (List.length l) l'.
Proof.
  revert i l. induction rounds as [| n IH]; intros i l; cbn.
  - intros [= <-] Hlen Hord a b Ha Hb.
    apply Hord; lia.
  - destruct (innerLoop LastUsed _ i (S i) l) as [l1 |] eqn:E; [| discriminate].
    intros H Hlen Hord.
    pose proof (innerLoop_length _ _ _ _ _ E) as Hl1.
    rewrite <- Hl1. apply (IH (S i) l1 H); [lia |].
    apply (innerLoop_ordered _ _ _ _ _ E); [lia | lia | exact Hord |].
    intros k Hk. lia.
Qed.

Lemma exchangeStep_inv i j l l' :
  exchangeStep LastUsed i j l = Some l' ->
  (exists ri rj : A, l !! i = Some (Some ri) /\ l !! j = Some (Some rj)) /\
  (forall k : nat, k <> i -> k <> j -> l' !! k = l !! k).
Proof.
  unfold exchangeStep. destruct (l !! j) as [[rj |] |] eqn:Ej; try discriminate.
  destruct (l !! i) as [[ri |] |] eqn:Ei; try discriminate.
  intros H. split; [exists ri, rj; split; reflexivity |].
  intros k Hi Hj. destruct (LastUsed ri <? LastUsed rj); injection H as <-;
    [| reflexivity].
  rewrite !list_lookup_insert_ne by congruence. reflexivity.
Qed.

Lemma innerLoop_nil rounds i j l k :
  (i < j)%nat ->
  (k = i /\ (1 <= rounds)%nat) \/ (j <= k < j + rounds)%nat ->
  l !! k = Some None -> innerLoop LastUsed rounds i j l = None.
Proof.
  revert j l. induction rounds as [| n IH]; intros j l Hij Hk Hnil; cbn.
  - lia.
  - destruct (exchangeStep LastUsed i j l) as [l1 |] eqn:E; [| reflexivity].
    destruct (exchangeStep_inv _ _ _ _ E) as ((ri & rj & Ei & Ej) & Hother).
    destruct (decide (k = i)) as [-> | Hki]; [congruence |].
    destruct (decide (k = j)) as [-> | Hkj]; [congruence |].
    apply (IH (S j) l1); [lia | right; lia |].
    rewrite Hother by assumption. exact Hnil.
Qed.

Lemma sortByLastUsed_nil (l : list (option A)) :
  In None l -> (2 <= List.length l)%nat -> sortByLastUsed LastUsed l = None.
Proof.
  intros Hin Hlen. apply list_elem_of_In, list_elem_of_lookup in Hin as [k Hk].
  pose proof (lookup_lt_Some _ _ _ Hk) as Hlt.
  unfold sortByLastUsed.
  destruct (List.length l - 1)%nat as [| n] eqn:En; [lia |].
  cbn [outerLoop].
  rewrite (innerLoop_nil (List.length l - 1) 0 1 l k); [reflexivity | lia | | exact Hk].
  destruct k; [left | right]; lia.
Qed.

Lemma sortByLastUsed_short (l : list (option A)) :
  (List.length l <= 1)%nat -> sortByLastUsed LastUsed l = Some l.
Proof.
  intros Hlen. unfold sortByLastUsed.
  replace (List.length l - 1)%nat with 0%nat by lia. reflexivity.
Qed.

Lemma Forall_is_Some_map (l : list (option A)) :
  Forall is_Some l -> exists s : list A, l = map Some s.
Proof.
  induction 1 as [| x l [a ->] _ [s ->]]; [exists []; reflexivity |].
  exists (a :: s). reflexivity.
Qed.

Lemma sortByLastUsed_sorts (l : list (option A)) :
  ~ In None l ->
  exists sorted : list A,
    sortByLastUsed LastUsed l = Some (map Some sorted) /\
    map Some sorted ≡ₚ l /\ descending LastUsed sorted.
Proof.
  intros Hno.
  assert (Hall : Forall is_Some l).
  { apply Forall_forall. intros [a |] Hin; [eexists; reflexivity |].
    exfalso. apply Hno. apply list_elem_of_In. exact Hin. }
  unfold sortByLastUsed.
  destruct (outerLoop_Some (List.length l - 1) 0 l Hall) as [l' E].
  { destruct l; [right; reflexivity | left; cbn; lia]. }
  pose proof (outerLoop_Permutation _ _ _ _ E) as Hperm.
  pose proof (outerLoop_ordered _ _ _ _ E ltac:(lia)) as Hord.
  destruct (Forall_is_Some_map l'
              (Forall_is_Some_Permutation _ _ Hperm Hall)) as [s ->].
  exists s. split; [exact E |]. split; [exact Hperm |].
  intros a b x y Hab Ha Hb.
  assert (Hlen : List.length (map Some s) = List.length l)
    by (rewrite Hperm; reflexivity).
  specialize (Hord ltac:(intros ? ? ?; lia) a b).
  unfold keyAt in Hord. rewrite !list_lookup_fmap, Ha, Hb in Hord. cbn in Hord.
  apply Hord.
  - rewrite <- Hlen, length_map. apply lookup_lt_Some in Ha. exact Ha.
  - rewrite length_map. apply lookup_lt_Some in Hb. lia.
Qed.

End SortByLastUsed.

Lemma range_values {V : Type} (m : gmap string V) (order : list string) :
  rangeOrder m order ->
  omap (fun k => m !! k) order ≡ₚ (map_to_list m).*2.
Proof.
  unfold rangeOrder. intros ->.
  assert (H : Forall (fun kv => m !! kv.1 = Some kv.2) (map_to_list m)).
  { apply Forall_forall. intros [k v] Hin. apply elem_of_map_to_list. exact Hin. }
  induction H as [| [k v] l Hk _ IH]; [reflexivity |].
  cbn in *. rewrite Hk. apply perm_skip. exact IH.
Qed.

Lemma Permutation_short {A : Type} (l l' : list A) :
  l ≡ₚ l' -> (List.length l' <= 1)%nat -> l = l'.
Proof.
  intros H Hlen. destruct l' as [| x [| y l']]; [| | cbn in Hlen; lia].
  - apply Permutation_nil_r. exact H.
  - apply Permutation_singleton_r. exact H.
Qed.

Lemma sortByLastUsed_sorted {A : Type} (LastUsed : A -> Time)
    (ranged pointers : list (option A)) :
  ranged ≡ₚ pointers ->
  sortedByLastUsed LastUsed pointers (sortByLastUsed LastUsed ranged).
Proof.
  intros Hperm. split; [| split].
  - intros Hno.
    destruct (sortByLastUsed_sorts LastUsed ranged) as (s & E & Hp & Hd).
    { intros Hin. apply Hno. apply list_elem_of_In. rewrite <- Hperm.
      apply list_elem_of_In. exact Hin. }
    exists s. split; [exact E |]. split; [rewrite Hp; exact Hperm | exact Hd].
  - intros Hin Hlen. apply sortByLastUsed_nil.
    + apply list_elem_of_In. rewrite Hperm. apply list_elem_of_In. exact Hin.
    + rewrite Hperm. exact Hlen.
  - intros Hlen. rewrite (Permutation_short _ _ Hperm Hlen).
    apply sortByLastUsed_short. exact Hlen.
Qed.

(** X12. Whatever the order in which the range visits the map, when no
    pointer of the map is nil [sortExperimentsByLastUsed] returns the
    experiments of the map, each as often as the map holds it, the most
    recently used first.  It panics when the map holds two entries or more
    and one of them is a nil pointer, and returns a map of at most one entry
    as it is.  The same holds of [sortScratchesByLastUsed]. *)
Theorem sort_by_last_used_descending
    (exps : option (gmap string (option Experiment)))
    (scratches : option (gmap string (option Scratch)))
    (order order' : list string) :
  rangeOrder (default ∅ exps) order ->
  rangeOrder (default ∅ scratches) order' ->
  sortedByLastUsed Exp_LastUsed (map_to_list (default ∅ exps)).*2
    (sortExperimentsByLastUsed exps order) /\
  sortedByLastUsed Scr_LastUsed (map_to_list (default ∅ scratches)).*2
    (sortScratchesByLastUsed scratches order').
Proof.
  intros He Hs. split.
  - apply sortByLastUsed_sorted. apply range_values. exact He.
  - apply sortByLastUsed_sorted. apply range_values. exact Hs.
Qed.

(** ** Launching the agent *)

Lemma dotToWorkdir_no_dot (workdir : string) (args : list string) :
  workdir <> "." -> ~ In "." (map (dotToWorkdir workdir) args).
Proof.
  intros Hne Hin. apply in_map_iff in Hin as (arg & Harg & _).
  unfold dotToWorkdir in Harg.
  destruct (String.eqb_spec arg "."); congruence.
Qed.

(** X13. Launching the agent made for a command runs exactly one process,
    in the working directory, and returns its error.  For the command
    [claude], or none, the process is [claude] with [--add-dir] before each
    additional directory and then the flags.  Any other command is split at
    white space: its first word is the program ([claude] when there is no
    word), the other words are the arguments with each [.] replaced by the
    working directory, and the options (directories and flags) are not
    looked at. *)
Theorem Launch_runs_one_process {W : Type} (h : Handler W) (w : W)
    (agentCmd workdir : string) (opts : LaunchOptions) :
  exists (name : string) (args : list string),
    run h (Agent_Launch (NewAgent agentCmd) workdir opts) w
    = (Returned (cmd_err (fst (h _ (Exec Run workdir name args) w))),
       snd (h _ (Exec Run workdir name args) w),
       [Did (Exec Run workdir name args)
            (fst (h _ (Exec Run workdir name args) w))]) /\
    (agentCmd = "claude" \/ agentCmd = "" ->
     name = "claude" /\
     args = flat_map (fun dir => ["--add-dir"; dir]) (AddDirs opts)
            ++ Flags opts) /\
    (agentCmd <> "claude" -> agentCmd <> "" ->
     name = List.hd "claude" (Fields agentCmd) /\
     args = map (dotToWorkdir workdir) (List.tl (Fields agentCmd)) /\
     (workdir <> "." -> ~ In "." args) /\
     forall opts' : LaunchOptions,
       Agent_Launch (NewAgent agentCmd) workdir opts'
       = Agent_Launch (NewAgent agentCmd) workdir opts).
Proof.
  unfold NewAgent.
  destruct (String.eqb_spec agentCmd "claude") as [Hc | Hc];
    [| destruct (String.eqb_spec agentCmd "") as [He | He]]; cbn [orb].
  - exists "claude",
           (flat_map (fun dir => ["--add-dir"; dir]) (AddDirs opts)
            ++ Flags opts).
    unfold Agent_Launch, ClaudeAgent_Launch, call. cbn [run bind].
    destruct (h _ (Exec Run workdir "claude" _) w) as [r w'].
    cbn [run fst snd]. split; [reflexivity |].
    split; [intros _; split; reflexivity | congruence].
  - exists "claude",
           (flat_map (fun dir => ["--add-dir"; dir]) (AddDirs opts)
            ++ Flags opts).
    unfold Agent_Launch, ClaudeAgent_Launch, call. cbn [run bind].
    destruct (h _ (Exec Run workdir "claude" _) w) as [r w'].
    cbn [run fst snd]. split; [reflexivity |].
    split; [intros _; split; reflexivity | congruence].
  - exists (List.hd "claude" (Fields agentCmd)),
           (map (dotToWorkdir workdir) (List.tl (Fields agentCmd))).
    unfold Agent_Launch, GenericAgent_Launch, call.
    assert (Hname : List.hd "" match Fields agentCmd with
                               | [] => ["claude"]
                               | _ :: _ => Fields agentCmd
                               end
                    = List.hd "claude" (Fields agentCmd))
      by (destruct (Fields agentCmd); reflexivity).
    assert (Hargs : map (fun arg => if String.eqb arg "." then workdir else arg)
                      (List.tl match Fields agentCmd with
                               | [] => ["claude"]
                               | _ :: _ => Fields agentCmd
                               end)
                    = map (dotToWorkdir workdir) (List.tl (Fields agentCmd)))
      by (destruct (Fields agentCmd); reflexivity).
    cbv zeta. rewrite Hname, Hargs. cbn [run bind].
    destruct (h _ (Exec Run workdir _ _) w) as [r w'].
    cbn [run fst snd]. split; [reflexivity |].
    split; [intros [H | H]; congruence |]. intros _ _.
    split; [reflexivity |]. split; [reflexivity |].
    split; [apply dotToWorkdir_no_dot | reflexivity].
Qed.

(** ** Unregistering a repository *)

Lemma found_in_map (m : gmap string string) (target : string) :
  existsb (fun kv => String.eqb (ExpandPath (snd kv)) target) (map_to_list m)
  = true
  <-> exists (name path : string),
        m !! name = Some path /\ ExpandPath path = target.
Proof.
  rewrite existsb_exists. split.
  - intros ([name path] & Hin & Heq). exists name, path.
    apply list_elem_of_In, elem_of_map_to_list in Hin.
    apply String.eqb_eq in Heq. split; assumption.
  - intros (name & path & Hm & Heq). exists (name, path). split.
    + apply list_elem_of_In, elem_of_map_to_list. exact Hm.
    + apply String.eqb_eq. exact Heq.
Qed.

(** X14. [runRepoRemove] with a name that is not registered returns an
    error and saves nothing.  With a registered name it saves, once, a
    configuration from which that name alone is gone; the last repository
    of the saved configuration is the old one when a repository still
    registered expands to it and the empty string when none does, so it is
    never a path that no registered repository has; nothing else changes,
    and the error returned is that of the save, wrapped. *)
Theorem runRepoRemove_unregisters {W : Type} (h : Handler W) (w w1 : W)
    (cfg : Config) (name : string) (rest : list string) :
  h _ config_Load w = ((cfg, None), w1) ->
  (Repos cfg !! name = None ->
   run h (runRepoRemove (name :: rest)) w
   = (Returned (Some (ErrOther ("repository '" +:+ name +:+ "' not found"))),
      w1, [Did config_Load (cfg, None)])) /\
  (Repos cfg !! name <> None ->
   exists (saved : Config) (t : list TraceItem),
     run h (runRepoRemove (name :: rest)) w
     = (Returned (match fst (h _ (Config_Save saved) w1) with
                  | Some e => Some (fmt_Errorf_w "failed to save config: " e)
                  | None => None
                  end),
        snd (h _ (Config_Save saved) w1),
        Did config_Load (cfg, None)
        :: Did (Config_Save saved) (fst (h _ (Config_Save saved) w1)) :: t) /\
     events t = [] /\
     Repos saved = delete name (Repos cfg) /\
     ((exists (n path : string),
          Repos saved !! n = Some path /\ ExpandPath path = LastRepo cfg) ->
      LastRepo saved = LastRepo cfg) /\
     (~ (exists (n path : string),
            Repos saved !! n = Some path /\ ExpandPath path = LastRepo cfg) ->
      LastRepo saved = "") /\
     (LastRepo saved = "" \/
      exists (n path : string),
        Repos saved !! n = Some path /\ ExpandPath path = LastRepo saved) /\
     BaseDir saved = BaseDir cfg /\ Agent saved = Agent cfg /\
     AgentFlags saved = AgentFlags cfg /\ Editor saved = Editor cfg /\
     AutoInit saved = AutoInit cfg /\
     RepoSettingsMap saved = RepoSettingsMap cfg /\
     TmuxSplitDirection saved = TmuxSplitDirection cfg).
Proof.
  intros Hload. unfold runRepoRemove, call. cbn [run bind]. rewrite Hload.
  split.
  - intros Hnone. rewrite Hnone. reflexivity.
  - intros Hsome. destruct (Repos cfg !! name) as [path |]; [| congruence].
    cbv zeta.
    set (removed := setRepos cfg (delete name (Repos cfg))).
    set (found := existsb
                    (fun kv => String.eqb (ExpandPath (snd kv)) (LastRepo removed))
                    (map_to_list (Repos removed))).
    pose proof (found_in_map (Repos removed) (LastRepo removed)) as Hfound.
    fold found in Hfound.
    set (saved := if negb (String.eqb (LastRepo removed) "")
                  then if negb found then setLastRepo removed "" else removed
                  else removed).
    assert (Hsaved : Repos saved = delete name (Repos cfg) /\
              ((exists (n p : string),
                   Repos saved !! n = Some p /\ ExpandPath p = LastRepo cfg) ->
               LastRepo saved = LastRepo cfg) /\
              (~ (exists (n p : string),
                     Repos saved !! n = Some p /\ ExpandPath p = LastRepo cfg) ->
               LastRepo saved = "") /\
              (LastRepo saved = "" \/
               exists (n p : string),
                 Repos saved !! n = Some p /\ ExpandPath p = LastRepo saved) /\
              BaseDir saved = BaseDir cfg /\ Agent saved = Agent cfg /\
              AgentFlags saved = AgentFlags cfg /\ Editor saved = Editor cfg /\
              AutoInit saved = AutoInit cfg /\
              RepoSettingsMap saved = RepoSettingsMap cfg /\
              TmuxSplitDirection saved = TmuxSplitDirection cfg).
    { unfold saved. change (LastRepo removed) with (LastRepo cfg) in *.
      change (Repos removed) with (delete name (Repos cfg)) in *.
      destruct (String.eqb_spec (LastRepo cfg) "") as [Hl | Hl]; cbn [negb].
      - cbn. split; [reflexivity |]. split; [reflexivity |].
        split; [intros _; exact Hl |]. split; [left; exact Hl |].
        repeat split.
      - destruct found; cbn [negb]; cbn.
        + split; [reflexivity |]. split; [reflexivity |].
          split; [intros Hno; elim Hno; apply Hfound; reflexivity |].
          split; [right; apply Hfound; reflexivity |]. repeat split.
        + split; [reflexivity |].
          split; [intros Hex; apply Hfound in Hex; discriminate Hex |].
          split; [reflexivity |]. split; [left; reflexivity |].
          repeat split. }
    exists saved.
    destruct (h _ (Config_Save saved) w1) as [se w2] eqn:Es.
    destruct se as [e |]; eexists; cbn [run fst snd]; rewrite Es; cbn [run];
      (split; [reflexivity |]); (split; [reflexivity | exact Hsaved]).
Qed.

(** ** The older way to a worktree *)

(** X15. [CreateWorktree] never stops before a [git worktree add]: that is
    always its last step, the error returned is nil exactly when that step
    succeeded, and nothing before it creates anything.  When
    [git rev-parse --verify] finds the branch, the branch is checked out as
    it is; otherwise it is created with [-b] from [origin/] and a default
    branch name without a slash. *)
Theorem CreateWorktree_always_adds {W : Type} (h : Handler W) (w : W)
    (repoPath worktreePath branch : string) :
  exists (pre : list TraceItem) (args : list string) (r : CmdResult) (w' : W),
    run h (CreateWorktree repoPath worktreePath branch) w
    = (Returned (worktreeError r), w',
       pre ++ [Did (Exec CombinedOutput repoPath "git" args) r]) /\
    quietTrace pre /\
    (worktreeError r = None <-> cmd_err r = None) /\
    (forall (rf rv : CmdResult) (w1 w2 : W),
        h _ (Exec Run repoPath "git" ["fetch"; "origin"]) w = (rf, w1) ->
        h _ (Exec Run repoPath "git" ["rev-parse"; "--verify"; branch]) w1
        = (rv, w2) ->
        (cmd_err rv = None -> args = ["worktree"; "add"; worktreePath; branch]) /\
        (cmd_err rv <> None ->
         exists d : string,
           noSlash d = true /\
           args = ["worktree"; "add"; "-b"; branch; worktreePath;
                   "origin/" +:+ d])).
Proof.
  unfold CreateWorktree, git, call. cbn [run bind].
  destruct (h _ (Exec Run repoPath "git" ["fetch"; "origin"]) w)
    as [rf w1] eqn:Ef.
  destruct (h _ (Exec Run repoPath "git" ["rev-parse"; "--verify"; branch]) w1)
    as [rv w2] eqn:Ev.
  assert (Herr : forall r : CmdResult,
             worktreeError r = None <-> cmd_err r = None).
  { intros r. unfold worktreeError. destruct (cmd_err r); split; congruence. }
  destruct (cmd_err rv) as [ev |] eqn:Eerr; cbn [is_nil].
  - rewrite !run_bind.
    destruct (GetDefaultBranch_shape h w2 repoPath)
      as (d & w3 & td & Hd & Hns & _ & Hqd & _).
    rewrite Hd. cbn [run bind].
    destruct (h _ (Exec CombinedOutput repoPath "git" _) w3) as [r w4].
    cbn [run].
    exists ([Did (Exec Run repoPath "git" ["fetch"; "origin"]) rf;
             Did (Exec Run repoPath "git" ["rev-parse"; "--verify"; branch]) rv]
            ++ td),
           ["worktree"; "add"; "-b"; branch; worktreePath; "origin/" +:+ d],
           r, w4.
    split; [rewrite ?app_nil_r, <- ?app_assoc; reflexivity |].
    split; [apply quietTrace_app; [reflexivity | exact Hqd] |].
    split; [apply Herr |].
    intros rf' rv' w1' w2' [= <- <-] H2. rewrite Ev in H2.
    injection H2 as <- <-. rewrite Eerr. split; [discriminate |].
    intros _. exists d. split; [exact Hns | reflexivity].
  - cbn [run bind].
    destruct (h _ (Exec CombinedOutput repoPath "git" _) w2) as [r w4].
    cbn [run].
    exists [Did (Exec Run repoPath "git" ["fetch"; "origin"]) rf;
            Did (Exec Run repoPath "git" ["rev-parse"; "--verify"; branch]) rv],
           ["worktree"; "add"; worktreePath; branch], r, w4.
    split; [reflexivity |]. split; [reflexivity |]. split; [apply Herr |].
    intros rf' rv' w1' w2' [= <- <-] H2. rewrite Ev in H2.
    injection H2 as <- <-. rewrite Eerr. split; [reflexivity | congruence].
Qed.

(** ** Names that are not well formed *)

(** X16. Given a name that is not well formed, [runExp], [runFeat] and
    [runScratch] return an error having done nothing but load the
    configuration: nothing is asked, saved, created or launched. *)
Theorem malformed_name_changes_nothing {W : Type} (h : Handler W) (w w1 : W)
    (cfg : Config) (name : string) (rest : list string)
    (eflags : ExpFlags) (fflags : FeatFlags) (sflags : ScratchFlags) :
  ~ wellFormedName name ->
  h _ config_Load w = ((cfg, None), w1) ->
  run h (runExp eflags (name :: rest)) w
  = (Returned (Some (ErrOther
       "invalid experiment name: use alphanumeric, hyphens, underscores only")),
     w1, [Did config_Load (cfg, None)]) /\
  run h (runFeat fflags (name :: rest)) w
  = (Returned (Some (ErrOther
       "invalid feature name: use alphanumeric, hyphens, underscores only")),
     w1, [Did config_Load (cfg, None)]) /\
  run h (runScratch sflags (name :: rest)) w
  = (Returned (Some (ErrOther
       "invalid scratch name: use alphanumeric, hyphens, underscores only")),
     w1, [Did config_Load (cfg, None)]).
Proof.
  intros Hbad Hload.
  assert (He : isValidExpName name = false).
  { destruct (isValidExpName name) eqn:E; [| reflexivity].
    exfalso. apply Hbad. apply validName_iff. exact E. }
  assert (Hs : isValidScratchName name = false) by exact He.
  unfold runExp, runFeat, runScratch, call. cbn [run bind].
  rewrite Hload. cbn [run bind]. rewrite He, Hs. cbn [negb run].
  repeat split.
Qed.

(** ** Running programs over the further events *)

Lemma xrun_bind {W A B : Type} (h : XHandler W) (p : xprog A)
    (f : A -> xprog B) (w : W) :
  xrun h (xbind p f) w =
  match xrun h p w with
  | (Returned a, w1, t1) =>
      let '(r, w2, t2) := xrun h (f a) w1 in (r, w2, t1 ++ t2)
  | (Panicked m, w1, t1) => (Panicked m, w1, t1)
  end.
Proof.
  revert w. induction p as [a | m | o k IH | X e k IH]; intros w; cbn.
  - destruct (xrun h (f a) w) as [[r w2] t2]. reflexivity.
  - reflexivity.
  - rewrite IH. destruct (xrun h k w) as [[[a | m] w1] t1]; cbn.
    + destruct (xrun h (f a) w1) as [[r w2] t2]. reflexivity.
    + reflexivity.
  - destruct (h X e w) as [x w1]. rewrite IH.
    destruct (xrun h (k x) w1) as [[[a | m] w2] t1]; cbn.
    + destruct (xrun h (f a) w2) as [[r w3] t2]. reflexivity.
    + reflexivity.
Qed.

Lemma xrun_lift {W R : Type} (h : XHandler W) (p : prog R) (w : W) :
  xrun h (lift p) w =
  let '(r, w', t) := run (coreHandler h) p w in (r, w', map liftItem t).
Proof.
  revert w. induction p as [a | m | o k IH | X e k IH]; intros w; cbn.
  - reflexivity.
  - reflexivity.
  - rewrite IH. destruct (run (coreHandler h) k w) as [[r w'] t]. reflexivity.
  - unfold coreHandler at 1. destruct (h X (Core e) w) as [x w1]. rewrite IH.
    destruct (run (coreHandler h) (k x) w1) as [[r w'] t]. reflexivity.
Qed.

(** ** Prefixes and suffixes *)

Lemma append_cons (c : ascii) (a b : string) :
  String c a +:+ b = String c (a +:+ b).
Proof. reflexivity. Qed.

Lemma HasPrefix_iff (s p : string) :
  HasPrefix s p = true <-> exists rest : string, s = p +:+ rest.
Proof.
  unfold HasPrefix. rewrite afterPrefix_prefix.
  destruct (afterPrefix p s) as [t |] eqn:E; cbn.
  - apply afterPrefix_Some in E. split; [intros _; exists t; exact E | reflexivity].
  - split; [discriminate |]. intros [rest Hs].
    apply afterPrefix_Some in Hs. congruence.
Qed.

Lemma substring_all (s : string) : substring 0 (String.length s) s = s.
Proof.
  induction s as [| c s IH]; [reflexivity |]. cbn. rewrite IH. reflexivity.
Qed.

Lemma substring_app_r (a b : string) :
  substring (String.length a) (String.length b) (a +:+ b) = b.
Proof.
  induction a as [| c a IH]; [apply substring_all |].
  rewrite append_cons. cbn. exact IH.
Qed.

Lemma substring_app_l (a b : string) :
  substring 0 (String.length a) (a +:+ b) = a.
Proof.
  induction a as [| c a IH]; [destruct b; reflexivity |].
  rewrite append_cons. cbn. rewrite IH. reflexivity.
Qed.

Lemma substring_split (s : string) (n : nat) :
  (n <= String.length s)%nat ->
  s = substring 0 n s +:+ substring n (String.length s - n) s.
Proof.
  revert s. induction n as [| n IH]; intros s Hn.
  - rewrite Nat.sub_0_r, substring_all. destruct s; reflexivity.
  - destruct s as [| c s]; [cbn in Hn; lia |]. cbn in Hn.
    cbn [substring String.length Nat.sub]. rewrite append_cons.
    rewrite <- (IH s) by lia. reflexivity.
Qed.

Lemma length_append (a b : string) :
  String.length (a +:+ b) = (String.length a + String.length b)%nat.
Proof.
  induction a as [| c a IH]; [reflexivity |].
  rewrite append_cons. cbn. rewrite IH. reflexivity.
Qed.

Lemma HasSuffix_iff (s suffix : string) :
  HasSuffix s suffix = true <-> exists front : string, s = front +:+ suffix.
Proof.
  unfold HasSuffix. split.
  - intros H. apply andb_true_iff in H as [Hlen Heq].
    apply Nat.leb_le in Hlen. apply String.eqb_eq in Heq.
    exists (substring 0 (String.length s - String.length suffix) s).
    pose proof (substring_split s (String.length s - String.length suffix)
                  ltac:(lia)) as Hs.
    replace (String.length s - (String.length s - String.length suffix))%nat
      with (String.length suffix) in Hs by lia.
    rewrite Heq in Hs. exact Hs.
  - intros [front ->]. rewrite length_append. apply andb_true_iff. split.
    + apply Nat.leb_le. lia.
    + replace (String.length front + String.length suffix
               - String.length suffix)%nat
        with (String.length front) by lia.
      rewrite substring_app_r. apply String.eqb_refl.
Qed.

Lemma TrimSuffix_app (stem suffix : string) :
  TrimSuffix (stem +:+ suffix) suffix = stem.
Proof.
  unfold TrimSuffix.
  destruct (HasSuffix (stem +:+ suffix) suffix) eqn:E.
  - rewrite length_append.
    replace (String.length stem + String.length suffix
             - String.length suffix)%nat with (String.length stem) by lia.
    apply substring_app_l.
  - assert (H : HasSuffix (stem +:+ suffix) suffix = true)
      by (apply HasSuffix_iff; exists stem; reflexivity).
    congruence.
Qed.

Lemma append_inj_r (a b c : string) : a +:+ b = a +:+ c -> b = c.
Proof.
  induction a as [| x a IH]; [trivial |].
  rewrite !append_cons. intros [= H]. exact (IH H).
Qed.

Lemma append_inj_l (a b c : string) : a +:+ c = b +:+ c -> a = b.
Proof.
  intros H.
  assert (Hlen : String.length a = String.length b).
  { apply (f_equal String.length) in H. rewrite !length_append in H. lia. }
  revert b H Hlen. induction a as [| x a IH]; intros [| y b] H Hlen;
    try discriminate Hlen; [reflexivity |].
  rewrite !append_cons in H. injection H as -> H.
  f_equal. apply IH; [exact H | cbn in Hlen; lia].
Qed.

(** ** What a .gitignore ignores *)

(** X17. A path counts as ignored exactly when some line of the file
    ignores it by itself: trimmed, the line is not empty, is no comment, and
    is the path, or is [*.] and an extension the path ends with, or ends with
    a slash and starts the path, or ends with a star and what comes before
    it starts the path.  So lines only add up: whatever a file ignores, a
    file with more lines ignores too, in whatever place they are put, and no
    line (a negation [!path] neither) takes a path back out; a line that is
    a lone star ignores every path. *)
Theorem gitignore_lines_add_up (lines more : list string) (relPath : string) :
  (scanIgnore lines relPath = true
   <-> exists text : string, In text lines /\ lineIgnores text relPath) /\
  scanIgnore (lines ++ more) relPath
  = scanIgnore lines relPath || scanIgnore more relPath /\
  (scanIgnore lines relPath = true ->
   scanIgnore (more ++ lines) relPath = true) /\
  (In "*" lines -> scanIgnore lines relPath = true).
Proof.
  assert (Hline : forall text : string,
             ignoreLine text relPath = true <-> lineIgnores text relPath).
  { intros text. unfold ignoreLine, lineIgnores. cbv zeta.
    set (line := TrimSpace text).
    destruct (String.eqb_spec line "") as [He | He]; cbn [orb].
    { split; [discriminate | intros [H _]; contradiction]. }
    destruct (HasPrefix line "#") eqn:Hc.
    { split; [discriminate |]. intros (_ & Hno & _). exfalso. apply Hno.
      apply HasPrefix_iff. exact Hc. }
    assert (Hnc : ~ (exists rest : string, line = "#" +:+ rest)).
    { intros H. apply HasPrefix_iff in H. congruence. }
    destruct (String.eqb_spec line relPath) as [Hp | Hp].
    { split; [| reflexivity]. intros _. split; [exact He |].
      split; [exact Hnc | left; exact Hp]. }
    destruct (HasPrefix line "*." && HasSuffix relPath (fromSecondByte line))
      eqn:H2.
    { split; [| reflexivity]. intros _. split; [exact He |].
      split; [exact Hnc |]. right. left.
      apply andb_true_iff in H2 as [Ha Hb].
      apply HasPrefix_iff in Ha as [ext Hext].
      apply HasSuffix_iff in Hb as [front Hfront].
      exists ext, front. split; [exact Hext |].
      rewrite Hfront, Hext. reflexivity. }
    destruct (HasSuffix line "/" && HasPrefix relPath line) eqn:H3.
    { split; [| reflexivity]. intros _. split; [exact He |].
      split; [exact Hnc |]. right. right. left.
      apply andb_true_iff in H3 as [Ha Hb].
      apply HasSuffix_iff in Ha as [dir Hdir].
      apply HasPrefix_iff in Hb as [rest Hrest].
      exists dir, rest. split; assumption. }
    destruct (HasSuffix line "*") eqn:H4.
    - apply HasSuffix_iff in H4 as [stem Hstem].
      rewrite Hstem at 1. rewrite TrimSuffix_app. split.
      + intros H. apply HasPrefix_iff in H as [rest Hrest].
        split; [exact He |]. split; [exact Hnc |]. right. right. right.
        exists stem, rest. split; assumption.
      + intros (_ & _ & [H | [H | [H | H]]]).
        * contradiction.
        * destruct H as (ext & front & Hl & Hr). exfalso.
          assert (Ha : HasPrefix line "*." = true)
            by (apply HasPrefix_iff; exists ext; exact Hl).
          assert (Hb : HasSuffix relPath (fromSecondByte line) = true).
          { apply HasSuffix_iff. exists front. rewrite Hr, Hl. reflexivity. }
          rewrite Ha, Hb in H2. discriminate H2.
        * destruct H as (dir & rest & Hl & Hr). exfalso.
          assert (Ha : HasSuffix line "/" = true)
            by (apply HasSuffix_iff; exists dir; exact Hl).
          assert (Hb : HasPrefix relPath line = true)
            by (apply HasPrefix_iff; exists rest; exact Hr).
          rewrite Ha, Hb in H3. discriminate H3.
        * destruct H as (stem' & rest & Hl & Hr).
          apply HasPrefix_iff. exists rest.
          rewrite Hl in Hstem. apply append_inj_l in Hstem. congruence.
    - split; [discriminate |].
      intros (_ & _ & [H | [H | [H | H]]]).
      + contradiction.
      + destruct H as (ext & front & Hl & Hr). exfalso.
        assert (Ha : HasPrefix line "*." = true)
          by (apply HasPrefix_iff; exists ext; exact Hl).
        assert (Hb : HasSuffix relPath (fromSecondByte line) = true).
        { apply HasSuffix_iff. exists front. rewrite Hr, Hl. reflexivity. }
        rewrite Ha, Hb in H2. discriminate H2.
      + destruct H as (dir & rest & Hl & Hr). exfalso.
        assert (Ha : HasSuffix line "/" = true)
          by (apply HasSuffix_iff; exists dir; exact Hl).
        assert (Hb : HasPrefix relPath line = true)
          by (apply HasPrefix_iff; exists rest; exact Hr).
        rewrite Ha, Hb in H3. discriminate H3.
      + destruct H as (stem & rest & Hl & Hr). exfalso.
        assert (Ha : HasSuffix line "*" = true)
          by (apply HasSuffix_iff; exists stem; exact Hl).
        congruence. }
  assert (Hany : forall l : list string,
             scanIgnore l relPath = true
             <-> exists text : string, In text l /\ lineIgnores text relPath).
  { induction l as [| text l IH]; cbn [scanIgnore].
    - split; [discriminate | intros (t & [] & _)].
    - destruct (ignoreLine text relPath) eqn:E.
      + split; [| reflexivity]. intros _. exists text.
        split; [left; reflexivity | apply Hline; exact E].
      + rewrite IH. split.
        * intros (t & Hin & Ht). exists t. split; [right; exact Hin | exact Ht].
        * intros (t & [<- | Hin] & Ht).
          -- apply Hline in Ht. congruence.
          -- exists t. split; assumption. }
  assert (Happ : forall a b : list string,
             scanIgnore (a ++ b) relPath
             = scanIgnore a relPath || scanIgnore b relPath).
  { induction a as [| text a IH]; intros b; [reflexivity |].
    cbn [app scanIgnore]. destruct (ignoreLine text relPath); [reflexivity |].
    apply IH. }
  split; [apply Hany |]. split; [apply Happ |]. split.
  - intros H. rewrite Happ, H. apply orb_true_r.
  - intros Hin. apply Hany. exists "*". split; [exact Hin |].
    unfold lineIgnores. cbv zeta.
    change (TrimSpace "*") with "*".
    split; [discriminate |]. split; [intros [rest H]; discriminate H |].
    right. right. right. exists "", relPath. split; reflexivity.
Qed.

(** ** Finding the ignored files *)

Lemma isGitignored_run {W : Type} (h : XHandler W) (w : W)
    (repoPath relPath : string) :
  exists (b : bool) (w' : W) (t : list XItem),
    xrun h (isGitignored repoPath relPath) w = (Returned b, w', t) /\
    forallb xreads t = true /\
    ((forall (path : string) (w0 : W),
         snd (fst (h _ (ScanFile path) w0)) <> None) -> b = false).
Proof.
  unfold isGitignored, xcall. cbn [xrun xbind].
  pose proof (fun H : forall (path : string) (w0 : W),
                  snd (fst (h _ (ScanFile path) w0)) <> None =>
                H (filepath_Join [repoPath; ".gitignore"]) w) as Hun.
  destruct (h _ (ScanFile (filepath_Join [repoPath; ".gitignore"])) w)
    as [[lines err] w1].
  cbn [fst snd] in *. destruct err as [e |]; cbn [xrun].
  - eexists _, _, _. split; [reflexivity |]. split; reflexivity.
  - eexists _, _, _. split; [reflexivity |]. split; [reflexivity |].
    intros H. exfalso. exact (Hun H eq_refl).
Qed.

Lemma forallb_app_true {A : Type} (f : A -> bool) (l1 l2 : list A) :
  forallb f l1 = true -> forallb f l2 = true -> forallb f (l1 ++ l2) = true.
Proof. intros H1 H2. rewrite forallb_app, H1, H2. reflexivity. Qed.

Lemma contains_false (found : list string) (s : string) :
  contains found s = false -> ~ In s found.
Proof.
  unfold contains. intros H Hin.
  assert (Ht : existsb (fun item => String.eqb item s) found = true).
  { apply existsb_exists. exists s. split; [exact Hin | apply String.eqb_refl]. }
  congruence.
Qed.

Lemma NoDup_snoc (found : list string) (s : string) :
  NoDup found -> ~ In s found -> NoDup (found ++ [s]).
Proof.
  intros Hnd Hin. apply NoDup_app. split; [exact Hnd |].
  split; [| apply NoDup_singleton].
  intros x Hx Hs. apply list_elem_of_In in Hx.
  apply list_elem_of_singleton in Hs. subst x. contradiction.
Qed.

Lemma findCommon_run {W : Type} (h : XHandler W) (repoPath : string)
    (patterns : list string) :
  forall (found : list string) (w : W),
    NoDup (found ++ patterns) ->
    exists (found' : list string) (w' : W) (t : list XItem),
      xrun h (findCommon repoPath patterns found) w = (Returned found', w', t) /\
      NoDup found' /\ forallb xreads t = true /\
      ((forall (path : string) (w0 : W),
           snd (fst (h _ (ScanFile path) w0)) <> None) -> found' = found).
Proof.
  induction patterns as [| pattern rest IH]; intros found w Hnd.
  - rewrite app_nil_r in Hnd. exists found, w, [].
    split; [reflexivity |]. split; [exact Hnd |].
    split; [reflexivity | intros _; reflexivity].
  - assert (Hskip : NoDup (found ++ rest)).
    { apply NoDup_app in Hnd as (H1 & H2 & H3). apply NoDup_cons in H3 as [_ H3].
      apply NoDup_app. split; [exact H1 |]. split; [| exact H3].
      intros x Hx Hr. apply (H2 x Hx). right. exact Hr. }
    assert (Htake : NoDup ((found ++ [pattern]) ++ rest))
      by (rewrite <- app_assoc; exact Hnd).
    cbn [findCommon]. unfold xcall at 1. cbn [xrun xbind].
    destruct (h _ (Core (Stat (filepath_Join [repoPath; pattern]))) w)
      as [st w1].
    destruct st as [e |].
    + destruct (IH found w1 Hskip) as (f' & w' & t & Hr & Hn & Ht & Hu).
      rewrite Hr. eexists _, _, _. split; [reflexivity |].
      split; [exact Hn |]. split; [exact Ht | exact Hu].
    + rewrite xrun_bind.
      destruct (isGitignored_run h w1 repoPath pattern)
        as (b & w2 & t1 & Hr1 & Ht1 & Hu1).
      rewrite Hr1. destruct b.
      * destruct (IH (found ++ [pattern]) w2 Htake)
          as (f' & w' & t & Hr & Hn & Ht & Hu).
        rewrite Hr. eexists _, _, _. split; [reflexivity |].
        split; [exact Hn |].
        split; [cbn [forallb xreads andb]; apply forallb_app_true; assumption |].
        intros H. specialize (Hu1 H). discriminate Hu1.
      * destruct (IH found w2 Hskip) as (f' & w' & t & Hr & Hn & Ht & Hu).
        rewrite Hr. eexists _, _, _. split; [reflexivity |].
        split; [exact Hn |].
        split; [cbn [forallb xreads andb]; apply forallb_app_true; assumption |].
        exact Hu.
Qed.

Lemma findEnv_run {W : Type} (h : XHandler W) (repoPath : string)
    (entries : list DirEntry) :
  forall (found : list string) (w : W),
    NoDup found ->
    exists (found' : list string) (w' : W) (t : list XItem),
      xrun h (findEnv repoPath entries found) w = (Returned found', w', t) /\
      NoDup found' /\ forallb xreads t = true /\
      ((forall (path : string) (w0 : W),
           snd (fst (h _ (ScanFile path) w0)) <> None) -> found' = found).
Proof.
  induction entries as [| entry rest IH]; intros found w Hnd.
  - exists found, w, []. split; [reflexivity |]. split; [exact Hnd |].
    split; [reflexivity | intros _; reflexivity].
  - cbn [findEnv]. cbv zeta.
    destruct (HasPrefix (Entry_Name entry) ".env" && negb (Entry_IsDir entry));
      [| apply IH; exact Hnd].
    rewrite xrun_bind.
    destruct (isGitignored_run h w repoPath (Entry_Name entry))
      as (b & w2 & t1 & Hr1 & Ht1 & Hu1).
    rewrite Hr1. destruct b.
    + destruct (contains found (Entry_Name entry)) eqn:Ec; cbn [negb].
      * destruct (IH found w2 Hnd) as (f' & w' & t & Hr & Hn & Ht & Hu).
        rewrite Hr. eexists _, _, _. split; [reflexivity |].
        split; [exact Hn |]. split; [apply forallb_app_true; assumption |].
        exact Hu.
      * destruct (IH (found ++ [Entry_Name entry]) w2
                    (NoDup_snoc _ _ Hnd (contains_false _ _ Ec)))
          as (f' & w' & t & Hr & Hn & Ht & Hu).
        rewrite Hr. eexists _, _, _. split; [reflexivity |].
        split; [exact Hn |]. split; [apply forallb_app_true; assumption |].
        intros H. specialize (Hu1 H). discriminate Hu1.
    + destruct (IH found w2 Hnd) as (f' & w' & t & Hr & Hn & Ht & Hu).
      rewrite Hr. eexists _, _, _. split; [reflexivity |].
      split; [exact Hn |]. split; [apply forallb_app_true; assumption |].
      exact Hu.
Qed.

Lemma findConfig_run {W : Type} (h : XHandler W) (repoPath : string)
    (entries : list DirEntry) :
  forall (found : list string) (w : W),
    NoDup found ->
    exists (found' : list string) (w' : W) (t : list XItem),
      xrun h (findConfig repoPath entries found) w = (Returned found', w', t) /\
      NoDup found' /\ forallb xreads t = true /\
      ((forall (path : string) (w0 : W),
           snd (fst (h _ (ScanFile path) w0)) <> None) -> found' = found).
Proof.
  induction entries as [| entry rest IH]; intros found w Hnd.
  - exists found, w, []. split; [reflexivity |]. split; [exact Hnd |].
    split; [reflexivity | intros _; reflexivity].
  - cbn [findConfig]. cbv zeta.
    destruct (Entry_IsDir entry); [apply IH; exact Hnd |].
    destruct (Contains (ToLower (Entry_Name entry)) "local"
              || Contains (ToLower (Entry_Name entry)) "secret"
              || Contains (ToLower (Entry_Name entry)) "dev");
      [| apply IH; exact Hnd].
    rewrite xrun_bind.
    destruct (isGitignored_run h w repoPath
                (filepath_Join ["config"; Entry_Name entry]))
      as (b & w2 & t1 & Hr1 & Ht1 & Hu1).
    rewrite Hr1. destruct b.
    + destruct (contains found (filepath_Join ["config"; Entry_Name entry]))
        eqn:Ec; cbn [negb].
      * destruct (IH found w2 Hnd) as (f' & w' & t & Hr & Hn & Ht & Hu).
        rewrite Hr. eexists _, _, _. split; [reflexivity |].
        split; [exact Hn |]. split; [apply forallb_app_true; assumption |].
        exact Hu.
      * destruct (IH (found ++ [filepath_Join ["config"; Entry_Name entry]]) w2
                    (NoDup_snoc _ _ Hnd (contains_false _ _ Ec)))
          as (f' & w' & t & Hr & Hn & Ht & Hu).
        rewrite Hr. eexists _, _, _. split; [reflexivity |].
        split; [exact Hn |]. split; [apply forallb_app_true; assumption |].
        intros H. specialize (Hu1 H). discriminate Hu1.
    + destruct (IH found w2 Hnd) as (f' & w' & t & Hr & Hn & Ht & Hu).
      rewrite Hr. eexists _, _, _. split; [reflexivity |].
      split; [exact Hn |]. split; [apply forallb_app_true; assumption |].
      exact Hu.
Qed.

Lemma FindGitignored_run {W : Type} (h : XHandler W) (w : W)
    (repoPath : string) :
  exists (found : list string) (w' : W) (t : list XItem),
    xrun h (FindGitignored repoPath) w = (Returned found, w', t) /\
    NoDup found /\ forallb xreads t = true /\
    ((forall (path : string) (w0 : W),
         snd (fst (h _ (ScanFile path) w0)) <> None) -> found = []).
Proof.
  unfold FindGitignored. rewrite xrun_bind.
  destruct (findCommon_run h repoPath CommonIgnoredFiles [] w)
    as (f1 & w1 & t1 & Hr1 & Hn1 & Ht1 & Hu1).
  { cbn [app]. unfold CommonIgnoredFiles.
    apply (bool_decide_unpack _). vm_compute. exact I. }
  rewrite Hr1. unfold xcall at 1. cbn [xrun xbind].
  destruct (h _ (Core (ReadDir repoPath)) w1) as [[entries err] w2].
  cbn [fst snd]. rewrite xrun_bind.
  assert (H2 : exists (f2 : list string) (w3 : W) (t2 : list XItem),
             xrun h (if is_nil err then findEnv repoPath entries f1
                     else XRet f1) w2 = (Returned f2, w3, t2) /\
             NoDup f2 /\ forallb xreads t2 = true /\
             ((forall (path : string) (w0 : W),
                  snd (fst (h _ (ScanFile path) w0)) <> None) -> f2 = f1)).
  { destruct err; cbn [is_nil]; [| apply findEnv_run; exact Hn1].
    exists f1, w2, []. split; [reflexivity |]. split; [exact Hn1 |].
    split; [reflexivity | intros _; reflexivity]. }
  destruct H2 as (f2 & w3 & t2 & Hr2 & Hn2 & Ht2 & Hu2). rewrite Hr2.
  unfold xcall. cbn [xrun xbind].
  destruct (h _ (Core (ReadDir (filepath_Join [repoPath; "config"]))) w3)
    as [[entries' err'] w4].
  cbn [fst snd].
  assert (H3 : exists (f3 : list string) (w5 : W) (t3 : list XItem),
             xrun h (if is_nil err' then findConfig repoPath entries' f2
                     else XRet f2) w4 = (Returned f3, w5, t3) /\
             NoDup f3 /\ forallb xreads t3 = true /\
             ((forall (path : string) (w0 : W),
                  snd (fst (h _ (ScanFile path) w0)) <> None) -> f3 = f2)).
  { destruct err'; cbn [is_nil]; [| apply findConfig_run; exact Hn2].
    exists f2, w4, []. split; [reflexivity |]. split; [exact Hn2 |].
    split; [reflexivity | intros _; reflexivity]. }
  destruct H3 as (f3 & w5 & t3 & Hr3 & Hn3 & Ht3 & Hu3). rewrite Hr3.
  eexists _, _, _. split; [reflexivity |]. split; [exact Hn3 |]. split.
  - apply forallb_app_true; [exact Ht1 |]. cbn [forallb xreads andb].
    apply forallb_app_true; [exact Ht2 |]. cbn [forallb xreads andb app].
    exact Ht3.
  - intros H. rewrite (Hu3 H), (Hu2 H), (Hu1 H). reflexivity.
Qed.

(** X18. [FindGitignored] always returns, and no path twice; all it does
    is look (files tested, two directories listed, the .gitignore read).
    When the .gitignore cannot be opened it finds nothing, whatever files
    are there. *)
Theorem FindGitignored_no_duplicates {W : Type} (h : XHandler W) (w : W)
    (repoPath : string) :
  exists (found : list string) (w' : W) (t : list XItem),
    xrun h (FindGitignored repoPath) w = (Returned found, w', t) /\
    NoDup found /\ forallb xreads t = true /\
    ((forall (path : string) (w0 : W),
         snd (fst (h _ (ScanFile path) w0)) <> None) -> found = []).
Proof. apply FindGitignored_run. Qed.

(** ** Copying the files *)

Lemma files_CopyFiles_run {W : Type} (h : XHandler W) (srcDir dstDir : string)
    (files : list string) :
  forall w : W,
  exists (n : nat) (e : error) (w' : W) (t : list XItem),
    xrun h (files_CopyFiles srcDir dstDir files) w = (Returned e, w', t) /\
    (n <= List.length files)%nat /\
    (e = None ->
     n = List.length files /\
     copyAttempts t = map (attemptOf srcDir dstDir true) files) /\
    (e <> None ->
     (n < List.length files)%nat /\
     (copyAttempts t = map (attemptOf srcDir dstDir true) (firstn n files) \/
      copyAttempts t
      = map (attemptOf srcDir dstDir true) (firstn n files)
        ++ map (attemptOf srcDir dstDir false) (firstn 1 (skipn n files)))) /\
    confirmations t = [] /\ existsb xreads t = false /\
    savedConfigs t = [].
Proof.
  induction files as [| relPath rest IH]; intros w.
  - exists 0%nat, None, w, []. cbn. repeat split; try reflexivity; try lia.
    all: congruence.
  - cbn [files_CopyFiles]. unfold xcall. cbn [xrun xbind].
    destruct (h _ (Core (MkdirAll
                           (filepath_Dir (filepath_Join [dstDir; relPath])))) w)
      as [me w1].
    destruct me as [e |].
    + exists 0%nat, (Some e), w1. eexists. cbn [xrun].
      split; [reflexivity |]. split; [cbn; lia |].
      split; [discriminate |].
      split; [intros _; split; [cbn; lia | left; reflexivity] |].
      repeat split.
    + cbn [xrun xbind].
      destruct (h _ (copyFile (filepath_Join [srcDir; relPath])
                              (filepath_Join [dstDir; relPath])) w1)
        as [ce w2].
      destruct ce as [e |]; cbn [xrun xbind].
      * exists 0%nat, (Some e), w2. eexists. cbn [xrun].
        split; [reflexivity |]. split; [cbn; lia |].
        split; [discriminate |].
        split; [intros _; split; [cbn; lia | right; reflexivity] |].
        repeat split.
      * destruct (IH w2) as (n & e & w' & t & Hr & Hn & Hok & Herr & Hc & Hx & Hs).
        rewrite Hr. exists (S n), e, w'. eexists.
        split; [reflexivity |]. split; [cbn; lia |].
        split; [| split].
        -- intros He. destruct (Hok He) as [Hlen Ht]. split; [cbn; lia |].
           cbn. unfold copyAttempts in Ht. rewrite Ht. reflexivity.
        -- intros He. destruct (Herr He) as [Hlen Ht]. split; [cbn; lia |].
           cbn. unfold copyAttempts in Ht.
           destruct Ht as [Ht | Ht]; rewrite Ht; [left | right]; reflexivity.
        -- unfold confirmations, savedConfigs in *. cbn.
           rewrite Hc, Hx, Hs. repeat split.
Qed.

Lemma files_CopyFiles_trace {W : Type} (h : XHandler W) (srcDir dstDir : string)
    (files : list string) :
  forall w : W,
  exists (n : nat) (e : error) (w' : W) (t : list XItem),
    xrun h (files_CopyFiles srcDir dstDir files) w = (Returned e, w', t) /\
    (n <= List.length files)%nat /\
    (e = None ->
     n = List.length files /\ t = flat_map (copiedFile srcDir dstDir) files) /\
    (forall err : error_value,
        e = Some err ->
        exists relPath : string,
          nth_error files n = Some relPath /\
          (t = flat_map (copiedFile srcDir dstDir) (firstn n files)
               ++ [XDid (Core (MkdirAll
                                 (filepath_Dir (filepath_Join [dstDir; relPath]))))
                        (Some err)] \/
           t = flat_map (copiedFile srcDir dstDir) (firstn n files)
               ++ [XDid (Core (MkdirAll
                                 (filepath_Dir (filepath_Join [dstDir; relPath]))))
                        None;
                   XDid (copyFile (filepath_Join [srcDir; relPath])
                                  (filepath_Join [dstDir; relPath]))
                        (Some err)])).
Proof.
  induction files as [| relPath rest IH]; intros w.
  - exists 0%nat, None, w, []. split; [reflexivity |]. split; [cbn; lia |].
    split; [intros _; split; reflexivity | discriminate].
  - cbn [files_CopyFiles]. unfold xcall. cbn [xrun xbind].
    destruct (h _ (Core (MkdirAll
                           (filepath_Dir (filepath_Join [dstDir; relPath])))) w)
      as [me w1].
    destruct me as [e |]; cbn [xrun xbind].
    + exists 0%nat, (Some e), w1. eexists.
      split; [reflexivity |]. split; [cbn; lia |].
      split; [discriminate |].
      intros err [= <-]. exists relPath. split; [reflexivity |].
      left. reflexivity.
    + destruct (h _ (copyFile (filepath_Join [srcDir; relPath])
                              (filepath_Join [dstDir; relPath])) w1)
        as [ce w2].
      destruct ce as [e |]; cbn [xrun xbind].
      * exists 0%nat, (Some e), w2. eexists.
        split; [reflexivity |]. split; [cbn; lia |].
        split; [discriminate |].
        intros err [= <-]. exists relPath. split; [reflexivity |].
        right. reflexivity.
      * destruct (IH w2) as (n & e & w' & t & Hr & Hn & Hok & Herr).
        rewrite Hr. exists (S n), e, w'. eexists.
        split; [reflexivity |]. split; [cbn; lia |].
        split.
        -- intros He. destruct (Hok He) as [Hlen Ht].
           split; [cbn; lia |]. rewrite Ht. reflexivity.
        -- intros err He. destruct (Herr err He) as (f & Hf & Ht).
           exists f. split; [exact Hf |].
           destruct Ht as [Ht | Ht]; rewrite Ht; [left | right]; reflexivity.
Qed.

Lemma copyAttempts_copied (srcDir dstDir : string) (files : list string)
    (rest : list XItem) :
  copyAttempts (flat_map (copiedFile srcDir dstDir) files ++ rest)
  = map (attemptOf srcDir dstDir true) files ++ copyAttempts rest.
Proof.
  induction files as [| f files IH]; [reflexivity |].
  cbn [flat_map copiedFile app map].
  change (copyAttempts (?a :: ?b :: ?u))
    with (attemptOf srcDir dstDir true f :: copyAttempts u).
  rewrite IH. reflexivity.
Qed.

(** X19. [CopyFiles] goes through the files in the order given, making the
    directory of each and then copying it, and stops at the first of these
    calls that fails, returning the error of that call as it is.  The trace
    is exactly: for each file before the failing one its directory made and
    the file copied, both without error; then, for the failing file, either
    the failed [MkdirAll] alone or the [MkdirAll] that worked and the failed
    [copyFile]; nothing comes after, so no later file is touched.  It
    returns no error exactly when every file was copied. *)
Theorem CopyFiles_stops_at_first_error {W : Type} (h : XHandler W) (w : W)
    (srcDir dstDir : string) (files : list string) :
  exists (n : nat) (e : error) (w' : W) (t : list XItem),
    xrun h (files_CopyFiles srcDir dstDir files) w = (Returned e, w', t) /\
    (n <= List.length files)%nat /\
    (e = None ->
     n = List.length files /\
     t = flat_map (copiedFile srcDir dstDir) files /\
     copyAttempts t = map (attemptOf srcDir dstDir true) files) /\
    (e <> None ->
     (n < List.length files)%nat /\
     (copyAttempts t = map (attemptOf srcDir dstDir true) (firstn n files) \/
      copyAttempts t
      = map (attemptOf srcDir dstDir true) (firstn n files)
        ++ map (attemptOf srcDir dstDir false) (firstn 1 (skipn n files)))) /\
    (forall err : error_value,
        e = Some err ->
        exists relPath : string,
          nth_error files n = Some relPath /\
          (t = flat_map (copiedFile srcDir dstDir) (firstn n files)
               ++ [XDid (Core (MkdirAll
                                 (filepath_Dir (filepath_Join [dstDir; relPath]))))
                        (Some err)] \/
           t = flat_map (copiedFile srcDir dstDir) (firstn n files)
               ++ [XDid (Core (MkdirAll
                                 (filepath_Dir (filepath_Join [dstDir; relPath]))))
                        None;
                   XDid (copyFile (filepath_Join [srcDir; relPath])
                                  (filepath_Join [dstDir; relPath]))
                        (Some err)])).
Proof.
  destruct (files_CopyFiles_trace h srcDir dstDir files w)
    as (n & e & w' & t & Hr & Hn & Hok & Herr).
  exists n, e, w', t. split; [exact Hr |]. split; [exact Hn |].
  split.
  { intros He. destruct (Hok He) as [Hlen Ht]. split; [exact Hlen |].
    split; [exact Ht |]. rewrite Ht.
    rewrite <- (app_nil_r (flat_map _ files)), copyAttempts_copied.
    apply app_nil_r. }
  split; [| exact Herr].
  intros He. destruct e as [err |]; [| congruence].
  destruct (Herr err eq_refl) as (f & Hf & Ht).
  split; [apply nth_error_Some; congruence |].
  assert (Hskip : firstn 1 (skipn n files) = [f]).
  { clear - Hf. revert n Hf. induction files as [| g files IH]; intros n Hf.
    - destruct n; discriminate Hf.
    - destruct n as [| n]; [injection Hf as ->; reflexivity |].
      apply (IH n Hf). }
  destruct Ht as [-> | ->]; rewrite copyAttempts_copied.
  - left. apply app_nil_r.
  - right. rewrite Hskip. reflexivity.
Qed.

(** ** Choosing the files to copy *)

Lemma selectLoop_run {W : Type} (h : XHandler W) (detected : list string) :
  forall (selected : option (list string)) (w : W),
  exists (selected' : option (list string)) (w' : W) (t : list XItem)
         (chosen : list string),
    xrun h (selectLoop detected selected) w = (Returned selected', w', t) /\
    map fst (confirmations t) = map (String.append "Copy ") detected /\
    accepted t = map (String.append "Copy ") chosen /\
    sublist chosen detected /\
    default [] selected' = default [] selected ++ chosen /\
    (chosen = [] -> selected' = selected) /\
    (selected <> Some [] -> selected' <> Some []) /\
    existsb xreads t = false /\ savedConfigs t = [] /\
    copyAttempts t = [].
Proof.
  induction detected as [| file rest IH]; intros selected w.
  - exists selected, w, [], []. cbn. rewrite app_nil_r.
    repeat split; try reflexivity. trivial.
  - cbn [selectLoop]. unfold xcall. cbn [xrun xbind].
    destruct (h _ (Core (PromptRun {| Label := "Copy " +:+ file;
                                      IsConfirm := true; Default := "y" |})) w)
      as [[answer err] w1].
    cbn [snd]. destruct err as [e |]; cbn [is_nil].
    + destruct (IH selected w1)
        as (s' & w' & t & chosen & Hr & Hl & Ha & Hsub & Hd & Hn & Hne
            & Hx & Hs & Hc).
      rewrite Hr. exists s', w'. eexists. exists chosen.
      split; [reflexivity |].
      split; [cbn; unfold confirmations in Hl; rewrite Hl; reflexivity |].
      split; [exact Ha |]. split; [apply sublist_cons; exact Hsub |].
      split; [exact Hd |]. split; [exact Hn |]. split; [exact Hne |].
      unfold copyAttempts, savedConfigs in *. cbn. rewrite Hx, Hs, Hc.
      repeat split.
    + destruct (IH (Some (default [] selected ++ [file])) w1)
        as (s' & w' & t & chosen & Hr & Hl & Ha & Hsub & Hd & Hn & Hne
            & Hx & Hs & Hc).
      rewrite Hr. exists s', w'. eexists. exists (file :: chosen).
      split; [reflexivity |].
      split; [cbn; unfold confirmations in Hl; rewrite Hl; reflexivity |].
      split.
      { unfold accepted.
        change (confirmations (_ :: t))
          with (("Copy " +:+ file, true) :: confirmations t).
        cbn [List.filter snd map fst]. fold (accepted t). rewrite Ha.
        reflexivity. }
      split; [apply sublist_skip; exact Hsub |].
      split; [rewrite Hd; cbn; rewrite <- app_assoc; reflexivity |].
      split; [discriminate |].
      split.
      * intros _. apply Hne. intros [= H].
        destruct (default [] selected); discriminate H.
      * unfold copyAttempts, savedConfigs in *. cbn. rewrite Hx, Hs, Hc.
        repeat split.
Qed.

Lemma preferencesNote_run {W : Type} (h : XHandler W) (w : W) (n : nat) :
  exists (w' : W) (t : list XItem),
    xrun h (if (0 <? n)%nat then
              xbind (xcall Println)
                (fun _ => xui ui_Detail
       "These preferences will be saved for future experiments from this repo.")
            else XRet tt) w
    = (Returned tt, w', t) /\
    confirmations t = [] /\ existsb xreads t = false /\
    savedConfigs t = [] /\ copyAttempts t = [].
Proof.
  destruct (0 <? n)%nat.
  - unfold xcall, xui. cbn [xrun xbind].
    destruct (h _ Println w) as [[] w2]. cbn [xrun].
    eexists _, _. split; [reflexivity |]. repeat split.
  - cbn [xrun]. eexists _, _. split; [reflexivity |]. repeat split.
Qed.

Lemma selectFilesToCopy_run {W : Type} (h : XHandler W) (w : W)
    (detected : list string) :
  exists (selected : option (list string)) (w' : W) (t : list XItem),
    xrun h (selectFilesToCopy detected) w = (Returned (selected, None), w', t) /\
    map fst (confirmations t) = map (String.append "Copy ") detected /\
    accepted t = map (String.append "Copy ") (default [] selected) /\
    sublist (default [] selected) detected /\
    selected <> Some [] /\
    (accepted t = [] <-> selected = None) /\
    existsb xreads t = false /\ savedConfigs t = [] /\
    copyAttempts t = [].
Proof.
  unfold selectFilesToCopy. rewrite xrun_bind.
  destruct (selectLoop_run h detected None w)
    as (s' & w1 & t1 & chosen & Hr & Hl & Ha & Hsub & Hd & Hn & Hne
        & Hx & Hs & Hc).
  rewrite Hr. cbn [default app] in Hd. rewrite xrun_bind.
  destruct (preferencesNote_run h w1 (List.length detected))
    as (w2 & t2 & Hr2 & Hc2 & Hx2 & Hs2 & Ha2).
  rewrite Hr2. cbn [xrun]. eexists _, _, _. split; [reflexivity |].
  rewrite app_nil_r.
  unfold accepted, confirmations, copyAttempts, savedConfigs in *.
  rewrite !omap_app, !existsb_app, Hc2, Ha2, Hx, Hx2, Hs, Hs2, Hc, !app_nil_r.
  split; [exact Hl |]. rewrite Hd. split; [exact Ha |].
  split; [exact Hsub |]. split; [apply Hne; discriminate |].
  split; [| repeat split].
  rewrite Ha. split.
  - intros Hnil. apply Hn. destruct chosen; [reflexivity | discriminate Hnil].
  - intros ->. cbn in Hd. subst chosen. reflexivity.
Qed.

(** X20. [selectFilesToCopy] never returns an error.  It asks once for each
    detected file, in order, and returns the files whose question was
    answered without an error, in that order; when there is none it returns
    the nil slice, never an empty one. *)
Theorem selectFilesToCopy_keeps_accepted {W : Type} (h : XHandler W) (w : W)
    (detected : list string) :
  exists (selected : option (list string)) (w' : W) (t : list XItem),
    xrun h (selectFilesToCopy detected) w = (Returned (selected, None), w', t) /\
    map fst (confirmations t) = map (String.append "Copy ") detected /\
    accepted t = map (String.append "Copy ") (default [] selected) /\
    sublist (default [] selected) detected /\
    selected <> Some [] /\
    (accepted t = [] <-> selected = None).
Proof.
  destruct (selectFilesToCopy_run h w detected)
    as (selected & w' & t & Hr & Hl & Ha & Hsub & Hne & Hnil & _).
  exists selected, w', t. split; [exact Hr |]. split; [exact Hl |].
  split; [exact Ha |]. split; [exact Hsub |]. split; [exact Hne | exact Hnil].
Qed.

(** ** Copying the ignored files of a repository *)

Lemma reads_silent (t : list XItem) :
  forallb xreads t = true ->
  confirmations t = [] /\ savedConfigs t = [] /\ copyAttempts t = [].
Proof.
  unfold confirmations, savedConfigs, copyAttempts.
  induction t as [| i t IH]; [repeat split |].
  cbn [forallb]. intros H. apply andb_true_iff in H as [Hi Ht].
  destruct (IH Ht) as (H1 & H2 & H3).
  destruct i as [o | X e x]; [discriminate Hi |].
  destruct e as [X e' | | | | | | | | |]; try discriminate Hi;
    [destruct e'; try discriminate Hi |]; cbn; rewrite H1, H2, H3;
    repeat split.
Qed.

Lemma detailEach_run {W : Type} (h : XHandler W) (w : W) (prefix : string)
    (files : list string) :
  exists t : list XItem,
    xrun h (detailEach prefix files) w = (Returned tt, w, t) /\
    confirmations t = [] /\ savedConfigs t = [] /\ copyAttempts t = [] /\
    xevents t = [].
Proof.
  induction files as [| f rest (t & Hr & H1 & H2 & H3 & H4)].
  - exists []. repeat split.
  - cbn [detailEach]. unfold xui. cbn [xrun xbind]. rewrite Hr.
    eexists. split; [reflexivity |].
    unfold confirmations, savedConfigs, copyAttempts, xevents in *. cbn.
    rewrite H1, H2, H3, H4. repeat split.
Qed.

(** X21. With a preference saved for the repository, [copyGitignoredFiles]
    does what [CopyFiles] does with the saved files and nothing else: no
    file is looked for, nothing is asked, the configuration is neither
    changed nor saved.  Without one, the configuration it leaves never
    holds an empty list for the repository; it saves the configuration at
    most once, and then with exactly the files accepted as the preference;
    when no file is accepted, the preference stays unset and nothing is
    copied, so the next call looks and asks again. *)
Theorem copyGitignoredFiles_remembers_choices {W : Type} (h : XHandler W)
    (w : W) (cfg : Config) (srcRepo dstPath : string) :
  (forall saved : list string,
      GetRepoCopyFiles cfg srcRepo = Some saved ->
      exists (e : error) (w' : W) (t t' : list XItem),
        xrun h (copyGitignoredFiles_body cfg srcRepo dstPath) w
        = (Returned (cfg, e), w', t) /\
        xrun h (files_CopyFiles srcRepo dstPath saved) w = (Returned e, w', t') /\
        xevents t = xevents t') /\
  (GetRepoCopyFiles cfg srcRepo = None ->
   exists (cfg' : Config) (e : error) (w' : W) (t : list XItem),
     xrun h (copyGitignoredFiles_body cfg srcRepo dstPath) w
     = (Returned (cfg', e), w', t) /\
     (savedConfigs t = [] /\ cfg' = cfg /\ e = None /\ copyAttempts t = [] \/
      exists selected : option (list string),
        savedConfigs t = [cfg'] /\
        cfg' = SetRepoCopyFiles cfg srcRepo selected /\
        accepted t = map (String.append "Copy ") (default [] selected)) /\
     GetRepoCopyFiles cfg' srcRepo <> Some [] /\
     (accepted t = [] ->
      GetRepoCopyFiles cfg' srcRepo = None /\ copyAttempts t = [] /\ e = None)).
Proof.
  split.
  - intros saved Hsaved. unfold copyGitignoredFiles_body. rewrite Hsaved.
    destruct saved as [| f rest].
    + cbn [List.length Nat.ltb Nat.leb xrun files_CopyFiles].
      eexists _, _, _, _. split; [reflexivity |]. split; reflexivity.
    + change (0 <? List.length (f :: rest))%nat with true. cbv iota.
      unfold xui at 1. cbn [xrun xbind]. rewrite xrun_bind.
      destruct (files_CopyFiles_run h srcRepo dstPath (f :: rest) w)
        as (n & e & w1 & t1 & Hr & _).
      rewrite Hr. destruct e as [err |].
      * cbn [xrun]. eexists _, _, _, _. split; [reflexivity |].
        split; [reflexivity |].
        unfold xevents. cbn. rewrite app_nil_r. reflexivity.
      * rewrite xrun_bind.
        destruct (detailEach_run h w1 "  Copied " (f :: rest))
          as (t2 & Hr2 & _ & _ & _ & He2).
        rewrite Hr2. cbn [xrun]. eexists _, _, _, _. split; [reflexivity |].
        split; [reflexivity |].
        unfold xevents in *. cbn. rewrite !List.filter_app, He2. cbn.
        rewrite !app_nil_r. reflexivity.
  - intros Hnone. unfold copyGitignoredFiles_body. rewrite Hnone.
    rewrite xrun_bind.
    destruct (FindGitignored_run h w srcRepo) as (found & w1 & t1 & Hr1 & _ & Hx1 & _).
    destruct (reads_silent t1 Hx1) as (Hc1 & Hs1 & Ha1).
    rewrite Hr1. destruct found as [| d ds].
    + cbn [List.length Nat.eqb xrun]. eexists _, _, _, _.
      split; [reflexivity |]. rewrite app_nil_r.
      split; [left; repeat split; assumption |].
      split; [rewrite Hnone; discriminate |].
      intros _. repeat split; assumption.
    + change (List.length (d :: ds) =? 0)%nat with false. cbv iota.
      unfold xcall at 1 2, xui at 1. cbn [xrun xbind].
      destruct (h _ Println w1) as [[] w2].
      rewrite xrun_bind.
      destruct (detailEach_run h w2 "  " (d :: ds))
        as (t2 & Hr2 & Hc2 & Hs2 & Ha2 & _).
      rewrite Hr2. cbn [xrun xbind].
      destruct (h _ Println w2) as [[] w3].
      rewrite xrun_bind.
      destruct (selectFilesToCopy_run h w3 (d :: ds))
        as (selected & w4 & t3 & Hr3 & _ & Hacc & _ & Hne & Hnil & _ & Hs3 & Ha3).
      rewrite Hr3. cbv beta iota zeta.
      unfold xcall at 1. cbn [xrun xbind].
      set (cfg' := SetRepoCopyFiles cfg srcRepo selected).
      destruct (h _ (Core (Config_Save cfg')) w4) as [se w5].
      rewrite xrun_bind.
      assert (Hwarn : exists tw : list XItem,
                 xrun h (match se with
                         | Some err =>
                             xui ui_Warn ("Failed to save file preferences: "
                                          +:+ Error err)
                         | None => XRet tt
                         end) w5 = (Returned tt, w5, tw) /\
                 confirmations tw = [] /\ savedConfigs tw = [] /\
                 copyAttempts tw = []).
      { destruct se; unfold xui; cbn [xrun]; eexists;
          (split; [reflexivity |]); repeat split. }
      destruct Hwarn as (tw & Hrw & Hcw & Hsw & Haw). rewrite Hrw.
      assert (Hget : GetRepoCopyFiles cfg' srcRepo = selected).
      { unfold cfg', GetRepoCopyFiles, SetRepoCopyFiles. cbn.
        rewrite lookup_insert_eq. reflexivity. }
      assert (Hfinal : exists (e : error) (w6 : W) (tc : list XItem),
                 xrun h (if (0 <? List.length (default [] selected))%nat then
                           xbind (xui ui_Info "Copying selected files...")
                             (fun _ =>
                                xbind (files_CopyFiles srcRepo dstPath
                                         (default [] selected))
                                  (fun e =>
                                     match e with
                                     | Some _ => XRet (cfg', e)
                                     | None =>
                                         xbind (detailEach "  Copied "
                                                  (default [] selected))
                                           (fun _ => XRet (cfg', None))
                                     end))
                         else XRet (cfg', None)) w5
                 = (Returned (cfg', e), w6, tc) /\
                 confirmations tc = [] /\ savedConfigs tc = [] /\
                 (selected = None -> copyAttempts tc = [] /\ e = None)).
      { destruct (default [] selected) as [| s ss] eqn:Ed.
        - cbn [List.length Nat.ltb Nat.leb xrun]. eexists _, _, _.
          split; [reflexivity |]. repeat split.
        - change (0 <? List.length (s :: ss))%nat with true. cbv iota.
          unfold xui at 1. cbn [xrun xbind]. rewrite xrun_bind.
          destruct (files_CopyFiles_run h srcRepo dstPath (s :: ss) w5)
            as (n & e & w6 & tc & Hrc & _ & _ & _ & Hcc & _ & Hsc).
          rewrite Hrc. destruct e as [err |].
          + cbn [xrun]. eexists _, _, _. split; [reflexivity |].
            rewrite app_nil_r.
            unfold confirmations, savedConfigs in *. cbn.
            split; [exact Hcc |]. split; [exact Hsc |].
            intros ->. discriminate Ed.
          + rewrite xrun_bind.
            destruct (detailEach_run h w6 "  Copied " (s :: ss))
              as (td & Hrd & Hcd & Hsd & _).
            rewrite Hrd. cbn [xrun]. eexists _, _, _. split; [reflexivity |].
            rewrite app_nil_r.
            unfold confirmations, savedConfigs in *. cbn.
            rewrite !omap_app, Hcc, Hsc, Hcd, Hsd.
            split; [reflexivity |]. split; [reflexivity |].
            intros ->. discriminate Ed. }
      destruct Hfinal as (e & w6 & tc & Hrc & Hcc & Hsc & Hnone').
      rewrite Hrc. eexists _, _, _, _. split; [reflexivity |].
      assert (Hacc' : accepted
                        (t1 ++ XDid Println tt :: XPrinted
                           {| ui_fn := ui_Info;
                              ui_text := "Found gitignored files in source repo:" |}
                           :: t2 ++ XDid Println tt :: t3
                           ++ XDid (Core (Config_Save cfg')) se :: tw ++ tc)
                      = accepted t3).
      { unfold accepted, confirmations in *.
        rewrite omap_app, Hc1. cbn. rewrite omap_app, Hc2. cbn.
        rewrite omap_app. cbn. rewrite omap_app, Hcw, Hcc, !app_nil_r.
        reflexivity. }
      split; [| split].
      * right. exists selected. split; [| split; [reflexivity |]].
        -- unfold savedConfigs in *.
           rewrite omap_app, Hs1. cbn. rewrite omap_app, Hs2. cbn.
           rewrite omap_app, Hs3. cbn. rewrite omap_app, Hsw, Hsc.
           reflexivity.
        -- rewrite Hacc'. exact Hacc.
      * rewrite Hget. exact Hne.
      * rewrite Hacc'. intros Hn. apply Hnil in Hn.
        rewrite Hget. split; [exact Hn |].
        destruct (Hnone' Hn) as [Hat He]. split; [| exact He].
        unfold copyAttempts in *.
        rewrite omap_app, Ha1. cbn. rewrite omap_app, Ha2. cbn.
        rewrite omap_app, Ha3. cbn. rewrite omap_app, Haw, Hat.
        reflexivity.
Qed.

(** ** Opening the editor and launching the agent *)

(** X22. [OpenEditor] waits for no process and starts at most one.  With
    no editor named it does nothing and returns no error.  For [nvim],
    [neovim] and [vim] it reads the variable [TMUX]: when that is empty it
    starts nothing and returns an error; otherwise it starts
    [tmux split-window] in the working directory, with [-v] when the split
    direction is [vertical] and [-h] in every other case.  Any other editor
    is started as a program of that name, with the working directory as its
    only argument.  The error returned is that of the start. *)
Theorem OpenEditor_starts_at_most_one {W : Type} (h : XHandler W) (w : W)
    (workdir editor : string) (opts : EditorOptions) :
  exists (e : error) (w' : W) (t : list XItem),
    xrun h (OpenEditor workdir editor opts) w = (Returned e, w', t) /\
    executions t = [] /\ (List.length (starts t) <= 1)%nat /\
    (editor = "" -> e = None /\ t = []) /\
    (isVimFamily editor = true ->
     exists (v : string) (rest : list XItem),
       t = XDid (Getenv "TMUX") v :: rest /\
       (v = "" ->
        rest = [] /\
        e = Some (ErrOther
                    "nvim requires tmux (run inside tmux for split panes)")) /\
       (v <> "" ->
        rest = [XDid (Start workdir "tmux"
                        ["split-window";
                         if String.eqb (Editor_TmuxSplitDirection opts)
                                       "vertical"
                         then "-v" else "-h";
                         "-c"; workdir; "nvim"; "."]) e])) /\
    (isVimFamily editor = false -> editor <> "" ->
     t = [XDid (Start workdir editor [workdir]) e]).
Proof.
  unfold OpenEditor, isVimFamily.
  destruct (String.eqb_spec editor "cursor") as [-> | Hcursor].
  { unfold openCursor, xcall. cbn [xrun].
    destruct (h _ (Start workdir "cursor" [workdir]) w) as [e w'].
    exists e, w'. eexists. split; [reflexivity |]. cbn.
    split; [reflexivity |]. split; [lia |]. split; [discriminate |].
    split; [discriminate |]. intros _ _. reflexivity. }
  destruct (String.eqb_spec editor "code") as [-> | Hcode].
  { unfold openVSCode, xcall. cbn [xrun].
    destruct (h _ (Start workdir "code" [workdir]) w) as [e w'].
    exists e, w'. eexists. split; [reflexivity |]. cbn.
    split; [reflexivity |]. split; [lia |]. split; [discriminate |].
    split; [discriminate |]. intros _ _. reflexivity. }
  destruct (String.eqb editor "nvim" || String.eqb editor "neovim"
            || String.eqb editor "vim") eqn:Hvim.
  { unfold openNvim, inTmux, xcall. cbn [xrun xbind].
    destruct (h _ (Getenv "TMUX") w) as [v w1].
    assert (Hne : editor <> "").
    { intros ->. cbn in Hvim. discriminate Hvim. }
    destruct (String.eqb_spec v "") as [-> | Hv]; cbn [negb xrun].
    - eexists _, _, _. split; [reflexivity |]. cbn.
      split; [reflexivity |]. split; [lia |].
      split; [intros H; contradiction |].
      split; [| discriminate]. intros _. eexists _, _.
      split; [reflexivity |]. split; [intros _; split; reflexivity |].
      intros H. contradiction.
    - destruct (h _ (Start workdir "tmux" _) w1) as [e w2].
      eexists _, _, _. split; [reflexivity |]. cbn.
      split; [reflexivity |]. split; [lia |].
      split; [intros H; contradiction |].
      split; [| discriminate]. intros _. eexists _, _.
      split; [reflexivity |]. split; [intros H; contradiction |].
      intros _. reflexivity. }
  destruct (String.eqb_spec editor "") as [-> | Hempty].
  { cbn [xrun]. exists None, w, []. split; [reflexivity |].
    split; [reflexivity |]. split; [cbn; lia |].
    split; [intros _; split; reflexivity |].
    split; [discriminate |]. intros _ H. contradiction. }
  unfold openGeneric, xcall. cbn [xrun].
  destruct (h _ (Start workdir editor [workdir]) w) as [e w'].
  exists e, w'. eexists. split; [reflexivity |]. cbn.
  split; [reflexivity |]. split; [lia |]. split; [intros H; contradiction |].
  split; [discriminate |]. intros _ _. reflexivity.
Qed.

Lemma OpenEditor_run {W : Type} (h : XHandler W) (w : W)
    (workdir editor : string) (opts : EditorOptions) :
  exists (e : error) (w' : W) (t : list XItem),
    xrun h (OpenEditor workdir editor opts) w = (Returned e, w', t) /\
    executions t = [] /\ (List.length (starts t) <= 1)%nat.
Proof.
  unfold OpenEditor, openCursor, openVSCode, openNvim, inTmux, openGeneric,
    xcall.
  destruct (String.eqb editor "cursor").
  { cbn [xrun]. destruct (h _ (Start workdir "cursor" [workdir]) w) as [e w'].
    eexists _, _, _. split; [reflexivity |]. cbn. split; [reflexivity | lia]. }
  destruct (String.eqb editor "code").
  { cbn [xrun]. destruct (h _ (Start workdir "code" [workdir]) w) as [e w'].
    eexists _, _, _. split; [reflexivity |]. cbn. split; [reflexivity | lia]. }
  destruct (String.eqb editor "nvim" || String.eqb editor "neovim"
            || String.eqb editor "vim").
  { cbn [xrun xbind]. destruct (h _ (Getenv "TMUX") w) as [v w1].
    destruct (String.eqb v ""); cbn [negb xrun].
    - eexists _, _, _. split; [reflexivity |]. cbn. split; [reflexivity | lia].
    - destruct (h _ (Start workdir "tmux" _) w1) as [e w2].
      eexists _, _, _. split; [reflexivity |]. cbn.
      split; [reflexivity | lia]. }
  destruct (String.eqb editor "").
  { cbn [xrun]. eexists _, _, _. split; [reflexivity |]. cbn.
    split; [reflexivity | lia]. }
  cbn [xrun]. destruct (h _ (Start workdir editor [workdir]) w) as [e w'].
  eexists _, _, _. split; [reflexivity |]. cbn. split; [reflexivity | lia].
Qed.

Lemma Agent_Launch_run {W : Type} (h : Handler W) (w : W)
    (agentCmd workdir : string) (opts : LaunchOptions) :
  run h (Agent_Launch (NewAgent agentCmd) workdir opts) w
  = (Returned (cmd_err (fst (h _ (Exec Run workdir
                                     (fst (agentCommand agentCmd workdir opts))
                                     (snd (agentCommand agentCmd workdir opts)))
                                w))),
     snd (h _ (Exec Run workdir (fst (agentCommand agentCmd workdir opts))
                 (snd (agentCommand agentCmd workdir opts))) w),
     [Did (Exec Run workdir (fst (agentCommand agentCmd workdir opts))
             (snd (agentCommand agentCmd workdir opts)))
          (fst (h _ (Exec Run workdir
                       (fst (agentCommand agentCmd workdir opts))
                       (snd (agentCommand agentCmd workdir opts))) w))]).
Proof.
  unfold NewAgent, agentCommand.
  destruct (String.eqb agentCmd "claude" || String.eqb agentCmd "").
  - unfold Agent_Launch, ClaudeAgent_Launch, call. cbn [run bind fst snd].
    destruct (h _ (Exec Run workdir "claude" _) w) as [r w']. reflexivity.
  - unfold Agent_Launch, GenericAgent_Launch, call. cbv zeta.
    assert (Hname : List.hd "" match Fields agentCmd with
                               | [] => ["claude"]
                               | _ :: _ => Fields agentCmd
                               end
                    = List.hd "claude" (Fields agentCmd))
      by (destruct (Fields agentCmd); reflexivity).
    assert (Hargs : map (fun arg => if String.eqb arg "." then workdir else arg)
                      (List.tl match Fields agentCmd with
                               | [] => ["claude"]
                               | _ :: _ => Fields agentCmd
                               end)
                    = map (dotToWorkdir workdir) (List.tl (Fields agentCmd)))
      by (destruct (Fields agentCmd); reflexivity).
    rewrite Hname, Hargs. cbn [run bind fst snd].
    destruct (h _ (Exec Run workdir _ _) w) as [r w']. reflexivity.
Qed.

(** X23. [launchAgent] always runs an agent, once, and returns its error:
    the one named by the override, else the one configured, else [claude].
    [launchSession] opens the editor first, unless told not to or none is
    named, and a failure to open it only prints a warning; it then runs the
    configured agent, once, and returns its error, unless told not to or no
    agent is configured, in which case it runs none and returns no error.
    Both pass the configured flags and no additional directory. *)
Theorem launch_runs_the_agent_last {W : Type} (h : XHandler W) (w : W)
    (cfg : Config) (workdir override : string) (noAgent noEditor : bool) :
  let opts := {| AddDirs := []; Flags := AgentFlags cfg |} in
  let editor := if negb (String.eqb override "") then override
                else Editor cfg in
  let agentCmd := if negb (String.eqb override "") then override
                  else Agent cfg in
  (exists (r : CmdResult) (w' : W) (pre : list XItem),
      xrun h (launchAgent_body cfg workdir override) w
      = (Returned (cmd_err r), w',
         pre ++ [XDid (Core (Exec Run workdir
                               (fst (agentCommand agentCmd workdir opts))
                               (snd (agentCommand agentCmd workdir opts)))) r]) /\
      forallb onlyPrints pre = true) /\
  (exists (e : error) (w' : W) (t : list XItem),
      xrun h (launchSession_body cfg workdir override noAgent noEditor) w
      = (Returned e, w', t) /\
      (List.length (starts t) <= 1)%nat /\
      (noEditor = true \/ editor = "" -> starts t = []) /\
      (noAgent = true \/ Agent cfg = "" -> e = None /\ executions t = []) /\
      (noAgent = false -> Agent cfg <> "" ->
       exists (r : CmdResult) (pre : list XItem),
         t = pre ++ [XDid (Core (Exec Run workdir
                                   (fst (agentCommand (Agent cfg) workdir opts))
                                   (snd (agentCommand (Agent cfg) workdir opts))))
                          r] /\
         executions pre = [] /\ e = cmd_err r)).
Proof.
  intros opts editor agentCmd. split.
  - unfold launchAgent_body. fold agentCmd. cbv zeta. fold opts.
    unfold xui, xcall. cbn [xrun xbind].
    destruct (h _ Println w) as [[] w1]. rewrite xrun_lift.
    rewrite (Agent_Launch_run (coreHandler h) w1 agentCmd workdir opts).
    unfold coreHandler.
    destruct (h _ (Core (Exec Run workdir _ _)) w1) as [r w2].
    cbn [fst snd map liftItem].
    exists r, w2, [XPrinted {| ui_fn := ui_Info;
                              ui_text := "Launching " +:+ agentCmd +:+ "..." |};
                   XDid Println tt].
    split; reflexivity.
  - unfold launchSession_body. fold editor. cbv zeta. fold opts.
    rewrite xrun_bind.
    assert (Hed : exists (w1 : W) (t1 : list XItem),
               xrun h (if negb noEditor && negb (String.eqb editor "") then
                         xbind (OpenEditor workdir editor
                                  {| Editor_TmuxSplitDirection :=
                                       TmuxSplitDirection cfg |})
                           (fun e =>
                              match e with
                              | Some err =>
                                  xui ui_Warn ("Could not open editor: "
                                               +:+ Error err)
                              | None => xui ui_Info ("Opened " +:+ editor)
                              end)
                       else XRet tt) w
               = (Returned tt, w1, t1) /\
               executions t1 = [] /\ (List.length (starts t1) <= 1)%nat /\
               (noEditor = true \/ editor = "" -> starts t1 = [])).
    { destruct noEditor; cbn [negb andb].
      { exists w, []. split; [reflexivity |]. split; [reflexivity |].
        split; [cbn; lia | reflexivity]. }
      destruct (String.eqb_spec editor "") as [He | He]; cbn [negb].
      { exists w, []. split; [reflexivity |]. split; [reflexivity |].
        split; [cbn; lia | reflexivity]. }
      rewrite xrun_bind.
      destruct (OpenEditor_run h w workdir editor
                  {| Editor_TmuxSplitDirection := TmuxSplitDirection cfg |})
        as (e & w1 & t1 & Hr & Hx & Hs).
      rewrite Hr. exists w1.
      destruct e as [err |]; unfold xui; cbn [xrun]; eexists;
        (split; [reflexivity |]); unfold executions, starts in *;
        rewrite !omap_app, Hx; cbn; rewrite app_nil_r;
        (split; [reflexivity |]); (split; [exact Hs |]);
        intros [H | H]; [discriminate H | contradiction
                        | discriminate H | contradiction]. }
    destruct Hed as (w1 & t1 & Hr1 & Hx1 & Hs1 & Hno). rewrite Hr1.
    destruct noAgent; cbn [negb andb].
    { cbn [xrun]. eexists _, _, _. split; [reflexivity |].
      rewrite app_nil_r. split; [exact Hs1 |]. split; [exact Hno |].
      split; [intros _; split; [reflexivity | exact Hx1] | discriminate]. }
    destruct (String.eqb_spec (Agent cfg) "") as [Ha | Ha]; cbn [negb].
    { cbn [xrun]. eexists _, _, _. split; [reflexivity |].
      rewrite app_nil_r. split; [exact Hs1 |]. split; [exact Hno |].
      split; [intros _; split; [reflexivity | exact Hx1] |].
      intros _ H. contradiction. }
    unfold xui, xcall. cbn [xrun xbind].
    destruct (h _ Println w1) as [[] w2]. rewrite xrun_lift.
    rewrite (Agent_Launch_run (coreHandler h) w2 (Agent cfg) workdir opts).
    unfold coreHandler.
    destruct (h _ (Core (Exec Run workdir _ _)) w2) as [r w3].
    cbn [fst snd map liftItem].
    eexists _, _, _. split; [reflexivity |].
    unfold starts, executions in *. rewrite !omap_app. cbn.
    rewrite app_nil_r. split; [exact Hs1 |]. split; [exact Hno |].
    split; [intros [H | H]; [discriminate H | contradiction] |].
    intros _ _. exists r.
    exists (t1 ++ [XPrinted {| ui_fn := ui_Info;
                               ui_text := "Launching " +:+ Agent cfg +:+ "..." |};
                   XDid Println tt]).
    split; [rewrite <- app_assoc; reflexivity |].
    split; [rewrite omap_app, Hx1; reflexivity | reflexivity].
Qed.

(** ** Cleaning up *)

Lemma deeds_app (t1 t2 : list XItem) : deeds (t1 ++ t2) = deeds t1 ++ deeds t2.
Proof. apply omap_app. Qed.

Lemma deeds_printed (o : Output_line) (t : list XItem) :
  deeds (XPrinted o :: t) = deeds t.
Proof. reflexivity. Qed.

Lemma deeds_println (t : list XItem) : deeds (XDid Println tt :: t) = deeds t.
Proof. reflexivity. Qed.

Lemma deeds_lift (t : list TraceItem) (u : list XItem) :
  deeds (map liftItem t ++ u) = deeds (map liftItem t) ++ deeds u.
Proof. apply deeds_app. Qed.

Lemma deeds_status (path : string) (r : CmdResult) (u : list XItem) :
  deeds (XDid (Core (Exec Output path "git" ["status"; "--porcelain"])) r :: u)
  = StatusChecked path (showsChanges r) :: deeds u.
Proof. reflexivity. Qed.

Lemma deeds_asked (p : Prompt) (x : string * error) (u : list XItem) :
  deeds (XDid (Core (PromptRun p)) x :: u)
  = Asked (Label p) (is_nil (snd x)) :: deeds u.
Proof. reflexivity. Qed.

Lemma discard_is_not_delete (branch : string) :
  discardQuestion <> deleteBranchQuestion branch.
Proof. intros H. discriminate H. Qed.

Lemma discardAll_is_not_delete (branch : string) :
  discardAllQuestion <> deleteBranchesQuestion branch.
Proof. intros H. discriminate H. Qed.

Lemma Clean_of_output (out : string) :
  Clean (fold_left statusLine (Split (TrimSpace out) newline)
           {| Clean := true; ModifiedFiles := []; UntrackedFiles := [];
              StagedFiles := []; UncommittedCount := 0 |})
  = String.eqb (TrimSpace out) "".
Proof.
  match goal with
  | |- context [fold_left statusLine ?lines ?st0] =>
      pose proof (fold_statusLine_invariant lines st0 0 eq_refl
                    ltac:(cbn; tauto) ltac:(cbn; lia) ltac:(cbn; lia)) as H
  end.
  cbn zeta in H. rewrite Nat.add_0_l in H. destruct H as (_ & H2 & _).
  fold (nonEmptyLines out) in H2.
  pose proof (nonEmptyLines_nil out) as Hn.
  destruct (String.eqb_spec (TrimSpace out) "") as [E | E].
  - apply H2. apply proj2 in Hn. rewrite (Hn E). reflexivity.
  - destruct (Clean _) eqn:Ec; [| reflexivity].
    exfalso. apply E, Hn. apply proj1 in H2. specialize (H2 eq_refl).
    destruct (nonEmptyLines out); [reflexivity | discriminate H2].
Qed.

Lemma HasUncommittedChanges_xrun {W : Type} (h : XHandler W) (w w1 : W)
    (repoPath : string) (r : CmdResult) :
  h _ (Core (Exec Output repoPath "git" ["status"; "--porcelain"])) w = (r, w1) ->
  xrun h (lift (HasUncommittedChanges repoPath)) w
  = (Returned (showsChanges r, cmd_err r), w1,
     [XDid (Core (Exec Output repoPath "git" ["status"; "--porcelain"])) r]).
Proof.
  intros Hs. unfold HasUncommittedChanges, GetStatus, git, call.
  cbn [lift bind xrun]. rewrite Hs. unfold showsChanges.
  destruct (cmd_err r) as [e |]; cbn [lift bind xrun is_nil andb];
    [reflexivity |].
  rewrite Clean_of_output. reflexivity.
Qed.

Lemma saveOrWarn_run {W : Type} (h : XHandler W) (w : W) (state : State)
    (cfg : Config) :
  exists (w' : W) (t : list XItem),
    xrun h (saveOrWarn state cfg) w = (Returned tt, w', t) /\
    stateSaved cfg (deeds t).
Proof.
  unfold saveOrWarn, State_Save, call, xui, stateSaved.
  cbn [lift bind xrun xbind].
  destruct (h _ (Core (MkdirAll _)) w) as [me w1].
  destruct me as [e |]; cbn [lift bind xrun xbind].
  - eexists _, _. split; [reflexivity |]. left. exists e. reflexivity.
  - destruct (json_MarshalIndent_State state) as [data [e |]];
      cbn [lift bind xrun xbind].
    + eexists _, _. split; [reflexivity |]. right. left. reflexivity.
    + destruct (h _ (Core (WriteFile _ data)) w1) as [we w2].
      destruct we; cbn [xrun]; eexists _, _;
        (split; [reflexivity |]); right; right; eexists; reflexivity.
Qed.

Lemma removeWorktreeOrTree_run {W : Type} (h : XHandler W) (w : W)
    (exp : Experiment) :
  exists (e : error) (w' : W) (t : list XItem),
    xrun h (removeWorktreeOrTree exp) w = (Returned e, w', t) /\
    (e = None /\
     deeds t = [GitWorktreeRemove (Exp_Repo exp) (Exp_Path exp) None] \/
     exists gerr : error_value,
       deeds t = [GitWorktreeRemove (Exp_Repo exp) (Exp_Path exp) (Some gerr);
                  RemoveTree (Exp_Path exp) e]).
Proof.
  unfold removeWorktreeOrTree, RemoveWorktree, git, call, xcall.
  cbn [lift bind xrun xbind].
  destruct (h _ (Core (Exec CombinedOutput (Exp_Repo exp) "git"
                         ["worktree"; "remove"; Exp_Path exp; "--force"])) w)
    as [r w1].
  destruct (cmd_err r) as [gerr |] eqn:Eg; cbn [lift bind xrun xbind].
  - destruct (h _ (RemoveAll (Exp_Path exp)) w1) as [rm w2].
    eexists _, _, _. split; [reflexivity |]. right. exists gerr.
    cbn. rewrite Eg. reflexivity.
  - eexists _, _, _. split; [reflexivity |]. left. split; [reflexivity |].
    cbn. rewrite Eg. reflexivity.
Qed.

Lemma askDeleteBranch_run {W : Type} (h : XHandler W) (w : W) (force : bool)
    (branch : string) :
  exists (b : bool) (w' : W) (t : list XItem),
    xrun h (askDeleteBranch force branch) w = (Returned b, w', t) /\
    (force = true /\ b = true /\ deeds t = [] \/
     force = false /\ deeds t = [Asked (deleteBranchQuestion branch) b]).
Proof.
  unfold askDeleteBranch, xcall. destruct force; cbn [negb xrun xbind].
  - eexists _, _, _. split; [reflexivity | left; repeat split].
  - destruct (h _ (Core (PromptRun _)) w) as [[answer err] w1].
    eexists _, _, _. split; [reflexivity | right; split; reflexivity].
Qed.

Lemma deleteBranchOrWarn_run {W : Type} (h : XHandler W) (w : W)
    (exp : Experiment) :
  exists (w' : W) (t : list XItem) (derr : error),
    xrun h (deleteBranchOrWarn exp) w = (Returned tt, w', t) /\
    deeds t = [GitBranchDelete (Exp_Repo exp) (Exp_Branch exp) derr].
Proof.
  unfold deleteBranchOrWarn, DeleteBranch, git, call, xui.
  cbn [lift bind xrun xbind].
  destruct (h _ (Core (Exec CombinedOutput (Exp_Repo exp) "git"
                         ["branch"; "-D"; Exp_Branch exp])) w) as [r w1].
  destruct (cmd_err r) eqn:Ed; cbn [lift bind xrun xbind]; eexists _, _, _;
    (split; [reflexivity |]); cbn; rewrite Ed; reflexivity.
Qed.

Lemma cleanupExperiment_remove_run {W : Type} (h : XHandler W) (w : W)
    (force : bool) (cfg : Config) (state : State) (key : string)
    (exp : Experiment) :
  exists (st : State) (e : error) (w' : W) (t : list XItem),
    xrun h (cleanupExperiment_remove force cfg state key exp) w
    = (Returned (st, e), w', t) /\
    experimentRemoved force cfg state key exp st e (deeds t).
Proof.
  unfold cleanupExperiment_remove. unfold xui at 1. cbn [xrun xbind].
  rewrite xrun_bind.
  destruct (removeWorktreeOrTree_run h w exp) as (rm & w1 & t1 & Hr1 & Hd1).
  rewrite Hr1. destruct rm as [err |].
  - cbn [xrun]. eexists _, _, _, _. split; [reflexivity |]. left.
    rewrite app_nil_r, deeds_printed.
    destruct Hd1 as [[H _] | [gerr H]]; [discriminate H |].
    exists gerr, err. split; [exact H |]. split; reflexivity.
  - unfold xui at 1. cbn [xrun xbind]. rewrite xrun_bind.
    destruct (askDeleteBranch_run h w1 force (Exp_Branch exp))
      as (b & w2 & t2 & Hr2 & Hd2).
    rewrite Hr2. rewrite xrun_bind.
    assert (Hdel : exists (w3 : W) (t3 : list XItem),
               xrun h (if b then deleteBranchOrWarn exp else XRet tt) w2
               = (Returned tt, w3, t3) /\
               if b
               then exists derr : error,
                   deeds t3
                   = [GitBranchDelete (Exp_Repo exp) (Exp_Branch exp) derr]
               else deeds t3 = []).
    { destruct b.
      - destruct (deleteBranchOrWarn_run h w2 exp) as (w3 & t3 & derr & Hr & Hd).
        exists w3, t3. split; [exact Hr |]. exists derr. exact Hd.
      - eexists _, _. split; reflexivity. }
    destruct Hdel as (w3 & t3 & Hr3 & Hd3). rewrite Hr3.
    cbv zeta. rewrite xrun_bind.
    destruct (saveOrWarn_run h w3 (RemoveExperiment state key) cfg)
      as (w4 & t4 & Hr4 & Hd4).
    rewrite Hr4. unfold xui. cbn [xrun xbind].
    eexists _, _, _, _. split; [reflexivity |]. right.
    exists (deeds t1), (deeds t2 ++ deeds t3), (deeds t4).
    split.
    { rewrite deeds_printed, deeds_app, deeds_printed, !deeds_app.
      cbn. rewrite !app_nil_r, <- !app_assoc. reflexivity. }
    split; [reflexivity |]. split; [reflexivity |].
    split; [destruct Hd1 as [[_ H] | [gerr H]];
            [left; exact H | right; exists gerr; exact H] |].
    split; [| exact Hd4].
    destruct Hd2 as [(Hf & -> & ->) | (Hf & ->)].
    + left. split; [exact Hf |]. destruct Hd3 as [derr ->].
      exists derr. reflexivity.
    + destruct b.
      * right. right. split; [exact Hf |]. destruct Hd3 as [derr ->].
        exists derr. reflexivity.
      * right. left. split; [exact Hf |]. rewrite Hd3. reflexivity.
Qed.

Lemma cleanupExperiment_shape {W : Type} (h : XHandler W) (w w0 w1 : W)
    (force : bool) (cfg : Config) (state : State) (key : string)
    (exp : Experiment) (r : CmdResult) :
  h _ Println w = (tt, w0) ->
  h _ (Core (Exec Output (Exp_Path exp) "git" ["status"; "--porcelain"])) w0
  = (r, w1) ->
  exists (st : State) (e : error) (w' : W) (t : list XItem),
    xrun h (cleanupExperiment force cfg state key exp) w
    = (Returned (st, e), w', t) /\
    cleanupExperimentShape force cfg state key exp (showsChanges r) st e
      (deeds t).
Proof.
  intros Hp Hs.
  unfold cleanupExperiment. unfold xui at 1 2 3, xcall at 1.
  cbn [xrun xbind]. rewrite Hp.
  rewrite xrun_bind, (HasUncommittedChanges_xrun h w0 w1 _ r Hs). cbn [fst].
  unfold cleanupExperimentShape.
  assert (Hgo : forall (w2 : W) (pre : list XItem) (dpre : list Deed),
             deeds pre = dpre ->
             exists (st : State) (e : error) (w' : W) (t : list XItem),
               (let '(res, w3, t3) :=
                  xrun h (cleanupExperiment_remove force cfg state key exp) w2
                in (res, w3, pre ++ t3)) = (Returned (st, e), w', t) /\
               exists rest : list Deed,
                 deeds t = dpre ++ rest /\
                 experimentRemoved force cfg state key exp st e rest).
  { intros w2 pre dpre Hpre.
    destruct (cleanupExperiment_remove_run h w2 force cfg state key exp)
      as (st & e & w3 & t3 & Hr & Hd).
    unfold error in *. rewrite Hr. eexists _, _, _, _. split; [reflexivity |].
    exists (deeds t3). rewrite deeds_app, Hpre. split; [reflexivity | exact Hd]. }
  destruct (showsChanges r) eqn:Ec; cbn [andb].
  - unfold xui at 1. cbn [xrun xbind]. destruct force; cbn [negb].
    + destruct (Hgo w1 [] [] eq_refl) as (st & e & w' & t & Hr & rest & Hd & Hx).
      cbn [app] in Hr, Hd.
      destruct (xrun h (cleanupExperiment_remove true cfg state key exp) w1)
        as [[res w3] t3].
      injection Hr as -> -> ->.
      eexists _, _, _, _. split; [reflexivity |].
      exists rest. cbn [app].
      rewrite !deeds_printed, deeds_println, deeds_status, Ec, deeds_printed, Hd.
      split; [reflexivity | exact Hx].
    + unfold xcall at 1. cbn [xrun xbind].
      destruct (h _ (Core (PromptRun _)) w1) as [[answer perr] w1'].
      cbn [snd]. destruct perr as [pe |].
      * unfold xui. cbn [xrun xbind]. eexists _, _, _, _.
        split; [reflexivity |]. left. cbn [app].
        rewrite !deeds_printed, deeds_println, deeds_status, Ec, deeds_printed.
        rewrite deeds_asked. repeat split.
      * destruct (Hgo w1' [] [] eq_refl)
          as (st & e & w' & t & Hr & rest & Hd & Hx).
        cbn [app] in Hr, Hd.
        destruct (xrun h (cleanupExperiment_remove false cfg state key exp) w1')
          as [[res w3] t3].
        injection Hr as -> -> ->.
        eexists _, _, _, _. split; [reflexivity |]. right.
        exists rest. cbn [app].
        rewrite !deeds_printed, deeds_println, deeds_status, Ec, deeds_printed.
        rewrite deeds_asked. cbn [Label snd is_nil]. rewrite Hd.
        split; [reflexivity | exact Hx].
  - destruct (Hgo w1 [] [] eq_refl) as (st & e & w' & t & Hr & rest & Hd & Hx).
    cbn [app] in Hr, Hd.
    destruct (xrun h (cleanupExperiment_remove force cfg state key exp) w1)
      as [[res w3] t3].
    injection Hr as -> -> ->.
    eexists _, _, _, _. split; [reflexivity |].
    exists rest. cbn [app].
    rewrite !deeds_printed, deeds_println, deeds_status, Ec, Hd.
    split; [reflexivity | exact Hx].
Qed.

Ltac break_shape :=
  repeat match goal with
         | H : _ /\ _ |- _ => destruct H
         | H : exists _, _ |- _ => destruct H
         | H : _ \/ _ |- _ => destruct H
         end.

Ltac solve_fact :=
  cbn in *; intros;
  repeat match goal with
         | H : _ /\ _ |- _ => destruct H
         | H : exists _, _ |- _ => destruct H
         | H : _ \/ _ |- _ => destruct H
         | H : False |- _ => destruct H
         | H : (_, _) = (_, _) |- _ => injection H as; subst
         | H : Some _ = Some _ |- _ => injection H as; subst
         end;
  subst;
  try discriminate; try congruence; try contradiction;
  repeat match goal with
         | |- _ /\ _ => split
         | |- _ <-> _ => split; intros
         | |- ~ _ => intros ?
         | |- forall _, _ => intros
         end;
  cbn in *;
  repeat match goal with
         | H : _ /\ _ |- _ => destruct H
         | H : exists _, _ |- _ => destruct H
         | H : _ \/ _ |- _ => destruct H
         | H : False |- _ => destruct H
         | H : (_, _) = (_, _) |- _ => injection H as; subst
         | H : Some _ = Some _ |- _ => injection H as; subst
         end;
  subst;
  try discriminate; try congruence; try contradiction;
  eauto 8;
  try match goal with
      | H : ~ _ |- _ => elim H; cbn; solve [auto]
      end.

Lemma cleanupExperimentShape_facts (force : bool) (cfg : Config)
    (state : State) (key : string) (exp : Experiment) (changes : bool)
    (st : State) (e : error) (d : list Deed) :
  cleanupExperimentShape force cfg state key exp changes st e d ->
  statusChecks d = [(Exp_Path exp, changes)] /\
  (force = true -> questions d = []) /\
  ((exists a : bool, In (discardQuestion, a) (questions d))
   <-> force = false /\ changes = true) /\
  (In (discardQuestion, false) (questions d) ->
   d = [StatusChecked (Exp_Path exp) true; Asked discardQuestion false] /\
   st = state /\ e = None) /\
  (forall x : string * string * error,
      In x (branchDeletions d) ->
      fst x = (Exp_Repo exp, Exp_Branch exp) /\
      (force = true \/
       In (deleteBranchQuestion (Exp_Branch exp), true) (questions d))) /\
  (forall x : string * string * error,
      In x (worktreeRemovals d) -> fst x = (Exp_Repo exp, Exp_Path exp)) /\
  (forall (p : string) (rerr : error),
      In (p, rerr) (treeRemovals d) ->
      p = Exp_Path exp /\
      exists gerr : error_value,
        In (Exp_Repo exp, Exp_Path exp, Some gerr) (worktreeRemovals d)) /\
  (forall err : error_value,
      e = Some err <->
      exists rerr : error_value,
        In (Exp_Path exp, Some rerr) (treeRemovals d) /\
        err = fmt_Errorf_w "failed to remove worktree: " rerr) /\
  (e <> None ->
   st = state /\ branchDeletions d = [] /\ stateWrites d = [] /\
   forall a : bool,
     ~ In (deleteBranchQuestion (Exp_Branch exp), a) (questions d)) /\
  (worktreeRemovals d <> [] -> e = None ->
   st = RemoveExperiment state key /\ stateSaved cfg (stateWrites d)) /\
  (changes = false ->
   (forall a : bool, ~ In (discardQuestion, a) (questions d)) /\
   worktreeRemovals d <> []).
Proof.
  pose proof (discard_is_not_delete (Exp_Branch exp)) as Hq.
  unfold cleanupExperimentShape, experimentRemoved. intros H.
  destruct changes, force; cbn [andb negb] in H; break_shape; subst.
  all: unfold stateSaved in *; break_shape; subst.
  all: repeat split.
  all: solve_fact.
Qed.

(** X24. [cleanupExperiment] always returns.  Its deeds are, in order: the
    status check of the worktree; when that showed changes and the force
    flag is off, the question whether to discard them; then the removal.
    With the force flag it asks nothing.  When the first question is
    answered with an error, that is all that happened: nothing is removed,
    deleted or written, and the state is as it was.  Git is asked to remove
    the worktree of the experiment in its repository, and [os.RemoveAll] is
    called on that worktree only after git failed.  An error is returned
    exactly when that [os.RemoveAll] failed, and it is its error, wrapped;
    then the state is as it was, the branch is neither asked about nor
    deleted and nothing is written.  In every other run that reaches the
    removal the experiment is taken out of the state and the state is
    saved, whether or not the save works.  The branch is that of the
    experiment, deleted only with the force flag or after its own question
    was answered without an error.  When [git status] fails or shows
    nothing, the changes are not asked about and the removal goes ahead. *)
Theorem cleanupExperiment_asks_before_discarding {W : Type} (h : XHandler W)
    (w : W) (force : bool) (cfg : Config) (state : State) (key : string)
    (exp : Experiment) :
  let status :=
    fst (h _ (Core (Exec Output (Exp_Path exp) "git"
                      ["status"; "--porcelain"]))
           (snd (h _ Println w))) in
  exists (st : State) (e : error) (w' : W) (t : list XItem),
    xrun h (cleanupExperiment force cfg state key exp) w
    = (Returned (st, e), w', t) /\
    cleanupExperimentShape force cfg state key exp (showsChanges status) st e
      (deeds t) /\
    statusChecks (deeds t) = [(Exp_Path exp, showsChanges status)] /\
    (force = true -> questions (deeds t) = []) /\
    ((exists a : bool, In (discardQuestion, a) (questions (deeds t)))
     <-> force = false /\ showsChanges status = true) /\
    (In (discardQuestion, false) (questions (deeds t)) ->
     deeds t = [StatusChecked (Exp_Path exp) true;
                Asked discardQuestion false] /\
     st = state /\ e = None) /\
    (forall x : string * string * error,
        In x (branchDeletions (deeds t)) ->
        fst x = (Exp_Repo exp, Exp_Branch exp) /\
        (force = true \/
         In (deleteBranchQuestion (Exp_Branch exp), true)
            (questions (deeds t)))) /\
    (forall x : string * string * error,
        In x (worktreeRemovals (deeds t)) ->
        fst x = (Exp_Repo exp, Exp_Path exp)) /\
    (forall (p : string) (rerr : error),
        In (p, rerr) (treeRemovals (deeds t)) ->
        p = Exp_Path exp /\
        exists gerr : error_value,
          In (Exp_Repo exp, Exp_Path exp, Some gerr)
             (worktreeRemovals (deeds t))) /\
    (forall err : error_value,
        e = Some err <->
        exists rerr : error_value,
          In (Exp_Path exp, Some rerr) (treeRemovals (deeds t)) /\
          err = fmt_Errorf_w "failed to remove worktree: " rerr) /\
    (e <> None ->
     st = state /\ branchDeletions (deeds t) = [] /\
     stateWrites (deeds t) = [] /\
     forall a : bool,
       ~ In (deleteBranchQuestion (Exp_Branch exp), a) (questions (deeds t))) /\
    (worktreeRemovals (deeds t) <> [] -> e = None ->
     st = RemoveExperiment state key /\
     stateSaved cfg (stateWrites (deeds t))) /\
    (showsChanges status = false ->
     (forall a : bool, ~ In (discardQuestion, a) (questions (deeds t))) /\
     worktreeRemovals (deeds t) <> []) /\
    (cmd_err status <> None -> showsChanges status = false).
Proof.
  intros status. subst status.
  destruct (h _ Println w) as [[] w0] eqn:Hp. cbn [snd].
  destruct (h _ (Core (Exec Output (Exp_Path exp) "git"
                         ["status"; "--porcelain"])) w0) as [r w1] eqn:Hs.
  cbn [fst].
  destruct (cleanupExperiment_shape h w w0 w1 force cfg state key exp r Hp Hs)
    as (st & e & w' & t & Hr & Hshape).
  exists st, e, w', t. split; [exact Hr |]. split; [exact Hshape |].
  pose proof (cleanupExperimentShape_facts _ _ _ _ _ _ _ _ _ Hshape)
    as (F1 & F2 & F3 & F4 & F5 & F6 & F7 & F8 & F9 & F10 & F11).
  repeat (split; [assumption |]).
  unfold showsChanges. intros He. destruct (cmd_err r); [reflexivity |].
  congruence.
Qed.

Lemma cleanupScratch_remove_run {W : Type} (h : XHandler W) (w : W)
    (cfg : Config) (state : State) (name : string) (scratch : Scratch) :
  exists (st : State) (e : error) (w' : W) (t : list XItem),
    xrun h (cleanupScratch_remove cfg state name scratch) w
    = (Returned (st, e), w', t) /\
    scratchRemoved cfg state name scratch st e (deeds t).
Proof.
  unfold cleanupScratch_remove. unfold xui at 1, xcall. cbn [xrun xbind].
  destruct (h _ (RemoveAll (Scr_Path scratch)) w) as [rm w1].
  destruct rm as [err |].
  - cbn [xrun]. eexists _, _, _, _. split; [reflexivity |]. left.
    exists err. repeat split.
  - unfold xui at 1. cbn [xrun xbind]. rewrite xrun_bind.
    destruct (saveOrWarn_run h w1 (RemoveScratch state name) cfg)
      as (w2 & t2 & Hr2 & Hd2).
    rewrite Hr2. unfold xui. cbn [xrun xbind].
    eexists _, _, _, _. split; [reflexivity |]. right. exists (deeds t2).
    split.
    { rewrite deeds_printed.
      change (deeds (XDid (RemoveAll ?p) ?x :: ?t))
        with (RemoveTree p x :: deeds t).
      rewrite deeds_printed, deeds_app. cbn. rewrite app_nil_r. reflexivity. }
    split; [reflexivity |]. split; [reflexivity | exact Hd2].
Qed.

Lemma cleanupScratch_shape {W : Type} (h : XHandler W) (w w0 w1 : W)
    (force : bool) (cfg : Config) (state : State) (name : string)
    (scratch : Scratch) (entries : list DirEntry) (err : error) :
  h _ Println w = (tt, w0) ->
  h _ (Core (ReadDir (Scr_Path scratch))) w0 = ((entries, err), w1) ->
  exists (st : State) (e : error) (w' : W) (t : list XItem),
    xrun h (cleanupScratch force cfg state name scratch) w
    = (Returned (st, e), w', t) /\
    cleanupScratchShape cfg state name scratch
      (is_nil err && (0 <? countVisible entries) && negb force) st e (deeds t).
Proof.
  intros Hp Hl. unfold cleanupScratch. unfold xui at 1 2, xcall at 1 2.
  cbn [xrun xbind]. rewrite Hp, Hl.
  assert (Hquiet :
            is_nil err && (0 <? countVisible entries) && negb force = false ->
            exists (st : State) (e : error) (w' : W) (t : list XItem),
              (let '(r, w3, t3) :=
                 let '(r, w3, t3) :=
                   let '(r, w3, t3) :=
                     let '(r, w3, t3) :=
                       xrun h (cleanupScratch_remove cfg state name scratch) w1
                     in (r, w3,
                         XDid (Core (ReadDir (Scr_Path scratch)))
                              (entries, err) :: t3)
                   in (r, w3, XDid Println tt :: t3)
                 in (r, w3,
                     XPrinted {| ui_fn := ui_KeyValue;
                                 ui_text := "Path: " +:+ Scr_Path scratch |}
                     :: t3)
               in (r, w3,
                   XPrinted {| ui_fn := ui_Header;
                               ui_text := "Scratch: " +:+ Scr_Name scratch |}
                   :: t3)) = (Returned (st, e), w', t) /\
              cleanupScratchShape cfg state name scratch
                (is_nil err && (0 <? countVisible entries) && negb force)
                st e (deeds t)).
  { intros Hno. rewrite Hno. unfold cleanupScratchShape.
    destruct (cleanupScratch_remove_run h w1 cfg state name scratch)
      as (st & e & w3 & t3 & Hr & Hd).
    unfold error in *. rewrite Hr. eexists _, _, _, _. split; [reflexivity |].
    exact Hd. }
  destruct err as [rderr |]; cbn [is_nil andb] in *.
  { apply Hquiet. reflexivity. }
  destruct (0 <? List.length entries)%nat eqn:Elen.
  2:{ apply Hquiet. destruct entries; [reflexivity | discriminate Elen]. }
  cbv zeta. destruct (0 <? countVisible entries) eqn:Epos; cbn [andb] in *.
  2:{ apply Hquiet. reflexivity. }
  destruct force; cbn [negb] in *.
  { apply Hquiet. reflexivity. }
  unfold xui at 1, xcall at 1. cbn [xrun xbind].
  destruct (h _ (Core (PromptRun _)) w1) as [[answer perr] w2].
  cbn [snd]. unfold cleanupScratchShape. destruct perr as [pe |].
  - unfold xui. cbn [xrun xbind]. eexists _, _, _, _.
    split; [reflexivity |]. left. repeat split.
  - destruct (cleanupScratch_remove_run h w2 cfg state name scratch)
      as (st & e & w3 & t3 & Hr & Hd).
    unfold error in *. rewrite Hr. eexists _, _, _, _. split; [reflexivity |].
    right. exists (deeds t3). split; [reflexivity | exact Hd].
Qed.

Lemma cleanupScratchShape_facts (cfg : Config) (state : State)
    (name : string) (scratch : Scratch) (asks : bool) (st : State)
    (e : error) (d : list Deed) :
  cleanupScratchShape cfg state name scratch asks st e d ->
  ((exists a : bool, In (deleteContentsQuestion, a) (questions d))
   <-> asks = true) /\
  (forall x : string * bool,
      In x (questions d) -> fst x = deleteContentsQuestion) /\
  (List.length (questions d) <= 1)%nat /\
  (In (deleteContentsQuestion, false) (questions d) ->
   d = [Asked deleteContentsQuestion false] /\ st = state /\ e = None) /\
  (~ In (deleteContentsQuestion, false) (questions d) ->
   exists rerr : error,
     treeRemovals d = [(Scr_Path scratch, rerr)] /\
     e = match rerr with
         | Some x => Some (fmt_Errorf_w "failed to remove scratch folder: " x)
         | None => None
         end) /\
  (forall x : string * error,
      In x (treeRemovals d) -> fst x = Scr_Path scratch) /\
  (forall err : error_value,
      e = Some err <->
      exists rerr : error_value,
        In (Scr_Path scratch, Some rerr) (treeRemovals d) /\
        err = fmt_Errorf_w "failed to remove scratch folder: " rerr) /\
  (e <> None -> st = state /\ stateWrites d = []) /\
  (treeRemovals d <> [] -> e = None ->
   st = RemoveScratch state name /\ stateSaved cfg (stateWrites d)).
Proof.
  unfold cleanupScratchShape, scratchRemoved. intros H.
  destruct asks; break_shape; subst.
  all: unfold stateSaved in *; break_shape; subst.
  all: repeat split.
  all: solve_fact.
Qed.

(** X25. [cleanupScratch] always returns.  It asks one question at most,
    and exactly when the force flag is off, the folder could be listed and
    holds an entry whose name does not start with a dot; a folder that
    holds hidden entries only, or that cannot be listed, is removed without
    a question.  When the question is answered with an error that is all
    that happened: nothing is removed or written and the state is as it
    was.  In every other run [os.RemoveAll] is called once, on the folder
    of the scratch.  An error is returned exactly when that call failed,
    and it is its error, wrapped; then the state is as it was and nothing
    is written.  When the call worked the scratch is taken out of the state
    and the state is saved, whether or not the save works. *)
Theorem cleanupScratch_asks_before_deleting {W : Type} (h : XHandler W)
    (w : W) (force : bool) (cfg : Config) (state : State) (name : string)
    (scratch : Scratch) :
  let listed := fst (h _ (Core (ReadDir (Scr_Path scratch)))
                       (snd (h _ Println w))) in
  exists (st : State) (e : error) (w' : W) (t : list XItem),
    xrun h (cleanupScratch force cfg state name scratch) w
    = (Returned (st, e), w', t) /\
    ((exists a : bool, In (deleteContentsQuestion, a) (questions (deeds t)))
     <-> force = false /\ snd listed = None /\ 0 < countVisible (fst listed)) /\
    (forall x : string * bool,
        In x (questions (deeds t)) -> fst x = deleteContentsQuestion) /\
    (List.length (questions (deeds t)) <= 1)%nat /\
    (In (deleteContentsQuestion, false) (questions (deeds t)) ->
     deeds t = [Asked deleteContentsQuestion false] /\ st = state /\
     e = None) /\
    (~ In (deleteContentsQuestion, false) (questions (deeds t)) ->
     exists rerr : error,
       treeRemovals (deeds t) = [(Scr_Path scratch, rerr)] /\
       e = match rerr with
           | Some x =>
               Some (fmt_Errorf_w "failed to remove scratch folder: " x)
           | None => None
           end) /\
    (forall x : string * error,
        In x (treeRemovals (deeds t)) -> fst x = Scr_Path scratch) /\
    (forall err : error_value,
        e = Some err <->
        exists rerr : error_value,
          In (Scr_Path scratch, Some rerr) (treeRemovals (deeds t)) /\
          err = fmt_Errorf_w "failed to remove scratch folder: " rerr) /\
    (e <> None -> st = state /\ stateWrites (deeds t) = []) /\
    (treeRemovals (deeds t) <> [] -> e = None ->
     st = RemoveScratch state name /\
     stateSaved cfg (stateWrites (deeds t))).
Proof.
  intros listed. subst listed.
  destruct (h _ Println w) as [[] w0] eqn:Hp. cbn [snd].
  destruct (h _ (Core (ReadDir (Scr_Path scratch))) w0)
    as [[entries err] w1] eqn:Hl.
  cbn [fst snd].
  destruct (cleanupScratch_shape h w w0 w1 force cfg state name scratch
              entries err Hp Hl)
    as (st & e & w' & t & Hr & Hshape).
  exists st, e, w', t. split; [exact Hr |].
  pose proof (cleanupScratchShape_facts _ _ _ _ _ _ _ _ Hshape)
    as (F1 & F2 & F3 & F4 & F5 & F6 & F7 & F8 & F9).
  split; [| repeat (split; [assumption |]); assumption].
  rewrite F1. rewrite !andb_true_iff, negb_true_iff, Z.ltb_lt.
  destruct err; cbn; split; intros; break_shape; repeat split;
    try assumption; try discriminate; reflexivity.
Qed.

(** ** Cleaning up a project *)

Lemma questions_app (a b : list Deed) :
  questions (a ++ b) = questions a ++ questions b.
Proof. apply omap_app. Qed.

Lemma statusChecks_app (a b : list Deed) :
  statusChecks (a ++ b) = statusChecks a ++ statusChecks b.
Proof. apply omap_app. Qed.

Lemma worktreeRemovals_app (a b : list Deed) :
  worktreeRemovals (a ++ b) = worktreeRemovals a ++ worktreeRemovals b.
Proof. apply omap_app. Qed.

Lemma treeRemovals_app (a b : list Deed) :
  treeRemovals (a ++ b) = treeRemovals a ++ treeRemovals b.
Proof. apply omap_app. Qed.

Lemma branchDeletions_app (a b : list Deed) :
  branchDeletions (a ++ b) = branchDeletions a ++ branchDeletions b.
Proof. apply omap_app. Qed.

Lemma stateWrites_app (a b : list Deed) :
  stateWrites (a ++ b) = stateWrites a ++ stateWrites b.
Proof. apply List.filter_app. Qed.

Lemma warnChanges_run {W : Type} (h : XHandler W) (proj : Project)
    (repos : list ProjectRepo) :
  forall (acc : bool) (w : W),
  exists (b : bool) (w' : W) (t : list XItem),
    xrun h (warnChanges (Proj_Path proj) repos acc) w = (Returned b, w', t) /\
    Forall2 (repoChecked proj) repos (deeds t) /\
    b = acc || existsb snd (statusChecks (deeds t)).
Proof.
  induction repos as [| repo rest IH]; intros acc w.
  - exists acc, w, []. split; [reflexivity |]. split; [constructor |].
    cbn. rewrite orb_false_r. reflexivity.
  - cbn [warnChanges]. rewrite xrun_bind.
    destruct (h _ (Core (Exec Output
                           (filepath_Join [Proj_Path proj; PR_Name repo])
                           "git" ["status"; "--porcelain"])) w)
      as [r w1] eqn:Hs.
    rewrite (HasUncommittedChanges_xrun h w w1 _ r Hs). cbn [fst].
    destruct (showsChanges r) eqn:Ec.
    + unfold xui. cbn [xrun xbind].
      destruct (IH true w1) as (b & w2 & t2 & Hr2 & Hf2 & Hb2).
      rewrite Hr2. eexists _, _, _. split; [reflexivity |]. cbn [app].
      rewrite deeds_status, deeds_printed, Ec.
      split; [constructor; [exists true; reflexivity | exact Hf2] |].
      cbn. rewrite orb_true_r. rewrite Hb2. reflexivity.
    + destruct (IH acc w1) as (b & w2 & t2 & Hr2 & Hf2 & Hb2).
      rewrite Hr2. eexists _, _, _. split; [reflexivity |]. cbn [app].
      rewrite deeds_status, Ec.
      split; [constructor; [exists false; reflexivity | exact Hf2] |].
      cbn. exact Hb2.
Qed.

Lemma removeWorktrees_run {W : Type} (h : XHandler W) (proj : Project)
    (repos : list ProjectRepo) :
  forall w : W,
  exists (w' : W) (t : list XItem) (rms : list (list Deed)),
    xrun h (removeWorktrees (Proj_Path proj) repos) w = (Returned tt, w', t) /\
    deeds t = concat rms /\
    Forall2 (repoRemoved proj) repos rms.
Proof.
  induction repos as [| repo rest IH]; intros w.
  - exists w, [], []. split; [reflexivity |]. split; [reflexivity | constructor].
  - cbn [removeWorktrees]. unfold RemoveWorktree, git, call, xcall, xui.
    cbn [lift bind xrun xbind].
    destruct (h _ (Core (Exec CombinedOutput (PR_Source repo) "git" _)) w)
      as [r w1].
    destruct (cmd_err r) as [gerr |] eqn:Eg; cbn [lift bind xrun xbind].
    + destruct (h _ (RemoveAll _) w1) as [rm w2]. cbn [xrun xbind].
      destruct (IH w2) as (w3 & t3 & rms & Hr3 & Hd3 & Hf3).
      rewrite Hr3.
      eexists _, _,
        ([GitWorktreeRemove (PR_Source repo) (repoWorktree proj repo)
            (Some gerr);
          RemoveTree (repoWorktree proj repo) rm] :: rms).
      split; [reflexivity |].
      split.
      * cbn. rewrite Eg. fold (deeds t3). rewrite Hd3. reflexivity.
      * constructor; [| exact Hf3]. right. exists gerr, rm. reflexivity.
    + destruct (IH w1) as (w3 & t3 & rms & Hr3 & Hd3 & Hf3).
      rewrite Hr3.
      eexists _, _,
        ([GitWorktreeRemove (PR_Source repo) (repoWorktree proj repo) None]
           :: rms).
      split; [reflexivity |].
      split.
      * cbn. rewrite Eg. fold (deeds t3). rewrite Hd3. reflexivity.
      * constructor; [| exact Hf3]. left. reflexivity.
Qed.

Lemma deleteBranches_run {W : Type} (h : XHandler W) (proj : Project)
    (repos : list ProjectRepo) :
  forall w : W,
  exists (w' : W) (t : list XItem),
    xrun h (deleteBranches (Proj_Branch proj) repos) w = (Returned tt, w', t) /\
    Forall2 (repoBranchDeleted proj) repos (deeds t).
Proof.
  induction repos as [| repo rest IH]; intros w.
  - exists w, []. split; [reflexivity | constructor].
  - cbn [deleteBranches]. unfold DeleteBranch, git, call, xui.
    cbn [lift bind xrun xbind].
    destruct (h _ (Core (Exec CombinedOutput (PR_Source repo) "git" _)) w)
      as [r w1].
    destruct (cmd_err r) as [derr |] eqn:Ed; cbn [lift bind xrun xbind];
      destruct (IH w1) as (w3 & t3 & Hr3 & Hf3);
      rewrite Hr3; eexists _, _; (split; [reflexivity |]);
      cbn; rewrite Ed; fold (deeds t3);
      (constructor; [eexists; reflexivity | exact Hf3]).
Qed.

Lemma cleanupProject_remove_run {W : Type} (h : XHandler W) (w : W)
    (force : bool) (cfg : Config) (state : State) (name : string)
    (proj : Project) :
  exists (w' : W) (t : list XItem),
    xrun h (cleanupProject_remove force cfg state name proj) w
    = (Returned (deleteProject state name, None), w', t) /\
    projectRemoved force cfg proj (deeds t).
Proof.
  unfold cleanupProject_remove. unfold xui at 1. cbn [xrun xbind].
  rewrite xrun_bind.
  destruct (removeWorktrees_run h proj (Proj_Repos proj) w)
    as (w1 & t1 & rms & Hr1 & Hd1 & Hf1).
  rewrite Hr1. unfold xcall at 1. cbn [xrun xbind].
  destruct (h _ (RemoveAll (Proj_Path proj)) w1) as [perr w2].
  rewrite xrun_bind.
  assert (Hask : exists (b : bool) (w3 : W) (t3 : list XItem),
             xrun h (if negb force then
                       xbind (xcall (Core (PromptRun
                                {| Label := "Delete branch " +:+ Proj_Branch proj
                                            +:+ " from all repos";
                                   IsConfirm := true; Default := "" |})))
                         (fun pr => XRet (is_nil (snd pr)))
                     else XRet force) w2
             = (Returned b, w3, t3) /\
             (force = true /\ b = true /\ deeds t3 = [] \/
              force = false /\
              deeds t3 = [Asked (deleteBranchesQuestion (Proj_Branch proj)) b])).
  { unfold xcall. destruct force; cbn [negb xrun xbind].
    - eexists _, _, _. split; [reflexivity | left; repeat split].
    - destruct (h _ (Core (PromptRun _)) w2) as [[answer err] w3].
      eexists _, _, _. split; [reflexivity | right; split; reflexivity]. }
  destruct Hask as (b & w3 & t3 & Hr3 & Hd3). rewrite Hr3.
  rewrite xrun_bind.
  assert (Hdel : exists (w4 : W) (t4 : list XItem) (bds : list Deed),
             xrun h (if b then
                       xbind (xui ui_Info "Deleting branches...")
                         (fun _ => deleteBranches (Proj_Branch proj)
                                     (Proj_Repos proj))
                     else XRet tt) w3
             = (Returned tt, w4, t4) /\
             Forall2 (repoBranchDeleted proj) (Proj_Repos proj) bds /\
             deeds t4 = if b then bds else []).
  { destruct (deleteBranches_run h proj (Proj_Repos proj) w3)
      as (w4 & t4 & Hr4 & Hf4).
    destruct b.
    - unfold xui. cbn [xrun xbind]. rewrite Hr4.
      eexists _, _, (deeds t4). split; [reflexivity |].
      split; [exact Hf4 | reflexivity].
    - eexists _, _, (deeds t4). split; [reflexivity |].
      split; [exact Hf4 | reflexivity]. }
  destruct Hdel as (w4 & t4 & bds & Hr4 & Hf4 & Hd4). rewrite Hr4.
  cbv zeta. rewrite xrun_bind.
  destruct (saveOrWarn_run h w4 (deleteProject state name) cfg)
    as (w5 & t5 & Hr5 & Hd5).
  rewrite Hr5. unfold xui. cbn [xrun xbind].
  eexists _, _. split; [reflexivity |].
  exists rms, bds, (deeds t3 ++ deeds t4), (deeds t5), perr.
  split.
  { rewrite deeds_printed, deeds_app, Hd1.
    change (deeds (XDid (RemoveAll ?p) ?x :: ?u))
      with (RemoveTree p x :: deeds u).
    rewrite !deeds_app. cbn. rewrite !app_nil_r, <- !app_assoc. reflexivity. }
  split; [exact Hf1 |]. split; [exact Hf4 |]. split; [| exact Hd5].
  rewrite Hd4. destruct Hd3 as [(Hf & -> & ->) | (Hf & ->)].
  - left. split; [exact Hf | reflexivity].
  - destruct b; [right; right | right; left]; split; try exact Hf; reflexivity.
Qed.

Lemma cleanupProject_shape {W : Type} (h : XHandler W) (w : W)
    (force : bool) (cfg : Config) (state : State) (name : string)
    (proj : Project) :
  exists (st : State) (w' : W) (t : list XItem),
    xrun h (cleanupProject force cfg state name proj) w
    = (Returned (st, None), w', t) /\
    cleanupProjectShape force cfg state name proj st (deeds t).
Proof.
  unfold cleanupProject. unfold xui at 1 2 3 4, xcall at 1. cbv zeta.
  cbn [xrun xbind]. destruct (h _ Println w) as [[] w0].
  rewrite xrun_bind.
  destruct (warnChanges_run h proj (Proj_Repos proj) false w0)
    as (b & w1 & t1 & Hr1 & Hf1 & Hb1).
  rewrite Hr1. cbn [orb] in Hb1. unfold cleanupProjectShape.
  destruct b; cbn [andb].
  - destruct force; cbn [negb].
    + destruct (cleanupProject_remove_run h w1 true cfg state name proj)
        as (w2 & t2 & Hr2 & Hd2).
      unfold error in *. rewrite Hr2. eexists _, _, _. split; [reflexivity |].
      exists (deeds t1), (deeds t2).
      split; [rewrite !deeds_printed, deeds_println, deeds_app; reflexivity |].
      split; [exact Hf1 |]. rewrite <- Hb1. cbn [andb negb].
      split; [reflexivity | exact Hd2].
    + unfold xcall at 1. cbn [xrun xbind].
      destruct (h _ (Core (PromptRun _)) w1) as [[answer perr] w2].
      cbn [snd]. destruct perr as [pe |].
      * unfold xui. cbn [xrun xbind]. eexists _, _, _.
        split; [reflexivity |].
        exists (deeds t1), [Asked discardAllQuestion false].
        split; [rewrite !deeds_printed, deeds_println, deeds_app; reflexivity |].
        split; [exact Hf1 |]. rewrite <- Hb1. cbn [andb negb].
        left. split; reflexivity.
      * destruct (cleanupProject_remove_run h w2 false cfg state name proj)
          as (w3 & t3 & Hr3 & Hd3).
        unfold error in *. rewrite Hr3. eexists _, _, _.
        split; [reflexivity |].
        exists (deeds t1), (Asked discardAllQuestion true :: deeds t3).
        split; [rewrite !deeds_printed, deeds_println, deeds_app; reflexivity |].
        split; [exact Hf1 |]. rewrite <- Hb1. cbn [andb negb].
        right. exists (deeds t3). split; [reflexivity |].
        split; [reflexivity | exact Hd3].
  - destruct (cleanupProject_remove_run h w1 force cfg state name proj)
      as (w2 & t2 & Hr2 & Hd2).
    unfold error in *. rewrite Hr2. eexists _, _, _. split; [reflexivity |].
    exists (deeds t1), (deeds t2).
    split; [rewrite !deeds_printed, deeds_println, deeds_app; reflexivity |].
    split; [exact Hf1 |]. rewrite <- Hb1. cbn [andb].
    split; [reflexivity | exact Hd2].
Qed.

Lemma checks_projections (proj : Project) (repos : list ProjectRepo)
    (checks : list Deed) :
  Forall2 (repoChecked proj) repos checks ->
  map fst (statusChecks checks) = map (repoWorktree proj) repos /\
  questions checks = [] /\ worktreeRemovals checks = [] /\
  treeRemovals checks = [] /\ branchDeletions checks = [] /\
  stateWrites checks = [].
Proof.
  induction 1 as [| repo x repos checks [c ->] _ (I1 & I2 & I3 & I4 & I5 & I6)].
  - repeat split.
  - change (?x :: checks) with ([x] ++ checks).
    rewrite statusChecks_app, questions_app, worktreeRemovals_app,
      treeRemovals_app, branchDeletions_app, stateWrites_app, map_app.
    rewrite I1, I2, I3, I4, I5, I6. repeat split.
Qed.

Lemma removed_projections (proj : Project) (repos : list ProjectRepo)
    (rms : list (list Deed)) :
  Forall2 (repoRemoved proj) repos rms ->
  map fst (worktreeRemovals (concat rms))
  = map (fun repo => (PR_Source repo, repoWorktree proj repo)) repos /\
  questions (concat rms) = [] /\ statusChecks (concat rms) = [] /\
  branchDeletions (concat rms) = [] /\ stateWrites (concat rms) = [] /\
  (forall x : string * error,
      In x (treeRemovals (concat rms)) ->
      exists (repo : ProjectRepo) (gerr : error_value),
        In repo repos /\ fst x = repoWorktree proj repo /\
        In (PR_Source repo, repoWorktree proj repo, Some gerr)
           (worktreeRemovals (concat rms))).
Proof.
  induction 1 as [| repo ds repos rms Hd _ (I1 & I2 & I3 & I4 & I5 & I6)].
  - repeat split. intros x [].
  - cbn [concat].
    rewrite worktreeRemovals_app, questions_app, statusChecks_app,
      branchDeletions_app, stateWrites_app, treeRemovals_app, map_app.
    rewrite I1, I2, I3, I4, I5.
    destruct Hd as [-> | (gerr & rerr & ->)]; cbn.
    + repeat split. intros x Hx.
      destruct (I6 x Hx) as (r & g & Hin & Hp & Hw).
      exists r, g. split; [right; exact Hin |]. split; [exact Hp |].
      right. exact Hw.
    + repeat split. intros x [<- | Hx].
      * exists repo, gerr. split; [left; reflexivity |].
        split; [reflexivity | left; reflexivity].
      * destruct (I6 x Hx) as (r & g & Hin & Hp & Hw).
        exists r, g. split; [right; exact Hin |]. split; [exact Hp |].
        right. exact Hw.
Qed.

Lemma deleted_projections (proj : Project) (repos : list ProjectRepo)
    (bds : list Deed) :
  Forall2 (repoBranchDeleted proj) repos bds ->
  map fst (branchDeletions bds)
  = map (fun repo => (PR_Source repo, Proj_Branch proj)) repos /\
  questions bds = [] /\ statusChecks bds = [] /\ worktreeRemovals bds = [] /\
  treeRemovals bds = [] /\ stateWrites bds = [].
Proof.
  induction 1 as [| repo x repos bds [derr ->] _ (I1 & I2 & I3 & I4 & I5 & I6)].
  - repeat split.
  - change (?x :: bds) with ([x] ++ bds).
    rewrite statusChecks_app, questions_app, worktreeRemovals_app,
      treeRemovals_app, branchDeletions_app, stateWrites_app, map_app.
    rewrite I1, I2, I3, I4, I5, I6. repeat split.
Qed.

Lemma saved_projections (cfg : Config) (save : list Deed) :
  stateSaved cfg save ->
  questions save = [] /\ statusChecks save = [] /\
  worktreeRemovals save = [] /\ treeRemovals save = [] /\
  branchDeletions save = [] /\ stateWrites save = save.
Proof.
  intros [[e ->] | [-> | [err ->]]]; repeat split.
Qed.

Lemma existsb_snd_In (l : list (string * bool)) :
  existsb snd l = true <-> In true (map snd l).
Proof.
  induction l as [| [p c] l IH]; cbn; [split; [discriminate | tauto] |].
  rewrite orb_true_iff, IH. tauto.
Qed.

Lemma projectRemoved_facts (force : bool) (cfg : Config) (proj : Project)
    (d : list Deed) :
  projectRemoved force cfg proj d ->
  statusChecks d = [] /\
  (force = true -> questions d = []) /\
  (force = false ->
   exists a : bool,
     questions d = [(deleteBranchesQuestion (Proj_Branch proj), a)]) /\
  map fst (worktreeRemovals d)
  = map (fun repo => (PR_Source repo, repoWorktree proj repo))
        (Proj_Repos proj) /\
  (exists (fallback : list (string * error)) (perr : error),
      treeRemovals d = fallback ++ [(Proj_Path proj, perr)] /\
      forall x : string * error,
        In x fallback ->
        exists (repo : ProjectRepo) (gerr : error_value),
          In repo (Proj_Repos proj) /\ fst x = repoWorktree proj repo /\
          In (PR_Source repo, repoWorktree proj repo, Some gerr)
             (worktreeRemovals d)) /\
  stateSaved cfg (stateWrites d) /\
  (force = true \/
   In (deleteBranchesQuestion (Proj_Branch proj), true) (questions d) ->
   map fst (branchDeletions d)
   = map (fun repo => (PR_Source repo, Proj_Branch proj)) (Proj_Repos proj)) /\
  (force = false ->
   ~ In (deleteBranchesQuestion (Proj_Branch proj), true) (questions d) ->
   branchDeletions d = []).
Proof.
  intros (rms & bds & del & save & perr & -> & Hrm & Hbd & Hdel & Hsave).
  destruct (removed_projections proj _ rms Hrm)
    as (R1 & R2 & R3 & R4 & R5 & R6).
  destruct (deleted_projections proj _ bds Hbd)
    as (D1 & D2 & D3 & D4 & D5 & D6).
  destruct (saved_projections cfg save Hsave)
    as (S1 & S2 & S3 & S4 & S5 & S6).
  assert (Hw : worktreeRemovals del = [] /\ treeRemovals del = [] /\
               statusChecks del = [] /\ stateWrites del = []).
  { destruct Hdel as [[_ ->] | [[_ ->] | [_ ->]]]; cbn;
      fold (worktreeRemovals bds) (treeRemovals bds) (statusChecks bds)
        (stateWrites bds);
      repeat split; assumption. }
  destruct Hw as (W1 & W2 & W3 & W4).
  rewrite !statusChecks_app, !questions_app, !worktreeRemovals_app,
    !treeRemovals_app, !branchDeletions_app, !stateWrites_app.
  rewrite R2, R3, R4, R5, S1, S2, S3, S4, S5, S6, W1, W2, W3, W4.
  cbn [app statusChecks questions worktreeRemovals treeRemovals
         branchDeletions stateWrites omap List.filter isStateWrite].
  rewrite !app_nil_r.
  split; [reflexivity |].
  split.
  { intros ->. destruct Hdel as [[_ ->] | [[Hf _] | [Hf _]]];
      [exact D2 | discriminate Hf | discriminate Hf]. }
  split.
  { intros ->. destruct Hdel as [[Hf _] | [[_ ->] | [_ ->]]];
      [discriminate Hf | exists false; reflexivity |].
    exists true. cbn. fold (questions bds). rewrite D2. reflexivity. }
  split; [exact R1 |].
  split.
  { exists (treeRemovals (concat rms)), perr. split; [reflexivity |].
    intros x Hx. destruct (R6 x Hx) as (r & g & Hin & Hp & Hwr).
    exists r, g. repeat split; assumption. }
  split; [exact Hsave |].
  split.
  { intros Hdue. destruct Hdel as [[_ ->] | [[Hf ->] | [_ ->]]].
    - exact D1.
    - destruct Hdue as [Ht | Hin]; [congruence |].
      cbn in Hin. destruct Hin as [Hin | []]. discriminate Hin.
    - cbn. fold (branchDeletions bds). exact D1. }
  intros Hf Hno. destruct Hdel as [[Ht _] | [[_ ->] | [_ ->]]].
  - congruence.
  - reflexivity.
  - elim Hno. left. reflexivity.
Qed.

(** X26. [cleanupProject] always returns, and never an error, whatever
    fails.  It checks the status of the worktree of every repository of the
    project, in order.  With the force flag it asks nothing.  The question
    whether to discard all changes is asked exactly when the force flag is
    off and a check showed changes; when it is answered with an error that
    is all that happened: nothing is removed, deleted or written and the
    state is as it was.  In every other run the project is taken out of the
    state; git is asked once for every repository, in order, to remove its
    worktree in the project directory from its source repository;
    [os.RemoveAll] is called on a worktree only after git failed on it, and
    at the end on the project directory; and the state is saved.  The
    branch of the project is deleted in every repository, in order, with
    the force flag or after the question about it was answered without an
    error, and in no repository otherwise. *)
Theorem cleanupProject_never_fails {W : Type} (h : XHandler W) (w : W)
    (force : bool) (cfg : Config) (state : State) (name : string)
    (proj : Project) :
  exists (st : State) (w' : W) (t : list XItem),
    xrun h (cleanupProject force cfg state name proj) w
    = (Returned (st, None), w', t) /\
    cleanupProjectShape force cfg state name proj st (deeds t) /\
    map fst (statusChecks (deeds t))
    = map (repoWorktree proj) (Proj_Repos proj) /\
    (force = true -> questions (deeds t) = []) /\
    ((exists a : bool, In (discardAllQuestion, a) (questions (deeds t)))
     <-> force = false /\ In true (map snd (statusChecks (deeds t)))) /\
    (In (discardAllQuestion, false) (questions (deeds t)) ->
     st = state /\
     questions (deeds t) = [(discardAllQuestion, false)] /\
     worktreeRemovals (deeds t) = [] /\ treeRemovals (deeds t) = [] /\
     branchDeletions (deeds t) = [] /\ stateWrites (deeds t) = []) /\
    (~ In (discardAllQuestion, false) (questions (deeds t)) ->
     st = deleteProject state name /\
     map fst (worktreeRemovals (deeds t))
     = map (fun repo => (PR_Source repo, repoWorktree proj repo))
           (Proj_Repos proj) /\
     (exists (fallback : list (string * error)) (perr : error),
         treeRemovals (deeds t) = fallback ++ [(Proj_Path proj, perr)] /\
         forall x : string * error,
           In x fallback ->
           exists (repo : ProjectRepo) (gerr : error_value),
             In repo (Proj_Repos proj) /\ fst x = repoWorktree proj repo /\
             In (PR_Source repo, repoWorktree proj repo, Some gerr)
                (worktreeRemovals (deeds t))) /\
     stateSaved cfg (stateWrites (deeds t)) /\
     (force = false ->
      exists a : bool,
        In (deleteBranchesQuestion (Proj_Branch proj), a)
           (questions (deeds t))) /\
     (force = true \/
      In (deleteBranchesQuestion (Proj_Branch proj), true)
         (questions (deeds t)) ->
      map fst (branchDeletions (deeds t))
      = map (fun repo => (PR_Source repo, Proj_Branch proj))
            (Proj_Repos proj)) /\
     (force = false ->
      ~ In (deleteBranchesQuestion (Proj_Branch proj), true)
           (questions (deeds t)) ->
      branchDeletions (deeds t) = [])).
Proof.
  destruct (cleanupProject_shape h w force cfg state name proj)
    as (st & w' & t & Hr & Hshape).
  exists st, w', t. split; [exact Hr |]. split; [exact Hshape |].
  pose proof (discardAll_is_not_delete (Proj_Branch proj)) as Hq.
  destruct Hshape as (checks & rest & -> & Hchecks & Hrest).
  destruct (checks_projections proj _ checks Hchecks)
    as (C1 & C2 & C3 & C4 & C5 & C6).
  assert (Hany : existsb snd (statusChecks checks) = true
                 <-> In true (map snd (statusChecks checks)))
    by apply existsb_snd_In.
  rewrite !statusChecks_app, !questions_app, !worktreeRemovals_app,
    !treeRemovals_app, !branchDeletions_app, !stateWrites_app.
  rewrite C2, C3, C4, C5, C6. cbn [app].
  assert (Hremoved :
            forall rest' : list Deed,
              projectRemoved force cfg proj rest' ->
              statusChecks rest' = [] /\
              (force = true -> questions rest' = []) /\
              (forall a : bool, ~ In (discardAllQuestion, a) (questions rest')) /\
              map fst (worktreeRemovals rest')
              = map (fun repo => (PR_Source repo, repoWorktree proj repo))
                    (Proj_Repos proj) /\
              (exists (fallback : list (string * error)) (perr : error),
                  treeRemovals rest' = fallback ++ [(Proj_Path proj, perr)] /\
                  forall x : string * error,
                    In x fallback ->
                    exists (repo : ProjectRepo) (gerr : error_value),
                      In repo (Proj_Repos proj) /\
                      fst x = repoWorktree proj repo /\
                      In (PR_Source repo, repoWorktree proj repo, Some gerr)
                         (worktreeRemovals rest')) /\
              stateSaved cfg (stateWrites rest') /\
              (force = false ->
               exists a : bool,
                 In (deleteBranchesQuestion (Proj_Branch proj), a)
                    (questions rest')) /\
              (force = true \/
               In (deleteBranchesQuestion (Proj_Branch proj), true)
                  (questions rest') ->
               map fst (branchDeletions rest')
               = map (fun repo => (PR_Source repo, Proj_Branch proj))
                     (Proj_Repos proj)) /\
              (force = false ->
               ~ In (deleteBranchesQuestion (Proj_Branch proj), true)
                    (questions rest') ->
               branchDeletions rest' = [])).
  { intros rest' Hx.
    destruct (projectRemoved_facts force cfg proj rest' Hx)
      as (P1 & P2 & P3 & P4 & P5 & P6 & P7 & P8).
    split; [exact P1 |]. split; [exact P2 |].
    split.
    { intros a Hin. destruct force.
      - rewrite (P2 eq_refl) in Hin. destruct Hin.
      - destruct (P3 eq_refl) as [a' Ha]. rewrite Ha in Hin.
        destruct Hin as [Hin | []]. apply Hq. congruence. }
    split; [exact P4 |]. split; [exact P5 |]. split; [exact P6 |].
    split.
    { intros Hf. destruct (P3 Hf) as [a Ha]. exists a. rewrite Ha.
      left. reflexivity. }
    split; [exact P7 | exact P8]. }
  destruct (existsb snd (statusChecks checks)) eqn:Eany; cbn [andb] in Hrest.
  - destruct force; cbn [negb] in Hrest.
    + destruct Hrest as [-> Hx].
      destruct (Hremoved rest Hx)
        as (P1 & P2 & P3 & P4 & P5 & P6 & P7 & P8 & P9).
      rewrite P1, app_nil_r.
      split; [exact C1 |]. split; [exact P2 |].
      split; [split; [intros [a Ha]; elim (P3 a Ha)
                     | intros [Hf _]; discriminate Hf] |].
      split; [intros Ha; elim (P3 false Ha) |].
      intros _. repeat split; assumption.
    + destruct Hrest as [[-> ->] | (rest' & -> & -> & Hx)].
      * cbn. rewrite app_nil_r.
        split; [exact C1 |]. split; [discriminate |].
        split; [split; [intros _; split; [reflexivity | apply Hany; reflexivity]
                       | intros _; exists false; left; reflexivity] |].
        split; [intros _; repeat split |].
        intros Hno. elim Hno. left. reflexivity.
      * destruct (Hremoved rest' Hx)
          as (P1 & P2 & P3 & P4 & P5 & P6 & P7 & P8 & P9).
        cbn. fold (statusChecks rest') (questions rest')
          (worktreeRemovals rest') (treeRemovals rest')
          (branchDeletions rest') (stateWrites rest').
        rewrite P1, app_nil_r.
        split; [exact C1 |]. split; [discriminate |].
        split; [split; [intros _; split; [reflexivity | apply Hany; reflexivity]
                       | intros _; exists true; left; reflexivity] |].
        split; [intros [Ha | Ha]; [discriminate Ha | elim (P3 false Ha)] |].
        intros _. split; [reflexivity |]. split; [exact P4 |].
        split; [exact P5 |]. split; [exact P6 |].
        split.
        { intros Hf. destruct (P7 Hf) as [a Ha]. exists a. right. exact Ha. }
        split.
        { intros [Hf | [Ha | Ha]]; [discriminate Hf | |].
          - exfalso. apply Hq. congruence.
          - apply P8. right. exact Ha. }
        intros Hf Hno. apply (P9 Hf). intros Ha. apply Hno. right. exact Ha.
  - destruct Hrest as [-> Hx].
    destruct (Hremoved rest Hx)
      as (P1 & P2 & P3 & P4 & P5 & P6 & P7 & P8 & P9).
    rewrite P1, app_nil_r.
    split; [exact C1 |]. split; [exact P2 |].
    split.
    { split; [intros [a Ha]; elim (P3 a Ha) |].
      intros [_ Hin]. apply Hany in Hin. discriminate Hin. }
    split; [intros Ha; elim (P3 false Ha) |].
    intros _. repeat split; assumption.
Qed.
(** ** A scratch that is there already *)

(** X27. When the name given to [runScratch] is well formed and the state
    that was loaded holds a scratch of that name, nothing is created or
    written: after the configuration and the state are loaded the one
    question whether to resume is asked; answered with an error the command
    returns nil, and answered without one it launches the agent in the path
    the state has for the scratch and returns what the launch returns. *)
Theorem existing_scratch_is_only_resumed {W : Type} (h : Handler W)
    (w w1 w2 : W) (cfg : Config) (state : State) (existing : Scratch)
    (name : string) (rest : list string) (flags : ScratchFlags)
    (loaded : list TraceItem) :
  wellFormedName name ->
  h _ config_Load w = ((cfg, None), w1) ->
  run h (LoadState cfg) w1 = (Returned (Some state, None), w2, loaded) ->
  GetScratch state name = Some existing ->
  exists (res : error) (w' : W) (t : list TraceItem)
         (answer : string * error),
    run h (runScratch flags (name :: rest)) w
    = (Returned res, w', [Did config_Load (cfg, None)] ++ loaded ++ t) /\
    List.filter writes t = [] /\
    (is_nil (snd answer) = false /\ res = None /\
     events t = [Did (PromptRun resumeQuestion) answer] \/
     is_nil (snd answer) = true /\
     events t = [Did (PromptRun resumeQuestion) answer;
                 Did (launchAgent cfg (Scr_Path existing)
                        (scratchAgentFlag flags)) res]).
Proof.
  intros Hname Hcfg Hload Hex.
  assert (Hs : isValidScratchName name = true).
  { apply validName_iff. exact Hname. }
  unfold runScratch. unfold call at 1. cbn [run bind].
  rewrite Hcfg. cbn [run bind]. rewrite Hs. cbn [negb].
  rewrite run_bind, Hload. rewrite Hex.
  unfold ui, call. cbn [run bind].
  fold resumeQuestion.
  destruct (h _ (PromptRun resumeQuestion) w2) as [answer w3].
  destruct (is_nil (snd answer)) eqn:Ea; cbn [run bind].
  - destruct (h _ (launchAgent cfg (Scr_Path existing)
                     (scratchAgentFlag flags)) w3) as [res w4].
    eexists _, _, _, answer. split; [reflexivity |].
    split; [reflexivity |]. right. split; [exact Ea | reflexivity].
  - eexists _, _, _, answer. split; [reflexivity |].
    split; [reflexivity |]. left. split; [exact Ea |]. split; reflexivity.
Qed.

(** ** Preparing a repository for the agent *)

Lemma Contains_prefix (x r : string) : Contains (x +:+ r) x = true.
Proof.
  assert (Hp : String.prefix x (x +:+ r) = true).
  { apply (HasPrefix_iff (x +:+ r) x). exists r. reflexivity. }
  destruct x; [destruct r; reflexivity |].
  rewrite append_cons in *. cbn [Contains]. rewrite Hp. reflexivity.
Qed.

Lemma Contains_app_r (p s x : string) :
  Contains s x = true -> Contains (p +:+ s) x = true.
Proof.
  intros H. induction p as [| c p IH]; [exact H |].
  rewrite append_cons. cbn [Contains]. rewrite IH. apply orb_true_r.
Qed.

Lemma Contains_app_l (s r x : string) :
  Contains s x = true -> Contains (s +:+ r) x = true.
Proof.
  induction s as [| c s IH]; intros H.
  - cbn [Contains] in H. rewrite orb_false_r in H.
    apply (HasPrefix_iff "" x) in H as [rest Hs].
    destruct x; [| discriminate Hs].
    destruct r; reflexivity.
  - cbn [Contains] in H. apply orb_true_iff in H as [H | H].
    + apply (HasPrefix_iff (String c s) x) in H as [rest Hs].
      rewrite Hs, append_assoc. apply Contains_prefix.
    + rewrite append_cons. cbn [Contains]. rewrite (IH H). apply orb_true_r.
Qed.

Lemma appended_app (a b : list XItem) :
  appended (a ++ b) = appended a +:+ appended b.
Proof.
  unfold appended. induction a as [| i a IH]; [reflexivity |].
  cbn [map fold_right app]. rewrite IH, append_assoc. reflexivity.
Qed.

Lemma writesTo_same (path s : string) (answer : error) :
  writesTo path (XDid (WriteString path s) answer) = true.
Proof. apply String.eqb_refl. Qed.

Ltac all_writes :=
  cbn [forallb app]; rewrite ?writesTo_same; cbn [andb];
  first [assumption | reflexivity].

Lemma writeLines_run {W : Type} (h : XHandler W) (path : string)
    (toAdd : list string) :
  forall w : W,
  exists (res : error) (w' : W) (t : list XItem),
    xrun h (writeLines path toAdd) w = (Returned res, w', t) /\
    forallb (writesTo path) t = true /\
    (res = None ->
     appended t = fold_right (fun line acc => line +:+ LF +:+ acc) "" toAdd).
Proof.
  induction toAdd as [| line rest IH]; intros w.
  - exists None, w, []. repeat split.
  - cbn [writeLines]. unfold xcall. cbn [xrun xbind].
    destruct (h _ (WriteString path (line +:+ LF)) w) as [[e |] w1].
    + eexists _, _, _. split; [reflexivity |]. split; [all_writes |].
      discriminate.
    + destruct (IH w1) as (res & w2 & t & Hr & Hw & Ha). rewrite Hr.
      eexists _, _, _. split; [reflexivity |].
      split; [all_writes |]. intros Hres.
      change (appended (?i :: t)) with (appendedBy i +:+ appended t).
      cbn [appendedBy is_nil]. rewrite (Ha Hres), append_assoc. reflexivity.
Qed.

Lemma added_lines_contained (existing : string) (lines : list string)
    (front : string) :
  Forall (fun line =>
            Contains (existing +:+ front
                      +:+ fold_right (fun line acc => line +:+ LF +:+ acc) ""
                            (List.filter
                               (fun line => negb (Contains existing line))
                               lines)) line = true) lines.
Proof.
  induction lines as [| l lines IH] in front |- *; [constructor |].
  cbn [List.filter]. destruct (Contains existing l) eqn:E; cbn [negb].
  - constructor; [apply Contains_app_l; exact E | apply IH].
  - cbn [fold_right]. constructor.
    + apply Contains_app_r. apply Contains_app_r. apply Contains_prefix.
    + specialize (IH (front +:+ l +:+ LF)).
      rewrite !append_assoc in IH. exact IH.
Qed.

Lemma nothing_missing (existing : string) :
  Forall (fun line => Contains existing line = true) linesToAdd ->
  missingLines existing = [].
Proof.
  unfold missingLines. intros Hf.
  induction Hf as [| l ls Hl _ IH]; [reflexivity |].
  cbn [List.filter]. rewrite Hl. exact IH.
Qed.

Lemma gitignoreUpdated_opened (path existing : string) (res : error)
    (body : list XItem) (c : error) :
  missingLines existing <> [] ->
  forallb (writesTo path) body = true ->
  (res = None ->
   exists front : string,
     appended body
     = front +:+ fold_right (fun line acc => line +:+ LF +:+ acc) ""
                   (missingLines existing) /\
     Contains (existing +:+ front) "# Clade" = true /\
     (existing = "" \/ HasSuffix existing LF = true \/
      exists rest : string, front = LF +:+ rest)) ->
  gitignoreUpdated path existing res
    (XDid (OpenAppend path) None :: body ++ [XDid (CloseFile path) c]).
Proof.
  intros Hmiss Hw Ha.
  assert (Hap : appended (XDid (OpenAppend path) None :: body
                          ++ [XDid (CloseFile path) c]) = appended body).
  { change (appended (?i :: ?u)) with (appendedBy i +:+ appended u).
    rewrite appended_app. cbn. apply append_nil_r. }
  unfold gitignoreUpdated. rewrite Hap.
  split; [intros Hf; elim Hmiss; apply nothing_missing; exact Hf |].
  split.
  { intros Hres. destruct (Ha Hres) as (front & -> & _).
    apply added_lines_contained. }
  split.
  { intros Hres _. destruct (Ha Hres) as (front & -> & Hc & Hsep). split.
    - rewrite <- append_assoc. apply Contains_app_l. exact Hc.
    - destruct Hsep as [H | [H | [rest H]]];
        [left; exact H | right; left; exact H |].
      right. right. apply HasPrefix_iff. rewrite H, append_assoc.
      eexists. reflexivity. }
  right. right. exists body, c. split; [reflexivity | exact Hw].
Qed.

Lemma no_separator_needed (existing : string) :
  (0 <? String.length existing)%nat && negb (HasSuffix existing LF) = false ->
  existing = "" \/ HasSuffix existing LF = true.
Proof.
  intros H. apply andb_false_iff in H as [H | H].
  - left. apply Nat.ltb_ge in H. destruct existing; [reflexivity |].
    cbn in H. lia.
  - right. apply negb_false_iff in H. exact H.
Qed.

Lemma headerAndLines_run {W : Type} (h : XHandler W) (w : W)
    (path existing : string) (toAdd : list string) :
  exists (res : error) (w' : W) (body : list XItem),
    xrun h
      (xbind (if negb (Contains existing "# Clade")
              then XVis (WriteString path (LF +:+ "# Clade" +:+ LF)) XRet
              else XRet None)
         (fun e2 =>
            match e2 with
            | Some e => XRet (Some e)
            | None => writeLines path toAdd
            end)) w
    = (Returned res, w', body) /\
    forallb (writesTo path) body = true /\
    (res = None ->
     exists front : string,
       appended body
       = front +:+ fold_right (fun line acc => line +:+ LF +:+ acc) "" toAdd /\
       (Contains existing "# Clade" = true \/
        Contains front "# Clade" = true) /\
       (front = "" \/ exists rest : string, front = LF +:+ rest)).
Proof.
  destruct (Contains existing "# Clade") eqn:Ec; cbn [negb xrun xbind].
  - destruct (writeLines_run h path toAdd w)
      as (res & w4 & body & Hr & Hw & Ha).
    unfold error in *. rewrite Hr. eexists _, _, _. split; [reflexivity |].
    split; [exact Hw |]. intros Hres. exists "".
    split; [exact (Ha Hres) |].
    split; [left; reflexivity |]. left. reflexivity.
  - destruct (h _ (WriteString path (LF +:+ "# Clade" +:+ LF)) w)
      as [[e |] w4]; cbn [xrun xbind].
    + eexists _, _, _. split; [reflexivity |].
      split; [all_writes | discriminate].
    + destruct (writeLines_run h path toAdd w4)
        as (res & w5 & body & Hr & Hw & Ha).
      unfold error in *. rewrite Hr. eexists _, _, _. split; [reflexivity |].
      split; [all_writes |]. intros Hres.
      exists (LF +:+ "# Clade" +:+ LF).
      change (appended (?i :: body)) with (appendedBy i +:+ appended body).
      cbn [appendedBy is_nil]. rewrite (Ha Hres).
      split; [reflexivity |].
      split.
      * right. apply (Contains_app_r LF). apply Contains_prefix.
      * right. eexists. reflexivity.
Qed.

Lemma updateGitignore_run {W : Type} (h : XHandler W) (w w1 : W)
    (path : string) (rd : string * error) :
  h _ (Core (ReadFile path)) w = (rd, w1) ->
  exists (res : error) (w' : W) (t : list XItem),
    xrun h (updateGitignore path) w
    = (Returned res, w', XDid (Core (ReadFile path)) rd :: t) /\
    (t = [] -> w' = w1) /\
    gitignoreUpdated path (if is_nil (snd rd) then fst rd else "") res t.
Proof.
  intros Hread. unfold updateGitignore. unfold xcall at 1. cbn [xrun xbind].
  rewrite Hread. cbv zeta.
  set (existing := if is_nil (snd rd) then fst rd else "").
  fold (missingLines existing).
  pose proof (added_lines_contained existing linesToAdd "") as Hadd.
  fold (missingLines existing) in Hadd.
  pose proof (gitignoreUpdated_opened path existing) as Hopened.
  pose proof (no_separator_needed existing) as Hnosep.
  pose proof (nothing_missing existing) as Hall.
  generalize dependent (missingLines existing). intros toAdd Hadd Hopened Hall.
  destruct (List.length toAdd =? 0)%nat eqn:Elen.
  - eexists _, _, _. split; [reflexivity |]. split; [reflexivity |].
    apply Nat.eqb_eq in Elen. apply length_zero_iff_nil in Elen. subst toAdd.
    unfold gitignoreUpdated.
    split; [intros _; split; reflexivity |].
    split; [intros _; cbn in Hadd |- *; exact Hadd |].
    split; [intros _ H; contradiction |]. left. reflexivity.
  - assert (Hne : toAdd <> []).
    { intros ->. discriminate Elen. }
    unfold xcall. cbn [xrun xbind].
    destruct (h _ (OpenAppend path) w1) as [[e |] w2].
    + eexists _, _, _. split; [reflexivity |]. split; [discriminate |].
      unfold gitignoreUpdated.
      split; [intros Hf; elim Hne; exact (Hall Hf) |].
      split; [discriminate |]. split; [discriminate |].
      right. left. exists e. split; reflexivity.
    + rewrite xrun_bind.
      destruct ((0 <? String.length existing)%nat
                && negb (HasSuffix existing LF)) eqn:Esep;
        cbn [xrun xbind].
      * destruct (h _ (WriteString path LF) w2) as [[e1 |] w3];
          cbn [xrun xbind].
        { destruct (h _ (CloseFile path) w3) as [c w4].
          eexists _, _, _. split; [reflexivity |]. split; [discriminate |].
          apply Hopened; [exact Hne | all_writes | discriminate]. }
        destruct (headerAndLines_run h w3 path existing toAdd)
          as (res & w4 & body & Hr & Hw & Ha).
        unfold error in *. rewrite Hr. cbn [xrun xbind].
        destruct (h (option error_value) (CloseFile path) w4) as [c w5].
        eexists _, _, _. split; [reflexivity |]. split; [discriminate |].
        apply Hopened; [exact Hne | all_writes |].
        intros Hres. destruct (Ha Hres) as (front & Hap & Hc & _).
        exists (LF +:+ front).
        change (appended (?i :: body)) with (appendedBy i +:+ appended body).
        cbn [appendedBy is_nil]. rewrite Hap.
        split; [rewrite append_assoc; reflexivity |].
        split.
        { destruct Hc as [Hc | Hc];
            [apply Contains_app_l; exact Hc
            | apply Contains_app_r; apply Contains_app_r; exact Hc]. }
        right. right. eexists. reflexivity.
      * destruct (headerAndLines_run h w2 path existing toAdd)
          as (res & w4 & body & Hr & Hw & Ha).
        unfold error in *. rewrite Hr. cbn [xrun xbind].
        destruct (h (option error_value) (CloseFile path) w4) as [c w5].
        eexists _, _, _. split; [reflexivity |]. split; [discriminate |].
        apply Hopened; [exact Hne | exact Hw |].
        intros Hres. destruct (Ha Hres) as (front & Hap & Hc & _).
        exists front. split; [exact Hap |].
        split.
        { destruct Hc as [Hc | Hc];
            [apply Contains_app_l | apply Contains_app_r]; exact Hc. }
        destruct (Hnosep eq_refl) as [H | H]; [left | right; left]; exact H.
Qed.

(** X28. [updateGitignore] always returns.  When the content read holds
    both lines it does nothing more and returns nil.  After a run without
    error the content with what was appended holds both lines; if anything
    was appended it also holds the header, and what was appended starts on
    a line of its own.  The file is opened at most once, nothing is written
    to it unless it was opened, and once opened it is closed at the end,
    also after a failed write. *)
Theorem updateGitignore_adds_missing_lines {W : Type} (h : XHandler W)
    (w : W) (path : string) :
  exists (res : error) (w' : W) (t : list XItem) (rd : string * error),
    xrun h (updateGitignore path) w
    = (Returned res, w', XDid (Core (ReadFile path)) rd :: t) /\
    let existing := if is_nil (snd rd) then fst rd else "" in
    (Contains existing "DROPBAG.md" = true ->
     Contains existing ".clade.json" = true -> res = None /\ t = []) /\
    (res = None ->
     Contains (existing +:+ appended t) "DROPBAG.md" = true /\
     Contains (existing +:+ appended t) ".clade.json" = true) /\
    (res = None -> t <> [] ->
     Contains (existing +:+ appended t) "# Clade" = true /\
     (existing = "" \/ HasSuffix existing LF = true \/
      HasPrefix (appended t) LF = true)) /\
    (t = [] \/
     (exists e : error_value,
         t = [XDid (OpenAppend path) (Some e)] /\ res = Some e) \/
     (exists (body : list XItem) (c : error),
         t = XDid (OpenAppend path) None :: body ++ [XDid (CloseFile path) c] /\
         forallb (writesTo path) body = true)).
Proof.
  destruct (h _ (Core (ReadFile path)) w) as [rd w1] eqn:Hread.
  destruct (updateGitignore_run h w w1 path rd Hread)
    as (res & w' & t & Hr & _ & Hnone & Hboth & Hhdr & Hshape).
  exists res, w', t, rd. split; [exact Hr |]. cbv zeta.
  split.
  { intros H1 H2. apply Hnone. repeat constructor; assumption. }
  split.
  { intros Hres. specialize (Hboth Hres).
    inversion Hboth as [| ? ? H1 Hrest]; subst.
    inversion Hrest as [| ? ? H2 _]; subst. split; assumption. }
  split; [exact Hhdr | exact Hshape].
Qed.

(** X29. Running [updateGitignore] again adds nothing: when a run returned
    nil, a run that reads what the file held before with what the first run
    appended does nothing but read, and returns nil. *)
Theorem updateGitignore_twice_adds_nothing {W : Type} (h : XHandler W)
    (w w1 w' v v' : W) (path : string) (rd : string * error)
    (t : list XItem) :
  h _ (Core (ReadFile path)) w = (rd, w1) ->
  xrun h (updateGitignore path) w
  = (Returned None, w', XDid (Core (ReadFile path)) rd :: t) ->
  h _ (Core (ReadFile path)) v
  = (((if is_nil (snd rd) then fst rd else "") +:+ appended t, None), v') ->
  xrun h (updateGitignore path) v
  = (Returned None, v',
     [XDid (Core (ReadFile path))
        ((if is_nil (snd rd) then fst rd else "") +:+ appended t, None)]).
Proof.
  intros Hread Hrun Hread2.
  destruct (updateGitignore_run h w w1 path rd Hread)
    as (res & w0 & t0 & Hr & _ & _ & Hboth & _).
  rewrite Hrun in Hr.
  assert (Hres : res = None).
  { apply (f_equal (fun x => fst (fst x))) in Hr. cbn in Hr. congruence. }
  assert (Ht : t0 = t).
  { apply (f_equal (fun x => tl (snd x))) in Hr. cbn in Hr. congruence. }
  subst res t0. specialize (Hboth eq_refl).
  destruct (updateGitignore_run h v v' path _ Hread2)
    as (res2 & v2 & t2 & Hr2 & Hw2 & Hnone2 & _).
  cbn [snd fst is_nil] in Hnone2.
  destruct (Hnone2 Hboth) as [-> ->].
  rewrite (Hw2 eq_refl) in Hr2. exact Hr2.
Qed.

Lemma writeTargets_app (a b : list XItem) :
  writeTargets (a ++ b) = writeTargets a ++ writeTargets b.
Proof. apply omap_app. Qed.

Lemma writes_target (path : string) (body : list XItem) :
  forallb (writesTo path) body = true ->
  writeTargets body = repeat path (List.length body).
Proof.
  induction body as [| i body IH]; [reflexivity |].
  cbn [forallb]. intros H. apply andb_true_iff in H as [Hi Hb].
  destruct i as [o | X e x]; [discriminate Hi |].
  destruct e; try discriminate Hi.
  cbn in Hi. apply String.eqb_eq in Hi. subst.
  change (writeTargets (?i :: body)) with (path :: writeTargets body).
  rewrite (IH Hb). reflexivity.
Qed.

Lemma gitignore_targets (path existing : string) (res : error)
    (rd : string * error) (t : list XItem) :
  gitignoreUpdated path existing res t ->
  exists n : nat,
    writeTargets (XDid (Core (ReadFile path)) rd :: t) = repeat path n.
Proof.
  intros (_ & _ & _ & [-> | [(e & -> & _) | (body & c & -> & Hb)]]).
  - exists 0%nat. reflexivity.
  - exists 1%nat. reflexivity.
  - exists (S (List.length body)).
    change (writeTargets (?r :: ?o :: ?u)) with (path :: writeTargets u).
    rewrite writeTargets_app, (writes_target path body Hb).
    cbn. rewrite app_nil_r. reflexivity.
Qed.

Lemma writeSteps_app (a b : list XItem) :
  writeSteps (a ++ b) = writeSteps a ++ writeSteps b.
Proof. apply omap_app. Qed.

Lemma eachAfterSuccess_cons (p : string) (ok : bool)
    (steps : list (string * bool)) :
  (steps <> [] -> ok = true) ->
  eachAfterSuccess steps -> eachAfterSuccess ((p, ok) :: steps).
Proof.
  unfold eachAfterSuccess. intros Hok Hs.
  destruct steps as [| s steps]; [constructor |].
  change (removelast ((p, ok) :: s :: steps))
    with ((p, ok) :: removelast (s :: steps)).
  constructor; [apply Hok; discriminate | exact Hs].
Qed.

Lemma eachAfterSuccess_app (pre steps : list (string * bool)) :
  Forall (fun step => snd step = true) pre ->
  eachAfterSuccess steps -> eachAfterSuccess (pre ++ steps).
Proof.
  intros Hpre Hs. induction Hpre as [| [p ok] pre Hp _ IH]; [exact Hs |].
  cbn [app]. apply eachAfterSuccess_cons; [intros _; exact Hp | exact IH].
Qed.

Lemma writeLines_steps {W : Type} (h : XHandler W) (path : string)
    (toAdd : list string) :
  forall w : W,
  exists (res : error) (w' : W) (t : list XItem),
    xrun h (writeLines path toAdd) w = (Returned res, w', t) /\
    eachAfterSuccess (writeSteps t).
Proof.
  induction toAdd as [| line rest IH]; intros w.
  - exists None, w, []. split; [reflexivity | constructor].
  - cbn [writeLines]. unfold xcall. cbn [xrun xbind].
    destruct (h _ (WriteString path (line +:+ LF)) w) as [[e |] w1].
    + eexists _, _, _. split; [reflexivity | constructor].
    + destruct (IH w1) as (res & w2 & t & Hr & Hs). rewrite Hr.
      eexists _, _, _. split; [reflexivity |].
      apply (eachAfterSuccess_cons path true (writeSteps t));
        [reflexivity | exact Hs].
Qed.

Lemma updateGitignore_steps {W : Type} (h : XHandler W) (w : W)
    (path : string) :
  exists (res : error) (w' : W) (t : list XItem),
    xrun h (updateGitignore path) w = (Returned res, w', t) /\
    eachAfterSuccess (writeSteps t).
Proof.
  unfold updateGitignore, xcall. cbn [xrun xbind].
  destruct (h _ (Core (ReadFile path)) w) as [rd w1]. cbv zeta.
  generalize (List.filter
                (fun line =>
                   negb (Contains (if is_nil (snd rd) then fst rd else "") line))
                linesToAdd).
  generalize (if is_nil (snd rd) then fst rd else ""). intros existing toAdd.
  destruct (List.length toAdd =? 0)%nat.
  { eexists _, _, _. split; [reflexivity | constructor]. }
  cbn [xrun xbind].
  destruct (h _ (OpenAppend path) w1) as [[e |] w2].
  { eexists _, _, _. split; [reflexivity | constructor]. }
  rewrite xrun_bind.
  assert (Hlines : forall w3 : W,
             exists (res : error) (w4 : W) (t : list XItem),
               xrun h
                 (xbind (if negb (Contains existing "# Clade")
                         then XVis (WriteString path (LF +:+ "# Clade" +:+ LF))
                                   XRet
                         else XRet None)
                    (fun e2 =>
                       match e2 with
                       | Some e => XRet (Some e)
                       | None => writeLines path toAdd
                       end)) w3
               = (Returned res, w4, t) /\
               eachAfterSuccess (writeSteps t)).
  { intros w3. destruct (Contains existing "# Clade"); cbn [negb xrun xbind].
    - apply writeLines_steps.
    - destruct (h _ (WriteString path (LF +:+ "# Clade" +:+ LF)) w3)
        as [[e |] w4]; cbn [xrun xbind].
      + eexists _, _, _. split; [reflexivity | constructor].
      + destruct (writeLines_steps h path toAdd w4) as (res & w5 & t & Hr & Hs).
        unfold error in *. rewrite Hr. eexists _, _, _.
        split; [reflexivity |].
        apply (eachAfterSuccess_cons path true (writeSteps t));
          [reflexivity | exact Hs]. }
  assert (Hclosed : forall (t : list XItem) (c : error),
             eachAfterSuccess (writeSteps t) ->
             eachAfterSuccess
               (writeSteps (XDid (OpenAppend path) None
                            :: t ++ [XDid (CloseFile path) c]))).
  { intros t c Hs.
    change (eachAfterSuccess
              ((path, true) :: writeSteps (t ++ [XDid (CloseFile path) c]))).
    rewrite writeSteps_app.
    change (writeSteps [XDid (CloseFile path) c]) with (@nil (string * bool)).
    rewrite app_nil_r.
    apply eachAfterSuccess_cons; [reflexivity | exact Hs]. }
  destruct ((0 <? String.length existing)%nat && negb (HasSuffix existing LF));
    cbn [xrun xbind].
  - destruct (h _ (WriteString path LF) w2) as [[e1 |] w3]; cbn [xrun xbind].
    + destruct (h _ (CloseFile path) w3) as [c w4].
      eexists _, _, _. split; [reflexivity |].
      apply (Hclosed [XDid (WriteString path LF) (Some e1)] c). constructor.
    + destruct (Hlines w3) as (res & w4 & t & Hr & Hs).
      unfold error in *. rewrite Hr. cbn [xrun xbind].
      destruct (h (option error_value) (CloseFile path) w4) as [c w5].
      eexists _, _, _. split; [reflexivity |].
      apply (Hclosed (XDid (WriteString path LF) None :: t) c).
      apply (eachAfterSuccess_cons path true (writeSteps t));
        [reflexivity | exact Hs].
  - destruct (Hlines w2) as (res & w4 & t & Hr & Hs).
    unfold error in *. rewrite Hr. cbn [xrun xbind].
    destruct (h (option error_value) (CloseFile path) w4) as [c w5].
    eexists _, _, _. split; [reflexivity |].
    apply (Hclosed t c). exact Hs.
Qed.

Lemma Config_Save_body_run {W : Type} (h : XHandler W) (w : W) (c : Config)
    (configPath : string) :
  ConfigPath = (configPath, None) ->
  exists (e : error) (w' : W) (t : list XItem) (k : nat),
    xrun h (Config_Save_body c) w = (Returned e, w', t) /\
    writeTargets t = firstn k [filepath_Dir configPath; configPath] /\
    eachAfterSuccess (writeSteps t) /\
    (e = None -> Forall (fun step => snd step = true) (writeSteps t)).
Proof.
  intros Hp. unfold Config_Save_body, xcall. rewrite Hp. cbn [xrun xbind].
  destruct (h _ (Core (MkdirAll (filepath_Dir configPath))) w) as [[e |] w1].
  - eexists _, _, _, 1%nat. split; [reflexivity |]. split; [reflexivity |].
    split; [constructor | discriminate].
  - destruct (json_MarshalIndent_Config c) as [data [e |]]; cbn [xrun xbind].
    + eexists _, _, _, 1%nat. split; [reflexivity |]. split; [reflexivity |].
      split; [constructor | discriminate].
    + destruct (h _ (Core (WriteFile configPath data)) w1) as [we w2].
      eexists _, _, _, 2%nat. split; [reflexivity |]. split; [reflexivity |].
      split.
      * apply (eachAfterSuccess_cons _ true [(configPath, is_nil we)]);
          [reflexivity | constructor].
      * intros ->. repeat constructor.
Qed.

Lemma config_Load_body_run {W : Type} (h : XHandler W) (w : W) :
  exists (ld : option Config * error) (w' : W) (t : list XItem),
    xrun h config_Load_body w = (Returned ld, w', t) /\
    configLoaded ld t.
Proof.
  unfold config_Load_body, configLoaded.
  destruct ConfigPath as [configPath [pe |]] eqn:Hp; cbn [fst snd].
  - eexists _, _, _. split; [reflexivity |]. cbn [fst snd].
    split; [split; [discriminate | reflexivity] |].
    split; [reflexivity |]. split; [congruence |].
    split; [constructor | discriminate].
  - unfold xcall. cbv zeta. cbn [xrun xbind].
    destruct (h _ (Core (ReadFile configPath)) w) as [[data rerr] w1].
    destruct rerr as [re |].
    + destruct (os_IsNotExist (Some re)) eqn:Ene.
      * rewrite xrun_bind.
        destruct (Config_Save_body_run h w1 DefaultConfig configPath Hp)
          as (e & w2 & t & k & Hr & Ht & Hs & Hok).
        rewrite Hr. destruct e as [se |]; cbn [xrun];
          eexists _, _, _; (split; [reflexivity |]); cbn [fst snd];
          rewrite app_nil_r.
        -- split; [split; [discriminate | reflexivity] |].
           split; [congruence |].
           split; [intros _; exists (data, Some re), t, k;
                   split; [reflexivity |]; split; [exact Ht |];
                   intros _; exact Ene |].
           split; [exact Hs | discriminate].
        -- split; [split; [discriminate | congruence] |].
           split; [congruence |].
           split; [intros _; exists (data, Some re), t, k;
                   split; [reflexivity |]; split; [exact Ht |];
                   intros _; exact Ene |].
           split; [exact Hs | intros _; exact (Hok eq_refl)].
      * eexists _, _, _. split; [reflexivity |]. cbn [fst snd].
        split; [split; [discriminate | reflexivity] |].
        split; [congruence |].
        split; [intros _; exists (data, Some re), [], 0%nat;
                split; [reflexivity |]; split; [reflexivity |];
                intros H; elim H; reflexivity |].
        split; [constructor | discriminate].
    + destruct (json_Unmarshal_Config data DefaultConfig) as [cfg [ue |]];
        eexists _, _, _; (split; [reflexivity |]); cbn [fst snd].
      * split; [split; [discriminate | reflexivity] |].
        split; [congruence |].
        split; [intros _; exists (data, None), [], 0%nat;
                split; [reflexivity |]; split; [reflexivity |];
                intros H; elim H; reflexivity |].
        split; [constructor | discriminate].
      * split; [split; [discriminate | congruence] |].
        split; [congruence |].
        split; [intros _; exists (data, None), [], 0%nat;
                split; [reflexivity |]; split; [reflexivity |];
                intros H; elim H; reflexivity |].
        split; [constructor | intros _; constructor].
Qed.

(** X30. [InitRepo] always returns.  When the settings file is there (its
    [Stat] gives no error) it does nothing more and returns nil.  Otherwise
    it first runs [config.Load], which itself may make the directory of the
    configuration file and write the default configuration, and does so only
    when that file does not exist; an error of the load is returned as it
    is, with nothing done after it.  After the load [InitRepo] makes a
    directory or writes a file only when the load gave a configuration that
    has [AutoInit] on.  What it then writes, it writes in one order: the
    commands directory, the settings file, the drop command, and then the
    .gitignore, which is touched only after the three others; over the
    whole run every step that makes or writes something is taken only after
    the one before it ended without an error; and a run without error that
    wrote anything after the load wrote both files with their fixed
    contents. *)
Theorem InitRepo_writes_only_when_due {W : Type} (h : XHandler W) (w : W)
    (repoPath : string) :
  let claudeDir := filepath_Join [repoPath; ".claude"] in
  let settingsPath := filepath_Join [claudeDir; "settings.json"] in
  let commandsDir := filepath_Join [claudeDir; "commands"] in
  let dropPath := filepath_Join [commandsDir; "drop.md"] in
  let gitignorePath := filepath_Join [repoPath; ".gitignore"] in
  exists (res : error) (w' : W) (t : list XItem) (st : error),
    xrun h (InitRepo_body repoPath) w
    = (Returned res, w', XDid (Core (Stat settingsPath)) st :: t) /\
    (st = None -> res = None /\ t = []) /\
    (st <> None ->
     exists (ld : option Config * error) (w1 : W) (tload trepo : list XItem),
       xrun h config_Load_body (snd (h _ (Core (Stat settingsPath)) w))
       = (Returned ld, w1, tload) /\
       configLoaded ld tload /\
       t = tload ++ trepo /\
       (forall e : error_value,
           snd ld = Some e -> res = Some e /\ trepo = []) /\
       (forall cfg : Config,
           ld = (Some cfg, None) -> AutoInit cfg = false ->
           res = None /\ trepo = []) /\
       (trepo <> [] ->
        exists cfg : Config, ld = (Some cfg, None) /\ AutoInit cfg = true) /\
       (exists k n : nat,
           writeTargets trepo
           = firstn k [commandsDir; settingsPath; dropPath]
             ++ repeat gitignorePath n /\
           (n <> 0%nat -> k = 3%nat)) /\
       eachAfterSuccess (writeSteps t) /\
       (res = None -> trepo <> [] ->
        In (XDid (Core (WriteFile settingsPath settingsJSON)) None) trepo /\
        In (XDid (Core (WriteFile dropPath dropCommand)) None) trepo)).
Proof.
  cbv zeta. unfold InitRepo_body, writeSettingsJSON, writeDropCommand.
  cbv zeta. unfold xcall at 1. cbn [xrun xbind].
  destruct (h _ (Core (Stat _)) w) as [[e0 |] w1]; cbn [is_nil snd].
  2: { eexists _, _, _, _. split; [reflexivity |].
       split; [intros _; split; reflexivity | congruence]. }
  rewrite xrun_bind.
  destruct (config_Load_body_run h w1) as (ld & w2 & tload & Hr & Hld).
  rewrite Hr.
  assert (Hstop : forall res : error,
             (forall e : error_value, snd ld = Some e -> res = Some e) ->
             (snd ld = None -> res = None) ->
             (forall cfg : Config, ld = (Some cfg, None) -> AutoInit cfg = false) ->
             exists (res0 : error) (w' : W) (t : list XItem) (st : error),
               (Returned res, w2,
                XDid (Core (Stat (filepath_Join
                                    [filepath_Join [repoPath; ".claude"];
                                     "settings.json"]))) (Some e0)
                :: tload ++ [])
               = (Returned res0, w',
                  XDid (Core (Stat (filepath_Join
                                      [filepath_Join [repoPath; ".claude"];
                                       "settings.json"]))) st :: t) /\
               (st = None -> res0 = None /\ t = []) /\
               (st <> None ->
                exists (ld0 : option Config * error) (w3 : W)
                       (tload0 trepo : list XItem),
                  (Returned ld, w2, tload) = (Returned ld0, w3, tload0) /\
                  configLoaded ld0 tload0 /\
                  t = tload0 ++ trepo /\
                  (forall e : error_value,
                      snd ld0 = Some e -> res0 = Some e /\ trepo = []) /\
                  (forall cfg : Config,
                      ld0 = (Some cfg, None) -> AutoInit cfg = false ->
                      res0 = None /\ trepo = []) /\
                  (trepo <> [] ->
                   exists cfg : Config,
                     ld0 = (Some cfg, None) /\ AutoInit cfg = true) /\
                  (exists k n : nat,
                      writeTargets trepo
                      = firstn k
                          [filepath_Join [filepath_Join [repoPath; ".claude"];
                                          "commands"];
                           filepath_Join [filepath_Join [repoPath; ".claude"];
                                          "settings.json"];
                           filepath_Join
                             [filepath_Join
                                [filepath_Join [repoPath; ".claude"];
                                 "commands"]; "drop.md"]]
                        ++ repeat (filepath_Join [repoPath; ".gitignore"]) n /\
                      (n <> 0%nat -> k = 3%nat)) /\
                  eachAfterSuccess (writeSteps t) /\
                  (res0 = None -> trepo <> [] ->
                   In (XDid (Core (WriteFile
                                     (filepath_Join
                                        [filepath_Join [repoPath; ".claude"];
                                         "settings.json"]) settingsJSON)) None)
                      trepo /\
                   In (XDid (Core (WriteFile
                                     (filepath_Join
                                        [filepath_Join
                                           [filepath_Join [repoPath; ".claude"];
                                            "commands"]; "drop.md"])
                                     dropCommand)) None) trepo))).
  { intros res Herr Hok Hoff. eexists _, _, _, _. split; [reflexivity |].
    split; [discriminate |]. intros _.
    exists ld, w2, tload, []. split; [reflexivity |]. split; [exact Hld |].
    split; [reflexivity |].
    split; [intros e He; split; [exact (Herr e He) | reflexivity] |].
    split.
    { intros cfg Hc _. split; [| reflexivity]. apply Hok. rewrite Hc.
      reflexivity. }
    split; [intros H; elim H; reflexivity |].
    split; [exists 0%nat, 0%nat; split;
            [reflexivity | intros H; elim H; reflexivity] |].
    split; [rewrite app_nil_r; apply Hld |].
    intros _ H. elim H. reflexivity. }
  destruct ld as [[cfg |] [le |]].
  - apply (Hstop (Some le)); [intros e [= ->]; reflexivity | discriminate |].
    intros c [=].
  - destruct (AutoInit cfg) eqn:Eauto; cbn [negb].
    2: { apply (Hstop None); [discriminate | reflexivity |].
         intros c [= <-]. exact Eauto. }
    assert (Hloadok : Forall (fun step => snd step = true) (writeSteps tload)).
    { apply Hld. reflexivity. }
    match goal with
    | |- context [xrun h ?q w2] =>
        assert (Hrepo :
                  exists (res : error) (w' : W) (trepo : list XItem),
                    xrun h q w2 = (Returned res, w', trepo) /\
                    (exists k n : nat,
                        writeTargets trepo
                        = firstn k
                            [filepath_Join [filepath_Join [repoPath; ".claude"];
                                            "commands"];
                             filepath_Join [filepath_Join [repoPath; ".claude"];
                                            "settings.json"];
                             filepath_Join
                               [filepath_Join
                                  [filepath_Join [repoPath; ".claude"];
                                   "commands"]; "drop.md"]]
                          ++ repeat (filepath_Join [repoPath; ".gitignore"]) n /\
                        (n <> 0%nat -> k = 3%nat)) /\
                    eachAfterSuccess (writeSteps trepo) /\
                    (res = None -> trepo <> [] ->
                     In (XDid (Core (WriteFile
                                       (filepath_Join
                                          [filepath_Join [repoPath; ".claude"];
                                           "settings.json"]) settingsJSON))
                              None) trepo /\
                     In (XDid (Core (WriteFile
                                       (filepath_Join
                                          [filepath_Join
                                             [filepath_Join
                                                [repoPath; ".claude"];
                                              "commands"]; "drop.md"])
                                       dropCommand)) None) trepo))
    end.
    { unfold xcall. cbn [xrun xbind].
      destruct (h _ (Core (MkdirAll _)) w2) as [[e2 |] w3]; cbn [xrun xbind].
      { eexists _, _, _. split; [reflexivity |].
        split; [exists 1%nat, 0%nat; split;
                [reflexivity | intros H; elim H; reflexivity] |].
        split; [constructor | discriminate]. }
      destruct (h _ (Core (WriteFile _ settingsJSON)) w3) as [[e3 |] w4];
        cbn [xrun xbind].
      { eexists _, _, _. split; [reflexivity |].
        split; [exists 2%nat, 0%nat; split;
                [reflexivity | intros H; elim H; reflexivity] |].
        split; [| discriminate].
        apply (eachAfterSuccess_cons _ true [(_, false)]);
          [reflexivity | constructor]. }
      destruct (h _ (Core (WriteFile _ dropCommand)) w4) as [[e4 |] w5];
        cbn [xrun xbind].
      { eexists _, _, _. split; [reflexivity |].
        split; [exists 3%nat, 0%nat; split;
                [reflexivity | intros H; elim H; reflexivity] |].
        split; [| discriminate].
        apply (eachAfterSuccess_cons _ true [(_, true); (_, false)]);
          [reflexivity |].
        apply (eachAfterSuccess_cons _ true [(_, false)]);
          [reflexivity | constructor]. }
      destruct (h _ (Core (ReadFile (filepath_Join [repoPath; ".gitignore"])))
                  w5) as [rd w6] eqn:Hread.
      destruct (updateGitignore_run h w5 w6 _ rd Hread)
        as (res & w7 & t & Hrun & _ & Hup).
      destruct (gitignore_targets _ _ res rd t Hup) as [n Hn].
      destruct (updateGitignore_steps h w5
                  (filepath_Join [repoPath; ".gitignore"]))
        as (res' & w7' & t' & Hrun' & Hsteps).
      rewrite Hrun in Hrun'. injection Hrun' as <- <- <-.
      unfold error in *. rewrite Hrun.
      eexists _, _, _. split; [reflexivity |].
      split.
      { exists 3%nat, n. split; [| reflexivity].
        change (writeTargets (?a :: ?b :: ?c :: ?u))
          with (filepath_Join [filepath_Join [repoPath; ".claude"]; "commands"]
                :: filepath_Join [filepath_Join [repoPath; ".claude"];
                                  "settings.json"]
                :: filepath_Join
                     [filepath_Join [filepath_Join [repoPath; ".claude"];
                                     "commands"]; "drop.md"]
                :: writeTargets u).
        rewrite Hn. reflexivity. }
      split.
      { apply (eachAfterSuccess_cons _ true); [reflexivity |].
        apply (eachAfterSuccess_cons _ true); [reflexivity |].
        apply (eachAfterSuccess_cons _ true); [reflexivity |].
        exact Hsteps. }
      intros _ _. split; [right; left; reflexivity |].
      right. right. left. reflexivity. }
    destruct Hrepo
      as (res & w' & trepo & Hrun & Htargets & Hsteps & Hfiles).
    unfold error in *. rewrite Hrun.
    eexists _, _, _, _. split; [reflexivity |].
    split; [discriminate |]. intros _.
    exists (Some cfg, None), w2, tload, trepo.
    split; [reflexivity |]. split; [exact Hld |]. split; [reflexivity |].
    split; [intros e [=] |].
    split; [intros c [= <-] Hoff; congruence |].
    split; [intros _; exists cfg; split; [reflexivity | exact Eauto] |].
    split; [exact Htargets |].
    split; [| exact Hfiles].
    rewrite writeSteps_app. apply eachAfterSuccess_app; assumption.
  - apply (Hstop (Some le)); [intros e [= ->]; reflexivity | discriminate |].
    intros c [=].
  - destruct Hld as [[Hld _] _]. cbn in Hld. elim (Hld eq_refl). reflexivity.
Qed.
End Program.

(** * The definitions at work on the small environment *)

Example CheckBranch_on_diverged_branch :
  run toyHandler (CheckBranch "/src/api" "exp/x")
      (toyWorld ["exp/x"] ["exp/x"] (ok "3	5"))
  = (Returned {| Status := BranchBoth; LocalAhead := 3; RemoteBehind := 5;
                 Diverged := true |},
     toyWorld ["exp/x"] ["exp/x"] (ok "3	5"),
     [Did (Exec Run "/src/api" "git"
             ["show-ref"; "--verify"; "--quiet"; "refs/heads/exp/x"]) (ok "");
      Did (Exec Output "/src/api" "git"
             ["ls-remote"; "--heads"; "origin"; "exp/x"])
          (ok "0a1b2c	refs/heads/exp/x");
      Did (Exec Output "/src/api" "git"
             ["rev-list"; "--left-right"; "--count"; "exp/x...origin/exp/x"])
          (ok "3	5")]).
Proof. vm_compute. reflexivity. Qed.

Example CheckBranch_on_remote_branch :
  fst (fst (run toyHandler (CheckBranch "/src/api" "exp/y")
                (toyWorld ["exp/x"] ["exp/y"] (failed "exit status 128"))))
  = Returned {| Status := BranchRemoteOnly; LocalAhead := 0;
                RemoteBehind := 0; Diverged := false |}.
Proof. vm_compute. reflexivity. Qed.

Example divergence_of_unparsed_counts :
  divergenceAnswer (ok "7	0") = (7, 0, false) /\
  divergenceAnswer (ok "7") = (0, 0, false) /\
  divergenceAnswer (ok "1 2 3") = (0, 0, false) /\
  divergenceAnswer (ok "x	4") = (0, 4, false) /\
  divergenceAnswer (failed "exit status 128") = (0, 0, false).
Proof. vm_compute. repeat split. Qed.

Example Fields_examples :
  Fields "  12	34 " = ["12"; "34"] /\ Fields "" = [] /\
  Fields (string_of_bytes [97; 194; 160; 98; 226; 128; 131; 99]%N)
  = ["a"; "b"; "c"] /\
  TrimSpace " 0a1b	refs/heads/x " = "0a1b	refs/heads/x".
Proof. vm_compute. repeat split. Qed.

Example Atoi_examples :
  Atoi "42" = (42, false) /\ Atoi "-7" = (-7, false) /\ Atoi "" = (0, true) /\
  Atoi "4x" = (0, true) /\ Atoi "9223372036854775808" = (maxInt64, true).
Proof. vm_compute. repeat split. Qed.

Example names_accepted_and_rejected :
  isValidExpName "try-redis" = true /\ isValidExpName "PROJ-1234" = true /\
  isValidExpName "a_b" = true /\ isValidExpName "" = false /\
  isValidExpName "-x" = false /\ isValidExpName "_x" = false /\
  isValidExpName "a b" = false /\ isValidExpName "a/b" = false /\
  isValidScratchName "notes1" = true /\ isValidScratchName "no.tes" = false.
Proof. vm_compute. repeat split. Qed.

Example Base_examples :
  Base "/src/api" = "api" /\ Base "/src/api/" = "api" /\ Base "api" = "api" /\
  Base "" = "." /\ Base "///" = "/".
Proof. vm_compute. repeat split. Qed.

Example ExperimentKey_example :
  ExperimentKey "/src/api" "try-redis" = "api-try-redis".
Proof. vm_compute. reflexivity. Qed.

Example runExp_on_fresh_branch_saves_state :
  let '(res, w, t) :=
    run toyHandler
        (@runExp toyLib {| expRepoFlag := ""; expAgentFlag := "" |} ["y"])
        (toyWorld ["exp/x"] [] (ok "")) in
  res = Returned None /\
  toy_files w !! "/home/u/clade/state.json" = Some "{}" /\
  existsb creates t = true.
Proof. vm_compute. repeat split. Qed.

Example LoadState_of_null_experiments :
  fst (fst (run toyHandler (@LoadState toyLib toyConfig)
                (toyDisk [] {[ "/home/u/clade/state.json"
                               := "{experiments:null}" ]})))
  = Returned (Some emptyState, None).
Proof. vm_compute. reflexivity. Qed.

Example gitignore_examples :
  scanIgnore [".env*"; "# local"; "*.log"; "build/"; "!keep.log"] ".env.local"
  = true /\
  scanIgnore [".env*"; "# local"; "*.log"; "build/"; "!keep.log"] "debug.log"
  = true /\
  scanIgnore [".env*"; "# local"; "*.log"; "build/"; "!keep.log"] "build/out.js"
  = true /\
  scanIgnore [".env*"; "# local"; "*.log"; "build/"; "!keep.log"] "keep.log"
  = true /\
  scanIgnore [".env*"; "# local"; "*.log"; "build/"; "!keep.log"] "# local"
  = false /\
  scanIgnore [".env*"; "# local"; "*.log"; "build/"; "!keep.log"] "src/main.go"
  = false /\
  scanIgnore ["  config/local.json  "] "config/local.json" = true.
Proof. vm_compute. repeat split. Qed.

Example FindGitignored_on_small_repository :
  fst (fst (xrun (toyXHandler (Some [".env*"; "node_modules/"]))
              (@FindGitignored toyLib toyStrings "/src/api")
              (toyDisk [{| Entry_Name := ".env"; Entry_IsDir := false |};
                        {| Entry_Name := ".env.test"; Entry_IsDir := false |};
                        {| Entry_Name := "README.md"; Entry_IsDir := false |}]
                       ∅)))
  = Returned [".env"; ".env.local"; ".envrc"; ".env.test"] /\
  fst (fst (xrun (toyXHandler None)
              (@FindGitignored toyLib toyStrings "/src/api")
              (toyDisk [{| Entry_Name := ".env"; Entry_IsDir := false |}] ∅)))
  = Returned [].
Proof. vm_compute. repeat split. Qed.

Example copyGitignoredFiles_with_saved_preference :
  fst (fst (xrun (toyXHandler None)
              (@copyGitignoredFiles_body toyLib toyStrings
                 (SetRepoCopyFiles toyConfig "/src/api" (Some [".env"]))
                 "/src/api" "/e")
              (toyWorld [] [] (ok ""))))
  = Returned (SetRepoCopyFiles toyConfig "/src/api" (Some [".env"]), None) /\
  copyAttempts
    (snd (xrun (toyXHandler None)
            (@copyGitignoredFiles_body toyLib toyStrings
               (SetRepoCopyFiles toyConfig "/src/api" (Some [".env"]))
               "/src/api" "/e")
            (toyWorld [] [] (ok ""))))
  = [("/src/api/.env", "/e/.env", true)].
Proof. vm_compute. repeat split. Qed.

Example cleanupExperiment_on_clean_worktree :
  let '(res, w, t) :=
    xrun (toyXHandler None)
         (@cleanupExperiment toyLib false toyConfig
            (stateWith (toyExperiment "/src/api")) "proj-x"
            (toyExperiment "/src/api"))
         (toyWorld ["exp/x"] [] (ok "")) in
  res = Returned (RemoveExperiment (stateWith (toyExperiment "/src/api"))
                                   "proj-x", None) /\
  deeds t = [StatusChecked "/home/u/clade/experiments/proj-x" false;
             GitWorktreeRemove "/src/api" "/home/u/clade/experiments/proj-x"
               None;
             Asked "Delete branch exp/x" true;
             GitBranchDelete "/src/api" "exp/x" None;
             DirMade "/home/u/clade" None;
             FileWrite "/home/u/clade/state.json" None] /\
  toy_files w !! "/home/u/clade/state.json" = Some "{}".
Proof. vm_compute. repeat split. Qed.

Example OpenEditor_outside_tmux :
  fst (fst (xrun (toyXHandler None)
              (OpenEditor "/e" "nvim" {| Editor_TmuxSplitDirection := "vertical" |})
              (toyWorld [] [] (ok ""))))
  = Returned (Some (ErrOther
                      "nvim requires tmux (run inside tmux for split panes)")) /\
  snd (xrun (toyXHandler None)
         (OpenEditor "/e" "zed" {| Editor_TmuxSplitDirection := "" |})
         (toyWorld [] [] (ok "")))
  = [XDid (Start "/e" "zed" ["/e"]) None].
Proof. vm_compute. repeat split. Qed.

(** [config.Load] on a machine without a configuration file writes the
    default configuration and returns it; with a file it only reads. *)
Example config_Load_on_first_run :
  (let '(res, w, t) :=
     xrun (toyXHandler None) (@config_Load_body configLib toyConfigIO)
       (toyWorld [] [] (ok "")) in
   res = Returned (Some (@DefaultConfig configLib), None) /\
   toy_files w !! "/home/u/.config/clade/config.json" = Some "{}" /\
   t = [XDid (Core (ReadFile "/home/u/.config/clade/config.json"))
          ("", Some (ErrNotExist "no such file or directory"));
        XDid (Core (MkdirAll "/home/u/.config/clade")) None;
        XDid (Core (WriteFile "/home/u/.config/clade/config.json" "{}"))
          None]) /\
  (let '(res, _, t) :=
     xrun (toyXHandler None) (@config_Load_body configLib toyConfigIO)
       (toyDisk [] {[ "/home/u/.config/clade/config.json" := "{}" ]}) in
   res = Returned (Some (@DefaultConfig configLib), None) /\
   t = [XDid (Core (ReadFile "/home/u/.config/clade/config.json"))
          ("{}", None)]).
Proof. split; vm_compute; repeat split; reflexivity. Qed.

(** [InitRepo] on a fresh repository of a machine without a configuration
    file: the configuration is written first, then the commands directory,
    the settings, the drop command and the four writes to .gitignore. *)
Example InitRepo_on_fresh_repository :
  let '(res, w, t) :=
    xrun freshXHandler (@InitRepo_body configLib toyConfigIO "/r")
      (toyWorld [] [] (ok "")) in
  res = Returned None /\
  writeSteps t =
    [("/home/u/.config/clade", true);
     ("/home/u/.config/clade/config.json", true);
     ("/r/.claude/commands", true); ("/r/.claude/settings.json", true);
     ("/r/.claude/commands/drop.md", true); ("/r/.gitignore", true);
     ("/r/.gitignore", true); ("/r/.gitignore", true);
     ("/r/.gitignore", true)] /\
  toy_files w !! "/r/.gitignore" =
    Some (LF +:+ "# Clade" +:+ LF +:+ "DROPBAG.md" +:+ LF +:+
          ".clade.json" +:+ LF).
Proof. vm_compute. repeat split; reflexivity. Qed.

(** * Witnesses and counterexamples *)


(** C10 on two repositories named [proj]: the second experiment [x] takes
    the place of the first. *)
Lemma ExperimentKey_collision_overwrites_witness :
  "/a/proj" <> "/b/proj" /\
  Base "/a/proj" = Base "/b/proj" /\
  AddExperiment emptyState (toyExperiment "/a/proj")
  = Some (stateWith (toyExperiment "/a/proj")) /\
  AddExperiment (stateWith (toyExperiment "/a/proj")) (toyExperiment "/b/proj")
  = Some (stateWith (toyExperiment "/b/proj")) /\
  ExperimentKey "/a/proj" "x" = ExperimentKey "/b/proj" "x" /\
  GetExperiment (stateWith (toyExperiment "/b/proj")) (ExperimentKey "/a/proj" "x")
  = Some (toyExperiment "/b/proj").
Proof.
  assert (Hne : Exp_Repo (toyExperiment "/a/proj")
                <> Exp_Repo (toyExperiment "/b/proj")) by discriminate.
  assert (Hb : Base (Exp_Repo (toyExperiment "/a/proj"))
               = Base (Exp_Repo (toyExperiment "/b/proj")))
    by (vm_compute; reflexivity).
  assert (H1 : AddExperiment emptyState (toyExperiment "/a/proj")
               = Some (stateWith (toyExperiment "/a/proj")))
    by (vm_compute; reflexivity).
  assert (H2 : AddExperiment (stateWith (toyExperiment "/a/proj"))
                 (toyExperiment "/b/proj")
               = Some (stateWith (toyExperiment "/b/proj")))
    by (vm_compute; reflexivity).
  destruct (ExperimentKey_collision_overwrites emptyState _ _ _ _ Hne Hb
              eq_refl H1 H2) as (Hk & _ & Hg & _).
  split; [exact Hne |]. split; [exact Hb |]. split; [exact H1 |].
  split; [exact H2 |]. split; [exact Hk | exact Hg].
Defined.

(** C3 as first stated fails for adoption: with [BranchNotFound] the switch
    of [adoptOrphanedBranch] does nothing, where the claim has it do what
    [CreateWorktreeNew] does; the handler stops with an error after the
    check, having started no [git worktree add]. *)
Lemma adopt_not_found_is_not_CreateWorktreeNew :
  ~ (behaves_as
       (adoptOrphanedBranch_createWorktree notFoundInfo "/src/api"
          "/home/u/clade/experiments/api-x" "exp/x")
       (CreateWorktreeNew "/src/api" "/home/u/clade/experiments/api-x" "exp/x")
     <-> Status notFoundInfo = BranchNotFound) /\
  fst (fst (run toyHandler
              (@adoptOrphanedBranch toyLib
                 {| resumeRepoFlag := ""; resumeAgentFlag := "" |}
                 toyConfig emptyState "x")
              (toyWorld [] [] (ok ""))))
  = Returned (Some (ErrOther "branch not found")) /\
  map execArgs
      (events (snd (run toyHandler
                      (@adoptOrphanedBranch toyLib
                         {| resumeRepoFlag := ""; resumeAgentFlag := "" |}
                         toyConfig emptyState "x")
                      (toyWorld [] [] (ok "")))))
  = [None; Some ["fetch"; "origin"];
     Some ["show-ref"; "--verify"; "--quiet"; "refs/heads/exp/x"];
     Some ["ls-remote"; "--heads"; "origin"; "exp/x"]].
Proof.
  split; [| split; vm_compute; reflexivity].
  intros [_ H].
  apply (nothing_not_New "/src/api" "/home/u/clade/experiments/api-x" "exp/x").
  exact (H eq_refl).
Qed.

(** C8 as first stated fails for a scanned directory: the directory [/other]
    holds a repository [api], a name the configuration gives to [/src/api];
    [scanAndAddRepos] returns no error and the configuration as it was. *)
Lemma scan_conflict_returns_no_error :
  Repos toyConfig !! "api" = Some "/src/api" /\
  @ExpandPath toyLib "/src/api" <> "/other/api" /\
  run toyHandler (@GetRepoRoot "/other/api")
      (toyDisk [{| Entry_Name := "api"; Entry_IsDir := true |}] ∅)
  = (Returned ("/other/api", None),
     toyDisk [{| Entry_Name := "api"; Entry_IsDir := true |}] ∅,
     [Did (Exec Output "/other/api" "git" ["rev-parse"; "--show-toplevel"])
          (ok "/other/api")]) /\
  fst (fst (run toyHandler (@scanAndAddRepos toyLib toyConfig "/other")
                (toyDisk [{| Entry_Name := "api"; Entry_IsDir := true |}] ∅)))
  = Returned (toyConfig, None).
Proof.
  split; [vm_compute; reflexivity |]. split; [discriminate |].
  split; vm_compute; reflexivity.
Qed.

(** X8 on the small environment: three commits are asked for, and the
    log of two lines gives two commits. *)
Lemma GetRecentCommits_caps_at_ten_witness :
  0 <= 3 /\
  run logHandler (GetRecentCommits "/src/api" 3) (toyWorld [] [] (ok ""))
  = (Returned (Some ["a1b2c3d fix login"; "e4f5a6b add tests"], None),
     toyWorld [] [] (ok ""),
     [Did (Exec Output "/src/api" "git" ["log"; "--oneline"; "-n"; "3"])
          (ok toyLog)]) /\
  let n := pretty (Z.min 3 10) in
  exists (r : CmdResult) (w' : ToyWorld) (commits : option (list string))
         (e : error),
    logHandler _ (Exec Output "/src/api" "git" ["log"; "--oneline"; "-n"; n])
               (toyWorld [] [] (ok ""))
    = (r, w') /\
    run logHandler (GetRecentCommits "/src/api" 3) (toyWorld [] [] (ok ""))
    = (Returned (commits, e), w',
       [Did (Exec Output "/src/api" "git" ["log"; "--oneline"; "-n"; n]) r]) /\
    e = cmd_err r /\
    (cmd_err r <> None -> commits = None) /\
    (cmd_err r = None -> default [] commits = nonEmptyLines (cmd_out r)) /\
    ~ In "" (default [] commits).
Proof.
  assert (H : 0 <= 3) by lia.
  split; [exact H |]. split; [vm_compute; reflexivity |].
  exact (GetRecentCommits_caps_at_ten logHandler (toyWorld [] [] (ok ""))
           "/src/api" 3 H).
Defined.

(** X10 on the small environment: the branch [exp/y] is nowhere, and the
    worktree is added from the default branch of the remote. *)
Lemma CreateWorktreeNew_success_means_created_witness :
  run toyHandler (CreateWorktreeNew "/src/api" "/e" "exp/y")
      (toyWorld ["exp/x"] [] (ok ""))
  = (Returned None, toyWorld ["exp/x"] [] (ok ""), freshCreated) /\
  exists (pre : list TraceItem) (start : string) (r : CmdResult),
    freshCreated
    = pre ++ [Did (Exec CombinedOutput "/src/api" "git"
                     ["worktree"; "add"; "-b"; "exp/y"; "/e"; start]) r] /\
    cmd_err r = None /\
    quietTrace pre /\
    (start = "HEAD" \/
     exists d : string, start = "origin/" +:+ d /\ noSlash d = true).
Proof.
  assert (H : run toyHandler (CreateWorktreeNew "/src/api" "/e" "exp/y")
                  (toyWorld ["exp/x"] [] (ok ""))
              = (Returned None, toyWorld ["exp/x"] [] (ok ""), freshCreated))
    by (vm_compute; reflexivity).
  split; [exact H |].
  exact (CreateWorktreeNew_success_means_created toyHandler _ _ _ _ _ _ H).
Defined.

(** X12 on two experiments, ranged over with the older first, and on two
    scratches one of which is a nil pointer. *)
Lemma sort_by_last_used_descending_witness :
  rangeOrder (default ∅ twoExperiments) ["api-old"; "api-new"] /\
  rangeOrder (default ∅ scratchesWithNil) ["notes"; "gone"] /\
  sortExperimentsByLastUsed twoExperiments ["api-old"; "api-new"]
  = Some [Some (usedAt "new" 20); Some (usedAt "old" 10)] /\
  sortScratchesByLastUsed scratchesWithNil ["notes"; "gone"] = None /\
  sortedByLastUsed Exp_LastUsed (map_to_list (default ∅ twoExperiments)).*2
    (sortExperimentsByLastUsed twoExperiments ["api-old"; "api-new"]) /\
  sortedByLastUsed Scr_LastUsed (map_to_list (default ∅ scratchesWithNil)).*2
    (sortScratchesByLastUsed scratchesWithNil ["notes"; "gone"]).
Proof.
  assert (He : rangeOrder (default ∅ twoExperiments) ["api-old"; "api-new"])
    by (unfold rangeOrder; apply (bool_decide_unpack _); vm_compute;
        exact I).
  assert (Hs : rangeOrder (default ∅ scratchesWithNil) ["notes"; "gone"])
    by (unfold rangeOrder; apply (bool_decide_unpack _); vm_compute;
        exact I).
  split; [exact He |]. split; [exact Hs |].
  split; [vm_compute; reflexivity |]. split; [vm_compute; reflexivity |].
  exact (sort_by_last_used_descending twoExperiments scratchesWithNil
           ["api-old"; "api-new"] ["notes"; "gone"] He Hs).
Defined.

(** X14 on the small environment, whose configuration registers [api]
    alone. *)
Lemma runRepoRemove_unregisters_witness :
  toyHandler _ config_Load (toyWorld [] [] (ok ""))
  = ((toyConfig, None), toyWorld [] [] (ok "")) /\
  Repos toyConfig !! "api" <> None /\
  fst (fst (run toyHandler (@runRepoRemove toyLib ["api"])
                (toyWorld [] [] (ok ""))))
  = Returned None /\
  exists (saved : Config) (t : list TraceItem),
    snd (run toyHandler (@runRepoRemove toyLib ["api"])
             (toyWorld [] [] (ok "")))
    = Did config_Load (toyConfig, None) :: Did (Config_Save saved) None :: t /\
    Repos saved !! "api" = None /\ LastRepo saved = "".
Proof.
  assert (Hload : toyHandler _ config_Load (toyWorld [] [] (ok ""))
                  = ((toyConfig, None), toyWorld [] [] (ok "")))
    by reflexivity.
  assert (Hreg : Repos toyConfig !! "api" <> None)
    by (vm_compute; discriminate).
  split; [exact Hload |]. split; [exact Hreg |].
  split; [vm_compute; reflexivity |].
  destruct (@runRepoRemove_unregisters toyLib ToyWorld toyHandler
              (toyWorld [] [] (ok "")) (toyWorld [] [] (ok "")) toyConfig
              "api" [] Hload) as [_ Hsome].
  destruct (Hsome Hreg) as (saved & t & Hrun & _ & Hrepos & _ & _ & Hlast & _).
  exists saved, t. split; [rewrite Hrun; reflexivity |].
  split; [rewrite Hrepos; apply lookup_delete_eq |].
  destruct Hlast as [Hl | (n & path & Hn & _)]; [exact Hl |].
  rewrite Hrepos in Hn.
  destruct (decide (n = "api")) as [-> | Hne].
  - rewrite lookup_delete_eq in Hn. discriminate Hn.
  - rewrite lookup_delete_ne in Hn by congruence.
    change (Repos toyConfig) with ({[ "api" := "/src/api" ]} : gmap string string)
      in Hn.
    rewrite lookup_singleton_ne in Hn by congruence. discriminate Hn.
Defined.

(** X16 on the small environment, for a name that starts with a hyphen. *)
Lemma malformed_name_changes_nothing_witness :
  ~ wellFormedName "-x" /\
  run toyHandler
      (@runExp toyLib {| expRepoFlag := ""; expAgentFlag := "" |} ["-x"])
      (toyWorld [] [] (ok ""))
  = (Returned (Some (ErrOther
       "invalid experiment name: use alphanumeric, hyphens, underscores only")),
     toyWorld [] [] (ok ""), [Did config_Load (toyConfig, None)]) /\
  run toyHandler
      (@runFeat toyLib {| featRepoFlag := ""; featPickFlag := false;
                          featBranchFlag := ""; featEditorFlag := "";
                          featNoAgentFlag := false;
                          featNoEditorFlag := false |} ["-x"])
      (toyWorld [] [] (ok ""))
  = (Returned (Some (ErrOther
       "invalid feature name: use alphanumeric, hyphens, underscores only")),
     toyWorld [] [] (ok ""), [Did config_Load (toyConfig, None)]) /\
  run toyHandler (@runScratch toyLib {| scratchAgentFlag := "" |} ["-x"])
      (toyWorld [] [] (ok ""))
  = (Returned (Some (ErrOther
       "invalid scratch name: use alphanumeric, hyphens, underscores only")),
     toyWorld [] [] (ok ""), [Did config_Load (toyConfig, None)]).
Proof.
  assert (Hbad : ~ wellFormedName "-x")
    by (intros [H _]; vm_compute in H; discriminate H).
  split; [exact Hbad |].
  exact (@malformed_name_changes_nothing toyLib ToyWorld toyHandler
           (toyWorld [] [] (ok "")) (toyWorld [] [] (ok "")) toyConfig
           "-x" [] _ _ _ Hbad eq_refl).
Defined.

Lemma existing_scratch_is_only_resumed_witness :
  exists (res : error) (w' : ToyWorld) (t : list TraceItem)
         (answer : string * error),
    run toyHandler (runScratch (lib := scratchLib) {| scratchAgentFlag := "" |}
                      ["notes"]) scratchDisk
    = (Returned res, w',
       [Did config_Load (toyConfig, None)]
       ++ [Did (ReadFile "/home/u/clade/state.json")
             ("{scratches:{notes:{}}}", None)] ++ t) /\
    List.filter writes t = [] /\
    (is_nil (snd answer) = false /\ res = None /\
     events t = [Did (PromptRun resumeQuestion) answer] \/
     is_nil (snd answer) = true /\
     events t = [Did (PromptRun resumeQuestion) answer;
                 Did (launchAgent toyConfig (Scr_Path toyScratch) "") res]).
Proof.
  apply (existing_scratch_is_only_resumed (lib := scratchLib) toyHandler
           scratchDisk scratchDisk scratchDisk toyConfig notesState toyScratch
           "notes" [] {| scratchAgentFlag := "" |}).
  - vm_compute. split; [reflexivity |]. repeat constructor.
  - reflexivity.
  - vm_compute. reflexivity.
  - vm_compute. reflexivity.
Defined.

Lemma updateGitignore_twice_adds_nothing_witness :
  xrun diskXHandler (updateGitignore "/r/.gitignore")
    (toyDisk [] {[ "/r/.gitignore" :=
                     "node_modules" +:+ LF +:+ LF +:+ "# Clade" +:+ LF
                     +:+ "DROPBAG.md" +:+ LF +:+ ".clade.json" +:+ LF ]})
  = (Returned None,
     toyDisk [] {[ "/r/.gitignore" :=
                     "node_modules" +:+ LF +:+ LF +:+ "# Clade" +:+ LF
                     +:+ "DROPBAG.md" +:+ LF +:+ ".clade.json" +:+ LF ]},
     [XDid (Core (ReadFile "/r/.gitignore"))
        ("node_modules" +:+ LF +:+ LF +:+ "# Clade" +:+ LF
         +:+ "DROPBAG.md" +:+ LF +:+ ".clade.json" +:+ LF, None)]).
Proof.
  apply (updateGitignore_twice_adds_nothing diskXHandler
           (toyDisk [] {[ "/r/.gitignore" := "node_modules" ]})
           (toyDisk [] {[ "/r/.gitignore" := "node_modules" ]})
           (toyDisk [] {[ "/r/.gitignore" :=
                            "node_modules" +:+ LF +:+ LF +:+ "# Clade" +:+ LF
                            +:+ "DROPBAG.md" +:+ LF +:+ ".clade.json" +:+ LF ]})
           (toyDisk [] {[ "/r/.gitignore" :=
                            "node_modules" +:+ LF +:+ LF +:+ "# Clade" +:+ LF
                            +:+ "DROPBAG.md" +:+ LF +:+ ".clade.json" +:+ LF ]})
           (toyDisk [] {[ "/r/.gitignore" :=
                            "node_modules" +:+ LF +:+ LF +:+ "# Clade" +:+ LF
                            +:+ "DROPBAG.md" +:+ LF +:+ ".clade.json" +:+ LF ]})
           "/r/.gitignore" ("node_modules", None)
           [XDid (OpenAppend "/r/.gitignore") None;
            XDid (WriteString "/r/.gitignore" LF) None;
            XDid (WriteString "/r/.gitignore" (LF +:+ "# Clade" +:+ LF)) None;
            XDid (WriteString "/r/.gitignore" ("DROPBAG.md" +:+ LF)) None;
            XDid (WriteString "/r/.gitignore" (".clade.json" +:+ LF)) None;
            XDid (CloseFile "/r/.gitignore") None]).
  - vm_compute. reflexivity.
  - vm_compute. reflexivity.
  - vm_compute. reflexivity.
Defined.
